(** * Strong-to-Notion sync: a shallow embedding and its verified properties

    The development follows the two scripts of the repository:
    [strong-sync.py] (parser, content builder, upsert engine) and
    [download_strong_csv.py] (source fetcher).

    - [Py]      : the part of the Python runtime the scripts rely on
                  (exceptions, [int], [float], [round], format specs);
    - [Clock]   : the part of [datetime] / [pytz] used by [make_workout_dates];
    - [Notion]  : the remote workspace the client talks to, with a fault plan;
    - [StrongSync], [DownloadStrongCsv] : the two scripts. *)

From Stdlib Require Import ZArith List String Ascii Bool Lia.
From Stdlib Require Import DecimalString.
From Stdlib Require DecimalPos.
From Stdlib Require OrderedTypeEx.
From Stdlib Require Import Floats.SpecFloat.
Import ListNotations.
Local Open Scope string_scope.
Local Open Scope list_scope.
Local Open Scope Z_scope.

(** String concatenation, as in an f-string. *)
Infix "+++" := String.append (right associativity, at level 60).

(** ** The Python runtime *)

Module Py.

(** Exceptions the scripts can meet.  [RemoteError] stands for whatever a
    vendor SDK raises when a remote call fails; [OSError] for the other
    errors of the file system ([IsADirectoryError] and the like);
    [Diverges] marks a loop of the model that ran out of fuel. *)
Inductive exn : Type :=
| ValueError (msg : string)
| OverflowError (msg : string)
| FileNotFoundError (path : string)
| OSError (msg : string)
| RemoteError (msg : string)
| SystemExit (code : Z)
| Diverges.

Inductive result (A : Type) : Type :=
| Ok (a : A)
| Raise (e : exn).
Arguments Ok {A} a.
Arguments Raise {A} e.

Definition rbind {A B} (r : result A) (k : A -> result B) : result B :=
  match r with
  | Ok a => k a
  | Raise e => Raise e
  end.

(** The exit status of the interpreter once the script's top level is over. *)
Definition exit_status {A} (r : result A) : Z :=
  match r with
  | Ok _ => 0
  | Raise (SystemExit c) => c
  | Raise _ => 1
  end.

(** Truth value of a [str]. *)
Definition truthy (s : string) : bool := negb (String.eqb s "").

(** *** Characters and decimal numerals *)

Definition is_digit (c : ascii) : bool :=
  let n := N_of_ascii c in ((48 <=? n) && (n <=? 57))%N.

Definition digit_val (c : ascii) : Z := Z.of_N (N_of_ascii c) - 48.

Definition is_space (c : ascii) : bool :=
  let n := N_of_ascii c in
  (((9 <=? n) && (n <=? 13)) || ((28 <=? n) && (n <=? 32)))%N.

Definition lower (c : ascii) : ascii :=
  let n := N_of_ascii c in
  if ((65 <=? n) && (n <=? 90))%N then ascii_of_N (n + 32) else c.

Fixpoint lstrip (s : list ascii) : list ascii :=
  match s with
  | c :: t => if is_space c then lstrip t else s
  | [] => []
  end.

Definition strip (s : list ascii) : list ascii :=
  rev (lstrip (rev (lstrip s))).

(** [str(n)] for an [int]. *)
Definition str_of_int (n : Z) : string := NilZero.string_of_int (Z.to_int n).

(** [f"{n:02d}"] for a non-negative [int]. *)
Definition fmt_02d (n : Z) : string :=
  let s := str_of_int n in
  if (String.length s <? 2)%nat then "0" +++ s else s.

(** Digits after a first digit: a digit, or one underscore and a digit. *)
Fixpoint digit_run (s : list ascii) : list ascii * list ascii :=
  match s with
  | c :: t =>
      if is_digit c then
        let (ds, r) := digit_run t in (c :: ds, r)
      else if Ascii.eqb c "_" then
        match t with
        | d :: t' =>
            if is_digit d then
              let (ds, r) := digit_run t' in (d :: ds, r)
            else ([], s)
        | [] => ([], s)
        end
      else ([], s)
  | [] => ([], [])
  end.

(** The grammar's [digitpart]: at least one digit, single underscores between. *)
Definition digit_part (s : list ascii) : option (list ascii * list ascii) :=
  match s with
  | c :: _ => if is_digit c then Some (digit_run s) else None
  | [] => None
  end.

Definition digits_value (ds : list ascii) : Z :=
  fold_left (fun a d => 10 * a + digit_val d) ds 0.

Definition take_sign (s : list ascii) : bool * list ascii :=
  match s with
  | c :: t =>
      if Ascii.eqb c "-" then (true, t)
      else if Ascii.eqb c "+" then (false, t)
      else (false, s)
  | [] => (false, [])
  end.

(** [int(s)] for a [str], base ten. *)
Definition int_of_str (s : string) : result Z :=
  let (neg, body) := take_sign (strip (list_ascii_of_string s)) in
  match digit_part body with
  | Some (ds, []) => Ok (if neg then - digits_value ds else digits_value ds)
  | _ => Raise (ValueError ("invalid literal for int() with base 10: " +++ s))
  end.

(** *** Binary64 floats

    A [float] is a [spec_float] of the Standard Library at precision 53 and
    maximal exponent 1024, rounded to nearest, ties to even. *)

Definition prec : Z := 53.
Definition emax : Z := 1024.

(** The float nearest to [num / den], for [0 <= num] and [0 < den]. *)
Definition float_of_ratio (neg : bool) (num den : Z) : spec_float :=
  if num =? 0 then S754_zero neg
  else
    let '(q, e, l) := SFdiv_core_binary prec emax num 0 den 0 in
    binary_round_aux prec emax neg q e l.

(** The exact value of a finite float as [(negative, numerator, denominator)]. *)
Definition ratio_of_float (f : spec_float) : option (bool * Z * Z) :=
  match f with
  | S754_zero s => Some (s, 0, 1)
  | S754_finite s m e =>
      if 0 <=? e then Some (s, Zpos m * 2 ^ e, 1)
      else Some (s, Zpos m, 2 ^ (- e))
  | _ => None
  end.

Definition lower_all (s : list ascii) : list ascii := map lower s.

Definition chars (s : string) : list ascii := list_ascii_of_string s.

Definition list_ascii_eqb (a b : list ascii) : bool :=
  String.eqb (string_of_list_ascii a) (string_of_list_ascii b).

(** The mantissa of a float literal: integer part, point, fraction.
    Returns the digits before and after the point and the rest. *)
Definition scan_number (s : list ascii)
  : option (list ascii * list ascii * list ascii) :=
  match digit_part s with
  | Some (ip, r) =>
      match r with
      | c :: r' =>
          if Ascii.eqb c "." then
            match digit_part r' with
            | Some (fp, r'') => Some (ip, fp, r'')
            | None => Some (ip, [], r')
            end
          else Some (ip, [], r)
      | [] => Some (ip, [], [])
      end
  | None =>
      match s with
      | c :: r' =>
          if Ascii.eqb c "." then
            match digit_part r' with
            | Some (fp, r'') => Some ([], fp, r'')
            | None => None
            end
          else None
      | [] => None
      end
  end.

(** The exponent of a float literal, if any: its value and the rest. *)
Definition scan_exponent (s : list ascii) : option (Z * list ascii) :=
  match s with
  | c :: r =>
      if Ascii.eqb (lower c) "e" then
        let (neg, r') := take_sign r in
        match digit_part r' with
        | Some (ds, r'') =>
            Some (if neg then - digits_value ds else digits_value ds, r'')
        | None => None
        end
      else None
  | [] => Some (0, [])
  end.

(** [float(s)] for a [str]. *)
Definition float_of_str (s : string) : result spec_float :=
  let bad := Raise (ValueError ("could not convert string to float: " +++ s)) in
  let (neg, body) := take_sign (strip (chars s)) in
  let low := lower_all body in
  if list_ascii_eqb low (chars "inf") || list_ascii_eqb low (chars "infinity")
  then Ok (S754_infinity neg)
  else if list_ascii_eqb low (chars "nan") then Ok S754_nan
  else
    match scan_number body with
    | Some (ip, fp, r) =>
        match scan_exponent r with
        | Some (ex, []) =>
            let d := digits_value (ip ++ fp) in
            let e := ex - Z.of_nat (List.length fp) in
            Ok (if 0 <=? e then float_of_ratio neg (d * 10 ^ e) 1
                else float_of_ratio neg d (10 ^ (- e)))
        | _ => bad
        end
    | None => bad
    end.

(** [float(n)] for an [int]. *)
Definition float_of_int (n : Z) : result spec_float :=
  match float_of_ratio (n <? 0) (Z.abs n) 1 with
  | S754_infinity _ => Raise (OverflowError "int too large to convert to float")
  | f => Ok f
  end.

(** [int(x)] for a [float]: truncation towards zero. *)
Definition int_of_float (f : spec_float) : result Z :=
  match f with
  | S754_nan => Raise (ValueError "cannot convert float NaN to integer")
  | S754_infinity _ =>
      Raise (OverflowError "cannot convert float infinity to integer")
  | S754_zero _ => Ok 0
  | S754_finite s m e =>
      let a := if 0 <=? e then Zpos m * 2 ^ e else Zpos m / 2 ^ (- e) in
      Ok (if s then - a else a)
  end.

(** Nearest integer to [a / b], ties to even, for [0 <= a] and [0 < b]. *)
Definition round_half_even (a b : Z) : Z :=
  let q := a / b in
  let r := a mod b in
  if 2 * r <? b then q
  else if b <? 2 * r then q + 1
  else if Z.even q then q else q + 1.

(** *** Format specifications and [round] *)

Definition zeros (n : nat) : string := string_of_list_ascii (repeat "0"%char n).

(** Decimal digits of [n >= 0], left-padded with zeros to [w] characters. *)
Definition zfill (w : nat) (n : Z) : string :=
  let s := str_of_int n in
  zeros (w - String.length s) +++ s.

Definition sign_str (neg : bool) : string := if neg then "-" else "".

(** Drops the zeros a list starts with. *)
Fixpoint lstrip_zeros (l : list ascii) : list ascii :=
  match l with
  | c :: t => if Ascii.eqb c "0" then lstrip_zeros t else l
  | [] => []
  end.

(** Drops the zeros that end a fraction. *)
Definition rstrip_zeros (s : string) : string :=
  string_of_list_ascii (rev (lstrip_zeros (rev (chars s)))).

(** [f"{x:.<nd>f}"]: the exact value rounded to [nd] decimals, ties to even. *)
Definition fmt_fixed (nd : nat) (f : spec_float) : string :=
  match f with
  | S754_nan => "nan"
  | S754_infinity s => sign_str s +++ "inf"
  | _ =>
      match ratio_of_float f with
      | Some (s, n, d) =>
          let q := round_half_even (n * 10 ^ Z.of_nat nd) d in
          let ds := zfill (S nd) q in
          let k := (String.length ds - nd)%nat in
          sign_str s +++ substring 0 k ds +++
          (if (nd =? 0)%nat then "" else "." +++ substring k nd ds)
      | None => "nan"
      end
  end.

(** Whether [10 ^ k <= n / d], for [0 < n] and [0 < d]. *)
Definition ge_pow10 (n d k : Z) : bool :=
  if 0 <=? k then d * 10 ^ k <=? n else d <=? n * 10 ^ (- k).

Definition ndigits (n : Z) : Z := Z.of_nat (String.length (str_of_int n)).

(** The decimal exponent of [n / d]: the [x] with [10^x <= n/d < 10^(x+1)]. *)
Definition exp10 (n d : Z) : Z :=
  let est := ndigits n - ndigits d in
  if ge_pow10 n d est then est else est - 1.

(** [n / d] rounded to [p] significant digits: the digits and the exponent. *)
Definition sig_digits (p : Z) (n d : Z) : Z * Z :=
  let x := exp10 n d in
  let sh := p - 1 - x in
  let q := if 0 <=? sh then round_half_even (n * 10 ^ sh) d
           else round_half_even n (d * 10 ^ (- sh)) in
  if 10 ^ p <=? q then (10 ^ (p - 1), x + 1) else (q, x).

Definition with_point (ip fp : string) : string :=
  let fp' := rstrip_zeros fp in
  if String.eqb fp' "" then ip else ip +++ "." +++ fp'.

(** [f"{x:g}"]: six significant digits, fixed notation for exponents from
    -4 to 5 and scientific notation otherwise, trailing zeros removed. *)
Definition fmt_g (f : spec_float) : string :=
  match f with
  | S754_nan => "nan"
  | S754_infinity s => sign_str s +++ "inf"
  | S754_zero s => sign_str s +++ "0"
  | S754_finite s m e =>
      let (n, d) := if 0 <=? e then (Zpos m * 2 ^ e, 1)
                    else (Zpos m, 2 ^ (- e)) in
      let (q, x) := sig_digits 6 n d in
      let ds := str_of_int q in
      sign_str s +++
      (if (-4 <=? x) && (x <? 6) then
         if 0 <=? x then
           let k := Z.to_nat (x + 1) in
           with_point (substring 0 k ds) (substring k (6 - k) ds)
         else with_point "0" (zeros (Z.to_nat (- x - 1)) +++ ds)
       else
         with_point (substring 0 1 ds) (substring 1 5 ds) +++ "e" +++
         (if x <? 0 then "-" else "+") +++ zfill 2 (Z.abs x))
  end.

(** [round(x, nd)] for a [float]. *)
Definition round_float (nd : nat) (f : spec_float) : spec_float :=
  match f with
  | S754_finite s m e =>
      match ratio_of_float f with
      | Some (_, n, d) =>
          float_of_ratio s (round_half_even (n * 10 ^ Z.of_nat nd) d)
                         (10 ^ Z.of_nat nd)
      | None => f
      end
  | _ => f
  end.

(** *** Numbers: [int] and [float] mixed as Python mixes them *)

Inductive num : Type :=
| Int (z : Z)
| Float (f : spec_float).

Definition to_float (x : num) : result spec_float :=
  match x with
  | Int z => float_of_int z
  | Float f => Ok f
  end.

Definition num_mul (a b : num) : result num :=
  match a, b with
  | Int x, Int y => Ok (Int (x * y))
  | _, _ =>
      rbind (to_float a) (fun fa =>
      rbind (to_float b) (fun fb => Ok (Float (SFmul prec emax fa fb))))
  end.

Definition num_add (a b : num) : result num :=
  match a, b with
  | Int x, Int y => Ok (Int (x + y))
  | _, _ =>
      rbind (to_float a) (fun fa =>
      rbind (to_float b) (fun fb => Ok (Float (SFadd prec emax fa fb))))
  end.

(** The extended rational a number denotes. *)
Inductive ext : Type :=
| NaN
| NegInf
| PosInf
| Fin (n d : Z).

Definition ext_of (x : num) : ext :=
  match x with
  | Int z => Fin z 1
  | Float S754_nan => NaN
  | Float (S754_infinity s) => if s then NegInf else PosInf
  | Float f =>
      match ratio_of_float f with
      | Some (s, n, d) => Fin (if s then - n else n) d
      | None => NaN
      end
  end.

(** [a > b], exact also between an [int] and a [float]. *)
Definition num_gt (a b : num) : bool :=
  match ext_of a, ext_of b with
  | NaN, _ | _, NaN => false
  | NegInf, _ => false
  | _, PosInf => false
  | PosInf, _ => true
  | _, NegInf => true
  | Fin n1 d1, Fin n2 d2 => n2 * d1 <? n1 * d2
  end.

(** [a == 0]. *)
Definition num_is_zero (a : num) : bool :=
  match ext_of a with
  | Fin n _ => n =? 0
  | _ => false
  end.

(** [max(a, b)]: the first of the two unless the second is greater. *)
Definition num_max (a b : num) : num := if num_gt b a then b else a.

(** [round(x, nd)]: an [int] is returned as it is. *)
Definition num_round (nd : nat) (x : num) : num :=
  match x with
  | Int z => Int z
  | Float f => Float (round_float nd f)
  end.

(** [a / b] for two [int]s, [b > 0]: the float nearest to the quotient. *)
Definition int_truediv (a b : Z) : result spec_float :=
  match float_of_ratio (a <? 0) (Z.abs a) b with
  | S754_infinity _ => Raise (OverflowError "integer division result too large for a float")
  | f => Ok f
  end.

(** Truth value of what [os.getenv] returns. *)
Definition opt_truthy (o : option string) : bool :=
  match o with
  | Some s => truthy s
  | None => false
  end.

(** A value of [os.getenv] or of an option that passes [if x:]. *)
Definition nonempty (o : option string) : option string :=
  if opt_truthy o then o else None.

(** What [float()] is applied to in the scripts: a number or a [str]. *)
Inductive obj : Type :=
| OInt (z : Z)
| OFloat (f : spec_float)
| OStr (s : string).

Definition float_of (o : obj) : result spec_float :=
  match o with
  | OInt z => float_of_int z
  | OFloat f => Ok f
  | OStr s => float_of_str s
  end.

(** [f"{x:g}"] for a number. *)
Definition fmt_num_g (x : num) : string :=
  match x with
  | Int z => fmt_g (float_of_ratio (z <? 0) (Z.abs z) 1)
  | Float f => fmt_g f
  end.

(** An insertion-ordered dictionary with [str] keys. *)
Definition OrderedDict (V : Type) : Type := list (string * V).

Fixpoint od_get {V} (k : string) (d : OrderedDict V) : option V :=
  match d with
  | (k', v) :: t => if String.eqb k k' then Some v else od_get k t
  | [] => None
  end.

Definition od_mem {V} (k : string) (d : OrderedDict V) : bool :=
  match od_get k d with
  | Some _ => true
  | None => false
  end.

(** Replaces the value under [k] by its image under [f]. *)
Fixpoint od_adjust {V} (k : string) (f : V -> V) (d : OrderedDict V)
  : OrderedDict V :=
  match d with
  | (k', v) :: t =>
      if String.eqb k k' then (k', f v) :: t else (k', v) :: od_adjust k f t
  | [] => []
  end.

(** The line feed of an f-string's [\n]. *)
Definition nl : string := String (ascii_of_nat 10) "".

(** *** State and exceptions

    A computation over a world [W]: it returns or raises, and leaves a world. *)

Definition St (W A : Type) : Type := W -> result A * W.

Definition ret {W A} (a : A) : St W A := fun w => (Ok a, w).

Definition bind {W A B} (c : St W A) (k : A -> St W B) : St W B :=
  fun w =>
    match c w with
    | (Ok a, w') => k a w'
    | (Raise e, w') => (Raise e, w')
    end.

Definition raise {W A} (e : exn) : St W A := fun w => (Raise e, w).

Definition lift {W A} (r : result A) : St W A := fun w => (r, w).

(** What [except Exception] catches. *)
Definition is_exception (e : exn) : bool :=
  match e with
  | SystemExit _ | Diverges => false
  | _ => true
  end.

Definition try_except {W A} (c : St W A) (h : exn -> St W A) : St W A :=
  fun w =>
    match c w with
    | (Raise e, w') => if is_exception e then h e w' else (Raise e, w')
    | r => r
    end.

(** [str(e)]. *)
Definition exn_str (e : exn) : string :=
  match e with
  | ValueError m | OverflowError m | FileNotFoundError m | OSError m
  | RemoteError m => m
  | SystemExit c => str_of_int c
  | Diverges => ""
  end.

Definition call_failed : exn := RemoteError "remote call failed".

End Py.

Declare Scope monad_scope.
Notation "x <- c ;; k" := (Py.bind c (fun x => k))
  (at level 61, c at next level, right associativity) : monad_scope.
Notation "' pat <- c ;; k" :=
  (Py.bind c (fun x => match x with pat => k end))
  (at level 61, pat pattern, c at next level, right associativity) : monad_scope.
Notation "c ;; k" := (Py.bind c (fun _ => k))
  (at level 61, right associativity) : monad_scope.

(** ** Dates and times

    What [make_workout_dates] needs of [datetime] and [pytz]: parsing with the
    format ["%Y-%m-%d %H:%M:%S"], adding seconds, [isoformat] and
    [strftime("%Y-%m-%d")].  The time-zone table of Europe/Zurich is data the
    repository does not hold; it enters as the function [utcoffset]. *)

Module Clock.
Import Py.

(** A naive [datetime]: proleptic Gregorian calendar, whole seconds. *)
Record datetime : Type := mkDatetime {
  year : Z; month : Z; day : Z; hour : Z; minute : Z; second : Z
}.

(** An aware [datetime]: local fields and the offset from UTC in seconds. *)
Record aware : Type := mkAware { local : datetime; offset : Z }.

Definition is_leap (y : Z) : bool :=
  (y mod 4 =? 0) && (negb (y mod 100 =? 0) || (y mod 400 =? 0)).

Definition days_in_month (y m : Z) : Z :=
  if m =? 2 then (if is_leap y then 29 else 28)
  else if (m =? 4) || (m =? 6) || (m =? 9) || (m =? 11) then 30
  else 31.

(** Days since 1970-01-01 of a civil date. *)
Definition days_from_civil (y m d : Z) : Z :=
  let y' := if m <=? 2 then y - 1 else y in
  let era := y' / 400 in
  let yoe := y' - era * 400 in
  let mp := (m + 9) mod 12 in
  let doy := (153 * mp + 2) / 5 + d - 1 in
  let doe := yoe * 365 + yoe / 4 - yoe / 100 + doy in
  era * 146097 + doe - 719468.

Definition civil_from_days (z : Z) : Z * Z * Z :=
  let z' := z + 719468 in
  let era := z' / 146097 in
  let doe := z' - era * 146097 in
  let yoe := (doe - doe / 1460 + doe / 36524 - doe / 146096) / 365 in
  let doy := doe - (365 * yoe + yoe / 4 - yoe / 100) in
  let mp := (5 * doy + 2) / 153 in
  let d := doy - (153 * mp + 2) / 5 + 1 in
  let m := if mp <? 10 then mp + 3 else mp - 9 in
  (if m <=? 2 then yoe + era * 400 + 1 else yoe + era * 400, m, d).

(** Up to [n] leading digits. *)
Fixpoint take_digits (n : nat) (s : list ascii) : list ascii * list ascii :=
  match n, s with
  | S n', c :: t =>
      if is_digit c then let (ds, r) := take_digits n' t in (c :: ds, r)
      else ([], s)
  | _, _ => ([], s)
  end.

(** A numeric directive: one or two digits with a value from [lo] to [hi]. *)
Definition field (lo hi : Z) (s : list ascii) : option (Z * list ascii) :=
  match take_digits 2 s with
  | ([], _) => None
  | (ds, r) =>
      let v := digits_value ds in
      if (lo <=? v) && (v <=? hi) then Some (v, r) else None
  end.

(** [%d] also takes a blank and one digit from 1 to 9. *)
Definition day_field (s : list ascii) : option (Z * list ascii) :=
  match s with
  | c :: d :: r =>
      if Ascii.eqb c " " && is_digit d && negb (Ascii.eqb d "0")
      then Some (digit_val d, r)
      else field 1 31 s
  | _ => field 1 31 s
  end.

Definition literal (c : ascii) (s : list ascii) : option (list ascii) :=
  match s with
  | c' :: r => if Ascii.eqb c c' then Some r else None
  | [] => None
  end.

(** A blank of the format: one or more white-space characters. *)
Definition blanks (s : list ascii) : option (list ascii) :=
  match s with
  | c :: r => if is_space c then Some (lstrip r) else None
  | [] => None
  end.

Definition obind {A B} (o : option A) (k : A -> option B) : option B :=
  match o with
  | Some a => k a
  | None => None
  end.

Definition scan_datetime (s : list ascii) : option datetime :=
  match take_digits 4 s with
  | (ys, r0) =>
      if (List.length ys =? 4)%nat then
        obind (literal "-" r0) (fun r1 =>
        obind (field 1 12 r1) (fun '(mo, r2) =>
        obind (literal "-" r2) (fun r3 =>
        obind (day_field r3) (fun '(d, r4) =>
        obind (blanks r4) (fun r5 =>
        obind (field 0 23 r5) (fun '(h, r6) =>
        obind (literal ":" r6) (fun r7 =>
        obind (field 0 59 r7) (fun '(mi, r8) =>
        obind (literal ":" r8) (fun r9 =>
        obind (field 0 61 r9) (fun '(se, r10) =>
        match r10 with
        | [] => Some (mkDatetime (digits_value ys) mo d h mi se)
        | _ => None
        end))))))))))
      else None
  end.

(** [datetime.strptime(s, "%Y-%m-%d %H:%M:%S")]. *)
Definition strptime (s : string) : result datetime :=
  match scan_datetime (chars s) with
  | Some dt =>
      if (1 <=? year dt) && (day dt <=? days_in_month (year dt) (month dt))
         && (second dt <=? 59)
      then Ok dt
      else Raise (ValueError "value out of range for a datetime")
  | None =>
      Raise (ValueError ("time data " +++ s +++ " does not match format"))
  end.

(** Seconds since 1970-01-01 00:00:00 of the local fields. *)
Definition to_seconds (dt : datetime) : Z :=
  days_from_civil (year dt) (month dt) (day dt) * 86400
  + hour dt * 3600 + minute dt * 60 + second dt.

Definition of_seconds (t : Z) : datetime :=
  let '(y, m, d) := civil_from_days (t / 86400) in
  let s := t mod 86400 in
  mkDatetime y m d (s / 3600) (s mod 3600 / 60) (s mod 60).

(** [dt + timedelta(seconds=n)]: the zone information stays as it is. *)
Definition add_seconds (a : aware) (n : Z) : result aware :=
  let dt := of_seconds (to_seconds (local a) + n) in
  if (1 <=? year dt) && (year dt <=? 9999) then Ok (mkAware dt (offset a))
  else Raise (OverflowError "date value out of range").

(** [dt.strftime("%Y-%m-%d")]. *)
Definition strftime_date (dt : datetime) : string :=
  zfill 4 (year dt) +++ "-" +++ fmt_02d (month dt) +++ "-" +++ fmt_02d (day dt).

Definition fmt_offset (off : Z) : string :=
  let a := Z.abs off in
  (if off <? 0 then "-" else "+") +++ fmt_02d (a / 3600) +++ ":" +++
  fmt_02d (a mod 3600 / 60) +++
  (if a mod 60 =? 0 then "" else ":" +++ fmt_02d (a mod 60)).

(** [dt.isoformat()] of an aware [datetime] without microseconds. *)
Definition isoformat (a : aware) : string :=
  let dt := local a in
  strftime_date dt +++ "T" +++ fmt_02d (hour dt) +++ ":" +++
  fmt_02d (minute dt) +++ ":" +++ fmt_02d (second dt) +++ fmt_offset (offset a).

End Clock.

(** ** The remote workspace

    The document store behind [notion_client.Client], as far as the sync
    script uses it.  A remote call is recorded in the trace and then either
    fails, when the fault plan says so, or has its effect on the store.  The
    fault plan stands for every reason the service may reject or lose a call;
    the store itself does not validate table ids or property names. *)

Module Notion.
Import Py.

Record RichText : Type := mkText { content : string; italic : bool }.

Record TableRow : Type := mkRow { cells : list (list RichText) }.

Inductive Block : Type :=
| Heading3 (rich_text : list RichText)
| Paragraph (rich_text : list RichText)
| Table (table_width : Z) (has_column_header has_row_header : bool)
        (rows : list TableRow)
| Divider.

Inductive PropValue : Type :=
| PTitle (text : string)
| PRichText (text : string)
| PDate (start : string) (finish : option string)
| PSelect (name : string)
| PNumber (n : num)
| PCheckbox (b : bool)
| PMultiSelect (names : list string).

Definition Props : Type := list (string * PropValue).

Inductive PropType : Type :=
| TTitle
| TDate
| TNumber
| TRichText
| TSelect
| TCheckbox
| TMultiSelect.

Definition Schema : Type := list (string * PropType).

Inductive Cond : Type :=
| MultiSelectContains (property value : string)
| TitleEquals (property value : string)
| DateOnOrAfter (property date : string)
| DateOnOrBefore (property date : string).

Inductive Filter : Type :=
| Single (c : Cond)
| And (cs : list Cond).

Inductive Parent : Type :=
| PageParent (page_id : string)
| DatabaseParent (database_id : string)
| BlockParent (block_id : string)
| WorkspaceParent.

Record Page : Type := mkPage {
  page_id : nat;
  page_parent : string;
  properties : Props;
  icon : option string;
  children : list (nat * Block)
}.

Record Database : Type := mkDatabase {
  database_id : string;
  db_parent : Parent;
  db_title : string;
  db_schema : Schema
}.

Record Store : Type := mkStore {
  pages : list Page;
  databases : list Database;
  next_id : nat;
  page_size : nat
}.

Inductive Call : Type :=
| DatabasesQuery (database_id : string) (filter : Filter)
| DatabasesRetrieve (database_id : string)
| DatabasesCreate (parent_page : string) (title : string) (schema : Schema)
| PagesCreate (database_id : string) (props : Props) (icon_url : string)
| PagesUpdate (page : nat) (props : Props)
| BlocksChildrenList (block : nat) (start_cursor : option nat)
| BlocksDelete (block : nat)
| BlocksChildrenAppend (block : nat) (blocks : list Block).

(** The process and what it talks to: the store, the faults still to come
    (one entry consumed per remote call, [true] fails the call), the lines
    printed so far and the remote calls issued so far. *)
Record World : Type := mkWorld {
  store : Store;
  faults : list bool;
  console : list string;
  trace : list Call
}.

Definition M : Type -> Type := St World.

Definition print (line : string) : M unit :=
  fun w => (Ok tt, mkWorld (store w) (faults w) (console w ++ [line]) (trace w)).

(** A remote call: logged, then failed by the plan or run on the store. *)
Definition remote {A} (c : Call) (op : Store -> result (A * Store)) : M A :=
  fun w =>
    let tr := trace w ++ [c] in
    match faults w with
    | true :: fs => (Raise call_failed, mkWorld (store w) fs (console w) tr)
    | fs =>
        match op (store w) with
        | Ok (a, st) => (Ok a, mkWorld st (tl fs) (console w) tr)
        | Raise e => (Raise e, mkWorld (store w) (tl fs) (console w) tr)
        end
    end.

(** *** The store's operations *)

Fixpoint lookup (k : string) (ps : Props) : option PropValue :=
  match ps with
  | (k', v) :: t => if String.eqb k k' then Some v else lookup k t
  | [] => None
  end.

Fixpoint set_prop (k : string) (v : PropValue) (ps : Props) : Props :=
  match ps with
  | (k', v') :: t =>
      if String.eqb k k' then (k, v) :: t else (k', v') :: set_prop k v t
  | [] => [(k, v)]
  end.

(** An update touches the properties it names and no other. *)
Definition merge_props (new old : Props) : Props :=
  fold_left (fun acc kv => set_prop (fst kv) (snd kv) acc) new old.

(** The calendar date of an ISO 8601 date or date-time. *)
Definition date_part (s : string) : string := substring 0 10 s.

Definition cond_holds (c : Cond) (p : Page) : bool :=
  match c with
  | MultiSelectContains k v =>
      match lookup k (properties p) with
      | Some (PMultiSelect ns) => existsb (String.eqb v) ns
      | _ => false
      end
  | TitleEquals k v =>
      match lookup k (properties p) with
      | Some (PTitle t) => String.eqb t v
      | _ => false
      end
  | DateOnOrAfter k d =>
      match lookup k (properties p) with
      | Some (PDate s _) => String.leb d (date_part s)
      | _ => false
      end
  | DateOnOrBefore k d =>
      match lookup k (properties p) with
      | Some (PDate s _) => String.leb (date_part s) d
      | _ => false
      end
  end.

Definition filter_holds (f : Filter) (p : Page) : bool :=
  match f with
  | Single c => cond_holds c p
  | And cs => forallb (fun c => cond_holds c p) cs
  end.

Definition in_database (db : string) (p : Page) : bool :=
  String.eqb (page_parent p) db.

(** The pages of a table that pass a filter, in the store's order. *)
Definition query (db : string) (f : Filter) (st : Store) : list Page :=
  filter (fun p => in_database db p && filter_holds f p) (pages st).

Definition with_pages (st : Store) (ps : list Page) : Store :=
  mkStore ps (databases st) (next_id st) (page_size st).

Definition with_properties (p : Page) (ps : Props) : Page :=
  mkPage (page_id p) (page_parent p) ps (icon p) (children p).

Definition with_children (p : Page) (cs : list (nat * Block)) : Page :=
  mkPage (page_id p) (page_parent p) (properties p) (icon p) cs.

Definition find_page (id : nat) (st : Store) : option Page :=
  find (fun p => Nat.eqb (page_id p) id) (pages st).

(** Applies [f] to the first page with the given id. *)
Fixpoint modify_page (id : nat) (f : Page -> Page) (ps : list Page)
  : list Page :=
  match ps with
  | p :: t =>
      if Nat.eqb (page_id p) id then f p :: t else p :: modify_page id f t
  | [] => []
  end.

Definition not_found {A} : result A := Raise (RemoteError "object not found").

Record ListResponse : Type := mkListResponse {
  results : list (nat * Block);
  has_more : bool;
  next_cursor : option nat
}.

(** The children from the one the cursor names onwards. *)
Fixpoint from_cursor (c : nat) (cs : list (nat * Block)) : list (nat * Block) :=
  match cs with
  | b :: t => if Nat.eqb (fst b) c then cs else from_cursor c t
  | [] => []
  end.

Definition list_children (st : Store) (p : Page) (cursor : option nat)
  : ListResponse :=
  let cs := match cursor with
            | Some c => from_cursor c (children p)
            | None => children p
            end in
  let rest := skipn (page_size st) cs in
  mkListResponse (firstn (page_size st) cs)
                 (match rest with [] => false | _ => true end)
                 (option_map fst (hd_error rest)).

Definition has_child (id : nat) (p : Page) : bool :=
  existsb (fun c => Nat.eqb (fst c) id) (children p).

Definition remove_child (id : nat) (p : Page) : Page :=
  with_children p (filter (fun c => negb (Nat.eqb (fst c) id)) (children p)).

(** Fresh ids for appended blocks. *)
Definition number_from (n : nat) (bs : list Block) : list (nat * Block) :=
  combine (seq n (List.length bs)) bs.

(** *** The client's calls *)

Definition databases_query (db : string) (f : Filter) : M (list Page) :=
  remote (DatabasesQuery db f) (fun st => Ok (query db f st, st)).

Definition databases_retrieve (db : string) : M Database :=
  remote (DatabasesRetrieve db) (fun st =>
    match find (fun d => String.eqb (database_id d) db) (databases st) with
    | Some d => Ok (d, st)
    | None => not_found
    end).

Definition databases_create (parent_page title : string) (schema : Schema)
  : M Database :=
  remote (DatabasesCreate parent_page title schema) (fun st =>
    let d := mkDatabase ("db-" +++ str_of_int (Z.of_nat (next_id st)))
                        (PageParent parent_page) title schema in
    Ok (d, mkStore (pages st) (databases st ++ [d]) (S (next_id st))
                   (page_size st))).

Definition pages_create (db : string) (props : Props) (icon_url : string)
  : M Page :=
  remote (PagesCreate db props icon_url) (fun st =>
    let p := mkPage (next_id st) db props (Some icon_url) [] in
    Ok (p, mkStore (pages st ++ [p]) (databases st) (S (next_id st))
                   (page_size st))).

Definition pages_update (id : nat) (props : Props) : M unit :=
  remote (PagesUpdate id props) (fun st =>
    match find_page id st with
    | Some _ =>
        Ok (tt, with_pages st
                  (modify_page id
                     (fun p => with_properties p (merge_props props (properties p)))
                     (pages st)))
    | None => not_found
    end).

Definition blocks_children_list (id : nat) (cursor : option nat)
  : M ListResponse :=
  remote (BlocksChildrenList id cursor) (fun st =>
    match find_page id st with
    | Some p => Ok (list_children st p cursor, st)
    | None => not_found
    end).

Definition blocks_delete (id : nat) : M unit :=
  remote (BlocksDelete id) (fun st =>
    if existsb (has_child id) (pages st)
    then Ok (tt, with_pages st (map (remove_child id) (pages st)))
    else not_found).

Definition blocks_children_append (id : nat) (bs : list Block) : M unit :=
  remote (BlocksChildrenAppend id bs) (fun st =>
    match find_page id st with
    | Some _ =>
        Ok (tt, mkStore
                  (modify_page id
                     (fun p => with_children p
                                 (children p ++ number_from (next_id st) bs))
                     (pages st))
                  (databases st) (next_id st + List.length bs) (page_size st))
    | None => not_found
    end).

End Notion.

(** ** [strong-sync.py] *)

Module StrongSync.
Import Py Clock Notion.
Local Open Scope monad_scope.

Definition STRENGTH_ICON : string :=
  "https://img.icons8.com/?size=100&id=107640&format=png&color=000000".

(** A row as [csv.DictReader] yields it for a file with the export's header;
    a column read with [row.get(..., "")] holds [""] when it is missing.  A
    line with fewer fields than the header, which the reader fills up with
    [None], is outside the model. *)
Record CsvRow : Type := mkCsvRow {
  Date : string;
  Workout_Name : string;
  Duration_sec : string;
  Exercise_Name : string;
  Set_Order : string;
  Weight_kg : string;
  Reps : string;
  Distance_meters : string;
  Seconds : string;
  Notes : string
}.

Record Exercise : Type := mkExercise {
  exercise : string;
  set_order : string;
  weight_kg : string;
  reps : string;
  distance_m : string;
  seconds : string;
  notes : string
}.

Record Workout : Type := mkWorkout {
  date : string;
  name : string;
  duration_sec : Z;
  exercises : list Exercise
}.

Record Group : Type := mkGroup {
  sets : list Exercise;
  group_notes : list string
}.

Definition exercise_of_row (row : CsvRow) : Exercise :=
  mkExercise (Exercise_Name row) (Set_Order row) (Weight_kg row) (Reps row)
             (Distance_meters row) (Seconds row) (Notes row).

Definition add_exercise (ex : Exercise) (w : Workout) : Workout :=
  mkWorkout (date w) (name w) (duration_sec w) (exercises w ++ [ex]).

(** One turn of the loop of [parse_csv]. *)
Definition parse_row (workouts : OrderedDict Workout) (row : CsvRow)
  : result (OrderedDict Workout) :=
  if String.eqb (Set_Order row) "Rest Timer" then Ok workouts
  else
    let date := Date row in
    rbind (if od_mem date workouts then Ok workouts
           else
             rbind (int_of_str (Duration_sec row)) (fun d =>
             Ok (workouts ++ [(date, mkWorkout date (Workout_Name row) d [])])))
          (fun workouts =>
             Ok (od_adjust date (add_exercise (exercise_of_row row)) workouts)).

Fixpoint parse_rows (workouts : OrderedDict Workout) (rows : list CsvRow)
  : result (OrderedDict Workout) :=
  match rows with
  | [] => Ok workouts
  | row :: rest => rbind (parse_row workouts row) (fun w => parse_rows w rest)
  end.

(** [parse_csv]; [files] gives the rows of the file at a path, if there is one. *)
Definition parse_csv (files : string -> option (list CsvRow))
                     (csv_path : string) : result (OrderedDict Workout) :=
  match files csv_path with
  | Some rows => parse_rows [] rows
  | None => Raise (FileNotFoundError csv_path)
  end.

Definition group_step (groups : OrderedDict Group) (ex : Exercise)
  : OrderedDict Group :=
  let name := exercise ex in
  let groups := if od_mem name groups then groups
                else groups ++ [(name, mkGroup [] [])] in
  if String.eqb (set_order ex) "Note"
  then od_adjust name
         (fun g => mkGroup (sets g) (group_notes g ++ [notes ex])) groups
  else od_adjust name
         (fun g => mkGroup (sets g ++ [ex]) (group_notes g)) groups.

Definition group_exercises (exercises : list Exercise) : OrderedDict Group :=
  fold_left group_step exercises [].

Definition workout_exists (database_id workout_date : string)
  : M (option Page) :=
  let strong_id := "strong-" +++ workout_date in
  try_except
    (query <- databases_query database_id
                (Single (MultiSelectContains "Garmin ID" strong_id)) ;;
     ret (hd_error query))
    (fun e =>
       print ("Error checking for existing workout: " +++ exn_str e) ;;
       ret None).

Definition format_time (total_seconds : obj) : result string :=
  rbind (float_of total_seconds) (fun f =>
  rbind (int_of_float f) (fun total_seconds =>
  let hours := total_seconds / 3600 in
  let minutes := (total_seconds mod 3600) / 60 in
  let seconds := total_seconds mod 60 in
  Ok (if 0 <? hours
      then str_of_int hours +++ ":" +++ fmt_02d minutes +++ ":" +++ fmt_02d seconds
      else str_of_int minutes +++ ":" +++ fmt_02d seconds))).

(** [float(ex["weight_kg"]) if ex["weight_kg"] else 0]. *)
Definition weight_of (ex : Exercise) : result num :=
  if truthy (weight_kg ex)
  then rbind (float_of_str (weight_kg ex)) (fun f => Ok (Float f))
  else Ok (Int 0).

Definition format_set (ex : Exercise) : result (string * string) :=
  if truthy (distance_m ex) then
    rbind (float_of_str (distance_m ex)) (fun d =>
    let distance_km := SFdiv prec emax d (float_of_ratio false 1000 1) in
    let weight_display := fmt_fixed 2 distance_km +++ " km" in
    rbind (if truthy (seconds ex) then format_time (OStr (seconds ex))
           else Ok "") (fun reps_display =>
    Ok (weight_display, reps_display)))
  else if truthy (seconds ex) && negb (truthy (weight_kg ex)) then
    rbind (format_time (OStr (seconds ex))) (fun reps_display =>
    Ok ("", reps_display))
  else
    rbind (weight_of ex) (fun weight =>
    let weight_display := if num_is_zero weight then "BW" else fmt_num_g weight in
    let reps_display := if truthy (reps ex) then reps ex else "" in
    Ok (weight_display, reps_display)).

(** [[{"type": "text", "text": {"content": c}}]]. *)
Definition plain (c : string) : list RichText := [mkText c false].

Fixpoint map_result {A B} (f : A -> result B) (l : list A) : result (list B) :=
  match l with
  | [] => Ok []
  | a :: t =>
      rbind (f a) (fun b => rbind (map_result f t) (fun bs => Ok (b :: bs)))
  end.

Definition table_headers : list string := ["Set"; "Weight (kg)"; "Reps"].

Definition set_row (s : Exercise) : result TableRow :=
  rbind (format_set s) (fun '(weight_display, reps_display) =>
  Ok (mkRow (map plain [set_order s; weight_display; reps_display]))).

(** The blocks of the [i]-th of [n] groups. *)
Definition group_blocks (n i : nat) (exercise_name : string) (data : Group)
  : result (list Block) :=
  let heading := [Heading3 (plain exercise_name)] in
  let paragraphs := map (fun note => Paragraph [mkText note true])
                        (group_notes data) in
  rbind (match sets data with
         | [] => Ok []
         | _ =>
             rbind (map_result set_row (sets data)) (fun table_rows =>
             Ok [Table 3 true false (mkRow (map plain table_headers) :: table_rows)])
         end) (fun table =>
  let divider := if (Z.of_nat i <? Z.of_nat n - 1) then [Divider] else [] in
  Ok (heading ++ paragraphs ++ table ++ divider)).

(** The loop of [build_page_content] from index [i] on. *)
Fixpoint build_from (n i : nat) (groups : OrderedDict Group)
  : result (list Block) :=
  match groups with
  | [] => Ok []
  | (exercise_name, data) :: rest =>
      rbind (group_blocks n i exercise_name data) (fun bs =>
      rbind (build_from n (S i) rest) (fun more => Ok (bs ++ more)))
  end.

Definition build_page_content (exercises : list Exercise)
  : result (list Block) :=
  let exercise_groups := group_exercises exercises in
  build_from (List.length exercise_groups) 0 exercise_groups.

Fixpoint delete_each (bs : list (nat * Block)) : M unit :=
  match bs with
  | [] => ret tt
  | b :: rest => blocks_delete (fst b) ;; delete_each rest
  end.

(** The [while existing.get("has_more")] loop, with fuel. *)
Fixpoint delete_more (fuel : nat) (page_id : nat) (existing : ListResponse)
  : M unit :=
  if has_more existing then
    match fuel with
    | O => raise Diverges
    | S fuel' =>
        existing' <- blocks_children_list page_id (next_cursor existing) ;;
        delete_each (results existing') ;;
        delete_more fuel' page_id existing'
    end
  else ret tt.

Definition replace_page_content (fuel : nat) (page_id : nat)
                                (blocks : list Block) : M unit :=
  existing <- blocks_children_list page_id None ;;
  delete_each (results existing) ;;
  delete_more fuel page_id existing ;;
  blocks_children_append page_id blocks.

(** The exercise table's schema, as [get_or_create_exercise_db] declares it. *)
Definition exercise_db_schema : Schema :=
  [("Exercise", TTitle); ("Date", TDate); ("Max Weight (kg)", TNumber);
   ("Total Volume (kg)", TNumber); ("Sets", TNumber); ("Total Reps", TNumber);
   ("Workout", TRichText)].

Definition get_or_create_exercise_db (getenv : string -> option string)
                                     (activities_db_id : string)
  : M (option string) :=
  let exercise_db_id := getenv "NOTION_EXERCISE_DB_ID" in
  if opt_truthy exercise_db_id then ret exercise_db_id
  else
    db_info <- databases_retrieve activities_db_id ;;
    match db_parent db_info with
    | PageParent parent_page =>
        exercise_db <- databases_create parent_page "Exercise Progress"
                         exercise_db_schema ;;
        let db_id := Notion.database_id exercise_db in
        print (nl +++ "Created 'Exercise Progress' database: " +++ db_id) ;;
        print ("Add to .env:  NOTION_EXERCISE_DB_ID=" +++ db_id +++ nl) ;;
        ret (Some db_id)
    | _ =>
        print "Cannot auto-create exercise database (activities DB parent is not a page)." ;;
        print "Create the database manually and set NOTION_EXERCISE_DB_ID in .env" ;;
        ret None
    end.

Definition exercise_entry_exists (db_id date_str exercise_name : string)
  : M (option Page) :=
  query <- databases_query db_id
             (And [TitleEquals "Exercise" exercise_name;
                   DateOnOrAfter "Date" date_str;
                   DateOnOrBefore "Date" date_str]) ;;
  ret (hd_error query).

Section Zone.

(** [local_tz]: the offset from UTC, in seconds, that
    [pytz.timezone("Europe/Zurich").localize] gives a naive local time.  At
    the two ends of the calendar, where the offset would leave the years 1
    to 9999, [localize] raises in the library; the model stays away from
    there. *)
Variable utcoffset : datetime -> Z.

Definition localize (dt : datetime) : aware := mkAware dt (utcoffset dt).

Definition make_workout_dates (workout : Workout) : result (aware * aware) :=
  rbind (strptime (date workout)) (fun naive =>
  let start_dt := localize naive in
  rbind (add_seconds start_dt (duration_sec workout)) (fun end_dt =>
  Ok (start_dt, end_dt))).

Definition date_range (start_dt end_dt : aware) : PropValue :=
  PDate (isoformat start_dt) (Some (isoformat end_dt)).

Definition create_workout_page (database_id : string) (workout : Workout)
  : M nat :=
  '(start_dt, end_dt) <- lift (make_workout_dates workout) ;;
  let strong_id := "strong-" +++ date workout in
  minutes <- lift (int_truediv (duration_sec workout) 60) ;;
  let properties :=
    [("Activity Name", PTitle (name workout));
     ("Date", date_range start_dt end_dt);
     ("Activity Type", PSelect "Strength");
     ("Subactivity Type", PSelect "Strength Training");
     ("Duration (min)", PNumber (Float (round_float 2 minutes)));
     ("Distance (km)", PNumber (Int 0));
     ("Calories", PNumber (Int 0));
     ("Avg Pace", PRichText "");
     ("Avg Power", PNumber (Int 0));
     ("Max Power", PNumber (Int 0));
     ("Training Effect", PSelect "Unknown");
     ("Aerobic", PNumber (Int 0));
     ("Aerobic Effect", PSelect "Unknown");
     ("Anaerobic", PNumber (Int 0));
     ("Anaerobic Effect", PSelect "Unknown");
     ("PR", PCheckbox false);
     ("Fav", PCheckbox false);
     ("Garmin ID", PMultiSelect [strong_id])] in
  page <- pages_create database_id properties STRENGTH_ICON ;;
  blocks <- lift (build_page_content (exercises workout)) ;;
  blocks_children_append (page_id page) blocks ;;
  ret (page_id page).

Definition update_workout (fuel : nat) (existing_page : Page)
                          (workout : Workout) : M unit :=
  '(start_dt, end_dt) <- lift (make_workout_dates workout) ;;
  pages_update (page_id existing_page) [("Date", date_range start_dt end_dt)] ;;
  blocks <- lift (build_page_content (exercises workout)) ;;
  replace_page_content fuel (page_id existing_page) blocks.

(** The running statistics of one exercise: maximal weight, total volume
    and total repetitions. *)
Definition Stats : Type := (num * num * Z)%type.

(** One turn of the loop over the sets of an exercise. *)
Definition stats_step (acc : Stats) (s : Exercise) : result Stats :=
  let '(max_weight, total_volume, total_reps) := acc in
  rbind (weight_of s) (fun weight =>
  rbind (if truthy (reps s) then int_of_str (reps s) else Ok 0) (fun reps =>
  rbind (num_mul weight (Int reps)) (fun volume =>
  rbind (num_add total_volume volume) (fun total_volume =>
  Ok (num_max max_weight weight, total_volume, total_reps + reps))))).

Fixpoint stats_loop (acc : Stats) (sets : list Exercise) : result Stats :=
  match sets with
  | [] => Ok acc
  | s :: rest => rbind (stats_step acc s) (fun acc' => stats_loop acc' rest)
  end.

(** The properties written for one exercise of a workout. *)
Definition entry_properties (workout : Workout) (date_iso exercise_name : string)
                            (sets : list Exercise) : result Props :=
  rbind (stats_loop (Int 0, Int 0, 0) sets)
        (fun '(max_weight, total_volume, total_reps) =>
  Ok [("Exercise", PTitle exercise_name);
      ("Date", PDate date_iso None);
      ("Max Weight", PNumber max_weight);
      ("Total Volumn", PNumber (num_round 1 total_volume));
      ("Sets", PNumber (Int (Z.of_nat (List.length sets))));
      ("Total Reps", PNumber (Int total_reps));
      ("Workouts", PRichText (name workout))]).

(** The loop of [sync_exercise_entries] over the exercise groups. *)
Fixpoint sync_groups (db_id : string) (workout : Workout)
                     (date_only date_iso : string)
                     (groups : OrderedDict Group) : M unit :=
  match groups with
  | [] => ret tt
  | (exercise_name, data) :: rest =>
      match sets data with
      | [] => sync_groups db_id workout date_only date_iso rest
      | sets =>
          properties <- lift (entry_properties workout date_iso exercise_name sets) ;;
          existing <- exercise_entry_exists db_id date_only exercise_name ;;
          match existing with
          | Some page => pages_update (page_id page) properties
          | None =>
              pages_create db_id properties STRENGTH_ICON ;; ret tt
          end ;;
          sync_groups db_id workout date_only date_iso rest
      end
  end.

Definition sync_exercise_entries (db_id : string) (workout : Workout) : M unit :=
  '(start_dt, _) <- lift (make_workout_dates workout) ;;
  let date_only := strftime_date (local start_dt) in
  let date_iso := isoformat start_dt in
  let exercise_groups := group_exercises (exercises workout) in
  sync_groups db_id workout date_only date_iso exercise_groups.

(** The command line: [--csv] and [--rebuild]. *)
Record Args : Type := mkArgs { csv : option string; rebuild : bool }.

(** The counters [created], [updated] and [skipped]. *)
Record Counts : Type := mkCounts { created : Z; updated : Z; skipped : Z }.

(** One turn of the loop of [main] over the workouts. *)
Definition sync_workout (fuel : nat) (database_id : string)
                        (exercise_db_id : option string) (rebuild : bool)
                        (date : string) (workout : Workout) (n : Counts)
  : M Counts :=
  existing <- workout_exists database_id date ;;
  n' <- match existing with
        | Some page =>
            if rebuild then
              update_workout fuel page workout ;;
              print ("  Rebuilt: " +++ name workout +++ " - " +++ date) ;;
              ret (mkCounts (created n) (updated n + 1) (skipped n))
            else
              print ("  Skipped: " +++ name workout +++ " - " +++ date) ;;
              ret (mkCounts (created n) (updated n) (skipped n + 1))
        | None =>
            create_workout_page database_id workout ;;
            print ("  Created: " +++ name workout +++ " - " +++ date) ;;
            ret (mkCounts (created n + 1) (updated n) (skipped n))
        end ;;
  match nonempty exercise_db_id with
  | Some db_id => sync_exercise_entries db_id workout
  | None => ret tt
  end ;;
  ret n'.

Fixpoint sync_all (fuel : nat) (database_id : string)
                  (exercise_db_id : option string) (rebuild : bool)
                  (workouts : OrderedDict Workout) (n : Counts) : M Counts :=
  match workouts with
  | [] => ret n
  | (date, workout) :: rest =>
      n' <- sync_workout fuel database_id exercise_db_id rebuild date workout n ;;
      sync_all fuel database_id exercise_db_id rebuild rest n'
  end.

(** [main]: [getenv] is the environment after [load_dotenv()], [files] the
    local files, [args] the parsed command line. *)
Definition main (fuel : nat) (getenv : string -> option string)
                (files : string -> option (list CsvRow)) (args : Args)
  : M unit :=
  match nonempty (if opt_truthy (csv args) then csv args
                  else getenv "STRONG_CSV_PATH") with
  | None =>
      print "Error: Provide CSV path via --csv argument or STRONG_CSV_PATH env var"
  | Some csv_path =>
      match nonempty (getenv "NOTION_TOKEN"), nonempty (getenv "NOTION_DB_ID") with
      | Some notion_token, Some database_id =>
          exercise_db_id <- get_or_create_exercise_db getenv database_id ;;
          workouts <- lift (parse_csv files csv_path) ;;
          print ("Found " +++ str_of_int (Z.of_nat (List.length workouts))
                 +++ " workouts in CSV") ;;
          n <- sync_all fuel database_id exercise_db_id (rebuild args) workouts
                 (mkCounts 0 0 0) ;;
          print (nl +++ "Done: " +++ str_of_int (created n) +++ " created, "
                 +++ str_of_int (updated n) +++ " rebuilt, "
                 +++ str_of_int (skipped n) +++ " skipped")
      | _, _ =>
          print "Error: NOTION_TOKEN and NOTION_DB_ID environment variables required"
      end
  end.

(** The exit status of [python strong-sync.py] and the world it leaves. *)
Definition run (fuel : nat) (getenv : string -> option string)
               (files : string -> option (list CsvRow)) (args : Args)
               (w : World) : Z * World :=
  let (r, w') := main fuel getenv files args w in (exit_status r, w').

End Zone.

End StrongSync.

(** ** [download_strong_csv.py] *)

Module DownloadStrongCsv.
Import Py.
Local Open Scope monad_scope.

(** A file of the remote drive; its content arrives in chunks. *)
Record DriveFile : Type := mkDriveFile {
  file_id : string;
  file_name : string;
  modified_time : string;
  parents : list string;
  trashed : bool;
  chunks : list string
}.

Inductive Call : Type :=
| FilesList (folder_id : string)
| NextChunk (file : string).

(** The drive, the local disk, the faults still to come, the lines printed
    and the remote calls issued.  The disk lists the files with their
    content and, under a name that ends with a slash, the directories, each
    by the name a path gives it; the working directory is there without
    being listed.  Permissions, links, the length of names and the room left
    on the disk are outside the model. *)
Record World : Type := mkWorld {
  drive : list DriveFile;
  disk : list (string * string);
  faults : list bool;
  console : list string;
  trace : list Call
}.

Definition M : Type -> Type := St World.

Definition print (line : string) : M unit :=
  fun w => (Ok tt, mkWorld (drive w) (disk w) (faults w) (console w ++ [line])
                           (trace w)).

Definition remote {A} (c : Call) (answer : list DriveFile -> A) : M A :=
  fun w =>
    let tr := trace w ++ [c] in
    match faults w with
    | true :: fs =>
        (Raise call_failed, mkWorld (drive w) (disk w) fs (console w) tr)
    | fs => (Ok (answer (drive w)),
             mkWorld (drive w) (disk w) (tl fs) (console w) tr)
    end.

(** [open(path).read()]. *)
Definition read_file (path : string) : M string :=
  fun w =>
    match od_get path (disk w) with
    | Some text => (Ok text, w)
    | None => (Raise (FileNotFoundError path), w)
    end.

Definition set_file (path text : string) (d : list (string * string))
  : list (string * string) :=
  if od_mem path d then od_adjust path (fun _ => text) d else d ++ [(path, text)].

(** The directory part of a path, up to and with its last slash; empty for
    a bare name. *)
Fixpoint dir_chars (s : list ascii) : list ascii :=
  match s with
  | c :: t =>
      match dir_chars t with
      | [] => if Ascii.eqb c "/" then [c] else []
      | d => c :: d
      end
  | [] => []
  end.

Definition dirname (path : string) : string :=
  string_of_list_ascii (dir_chars (list_ascii_of_string path)).

(** The last name of a path, after its last slash. *)
Definition basename (path : string) : string :=
  let n := String.length (dirname path) in
  substring n (String.length path - n) path.

(** A path names a directory when it ends with a slash, when its last name
    is one of the two dot names, or when the disk lists it as one. *)
Definition is_directory (path : string) (d : list (string * string)) : bool :=
  String.eqb (basename path) "" || String.eqb (basename path) "."
  || String.eqb (basename path) ".." || od_mem (path +++ "/") d.

(** A file of the disk stands where the path needs a directory. *)
Definition blocked (path : string) (d : list (string * string)) : bool :=
  existsb (fun kv => negb (String.eqb (basename (fst kv)) "")
                     && prefix (fst kv +++ "/") path) d.

Definition has_nul (path : string) : bool :=
  existsb (Ascii.eqb Ascii.zero) (list_ascii_of_string path).

(** Whether [open(path, "wb")] goes through: the path is not empty and
    holds no NUL character, it does not name a directory, no file stands in
    its way, and its directory is the working directory or is on the
    disk. *)
Definition can_open (path : string) (d : list (string * string)) : bool :=
  truthy path && negb (has_nul path) && negb (is_directory path d)
  && negb (blocked path d)
  && (String.eqb (dirname path) "" || od_mem (dirname path) d).

(** [open(path, "wb")]: the file is created or emptied, or the call raises
    and leaves the disk as it is: [FileNotFoundError] for the empty path and
    for a directory that is missing, [ValueError] for a NUL character, and
    [OSError] (as [IsADirectoryError] or [NotADirectoryError]) for a path
    that names a directory or runs through a file. *)
Definition create_file (path : string) : M unit :=
  fun w =>
    if can_open path (disk w) then
      (Ok tt, mkWorld (drive w) (set_file path "" (disk w)) (faults w)
                      (console w) (trace w))
    else if negb (truthy path) then (Raise (FileNotFoundError path), w)
    else if has_nul path then (Raise (ValueError "embedded null byte"), w)
    else if is_directory path (disk w) || blocked path (disk w) then
      (Raise (OSError path), w)
    else (Raise (FileNotFoundError path), w).

Definition append_file (path text : string) : M unit :=
  fun w =>
    (Ok tt, mkWorld (drive w)
                    (od_adjust path (fun old => old +++ text) (disk w))
                    (faults w) (console w) (trace w)).

Fixpoint contains (needle hay : string) : bool :=
  if prefix needle hay then true
  else match hay with
       | String _ rest => contains needle rest
       | EmptyString => false
       end.

(** The query of [download_latest_csv]. *)
Definition matches (folder_id : string) (f : DriveFile) : bool :=
  existsb (String.eqb folder_id) (parents f)
  && contains ".csv" (file_name f) && negb (trashed f).

(** [orderBy="modifiedTime desc"] with [pageSize=1]. *)
Fixpoint newest (best : option DriveFile) (fs : list DriveFile)
  : option DriveFile :=
  match fs with
  | [] => best
  | f :: rest =>
      newest (match best with
              | Some b =>
                  if String.ltb (modified_time b) (modified_time f)
                  then Some f else Some b
              | None => Some f
              end) rest
  end.

Definition list_files (folder_id : string) : M (list DriveFile) :=
  remote (FilesList folder_id) (fun files =>
    match newest None (filter (matches folder_id) files) with
    | Some f => [f]
    | None => []
    end).

(** The [while not done] loop: one call per chunk, at least one call. *)
Fixpoint next_chunks (path file : string) (cs : list string) : M unit :=
  match cs with
  | [] => remote (NextChunk file) (fun _ => tt)
  | c :: rest =>
      remote (NextChunk file) (fun _ => tt) ;;
      append_file path c ;;
      match rest with
      | [] => ret tt
      | _ => next_chunks path file rest
      end
  end.

Section Credentials.

(** [json.load] / [json.loads] and
    [service_account.Credentials.from_service_account_info]: local
    computations of the vendor libraries. *)
Variables Info Service : Type.
Variable json_loads : string -> result Info.
Variable from_service_account_info : Info -> result Service.

Definition get_drive_service (getenv : string -> option string) : M Service :=
  creds_info <-
    match nonempty (getenv "GOOGLE_SERVICE_ACCOUNT_FILE") with
    | Some creds_file =>
        text <- read_file creds_file ;; lift (json_loads text)
    | None =>
        match nonempty (getenv "GOOGLE_SERVICE_ACCOUNT_JSON") with
        | Some creds_json => lift (json_loads creds_json)
        | None =>
            print "Error: Set GOOGLE_SERVICE_ACCOUNT_FILE or GOOGLE_SERVICE_ACCOUNT_JSON" ;;
            raise (SystemExit 1)
        end
    end ;;
  lift (from_service_account_info creds_info).

Definition download_latest_csv (getenv : string -> option string)
                               (folder_id output_path : string)
  : M (option string) :=
  service <- get_drive_service getenv ;;
  files <- list_files folder_id ;;
  match files with
  | [] =>
      print "No CSV files found in the Google Drive folder" ;;
      ret None
  | latest :: _ =>
      print ("Downloading: " +++ file_name latest +++ " (modified: "
             +++ modified_time latest +++ ")") ;;
      create_file output_path ;;
      next_chunks output_path (file_id latest) (chunks latest) ;;
      print ("Saved to: " +++ output_path) ;;
      ret (Some output_path)
  end.

Definition main (getenv : string -> option string) : M unit :=
  match nonempty (getenv "GOOGLE_DRIVE_FOLDER_ID") with
  | None =>
      print "Error: GOOGLE_DRIVE_FOLDER_ID environment variable not set" ;;
      raise (SystemExit 1)
  | Some folder_id =>
      let output_path := match getenv "STRONG_CSV_PATH" with
                         | Some p => p
                         | None => "strong_export.csv"
                         end in
      result <- download_latest_csv getenv folder_id output_path ;;
      match nonempty result with
      | Some _ => ret tt
      | None => raise (SystemExit 1)
      end
  end.

(** The exit status of [python download_strong_csv.py] and the world it leaves. *)
Definition run (getenv : string -> option string) (w : World) : Z * World :=
  let (r, w') := main getenv w in (exit_status r, w').

End Credentials.

End DownloadStrongCsv.

(** * Specifications

    Definitions that follow the words of the specification; the theorems
    below compare them with the code. *)

Module Spec.
Import Py Clock Notion StrongSync.

(** The [int] that [format_time] formats: [int(float(total_seconds))]. *)
Definition total_seconds_of (o : obj) : result Z :=
  rbind (float_of o) int_of_float.

Definition digit (d : Z) : ascii := ascii_of_N (Z.to_N (48 + d)).

(** Exactly two decimal digits, for a number below 100. *)
Definition two_digits (n : Z) : string :=
  String (digit (n / 10)) (String (digit (n mod 10)) "").

(** A numeral, lowest digit first, with one more lowest digit. *)
Definition cons_digit (b : Z) (d : Decimal.uint) : Decimal.uint :=
  match b with
  | 0 => Decimal.D0 d | 1 => Decimal.D1 d | 2 => Decimal.D2 d
  | 3 => Decimal.D3 d | 4 => Decimal.D4 d | 5 => Decimal.D5 d
  | 6 => Decimal.D6 d | 7 => Decimal.D7 d | 8 => Decimal.D8 d
  | _ => Decimal.D9 d
  end.

(** The [k]-th successor. *)
Fixpoint succs (k : nat) (n : N) : N :=
  match k with
  | O => n
  | S k' => N.succ (succs k' n)
  end.

(** The time rule: [H:MM:SS] from 3600 seconds on, [M:SS] below. *)
Definition time_rule (n : Z) : string :=
  if 3600 <=? n
  then str_of_int (n / 3600) +++ ":" +++ two_digits (n mod 3600 / 60)
       +++ ":" +++ two_digits (n mod 60)
  else str_of_int (n / 60) +++ ":" +++ two_digits (n mod 60).

(** The unit a rendered time starts with. *)
Definition leading_unit (n : Z) : Z :=
  if 3600 <=? n then n / 3600 else n / 60.

Definition starts_with_zero (s : string) : bool :=
  match s with
  | String c _ => Ascii.eqb c "0"
  | EmptyString => false
  end.

(** A field of a row is present when it is not empty. *)
Definition present (s : string) : bool := negb (String.eqb s "").

Definition is_zero (f : spec_float) : bool :=
  match f with
  | S754_zero _ => true
  | _ => false
  end.

(** The sign a numeral starts with. *)
Definition sign (neg : bool) : string := if neg then "-" else "".

(** The exact value of a finite float, as a fraction. *)
Definition value (m : positive) (e : Z) : Z * Z :=
  if e <? 0 then (Z.pos m, 2 ^ (- e)) else (Z.pos m * 2 ^ e, 1).

(** The integer nearest to [n / d]; of two that are as near, the even one. *)
Definition nearest (n d : Z) : Z :=
  let below := n / d in
  match 2 * n ?= (2 * below + 1) * d with
  | Lt => below
  | Gt => below + 1
  | Eq => if Z.even below then below else below + 1
  end.

(** The last [w] digits of [k]. *)
Fixpoint digits (w : nat) (k : Z) : string :=
  match w with
  | O => ""
  | S w' => digits w' (k / 10) +++ String (digit (k mod 10)) ""
  end.

(** [q / 10 ^ k] as a numeral with [k] decimals. *)
Definition decimals (k : nat) (q : Z) : string :=
  str_of_int (q / 10 ^ Z.of_nat k) +++ "." +++ digits k q.

(** A float to two decimals. *)
Definition two_decimals (f : spec_float) : string :=
  match f with
  | S754_nan => "nan"
  | S754_infinity s => sign s +++ "inf"
  | S754_zero s => sign s +++ "0.00"
  | S754_finite s m e =>
      let (n, d) := value m e in sign s +++ decimals 2 (nearest (100 * n) d)
  end.

(** The float 1000. *)
Definition thousand : spec_float := S754_finite false 8796093022208000 (-43).

(** The distance in kilometres, two decimals, unit suffix. *)
Definition km_display (meters : spec_float) : string :=
  two_decimals (SFdiv 53 1024 meters thousand) +++ " km".

(** The number of digits of a positive integer. *)
Definition count_digits (k : Z) : Z := Z.of_nat (String.length (str_of_int k)).

(** Whether [10 ^ k <= n / d]. *)
Definition at_least (n d k : Z) : bool :=
  if k <? 0 then d <=? n * 10 ^ (- k) else d * 10 ^ k <=? n.

(** The decimal exponent of [n / d]: one less than the number of digits of
    its integer part or, below one, the place of its first digit. *)
Definition magnitude (n d : Z) : Z :=
  if d <=? n then count_digits (n / d) - 1 else - count_digits ((d - 1) / n).

(** [n / d] to six significant digits: the six digits and the decimal
    exponent of the first. *)
Definition six_digits (n d : Z) : Z * Z :=
  let x := magnitude n d in
  let q := if x <=? 5 then nearest (n * 10 ^ (5 - x)) d
           else nearest n (d * 10 ^ (x - 5)) in
  if q =? 1000000 then (100000, x + 1) else (q, x).

(** [q / 10 ^ k] without the zeros that end its fraction, and without the
    point when no fraction is left. *)
Fixpoint shortest (k : nat) (q : Z) : string :=
  match k with
  | O => str_of_int q
  | S k' => if q mod 10 =? 0 then shortest k' (q / 10) else decimals k q
  end.

(** The exponent of the scientific notation: a sign and two digits or more. *)
Definition exponent (x : Z) : string :=
  (if x <? 0 then "-" else "+") +++ (if Z.abs x <? 10 then "0" else "")
  +++ str_of_int (Z.abs x).

(** The general format: six significant digits without trailing zeros, in
    scientific notation when the decimal exponent is below -4 or above 5. *)
Definition general (f : spec_float) : string :=
  match f with
  | S754_nan => "nan"
  | S754_infinity s => sign s +++ "inf"
  | S754_zero s => sign s +++ "0"
  | S754_finite s m e =>
      let (n, d) := value m e in
      let (q, x) := six_digits n d in
      sign s +++
      (if (-4 <=? x) && (x <=? 5) then shortest (Z.to_nat (5 - x)) q
       else shortest 5 q +++ "e" +++ exponent x)
  end.

(** Seconds on the clock: the time rule and, below zero, the time rule of
    what is left of an hour. *)
Definition clock (n : Z) : string :=
  time_rule (if n <? 0 then n mod 3600 else n).

(** The elapsed time of a set. *)
Definition elapsed (s : string) : result string :=
  rbind (total_seconds_of (OStr s)) (fun n => Ok (clock n)).

(** "BW" for a weight that is zero or absent, else the weight in the
    general format. *)
Definition weight_display (w : string) : result string :=
  if present w
  then rbind (float_of_str w)
             (fun f => Ok (if is_zero f then "BW" else general f))
  else Ok "BW".

(** The set formatter, branch by branch as the specification orders them. *)
Definition format_set_rule (ex : Exercise) : result (string * string) :=
  if present (distance_m ex) then
    rbind (float_of_str (distance_m ex)) (fun meters =>
    rbind (if present (seconds ex) then elapsed (seconds ex) else Ok "")
          (fun time => Ok (km_display meters, time)))
  else if present (seconds ex) && negb (present (weight_kg ex)) then
    rbind (elapsed (seconds ex)) (fun time => Ok ("", time))
  else
    rbind (weight_display (weight_kg ex)) (fun w => Ok (w, reps ex)).

(** Whether a schema declares a property of the given name. *)
Definition declares (schema : Schema) (key : string) : bool :=
  existsb (String.eqb key) (map fst schema).

(** The keys of a property set that a schema does not declare. *)
Definition undeclared (schema : Schema) (props : Props) : list string :=
  filter (fun key => negb (declares schema key)) (map fst props).

(** Whether a value is of a declared type. *)
Definition of_type (v : PropValue) (t : PropType) : bool :=
  match v, t with
  | PTitle _, TTitle | PRichText _, TRichText | PDate _ _, TDate
  | PSelect _, TSelect | PNumber _, TNumber | PCheckbox _, TCheckbox
  | PMultiSelect _, TMultiSelect => true
  | _, _ => false
  end.

(** Every property of the set is declared by the schema, with its type. *)
Definition fits (schema : Schema) (props : Props) : bool :=
  forallb (fun kv => match od_get (fst kv) schema with
                     | Some t => of_type (snd kv) t
                     | None => false
                     end) props.

(** Every page a trace creates goes to a table of the store, and that
    table declares its properties. *)
Definition creates_fit (st : Store) (calls : list Call) : bool :=
  forallb (fun c =>
             match c with
             | PagesCreate db props _ =>
                 match find (fun d => String.eqb (database_id d) db)
                            (databases st) with
                 | Some d => fits (db_schema d) props
                 | None => false
                 end
             | _ => true
             end) calls.

(** The query of the per-workout existence check. *)
Definition workout_query (database_id workout_date : string) : Call :=
  DatabasesQuery database_id
    (Single (MultiSelectContains "Garmin ID" ("strong-" +++ workout_date))).

(** The query of the aggregation-row check. *)
Definition entry_query (db_id date_str exercise_name : string) : Call :=
  DatabasesQuery db_id
    (And [TitleEquals "Exercise" exercise_name;
          DateOnOrAfter "Date" date_str;
          DateOnOrBefore "Date" date_str]).

(** *** Grouping in first-seen order *)

Definition mem (a : string) (l : list string) : bool :=
  existsb (String.eqb a) l.

(** The distinct values of a list, in the order of their first occurrence. *)
Fixpoint distinct (l : list string) : list string :=
  match l with
  | [] => []
  | a :: t => a :: filter (fun b => negb (String.eqb a b)) (distinct t)
  end.

Section Grouping.

Variables X V : Type.
Variable key : X -> string.
Variable init : X -> V.
Variable add : X -> V -> V.
Variable dflt : V.

(** The elements with a given key, in their order. *)
Definition members (k : string) (xs : list X) : list X :=
  filter (fun x => String.eqb (key x) k) xs.

(** What a key collects: opened by its first element, then every element
    with the key added in order. *)
Definition collected (k : string) (xs : list X) : V :=
  match members k xs with
  | x0 :: _ => fold_left (fun v x => add x v) (members k xs) (init x0)
  | [] => dflt
  end.

Definition grouped (xs : list X) : OrderedDict V :=
  map (fun k => (k, collected k xs)) (distinct (map key xs)).

(** The loop body both groupings of the script share: open the key's entry
    if it is new, then add the element to it. *)
Definition group_into (d : OrderedDict V) (x : X) : OrderedDict V :=
  od_adjust (key x) (add x)
            (if od_mem (key x) d then d else d ++ [(key x, init x)]).

End Grouping.

(** *** The record parser *)

Definition is_rest_timer (row : CsvRow) : bool :=
  String.eqb (Set_Order row) "Rest Timer".

(** The rows that are not rest-timer rows. *)
Definition kept (rows : list CsvRow) : list CsvRow :=
  filter (fun row => negb (is_rest_timer row)) rows.

(** The kept rows bearing a date, in file order. *)
Definition rows_of (d : string) (rows : list CsvRow) : list CsvRow :=
  filter (fun row => String.eqb (Date row) d) (kept rows).

Definition is_ok {A} (r : result A) : bool :=
  match r with
  | Ok _ => true
  | Raise _ => false
  end.

Definition duration_of (row : CsvRow) : Z :=
  match int_of_str (Duration_sec row) with
  | Ok d => d
  | Raise _ => 0
  end.

(** What a record lists of a row: the exercise name, the set order, the
    weight, the repetitions, the distance, the seconds and the notes. *)
Definition listed (row : CsvRow) : Exercise :=
  {| exercise := Exercise_Name row; set_order := Set_Order row;
     weight_kg := Weight_kg row; reps := Reps row;
     distance_m := Distance_meters row; seconds := Seconds row;
     notes := Notes row |}.

(** The record of a date: name and duration of its first kept row, and the
    exercise fields of all its kept rows. *)
Definition record_of (d : string) (rows : list CsvRow) : Workout :=
  match rows_of d rows with
  | first :: _ =>
      mkWorkout d (Workout_Name first) (duration_of first)
                (map listed (rows_of d rows))
  | [] => mkWorkout d "" 0 []
  end.

(** One record per distinct date of the kept rows, in first-seen order. *)
Definition parsed (rows : list CsvRow) : OrderedDict Workout :=
  map (fun d => (d, record_of d rows)) (distinct (map Date (kept rows))).

(** The first kept row of every date has an integer duration; [seen] holds
    the dates met so far. *)
Fixpoint durations_ok (seen : list string) (rows : list CsvRow) : bool :=
  match rows with
  | [] => true
  | row :: rest =>
      if is_rest_timer row then durations_ok seen rest
      else if mem (Date row) seen then durations_ok seen rest
      else is_ok (int_of_str (Duration_sec row))
           && durations_ok (seen ++ [Date row]) rest
  end.

(** The record a row opens, and the row added to a record. *)
Definition open_record (row : CsvRow) : Workout :=
  mkWorkout (Date row) (Workout_Name row) (duration_of row) [].

Definition add_row (row : CsvRow) (w : Workout) : Workout :=
  mkWorkout (date w) (name w) (duration_sec w) (exercises w ++ [listed row]).

(** *** The content builder *)

Definition is_note (ex : Exercise) : bool := String.eqb (set_order ex) "Note".

(** The rows of an exercise, in their order. *)
Definition of_exercise (name : string) (exs : list Exercise) : list Exercise :=
  filter (fun ex => String.eqb (exercise ex) name) exs.

(** The notes of an exercise: the text of its "Note" rows. *)
Definition notes_of (name : string) (exs : list Exercise) : list string :=
  map notes (filter is_note (of_exercise name exs)).

(** The sets of an exercise: its rows that are not "Note" rows. *)
Definition sets_of (name : string) (exs : list Exercise) : list Exercise :=
  filter (fun ex => negb (is_note ex)) (of_exercise name exs).

(** What a group opens with, and how a row joins it. *)
Definition open_group (_ : Exercise) : Group := mkGroup [] [].

Definition add_to_group (ex : Exercise) (g : Group) : Group :=
  if is_note ex then mkGroup (sets g) (group_notes g ++ [notes ex])
  else mkGroup (sets g ++ [ex]) (group_notes g).

(** A text in upright type, and one in italics. *)
Definition upright (s : string) : list RichText :=
  [{| content := s; italic := false |}].

Definition slanted (s : string) : list RichText :=
  [{| content := s; italic := true |}].

(** The results of a list, or the first error met. *)
Fixpoint collect {A} (rs : list (result A)) : result (list A) :=
  match rs with
  | [] => Ok []
  | Ok a :: rest =>
      match collect rest with
      | Ok l => Ok (a :: l)
      | Raise e => Raise e
      end
  | Raise e :: _ => Raise e
  end.

(** The header row of a table of sets. *)
Definition header_row : TableRow :=
  {| cells := [upright "Set"; upright "Weight (kg)"; upright "Reps"] |}.

(** The row of a set: its set order and its two displays. *)
Definition set_cells (s : Exercise) : result TableRow :=
  match format_set_rule s with
  | Ok (weight, reps) =>
      Ok {| cells := [upright (set_order s); upright weight; upright reps] |}
  | Raise e => Raise e
  end.

(** One table of three columns with a header row, when there are sets. *)
Definition sets_table (rows : list Exercise) : result (list Block) :=
  match rows with
  | [] => Ok []
  | _ =>
      match collect (map set_cells rows) with
      | Ok table_rows => Ok [Table 3 true false (header_row :: table_rows)]
      | Raise e => Raise e
      end
  end.

Definition note_paragraph (note : string) : Block := Paragraph (slanted note).

(** A group: its heading, its notes in italics, its table. *)
Definition group_content (exs : list Exercise) (name : string)
  : result (list Block) :=
  match sets_table (sets_of name exs) with
  | Ok table =>
      Ok (Heading3 (upright name)
          :: map note_paragraph (notes_of name exs) ++ table)
  | Raise e => Raise e
  end.

(** Groups in a row, a divider between two of them and none at the end. *)
Fixpoint join_groups (gs : list (list Block)) : list Block :=
  match gs with
  | [] => []
  | g :: rest =>
      match rest with
      | [] => g
      | _ => g ++ Divider :: join_groups rest
      end
  end.

Definition content_rule (exs : list Exercise) : result (list Block) :=
  match collect (map (group_content exs) (distinct (map exercise exs))) with
  | Ok gs => Ok (join_groups gs)
  | Raise e => Raise e
  end.

Definition is_divider (b : Block) : bool :=
  match b with
  | Divider => true
  | _ => false
  end.

(** The blocks of a group without the divider. *)
Definition group_core (entry : string * Group) : result (list Block) :=
  match sets_table (sets (snd entry)) with
  | Ok table =>
      Ok (Heading3 (upright (fst entry))
          :: map note_paragraph (group_notes (snd entry)) ++ table)
  | Raise e => Raise e
  end.

Definition dividers (bs : list Block) : nat :=
  List.length (filter is_divider bs).

(** A group's own blocks: none is a divider, and the heading is there. *)
Definition plain_group (g : list Block) : Prop :=
  dividers g = 0%nat /\ g <> [].

(** A world after a successful remote call. *)
Definition after_call (w : World) (st : Store) (c : Call) : World :=
  mkWorld st [] (console w) (trace w ++ [c]).

(** The ids the [blocks.delete] calls of a trace name, in order. *)
Definition deleted_ids (calls : list Call) : list nat :=
  flat_map (fun c => match c with BlocksDelete b => [b] | _ => [] end) calls.

Definition is_nil {A} (l : list A) : bool :=
  match l with
  | [] => true
  | _ => false
  end.

(** *** The aggregation sync *)

(** [int(s["reps"]) if s["reps"] else 0]. *)
Definition reps_of (s : Exercise) : result Z :=
  if present (reps s) then int_of_str (reps s) else Ok 0.

(** Weight times repetitions of one set. *)
Definition volume (wr : num * Z) : result num :=
  num_mul (fst wr) (Int (snd wr)).

Fixpoint sum_nums (acc : num) (vs : list num) : result num :=
  match vs with
  | [] => Ok acc
  | v :: rest => rbind (num_add acc v) (fun acc' => sum_nums acc' rest)
  end.

(** The statistics of an exercise: the greatest of 0 and the set weights,
    the sum of weight times repetitions, the sum of the repetitions. *)
Definition stats_rule (sets : list Exercise) : result Stats :=
  rbind (map_result weight_of sets) (fun weights =>
  rbind (map_result reps_of sets) (fun counts =>
  rbind (map_result volume (combine weights counts)) (fun volumes =>
  rbind (sum_nums (Int 0) volumes) (fun total_volume =>
  Ok (fold_left num_max weights (Int 0), total_volume,
      fold_left Z.add counts 0))))).

(** The row of an exercise, from its statistics; the total volume is
    rounded to one decimal. *)
Definition entry_of_stats (workout : Workout) (date_iso exercise_name : string)
                          (n : nat) (st : Stats) : Props :=
  let '(max_weight, total_volume, total_reps) := st in
  [("Exercise", PTitle exercise_name);
   ("Date", PDate date_iso None);
   ("Max Weight", PNumber max_weight);
   ("Total Volumn", PNumber (num_round 1 total_volume));
   ("Sets", PNumber (Int (Z.of_nat n)));
   ("Total Reps", PNumber (Int total_reps));
   ("Workouts", PRichText (name workout))].

(** The exercise groups that have a real set, in first-seen order. *)
Definition real_groups (exs : list Exercise) : list (string * list Exercise) :=
  filter (fun g => negb (is_nil (snd g)))
         (map (fun name => (name, sets_of name exs))
              (distinct (map exercise exs))).

(** The row of one group: exercise name and properties. *)
Definition entry_of (workout : Workout) (date_iso : string)
                    (g : string * list Exercise) : result (string * Props) :=
  rbind (entry_properties workout date_iso (fst g) (snd g))
        (fun props => Ok (fst g, props)).

(** The rows a workout contributes. *)
Definition entries_of (workout : Workout) (date_iso : string)
  : result (list (string * Props)) :=
  map_result (entry_of workout date_iso) (real_groups (exercises workout)).

(** A row of the table [db] for exactly this exercise name and date. *)
Definition entry_matches (db exercise_name date_only : string) (p : Page)
  : bool :=
  in_database db p
  && match lookup "Exercise" (properties p) with
     | Some (PTitle t) => String.eqb t exercise_name
     | _ => false
     end
  && match lookup "Date" (properties p) with
     | Some (PDate s _) => String.eqb (date_part s) date_only
     | _ => false
     end.

Definition set_properties (id : nat) (props : Props) (st : Store) : Store :=
  with_pages st
    (modify_page id
       (fun q => with_properties q (merge_props props (properties q)))
       (pages st)).

Definition add_page (db : string) (props : Props) (st : Store) : Store :=
  mkStore (pages st ++ [mkPage (next_id st) db props (Some STRENGTH_ICON) []])
          (databases st) (S (next_id st)) (page_size st).

(** Update in place the first matching row, else create one. *)
Definition upsert (db date_only : string) (w : World)
                  (entry : string * Props) : World :=
  let asked := after_call w (store w) (entry_query db date_only (fst entry)) in
  match find (entry_matches db (fst entry) date_only) (pages (store w)) with
  | Some page =>
      after_call asked (set_properties (page_id page) (snd entry) (store w))
                 (PagesUpdate (page_id page) (snd entry))
  | None =>
      after_call asked (add_page db (snd entry) (store w))
                 (PagesCreate db (snd entry) STRENGTH_ICON)
  end.

(** A page of the table [db] tagged with the stable id of a workout. *)
Definition workout_matches (db workout_date : string) (p : Page) : bool :=
  in_database db p
  && cond_holds (MultiSelectContains "Garmin ID" ("strong-" +++ workout_date)) p.

Definition has_workout (db workout_date : string) (st : Store) : bool :=
  existsb (workout_matches db workout_date) (pages st).

Definition has_entry (db exercise_name date_only : string) (st : Store) : bool :=
  existsb (entry_matches db exercise_name date_only) (pages st).

(** Page ids are distinct and below the next id to be given out. *)
Definition unique_ids (st : Store) : Prop :=
  NoDup (map page_id (pages st))
  /\ Forall (fun p => (page_id p < next_id st)%nat) (pages st).

(** From [st] to [st']: ids stay distinct, and a workout page or an
    aggregation row that could be found can still be found. *)
Definition grows (st st' : Store) : Prop :=
  unique_ids st'
  /\ (forall db d, has_workout db d st = true -> has_workout db d st' = true)
  /\ (forall db n d, has_entry db n d st = true -> has_entry db n d st' = true).

(** An aggregation row: the properties written for the exercise [fst e]. *)
Definition shaped (workout : Workout) (iso : string) (e : string * Props)
  : Prop :=
  exists len stats, snd e = entry_of_stats workout iso (fst e) len stats.

(** A workout is settled in a store when its page and the rows of its
    exercises can be found there. *)
Definition settled (utcoffset : datetime -> Z) (db edb : string)
                   (dw : string * Workout) (st : Store)
  : Prop :=
  has_workout db (fst dw) st = true
  /\ exists s e entries,
       make_workout_dates utcoffset (snd dw) = Ok (s, e)
       /\ entries_of (snd dw) (isoformat s) = Ok entries
       /\ Forall (fun en => has_entry edb (fst en) (strftime_date (local s)) st
                            = true) entries.

Definition is_create (c : Call) : bool :=
  match c with
  | PagesCreate _ _ _ => true
  | _ => false
  end.

(** The [pages.create] calls of a trace. *)
Definition creates (calls : list Call) : list Call := filter is_create calls.

(** The properties the [pages.update] calls of a trace carry, in order. *)
Definition updates_of (calls : list Call) : list Props :=
  flat_map (fun c => match c with PagesUpdate _ props => [props] | _ => [] end)
           calls.

(** The aggregation rows a workout gives rise to. *)
Definition payloads (utcoffset : datetime -> Z) (workout : Workout)
  : list Props :=
  match make_workout_dates utcoffset workout with
  | Ok (s, _) =>
      match entries_of workout (isoformat s) with
      | Ok entries => map snd entries
      | Raise _ => []
      end
  | Raise _ => []
  end.

(** The line [main] prints for a workout it finds in the table. *)
Definition skipped_line (dw : string * Workout) : string :=
  "  Skipped: " +++ name (snd dw) +++ " - " +++ fst dw.

(** What every record the parser returns satisfies. *)
Definition well_keyed (dw : string * Workout) : Prop :=
  date (snd dw) = fst dw
  /\ exercises (snd dw) <> []
  /\ Forall (fun ex => set_order ex <> "Rest Timer") (exercises (snd dw)).

(** What the remote side requires of a table block and what the builder
    declares: three columns, a header row, and three cells in every row. *)
Definition table_ok (b : Block) : Prop :=
  match b with
  | Table width column_header row_header rows =>
      width = 3 /\ column_header = true /\ row_header = false
      /\ hd_error rows = Some (mkRow (map plain table_headers))
      /\ (2 <= List.length rows)%nat
      /\ Forall (fun r => List.length (cells r) = 3%nat) rows
  | _ => True
  end.

(** The properties [create_workout_page] sends. *)
Definition workout_properties (workout : Workout) (start_dt end_dt : aware)
                              (minutes : spec_float) : Props :=
  [("Activity Name", PTitle (name workout));
   ("Date", date_range start_dt end_dt);
   ("Activity Type", PSelect "Strength");
   ("Subactivity Type", PSelect "Strength Training");
   ("Duration (min)", PNumber (Float (round_float 2 minutes)));
   ("Distance (km)", PNumber (Int 0));
   ("Calories", PNumber (Int 0));
   ("Avg Pace", PRichText "");
   ("Avg Power", PNumber (Int 0));
   ("Max Power", PNumber (Int 0));
   ("Training Effect", PSelect "Unknown");
   ("Aerobic", PNumber (Int 0));
   ("Aerobic Effect", PSelect "Unknown");
   ("Anaerobic", PNumber (Int 0));
   ("Anaerobic Effect", PSelect "Unknown");
   ("PR", PCheckbox false);
   ("Fav", PCheckbox false);
   ("Garmin ID", PMultiSelect ["strong-" +++ date workout])].

(** An exercise has a real set: a row that is not a "Note" row. *)
Definition has_set (name : string) (exs : list Exercise) : bool :=
  existsb (fun ex => String.eqb (exercise ex) name
                     && negb (String.eqb (set_order ex) "Note")) exs.

(** The path [main] writes to. *)
Definition output_path_of (getenv : string -> option string) : string :=
  match getenv "STRONG_CSV_PATH" with
  | Some p => p
  | None => "strong_export.csv"
  end.

(** The year of the era of a day of the era, and the first day of a year. *)
Definition year_of_era (doe : Z) : Z :=
  (doe - doe / 1460 + doe / 36524 - doe / 146096) / 365.

Definition year_start (yoe : Z) : Z := 365 * yoe + yoe / 4 - yoe / 100.

(** On a stretch of days on which the three quotients do not move, the year
    of the era is the same at both ends and the days lie in that year. *)
Definition stretch_ok (lo hi : Z) : bool :=
  (lo / 1460 =? hi / 1460) && (lo / 36524 =? hi / 36524)
  && (lo / 146096 =? hi / 146096)
  && (year_of_era lo =? year_of_era hi)
  && (0 <=? year_of_era lo) && (year_of_era lo <=? 399)
  && (year_start (year_of_era lo) <=? lo)
  && (hi - year_start (year_of_era lo) <=? 365).

(** The day after the stretch that starts at [lo]. *)
Definition next_stretch (lo : Z) : Z :=
  Z.max (lo + 1)
    (Z.min (Z.min ((lo / 1460 + 1) * 1460) ((lo / 36524 + 1) * 36524))
           (Z.min (Z.min ((lo / 146096 + 1) * 146096)
                         (year_start (year_of_era lo + 1)))
                  146097)).

Fixpoint stretches_ok (fuel : nat) (lo : Z) : bool :=
  if 146097 <=? lo then true
  else match fuel with
       | O => false
       | S fuel' =>
           stretch_ok lo (next_stretch lo - 1)
           && stretches_ok fuel' (next_stretch lo)
       end.

(** A day of the year goes to month and day and back. *)
Definition year_day_ok (doy : Z) : bool :=
  let mp := (5 * doy + 2) / 153 in
  let d := doy - (153 * mp + 2) / 5 + 1 in
  let m := if mp <? 10 then mp + 3 else mp - 9 in
  ((153 * ((m + 9) mod 12) + 2) / 5 + d - 1 =? doy).

End Spec.

(** * Concrete inputs

    A small export, environments and stores on which the statements below
    are evaluated. *)

Module Demo.
Import Py Clock Notion StrongSync.

(** Central European Time without daylight saving. *)
Definition cet (_ : datetime) : Z := 3600.

Definition row (d n dur ex so w rp di se nt : string) : CsvRow :=
  mkCsvRow d n dur ex so w rp di se nt.

Definition morning : string := "2024-01-05 07:00:00".
Definition evening : string := "2024-01-07 18:30:00".

Definition rows : list CsvRow :=
  [row morning "Morning" "3600" "Squat" "1" "100.0" "5" "" "" "";
   row morning "Morning" "3600" "Squat" "Rest Timer" "" "" "" "90" "";
   row morning "Morning" "3600" "Squat" "Note" "" "" "" "" "felt good";
   row morning "Morning" "3600" "Squat" "2" "62.5" "8" "" "" "";
   row morning "Morning" "3600" "Row" "1" "0" "500" "" "" "";
   row morning "Morning" "3600" "Row" "2" "0" "480" "" "" "";
   row morning "Morning" "3600" "Run" "1" "" "" "2000" "480" "";
   row morning "Morning" "3600" "Plank" "1" "" "" "" "125" "";
   row evening "Evening" "1800" "Curl" "1" "1.25" "1" "" "" ""].

Definition files (path : string) : option (list CsvRow) :=
  if String.eqb path "strong.csv" then Some rows else None.

(** An environment with the input path and the table id but no token. *)
Definition env_without_token (key : string) : option string :=
  if String.eqb key "STRONG_CSV_PATH" then Some "strong.csv"
  else if String.eqb key "NOTION_DB_ID" then Some "activities"
  else None.

(** A complete environment without the id of the exercise table. *)
Definition env_basic (key : string) : option string :=
  if String.eqb key "NOTION_TOKEN" then Some "secret"
  else env_without_token key.

(** A complete environment. *)
Definition env_full (key : string) : option string :=
  if String.eqb key "NOTION_EXERCISE_DB_ID" then Some "exercises"
  else env_basic key.

Definition args : Args := mkArgs None false.

Definition empty_store : Store := mkStore [] [] 0 100.

(** An activities table that declares the properties of a workout page. *)
Definition activities_schema : Schema :=
  [("Activity Name", TTitle); ("Date", TDate); ("Activity Type", TSelect);
   ("Subactivity Type", TSelect); ("Duration (min)", TNumber);
   ("Distance (km)", TNumber); ("Calories", TNumber); ("Avg Pace", TRichText);
   ("Avg Power", TNumber); ("Max Power", TNumber); ("Training Effect", TSelect);
   ("Aerobic", TNumber); ("Aerobic Effect", TSelect); ("Anaerobic", TNumber);
   ("Anaerobic Effect", TSelect); ("PR", TCheckbox); ("Fav", TCheckbox);
   ("Garmin ID", TMultiSelect)].

(** An exercise table made by hand, with the property names that
    [sync_exercise_entries] writes. *)
Definition entries_schema : Schema :=
  [("Exercise", TTitle); ("Date", TDate); ("Max Weight", TNumber);
   ("Total Volumn", TNumber); ("Sets", TNumber); ("Total Reps", TNumber);
   ("Workouts", TRichText)].

(** A workspace with both tables. *)
Definition full_store : Store :=
  mkStore [] [mkDatabase "activities" WorkspaceParent "Activities"
                         activities_schema;
              mkDatabase "exercises" WorkspaceParent "Exercises"
                         entries_schema]
          0 100.

(** A workspace whose activities table sits in another table. *)
Definition nested_store : Store :=
  mkStore [] [mkDatabase "activities" (DatabaseParent "root") "Activities"
                         activities_schema]
          0 100.

Definition world (st : Store) (plan : list bool) : World :=
  mkWorld st plan [] [].

Definition small_store : Store := mkStore [] [] 0 2.

(** The world a first run over the export leaves, with pages of two results. *)
Definition synced : World :=
  snd (StrongSync.main cet 0 env_full files args
         (world small_store [])).

Definition morning_workout : Workout := Spec.record_of morning rows.

Definition morning_page : Page :=
  match find_page 0 (store synced) with
  | Some p => p
  | None => mkPage 0 "" [] None []
  end.

Definition curl : Exercise := mkExercise "Curl" "1" "1.25" "1" "" "" "".

Definition evening_workout : Workout := Spec.record_of evening rows.

(** A first run of [main] over the export, from the store [st]. *)
Definition first_run (env : string -> option string) (st : Store)
  : result unit * World :=
  main cet 0 env files args (world st []).

(** The run after it, from the store the first one left. *)
Definition second_run (env : string -> option string) (st : Store)
  : result unit * World :=
  main cet 0 env files args
       (world (store (snd (first_run env st))) []).

(** A workout whose weight is written with a decimal comma. *)
Definition comma_workout : Workout :=
  mkWorkout morning "Morning" 3600
            [mkExercise "Squat" "1" "62,5" "5" "" "" ""].

(** A workout that holds one note. *)
Definition note_workout : Workout :=
  mkWorkout morning "Morning" 3600
            [mkExercise "Squat" "Note" "" "" "" "" "felt good"].

(** A drive with two exports and a text file, and a disk with an old copy. *)
Definition drive_files : list DownloadStrongCsv.DriveFile :=
  [DownloadStrongCsv.mkDriveFile "f1" "strong_old.csv" "2024-01-01T10:00:00.000Z"
     ["folder"] false ["Date;"; "old"];
   DownloadStrongCsv.mkDriveFile "f2" "strong.csv" "2024-02-01T10:00:00.000Z"
     ["folder"] false ["Date;Workout Name"; ";Duration"; " (sec)"];
   DownloadStrongCsv.mkDriveFile "f3" "notes.txt" "2024-03-01T10:00:00.000Z"
     ["folder"] false ["text"]].

Definition fetch_env (key : string) : option string :=
  if String.eqb key "GOOGLE_DRIVE_FOLDER_ID" then Some "folder"
  else if String.eqb key "GOOGLE_SERVICE_ACCOUNT_JSON" then Some "{}"
  else None.

(** The same environment, pointed at a folder that holds nothing. *)
Definition fetch_env_empty (key : string) : option string :=
  if String.eqb key "GOOGLE_DRIVE_FOLDER_ID" then Some "attic"
  else fetch_env key.

Definition drive_world (plan : list bool) : DownloadStrongCsv.World :=
  DownloadStrongCsv.mkWorld drive_files [("strong_export.csv", "stale")]
                            plan [] [].

(** A workout whose date has no time of day. *)
Definition dateless_workout : Workout :=
  mkWorkout "2024-01-05" "Morning" 3600
            [mkExercise "Squat" "1" "100.0" "5" "" "" ""].

End Demo.

(** * Verified properties *)

Import Py Clock Notion StrongSync.

(** ** Strings *)

Lemma append_assoc3 (a b c : string) : (a +++ b) +++ c = a +++ (b +++ c).
Proof. induction a as [|x a IH]; simpl; [reflexivity | rewrite IH; reflexivity]. Qed.

Lemma append_empty (a : string) : a +++ "" = a.
Proof. induction a as [|x a IH]; simpl; [reflexivity | rewrite IH; reflexivity]. Qed.

Lemma length_append (a b : string) :
  String.length (a +++ b) = (String.length a + String.length b)%nat.
Proof. induction a as [|c a IH]; simpl; [reflexivity | rewrite IH; reflexivity]. Qed.

Lemma substring_prefix (a b : string) :
  substring 0 (String.length a) (a +++ b) = a.
Proof.
  induction a as [|c a IH]; simpl.
  - destruct b; reflexivity.
  - rewrite IH. reflexivity.
Qed.

(** ** Decimal numerals *)

Lemma nzhead_no_leading_zero (u : Decimal.uint) :
  match Decimal.nzhead u with Decimal.D0 _ => False | _ => True end.
Proof.
  induction u; simpl; auto.
Qed.

Lemma to_uint_no_leading_zero (p : positive) :
  match Pos.to_uint p with
  | Decimal.D0 _ | Decimal.Nil => False
  | _ => True
  end.
Proof.
  pose proof (DecimalPos.Unsigned.to_of (Pos.to_uint p)) as H.
  rewrite DecimalPos.Unsigned.of_to in H. simpl in H.
  pose proof (DecimalPos.Unsigned.to_uint_nonzero p) as Hnz.
  pose proof (DecimalPos.Unsigned.to_uint_nonnil p) as Hnn.
  pose proof (nzhead_no_leading_zero (Pos.to_uint p)) as Hh.
  unfold Decimal.unorm in H.
  destruct (Decimal.nzhead (Pos.to_uint p)) eqn:E;
    try contradiction; rewrite H; exact I.
Qed.

Lemma str_of_int_pos_no_leading_zero (k : Z) :
  0 < k -> Spec.starts_with_zero (str_of_int k) = false.
Proof.
  intros Hk. destruct k as [|p|p]; try lia.
  unfold str_of_int. simpl.
  pose proof (to_uint_no_leading_zero p) as H.
  destruct (Pos.to_uint p); simpl; try reflexivity; contradiction.
Qed.

Lemma fmt_02d_two_digits (m : Z) :
  0 <= m < 60 -> fmt_02d m = Spec.two_digits m.
Proof.
  intros Hm.
  assert (Hall : forallb (fun k => String.eqb (fmt_02d (Z.of_nat k))
                                      (Spec.two_digits (Z.of_nat k)))
                         (seq 0 60) = true) by (vm_compute; reflexivity).
  rewrite forallb_forall in Hall.
  specialize (Hall (Z.to_nat m)).
  rewrite Z2Nat.id in Hall by lia.
  apply String.eqb_eq, Hall, in_seq. lia.
Qed.

(** ** The time formatter *)

Lemma rbind_ok {A B} (r : result A) (k : A -> result B) (b : B) :
  rbind r k = Ok b -> exists a, r = Ok a /\ k a = Ok b.
Proof.
  destruct r as [a|e]; simpl; intros H; [eauto | discriminate].
Qed.

Lemma format_time_of_total (o : obj) (n : Z) :
  Spec.total_seconds_of o = Ok n ->
  format_time o =
  Ok (if 0 <? n / 3600
      then str_of_int (n / 3600) +++ ":" +++ fmt_02d (n mod 3600 / 60)
           +++ ":" +++ fmt_02d (n mod 60)
      else str_of_int (n mod 3600 / 60) +++ ":" +++ fmt_02d (n mod 60)).
Proof.
  unfold Spec.total_seconds_of, format_time. intros H.
  apply rbind_ok in H. destruct H as (f & Hf & Hn).
  rewrite Hf. simpl. rewrite Hn. reflexivity.
Qed.

(** C6.  For every non-negative total-seconds value the time formatter
    renders [H:MM:SS] when the value is at least 3600 and [M:SS] otherwise;
    the leading unit is printed without a leading zero and each trailing unit
    with exactly two digits; 45 renders as "0:45", 125 as "2:05" and 3725 as
    "1:02:05". *)
Theorem format_time_rule (o : obj) (n : Z) :
  Spec.total_seconds_of o = Ok n -> 0 <= n ->
  format_time o = Ok (Spec.time_rule n)
  /\ (Spec.leading_unit n = 0
      \/ Spec.starts_with_zero (str_of_int (Spec.leading_unit n)) = false)
  /\ format_time (OInt 45) = Ok "0:45"
  /\ format_time (OInt 125) = Ok "2:05"
  /\ format_time (OInt 3725) = Ok "1:02:05".
Proof.
  intros Ho Hn. split; [|split; [|repeat split; vm_compute; reflexivity]].
  - rewrite (format_time_of_total o n Ho). unfold Spec.time_rule. f_equal.
    assert (Hs : 0 <= n mod 60 < 60) by (apply Z.mod_pos_bound; lia).
    assert (Hm : 0 <= n mod 3600 / 60 < 60).
    { pose proof (Z.mod_pos_bound n 3600 ltac:(lia)).
      split; [apply Z.div_pos; lia | apply Z.div_lt_upper_bound; lia]. }
    rewrite !fmt_02d_two_digits by assumption.
    destruct (Z.leb_spec 3600 n) as [Hge|Hlt].
    + assert (0 < n / 3600) by (apply Z.div_str_pos; lia).
      destruct (Z.ltb_spec 0 (n / 3600)); [reflexivity | lia].
    + assert (n / 3600 = 0) as -> by (apply Z.div_small; lia).
      rewrite (Z.mod_small n 3600) by lia. reflexivity.
  - unfold Spec.leading_unit.
    assert (Hl : 0 <= (if 3600 <=? n then n / 3600 else n / 60)).
    { destruct (3600 <=? n); apply Z.div_pos; lia. }
    destruct (Z.eq_dec (if 3600 <=? n then n / 3600 else n / 60) 0) as [E|E].
    + left. exact E.
    + right. apply str_of_int_pos_no_leading_zero. lia.
Qed.

Lemma format_time_rule_witness :
  Spec.total_seconds_of (OStr "125") = Ok 125 /\
  format_time (OStr "125") = Ok "2:05".
Proof.
  split; [vm_compute; reflexivity |].
  pose proof (format_time_rule (OStr "125") 125) as H.
  destruct H as (H & _); [vm_compute; reflexivity | lia |].
  rewrite H. vm_compute. reflexivity.
Defined.

(** ** The set formatter *)

Lemma num_is_zero_float (f : spec_float) :
  num_is_zero (Float f) = Spec.is_zero f.
Proof.
  destruct f as [[|]|[|]| |s m e]; try reflexivity.
  unfold num_is_zero, ext_of, ratio_of_float.
  destruct (0 <=? e) eqn:He; cbv beta iota.
  - apply Z.leb_le in He.
    pose proof (Z.pow_pos_nonneg 2 e ltac:(lia) He) as Hp.
    pose proof (Pos2Z.is_pos m) as Hm.
    remember (2 ^ e) as x. remember (Z.pos m) as y.
    destruct s; apply Z.eqb_neq; nia.
  - destruct s; reflexivity.
Qed.

Lemma succs_add (k : nat) (n : N) : Spec.succs k n = (n + N.of_nat k)%N.
Proof. induction k as [|k IH]; simpl Spec.succs; [lia|]. rewrite IH. lia. Qed.

Lemma to_lu_digit (p : positive) (b : Z) :
  0 <= b < 10 ->
  DecimalPos.Unsigned.to_lu (Z.to_N (10 * Z.pos p + b))
  = Spec.cons_digit b (DecimalPos.Unsigned.to_lu (N.pos p)).
Proof.
  intros Hb.
  pose proof (DecimalPos.Unsigned.to_ldec_tenfold p) as H10.
  set (t := (10 * N.pos p)%N) in *.
  assert (E : Z.to_N (10 * Z.pos p + b) = Spec.succs (Z.to_nat b) t).
  { rewrite succs_add. unfold t. lia. }
  rewrite E. clear E.
  assert (b = 0 \/ b = 1 \/ b = 2 \/ b = 3 \/ b = 4 \/ b = 5 \/ b = 6 \/ b = 7
          \/ b = 8 \/ b = 9) as Hc by lia.
  repeat (destruct Hc as [->|Hc]); [..|subst b].
  all: match goal with
       | |- context [Z.to_nat ?k] =>
           let n := eval compute in (Z.to_nat k) in
           change (Z.to_nat k) with n
       end.
  all: cbn [Spec.succs Spec.cons_digit];
    rewrite ?DecimalPos.Unsigned.to_lu_succ, H10; reflexivity.
Qed.

Lemma string_of_uint_revapp (d acc : Decimal.uint) :
  NilEmpty.string_of_uint (Decimal.revapp d acc)
  = NilEmpty.string_of_uint (Decimal.revapp d Decimal.Nil) +++ NilEmpty.string_of_uint acc.
Proof.
  revert acc. induction d; intros acc; cbn [Decimal.revapp];
    try reflexivity;
    rewrite IHd; symmetry; rewrite IHd; cbn [NilEmpty.string_of_uint];
    rewrite append_assoc3; reflexivity.
Qed.

(** The numeral of [10 * a + b] is the numeral of [a] and the digit [b]. *)
Lemma str_of_int_digit (a b : Z) :
  0 < a -> 0 <= b < 10 ->
  str_of_int (10 * a + b) = str_of_int a +++ String (Spec.digit b) "".
Proof.
  intros Ha Hb. destruct a as [|p|p]; try lia.
  unfold str_of_int.
  assert (Hpos : exists q, 10 * Z.pos p + b = Z.pos q
                           /\ Z.to_N (10 * Z.pos p + b) = N.pos q).
  { destruct (10 * Z.pos p + b) as [|q|q] eqn:E; try lia.
    exists q. split; reflexivity. }
  destruct Hpos as (q & Eq & EN). rewrite Eq.
  pose proof (to_lu_digit p b Hb) as H. rewrite EN in H.
  cbn [DecimalPos.Unsigned.to_lu] in H.
  cbn [Z.to_int NilZero.string_of_int]. unfold Pos.to_uint, Decimal.rev.
  rewrite H.
  pose proof (DecimalPos.Unsigned.to_uint_nonnil p) as Hnn.
  unfold Pos.to_uint, Decimal.rev in Hnn.
  assert (Hstep : NilEmpty.string_of_uint
                    (Decimal.revapp (Spec.cons_digit b (Pos.to_little_uint p))
                                    Decimal.Nil)
                  = NilEmpty.string_of_uint (Decimal.revapp (Pos.to_little_uint p)
                                                   Decimal.Nil)
                    +++ String (Spec.digit b) "").
  { assert (b = 0 \/ b = 1 \/ b = 2 \/ b = 3 \/ b = 4 \/ b = 5 \/ b = 6
            \/ b = 7 \/ b = 8 \/ b = 9) as Hc by lia.
    repeat (destruct Hc as [->|Hc]); [..|subst b];
      cbn [Spec.cons_digit Decimal.revapp];
      rewrite string_of_uint_revapp; reflexivity. }
  assert (Hnz : forall d, d <> Decimal.Nil ->
                 NilZero.string_of_uint d = NilEmpty.string_of_uint d).
  { intros d Hd. destruct d; try reflexivity. contradiction. }
  rewrite (Hnz _ Hnn), <- Hstep. apply Hnz.
  intros E. apply (f_equal NilEmpty.string_of_uint) in E.
  rewrite Hstep in E. cbn [NilEmpty.string_of_uint] in E.
  destruct (NilEmpty.string_of_uint _) in E; discriminate.
Qed.

Lemma nearest_round (n d : Z) : 0 < d -> round_half_even n d = Spec.nearest n d.
Proof.
  intros Hd. unfold round_half_even, Spec.nearest.
  pose proof (Z.div_mod n d ltac:(lia)) as E.
  pose proof (Z.mod_pos_bound n d Hd) as Hr.
  set (q := n / d) in *. set (r := n mod d) in *.
  destruct (Z.compare_spec (2 * n) ((2 * q + 1) * d)) as [H|H|H];
    destruct (Z.ltb_spec (2 * r) d); try lia;
    destruct (Z.ltb_spec d (2 * r)); try lia; reflexivity.
Qed.

(** [Spec.nearest] is at most half a unit away. *)
Lemma nearest_is_nearest (n d : Z) :
  0 < d -> Z.abs (2 * (n - Spec.nearest n d * d)) <= d.
Proof.
  intros Hd. unfold Spec.nearest.
  pose proof (Z.div_mod n d ltac:(lia)) as E.
  pose proof (Z.mod_pos_bound n d Hd) as Hr.
  set (q := n / d) in *. set (r := n mod d) in *.
  destruct (Z.compare_spec (2 * n) ((2 * q + 1) * d)) as [Hc|Hc|Hc];
    try (destruct (Z.even q)); lia.
Qed.

Lemma nearest_bounds (n d lo hi : Z) :
  0 < d -> lo * d <= n <= hi * d -> lo <= Spec.nearest n d <= hi.
Proof.
  intros Hd H. unfold Spec.nearest.
  pose proof (Z.div_mod n d ltac:(lia)) as E.
  pose proof (Z.mod_pos_bound n d Hd) as Hr.
  set (q := n / d) in *. set (r := n mod d) in *.
  assert (lo <= q) by nia. assert (q <= hi) by nia.
  destruct (Z.compare_spec (2 * n) ((2 * q + 1) * d)) as [Hc|Hc|Hc];
    try (destruct (Z.even q)); try lia; nia.
Qed.

Lemma str_of_int_digits (k : nat) :
  forall q, 10 ^ Z.of_nat k <= q ->
    str_of_int q = str_of_int (q / 10 ^ Z.of_nat k) +++ Spec.digits k q.
Proof.
  induction k as [|k IH]; intros q Hq.
  - cbn [Spec.digits]. rewrite append_empty. change (10 ^ Z.of_nat 0) with 1.
    rewrite Z.div_1_r. reflexivity.
  - rewrite Nat2Z.inj_succ, Z.pow_succ_r in * by lia.
    assert (Hp : 0 < 10 ^ Z.of_nat k) by (apply Z.pow_pos_nonneg; lia).
    pose proof (Z.div_mod q 10 ltac:(lia)) as E.
    pose proof (Z.mod_pos_bound q 10 ltac:(lia)) as Hr.
    assert (Hq10 : 10 ^ Z.of_nat k <= q / 10).
    { apply Z.div_le_lower_bound; lia. }
    rewrite E at 1. rewrite str_of_int_digit by lia.
    rewrite (IH (q / 10) Hq10). cbn [Spec.digits].
    rewrite Z.div_div by lia. rewrite append_assoc3. reflexivity.
Qed.

Lemma length_digits (k : nat) : forall q, String.length (Spec.digits k q) = k.
Proof.
  induction k as [|k IH]; intros q; cbn [Spec.digits]; [reflexivity|].
  rewrite length_append, IH. simpl. lia.
Qed.

Lemma str_of_int_small (a : Z) :
  0 <= a < 10 -> str_of_int a = String (Spec.digit a) "".
Proof.
  intros Ha.
  assert (a = 0 \/ a = 1 \/ a = 2 \/ a = 3 \/ a = 4 \/ a = 5 \/ a = 6 \/ a = 7
          \/ a = 8 \/ a = 9) as Hc by lia.
  repeat (destruct Hc as [->|Hc]); [..|subst a]; reflexivity.
Qed.

Lemma substring_all (b : string) : substring 0 (String.length b) b = b.
Proof. induction b as [|c b IH]; simpl; [reflexivity | rewrite IH; reflexivity]. Qed.

Lemma substring_suffix (a b : string) :
  substring (String.length a) (String.length b) (a +++ b) = b.
Proof. induction a as [|c a IH]; simpl; [apply substring_all | exact IH]. Qed.

(** A numeral of at least [k] digits, cut before its last [k] digits. *)
Lemma str_of_int_cut (k : nat) (q : Z) :
  10 ^ Z.of_nat k <= q ->
  let ds := str_of_int q in
  let i := (String.length ds - k)%nat in
  String.length ds = (String.length (str_of_int (q / 10 ^ Z.of_nat k)) + k)%nat
  /\ substring 0 i ds = str_of_int (q / 10 ^ Z.of_nat k)
  /\ substring i k ds = Spec.digits k q.
Proof.
  intros Hq. cbv zeta. rewrite (str_of_int_digits k q Hq).
  set (a := str_of_int (q / 10 ^ Z.of_nat k)).
  rewrite length_append, length_digits.
  replace (String.length a + k - k)%nat with (String.length a) by lia.
  split; [reflexivity|]. split; [apply substring_prefix|].
  pose proof (substring_suffix a (Spec.digits k q)) as H.
  rewrite length_digits in H. exact H.
Qed.

Lemma fixed_split (q : Z) :
  0 <= q ->
  let ds := zfill 3 q in
  let k := (String.length ds - 2)%nat in
  substring 0 k ds +++ "." +++ substring k 2 ds = Spec.decimals 2 q.
Proof.
  intros Hq. destruct (Z_lt_ge_dec q 100) as [Hlt|Hge].
  - assert (Hall : forallb
                     (fun n => let q := Z.of_nat n in
                               let ds := zfill 3 q in
                               let k := (String.length ds - 2)%nat in
                               String.eqb (substring 0 k ds +++ "."
                                           +++ substring k 2 ds)
                                          (Spec.decimals 2 q))
                     (seq 0 100) = true) by (vm_compute; reflexivity).
    rewrite forallb_forall in Hall. specialize (Hall (Z.to_nat q)).
    rewrite Z2Nat.id in Hall by lia.
    apply String.eqb_eq, Hall, in_seq. lia.
  - cbv zeta.
    destruct (str_of_int_cut 2 q ltac:(change (10 ^ Z.of_nat 2) with 100; lia))
      as (Hlen & Hpre & Hsuf).
    assert (Hne : String.length (str_of_int (q / 10 ^ Z.of_nat 2)) <> 0%nat).
    { change (10 ^ Z.of_nat 2) with 100.
      assert (0 < q / 100) by (apply Z.div_str_pos; lia).
      destruct (q / 100) as [|p|p] eqn:E; try lia.
      unfold str_of_int. cbn [Z.to_int NilZero.string_of_int].
      pose proof (DecimalPos.Unsigned.to_uint_nonnil p) as Hnn.
      unfold NilZero.string_of_uint.
      destruct (Pos.to_uint p); [contradiction|..]; discriminate. }
    assert (Hz : zfill 3 q = str_of_int q).
    { unfold zfill. rewrite Hlen.
      replace (3 - (String.length (str_of_int (q / 10 ^ Z.of_nat 2)) + 2))%nat
        with 0%nat by lia.
      reflexivity. }
    rewrite Hz, Hpre, Hsuf. reflexivity.
Qed.

Lemma value_ratio (s : bool) (m : positive) (e : Z) :
  ratio_of_float (S754_finite s m e)
  = Some (s, fst (Spec.value m e), snd (Spec.value m e))
  /\ 0 < fst (Spec.value m e) /\ 0 < snd (Spec.value m e).
Proof.
  unfold ratio_of_float, Spec.value.
  destruct (Z.leb_spec 0 e); destruct (Z.ltb_spec e 0); try lia; cbn [fst snd].
  - split; [reflexivity|].
    pose proof (Z.pow_pos_nonneg 2 e ltac:(lia) ltac:(lia)). lia.
  - split; [reflexivity|].
    pose proof (Z.pow_pos_nonneg 2 (- e) ltac:(lia) ltac:(lia)). lia.
Qed.

Lemma fmt_fixed_two_decimals (f : spec_float) : fmt_fixed 2 f = Spec.two_decimals f.
Proof.
  destruct f as [s|s| |s m e]; try reflexivity.
  unfold fmt_fixed, Spec.two_decimals.
  destruct (value_ratio s m e) as (-> & Hn & Hd).
  destruct (Spec.value m e) as [n d]. cbn [fst snd] in *.
  change (10 ^ Z.of_nat 2) with 100.
  rewrite nearest_round by exact Hd. rewrite (Z.mul_comm n 100).
  assert (Hq : 0 <= Spec.nearest (100 * n) d).
  { apply (nearest_bounds (100 * n) d 0 (100 * n) Hd). nia. }
  pose proof (fixed_split _ Hq) as H. cbv zeta in H.
  change ((2 =? 0)%nat) with false. cbv iota.
  unfold Spec.sign, sign_str. f_equal. exact H.
Qed.

Lemma km_display_code (meters : spec_float) :
  fmt_fixed 2 (SFdiv prec emax meters (float_of_ratio false 1000 1)) +++ " km"
  = Spec.km_display meters.
Proof. unfold Spec.km_display. rewrite fmt_fixed_two_decimals. reflexivity. Qed.

Lemma format_time_clock (o : obj) :
  format_time o = rbind (Spec.total_seconds_of o) (fun n => Ok (Spec.clock n)).
Proof.
  destruct (Spec.total_seconds_of o) as [n|err] eqn:E.
  - rewrite (format_time_of_total o n E). cbn [rbind]. f_equal.
    unfold Spec.clock, Spec.time_rule.
    assert (Hs : 0 <= n mod 60 < 60) by (apply Z.mod_pos_bound; lia).
    assert (Hm : 0 <= n mod 3600 / 60 < 60).
    { pose proof (Z.mod_pos_bound n 3600 ltac:(lia)).
      split; [apply Z.div_pos; lia | apply Z.div_lt_upper_bound; lia]. }
    rewrite !fmt_02d_two_digits by assumption.
    destruct (Z.ltb_spec n 0) as [Hneg|Hpos].
    + assert (Hh : n / 3600 < 0) by (apply Z.div_lt_upper_bound; lia).
      destruct (Z.ltb_spec 0 (n / 3600)); [lia|].
      pose proof (Z.mod_pos_bound n 3600 ltac:(lia)) as Hb.
      destruct (Z.leb_spec 3600 (n mod 3600)); [lia|].
      replace ((n mod 3600) mod 60) with (n mod 60); [reflexivity|].
      Z.div_mod_to_equations. lia.
    + destruct (Z.leb_spec 3600 n) as [Hge|Hlt].
      * assert (0 < n / 3600) by (apply Z.div_str_pos; lia).
        destruct (Z.ltb_spec 0 (n / 3600)); [reflexivity | lia].
      * assert (n / 3600 = 0) as -> by (apply Z.div_small; lia).
        rewrite (Z.mod_small n 3600) by lia. reflexivity.
  - unfold Spec.total_seconds_of in E. unfold format_time.
    destruct (float_of o) as [f|e1]; cbn [rbind] in *.
    + rewrite E. reflexivity.
    + injection E as <-. reflexivity.
Qed.

(** A positive integer lies between the powers of ten that its number of
    digits names. *)
Lemma count_digits_bounds (n : Z) :
  0 < n ->
  1 <= Spec.count_digits n
  /\ 10 ^ (Spec.count_digits n - 1) <= n < 10 ^ Spec.count_digits n.
Proof.
  intros Hn. assert (H0 : 0 <= n) by lia. revert Hn.
  pattern n. apply Z_lt_induction; [|exact H0]. clear n H0.
  intros n IH Hn.
  destruct (Z_lt_ge_dec n 10) as [Hlt|Hge].
  - unfold Spec.count_digits. rewrite str_of_int_small by lia.
    cbn [String.length Z.of_nat Pos.of_succ_nat]. change (10 ^ (1 - 1)) with 1.
    change (10 ^ 1) with 10. lia.
  - pose proof (Z.div_mod n 10 ltac:(lia)) as E.
    pose proof (Z.mod_pos_bound n 10 ltac:(lia)) as Hr.
    assert (Ha : 0 < n / 10) by (apply Z.div_str_pos; lia).
    destruct (IH (n / 10) ltac:(lia) Ha) as (Hc & Hlo & Hhi).
    assert (Ec : Spec.count_digits n = Spec.count_digits (n / 10) + 1).
    { unfold Spec.count_digits. rewrite E at 1.
      rewrite str_of_int_digit by lia. rewrite length_append.
      cbn [String.length]. lia. }
    rewrite Ec. set (c := Spec.count_digits (n / 10)) in *.
    replace (c + 1 - 1) with (Z.succ (c - 1)) by lia.
    replace (c + 1) with (Z.succ c) at 2 by lia.
    rewrite !Z.pow_succ_r by lia. lia.
Qed.

Lemma pow10_pos (k : Z) : 0 <= k -> 0 < 10 ^ k.
Proof. intros. apply Z.pow_pos_nonneg; lia. Qed.

Lemma pow10_add (a b : Z) : 0 <= a -> 0 <= b -> 10 ^ (a + b) = 10 ^ a * 10 ^ b.
Proof. intros. apply Z.pow_add_r; lia. Qed.

Lemma pow10_le (a b : Z) : 0 <= a <= b -> 10 ^ a <= 10 ^ b.
Proof. intros. apply Z.pow_le_mono_r; lia. Qed.

Lemma at_least_mono (n d k k' : Z) :
  0 < n -> 0 < d -> k <= k' ->
  Spec.at_least n d k' = true -> Spec.at_least n d k = true.
Proof.
  intros Hn Hd Hk. unfold Spec.at_least.
  destruct (Z.ltb_spec k' 0); destruct (Z.ltb_spec k 0); try lia;
    rewrite !Z.leb_le; intros Hle.
  - pose proof (pow10_le (- k') (- k) ltac:(lia)). nia.
  - pose proof (pow10_pos (- k) ltac:(lia)).
    pose proof (pow10_pos k' ltac:(lia)). nia.
  - pose proof (pow10_le k k' ltac:(lia)). nia.
Qed.

(** The decimal exponent of a fraction is determined. *)
Lemma at_least_unique (n d x y : Z) :
  0 < n -> 0 < d ->
  Spec.at_least n d x = true -> Spec.at_least n d (x + 1) = false ->
  Spec.at_least n d y = true -> Spec.at_least n d (y + 1) = false ->
  x = y.
Proof.
  intros Hn Hd Hx Hx' Hy Hy'.
  destruct (Z.lt_trichotomy x y) as [H|[H|H]]; [|exact H|].
  - rewrite (at_least_mono n d (x + 1) y Hn Hd ltac:(lia) Hy) in Hx'.
    discriminate.
  - rewrite (at_least_mono n d (y + 1) x Hn Hd ltac:(lia) Hx) in Hy'.
    discriminate.
Qed.

Lemma ge_pow10_at_least (n d k : Z) : ge_pow10 n d k = Spec.at_least n d k.
Proof.
  unfold ge_pow10, Spec.at_least.
  destruct (Z.leb_spec 0 k); destruct (Z.ltb_spec k 0); try lia; reflexivity.
Qed.

Lemma at_least_false (n d k : Z) :
  Spec.at_least n d k = false <->
  if k <? 0 then n * 10 ^ (- k) < d else n < d * 10 ^ k.
Proof.
  unfold Spec.at_least. destruct (k <? 0); rewrite Z.leb_gt; reflexivity.
Qed.

Lemma at_least_true (n d k : Z) :
  Spec.at_least n d k = true <->
  if k <? 0 then d <= n * 10 ^ (- k) else d * 10 ^ k <= n.
Proof.
  unfold Spec.at_least. destruct (k <? 0); rewrite Z.leb_le; reflexivity.
Qed.

Lemma exp10_magnitude_of (n d : Z) :
  0 < n -> 0 < d ->
  Spec.at_least n d (exp10 n d) = true /\ Spec.at_least n d (exp10 n d + 1) = false.
Proof.
  intros Hn Hd. unfold exp10. fold (Spec.count_digits n). fold (Spec.count_digits d).
  unfold ndigits. fold (Spec.count_digits n). fold (Spec.count_digits d).
  destruct (count_digits_bounds n Hn) as (Ha & Hnl & Hnh).
  destruct (count_digits_bounds d Hd) as (Hb & Hdl & Hdh).
  set (a := Spec.count_digits n) in *. set (b := Spec.count_digits d) in *.
  rewrite ge_pow10_at_least.
  assert (Hsplit : forall u v, 0 <= u -> 0 <= v -> 10 ^ (u + v) = 10 ^ u * 10 ^ v)
    by (intros; apply pow10_add; lia).
  assert (Hup : Spec.at_least n d (a - b + 1) = false).
  { apply at_least_false. destruct (Z.ltb_spec (a - b + 1) 0).
    - pose proof (Hsplit a (- (a - b + 1)) ltac:(lia) ltac:(lia)) as E.
      replace (a + - (a - b + 1)) with (b - 1) in E by lia.
      pose proof (pow10_pos (- (a - b + 1)) ltac:(lia)). nia.
    - pose proof (Hsplit (b - 1) (a - b + 1) ltac:(lia) ltac:(lia)) as E.
      replace (b - 1 + (a - b + 1)) with a in E by lia.
      pose proof (pow10_pos (a - b + 1) ltac:(lia)). nia. }
  assert (Hlow : Spec.at_least n d (a - b - 1) = true).
  { apply at_least_true. destruct (Z.ltb_spec (a - b - 1) 0).
    - pose proof (Hsplit (a - 1) (- (a - b - 1)) ltac:(lia) ltac:(lia)) as E.
      replace (a - 1 + - (a - b - 1)) with b in E by lia.
      pose proof (pow10_pos (- (a - b - 1)) ltac:(lia)). nia.
    - pose proof (Hsplit b (a - b - 1) ltac:(lia) ltac:(lia)) as E.
      replace (b + (a - b - 1)) with (a - 1) in E by lia.
      pose proof (pow10_pos (a - b - 1) ltac:(lia)). nia. }
  destruct (Spec.at_least n d (a - b)) eqn:E.
  - split; [exact E | exact Hup].
  - split; [exact Hlow|]. replace (a - b - 1 + 1) with (a - b) by lia. exact E.
Qed.

Lemma magnitude_of (n d : Z) :
  0 < n -> 0 < d ->
  Spec.at_least n d (Spec.magnitude n d) = true
  /\ Spec.at_least n d (Spec.magnitude n d + 1) = false.
Proof.
  intros Hn Hd. unfold Spec.magnitude.
  destruct (Z.leb_spec d n) as [Hge|Hlt].
  - assert (Hq : 0 < n / d) by (apply Z.div_str_pos; lia).
    destruct (count_digits_bounds (n / d) Hq) as (Hc & Hlo & Hhi).
    set (c := Spec.count_digits (n / d)) in *.
    pose proof (Z.div_mod n d ltac:(lia)) as E.
    pose proof (Z.mod_pos_bound n d Hd) as Hr.
    split.
    + apply at_least_true. destruct (Z.ltb_spec (c - 1) 0); [lia|]. nia.
    + apply at_least_false. replace (c - 1 + 1) with c by lia.
      destruct (Z.ltb_spec c 0); [lia|]. nia.
  - assert (Hq : 0 < (d - 1) / n) by (apply Z.div_str_pos; lia).
    destruct (count_digits_bounds ((d - 1) / n) Hq) as (Hc & Hlo & Hhi).
    set (c := Spec.count_digits ((d - 1) / n)) in *.
    pose proof (Z.div_mod (d - 1) n ltac:(lia)) as E.
    pose proof (Z.mod_pos_bound (d - 1) n Hn) as Hr.
    split.
    + apply at_least_true. destruct (Z.ltb_spec (- c) 0); [|lia].
      replace (- - c) with c by lia. nia.
    + apply at_least_false. destruct (Z.ltb_spec (- c + 1) 0).
      * replace (- (- c + 1)) with (c - 1) by lia. nia.
      * assert (c = 1) by lia. replace (- c + 1) with 0 by lia.
        change (10 ^ 0) with 1. lia.
Qed.

Lemma exp10_magnitude (n d : Z) :
  0 < n -> 0 < d -> exp10 n d = Spec.magnitude n d.
Proof.
  intros Hn Hd.
  destruct (exp10_magnitude_of n d Hn Hd) as [H1 H2].
  destruct (magnitude_of n d Hn Hd) as [H3 H4].
  exact (at_least_unique n d _ _ Hn Hd H1 H2 H3 H4).
Qed.

Lemma at_least_nonneg (n d k : Z) :
  0 <= k -> Spec.at_least n d k = (d * 10 ^ k <=? n).
Proof. intros. unfold Spec.at_least. destruct (Z.ltb_spec k 0); [lia | reflexivity]. Qed.

Lemma at_least_neg (n d k : Z) :
  k < 0 -> Spec.at_least n d k = (d <=? n * 10 ^ (- k)).
Proof. intros. unfold Spec.at_least. destruct (Z.ltb_spec k 0); [reflexivity | lia]. Qed.

Lemma six_digits_code (n d : Z) :
  0 < n -> 0 < d ->
  sig_digits 6 n d = Spec.six_digits n d
  /\ 100000 <= fst (Spec.six_digits n d) < 1000000.
Proof.
  intros Hn Hd. unfold sig_digits, Spec.six_digits.
  rewrite exp10_magnitude by assumption.
  destruct (magnitude_of n d Hn Hd) as [Hlo Hhi].
  set (x := Spec.magnitude n d) in *. clearbody x.
  assert (Hsplit : forall u v, 0 <= u -> 0 <= v -> 10 ^ (u + v) = 10 ^ u * 10 ^ v)
    by (intros; apply pow10_add; lia).
  change (6 - 1) with 5. change (10 ^ 6) with 1000000.
  change (10 ^ 5) with 100000.
  replace (- (5 - x)) with (x - 5) by lia.
  assert (Hq : exists q,
             (if 0 <=? 5 - x then round_half_even (n * 10 ^ (5 - x)) d
              else round_half_even n (d * 10 ^ (x - 5))) = q
             /\ (if x <=? 5 then Spec.nearest (n * 10 ^ (5 - x)) d
                 else Spec.nearest n (d * 10 ^ (x - 5))) = q
             /\ 100000 <= q <= 1000000).
  { destruct (Z.leb_spec x 5) as [H5|H5];
      destruct (Z.leb_spec 0 (5 - x)); try lia.
    - eexists. split; [apply nearest_round; exact Hd|]. split; [reflexivity|].
      apply nearest_bounds; [exact Hd|].
      destruct (Z_lt_ge_dec x 0) as [Hx|Hx].
      + rewrite at_least_neg in Hlo by lia. apply Z.leb_le in Hlo.
        pose proof (Hsplit 5 (- x) ltac:(lia) ltac:(lia)) as E.
        replace (5 + - x) with (5 - x) in E by lia.
        change (10 ^ 5) with 100000 in E.
        split; [rewrite E; lia|].
        destruct (Z_lt_ge_dec (x + 1) 0) as [Hx1|Hx1].
        * rewrite at_least_neg in Hhi by lia. apply Z.leb_gt in Hhi.
          pose proof (Hsplit 6 (- (x + 1)) ltac:(lia) ltac:(lia)) as E'.
          replace (6 + - (x + 1)) with (5 - x) in E' by lia.
          change (10 ^ 6) with 1000000 in E'. rewrite E'. lia.
        * assert (x = -1) by lia. subst x.
          rewrite at_least_nonneg in Hhi by lia. apply Z.leb_gt in Hhi.
          change (10 ^ (-1 + 1)) with 1 in Hhi.
          change (10 ^ (5 - -1)) with 1000000. lia.
      + rewrite at_least_nonneg in Hlo, Hhi by lia.
        apply Z.leb_le in Hlo. apply Z.leb_gt in Hhi.
        pose proof (Hsplit x (5 - x) ltac:(lia) ltac:(lia)) as E.
        replace (x + (5 - x)) with 5 in E by lia.
        change (10 ^ 5) with 100000 in E.
        pose proof (Hsplit (x + 1) (5 - x) ltac:(lia) ltac:(lia)) as E'.
        replace (x + 1 + (5 - x)) with 6 in E' by lia.
        change (10 ^ 6) with 1000000 in E'.
        pose proof (pow10_pos (5 - x) ltac:(lia)) as Hp.
        split.
        * replace (100000 * d) with (d * 10 ^ x * 10 ^ (5 - x)) by (rewrite E; ring).
          apply Z.mul_le_mono_nonneg_r; lia.
        * replace (1000000 * d) with (d * 10 ^ (x + 1) * 10 ^ (5 - x))
            by (rewrite E'; ring).
          apply Z.mul_le_mono_nonneg_r; lia.
    - pose proof (pow10_pos (x - 5) ltac:(lia)) as Hp.
      assert (0 < d * 10 ^ (x - 5)) by (apply Z.mul_pos_pos; lia).
      eexists. split; [apply nearest_round; assumption|]. split; [reflexivity|].
      apply nearest_bounds; [assumption|].
      rewrite at_least_nonneg in Hlo, Hhi by lia.
      apply Z.leb_le in Hlo. apply Z.leb_gt in Hhi.
      pose proof (Hsplit 5 (x - 5) ltac:(lia) ltac:(lia)) as E.
      replace (5 + (x - 5)) with x in E by lia.
      change (10 ^ 5) with 100000 in E.
      pose proof (Hsplit 6 (x - 5) ltac:(lia) ltac:(lia)) as E'.
      replace (6 + (x - 5)) with (x + 1) in E' by lia.
      change (10 ^ 6) with 1000000 in E'.
      rewrite E in Hlo. rewrite E' in Hhi. lia. }
  destruct Hq as (q & -> & -> & Hq).
  destruct (Z.leb_spec 1000000 q); destruct (Z.eqb_spec q 1000000);
    try lia; cbn [fst]; split; try reflexivity; lia.
Qed.

Lemma rstrip_zeros_snoc (s : string) (c : ascii) :
  rstrip_zeros (s +++ String c "")
  = if Ascii.eqb c "0" then rstrip_zeros s else s +++ String c "".
Proof.
  unfold rstrip_zeros, chars.
  assert (E : list_ascii_of_string (s +++ String c "")
              = list_ascii_of_string s ++ [c]).
  { induction s as [|a s IH]; simpl; [reflexivity | rewrite IH; reflexivity]. }
  rewrite E, rev_app_distr. cbn [rev app lstrip_zeros].
  destruct (Ascii.eqb c "0"); [reflexivity|].
  cbn [rev]. rewrite rev_involutive, <- E.
  apply string_of_list_ascii_of_string.
Qed.

Lemma digit_zero (b : Z) :
  0 <= b < 10 -> Ascii.eqb (Spec.digit b) "0" = (b =? 0).
Proof.
  intros Hb.
  assert (b = 0 \/ b = 1 \/ b = 2 \/ b = 3 \/ b = 4 \/ b = 5 \/ b = 6 \/ b = 7
          \/ b = 8 \/ b = 9) as Hc by lia.
  repeat (destruct Hc as [->|Hc]); [..|subst b]; reflexivity.
Qed.

Lemma append_snoc_nonempty (s : string) (c : ascii) :
  String.eqb (s +++ String c "") "" = false.
Proof. destruct s; reflexivity. Qed.

(** The shortest numeral is what [with_point] makes of the integer part and
    the decimals. *)
Lemma with_point_shortest (k : nat) :
  forall q, with_point (str_of_int (q / 10 ^ Z.of_nat k)) (Spec.digits k q)
            = Spec.shortest k q.
Proof.
  induction k as [|k IH]; intros q.
  - cbn [Spec.digits Spec.shortest]. change (10 ^ Z.of_nat 0) with 1.
    rewrite Z.div_1_r. reflexivity.
  - cbn [Spec.digits Spec.shortest].
    pose proof (Z.mod_pos_bound q 10 ltac:(lia)) as Hr.
    unfold with_point. rewrite rstrip_zeros_snoc, digit_zero by exact Hr.
    destruct (Z.eqb_spec (q mod 10) 0) as [E|E].
    + rewrite <- IH. unfold with_point.
      rewrite Nat2Z.inj_succ, Z.pow_succ_r by lia.
      pose proof (pow10_pos (Z.of_nat k) ltac:(lia)).
      rewrite Z.div_div by lia. reflexivity.
    + rewrite append_snoc_nonempty. reflexivity.
Qed.

Lemma digits_front (w : nat) :
  forall q, Spec.digits (S w) q
            = String (Spec.digit ((q / 10 ^ Z.of_nat w) mod 10)) "" +++ Spec.digits w q.
Proof.
  induction w as [|w IH]; intros q.
  - cbn [Spec.digits]. change (10 ^ Z.of_nat 0) with 1. rewrite Z.div_1_r.
    reflexivity.
  - change (Spec.digits (S (S w)) q)
      with (Spec.digits (S w) (q / 10) +++ String (Spec.digit (q mod 10)) "").
    rewrite IH. cbn [Spec.digits].
    rewrite Nat2Z.inj_succ, Z.pow_succ_r by lia.
    pose proof (pow10_pos (Z.of_nat w) ltac:(lia)).
    rewrite Z.div_div by lia.
    rewrite append_assoc3. reflexivity.
Qed.

Lemma digits_zeros (i w : nat) (q : Z) :
  0 <= q < 10 ^ Z.of_nat w ->
  Spec.digits (i + w) q = zeros i +++ Spec.digits w q.
Proof.
  intros Hq. induction i as [|i IH]; [reflexivity|].
  change (S i + w)%nat with (S (i + w)). rewrite digits_front, IH.
  assert (E : q / 10 ^ Z.of_nat (i + w) = 0).
  { apply Z.div_small. split; [lia|].
    pose proof (pow10_le (Z.of_nat w) (Z.of_nat (i + w)) ltac:(lia)). lia. }
  rewrite E. reflexivity.
Qed.

Lemma six_digit_numeral (q : Z) :
  100000 <= q < 1000000 -> str_of_int q = Spec.digits 6 q.
Proof.
  intros Hq. rewrite (str_of_int_digits 5 q) by (change (10 ^ Z.of_nat 5) with 100000; lia).
  rewrite (digits_front 5 q).
  change (10 ^ Z.of_nat 5) with 100000.
  assert (Hb : 1 <= q / 100000 < 10).
  { split; [apply Z.div_le_lower_bound; lia | apply Z.div_lt_upper_bound; lia]. }
  rewrite (Z.mod_small (q / 100000) 10) by lia.
  rewrite (str_of_int_small (q / 100000)) by lia. reflexivity.
Qed.

Lemma zfill_two (a : Z) :
  0 <= a -> zfill 2 a = (if a <? 10 then "0" else "") +++ str_of_int a.
Proof.
  intros Ha. unfold zfill.
  destruct (Z.ltb_spec a 10).
  - rewrite str_of_int_small by lia. reflexivity.
  - destruct (count_digits_bounds a ltac:(lia)) as (Hc & Hlo & Hhi).
    unfold Spec.count_digits in *.
    assert (2 <= Z.of_nat (String.length (str_of_int a))).
    { destruct (Z_lt_ge_dec (Z.of_nat (String.length (str_of_int a))) 2); [|lia].
      assert (E : Z.of_nat (String.length (str_of_int a)) = 1) by lia.
      rewrite E in Hhi. change (10 ^ 1) with 10 in Hhi. lia. }
    replace (2 - String.length (str_of_int a))%nat with 0%nat by lia.
    reflexivity.
Qed.

(** The general format of the runtime is the general format of the
    specification. *)
Lemma fmt_g_general (f : spec_float) : fmt_g f = Spec.general f.
Proof.
  destruct f as [s|s| |s m e]; try reflexivity.
  unfold fmt_g, Spec.general.
  destruct (value_ratio s m e) as (_ & Hn & Hd).
  assert (Ev : (if 0 <=? e then (Z.pos m * 2 ^ e, 1) else (Z.pos m, 2 ^ (- e)))
               = Spec.value m e).
  { unfold Spec.value. destruct (Z.leb_spec 0 e); destruct (Z.ltb_spec e 0);
      try lia; reflexivity. }
  rewrite Ev. destruct (Spec.value m e) as [n d]. cbn [fst snd] in *.
  destruct (six_digits_code n d Hn Hd) as [-> Hq].
  destruct (Spec.six_digits n d) as [q x]. cbn [fst] in Hq.
  unfold Spec.sign, sign_str. f_equal.
  pose proof (six_digit_numeral q Hq) as Hds.
  destruct (Z.leb_spec (-4) x) as [Hx4|Hx4];
    destruct (Z.ltb_spec x 6) as [Hx6|Hx6];
    destruct (Z.leb_spec x 5) as [Hx5|Hx5]; try lia; cbn [andb].
  - destruct (Z.leb_spec 0 x) as [Hx0|Hx0].
    + rewrite <- with_point_shortest.
      destruct (str_of_int_cut (Z.to_nat (5 - x)) q) as (Hlen & Hpre & Hsuf).
      { pose proof (pow10_le (Z.of_nat (Z.to_nat (5 - x))) 5 ltac:(lia)) as Hp.
        change (10 ^ 5) with 100000 in Hp. lia. }
      assert (Hl6 : String.length (str_of_int q) = 6%nat).
      { rewrite Hds. apply length_digits. }
      rewrite Hl6 in Hpre, Hsuf.
      replace (6 - Z.to_nat (5 - x))%nat with (Z.to_nat (x + 1)) in Hpre, Hsuf
        by lia.
      replace (6 - Z.to_nat (x + 1))%nat with (Z.to_nat (5 - x)) by lia.
      rewrite Hpre, Hsuf. reflexivity.
    + rewrite <- with_point_shortest.
      assert (E0 : q / 10 ^ Z.of_nat (Z.to_nat (5 - x)) = 0).
      { apply Z.div_small. split; [lia|].
        pose proof (pow10_le 6 (Z.of_nat (Z.to_nat (5 - x))) ltac:(lia)) as Hp.
        change (10 ^ 6) with 1000000 in Hp. lia. }
      rewrite E0. change (str_of_int 0) with "0".
      replace (Z.to_nat (5 - x)) with (Z.to_nat (- x - 1) + 6)%nat by lia.
      rewrite digits_zeros by (change (10 ^ Z.of_nat 6) with 1000000; lia).
      rewrite Hds. reflexivity.
  - rewrite <- with_point_shortest.
    destruct (str_of_int_cut 5 q) as (Hlen & Hpre & Hsuf).
    { change (10 ^ Z.of_nat 5) with 100000. lia. }
    assert (Hl6 : String.length (str_of_int q) = 6%nat).
    { rewrite Hds. apply length_digits. }
    rewrite Hl6 in Hpre, Hsuf. change (6 - 5)%nat with 1%nat in Hpre, Hsuf.
    rewrite Hpre, Hsuf. unfold Spec.exponent.
    rewrite zfill_two by lia. reflexivity.
  - rewrite <- with_point_shortest.
    destruct (str_of_int_cut 5 q) as (Hlen & Hpre & Hsuf).
    { change (10 ^ Z.of_nat 5) with 100000. lia. }
    assert (Hl6 : String.length (str_of_int q) = 6%nat).
    { rewrite Hds. apply length_digits. }
    rewrite Hl6 in Hpre, Hsuf. change (6 - 5)%nat with 1%nat in Hpre, Hsuf.
    rewrite Hpre, Hsuf. unfold Spec.exponent.
    rewrite zfill_two by lia. reflexivity.
Qed.

(** The set formatter is the rule of the specification. *)
Lemma format_set_is_rule (ex : Exercise) : format_set ex = Spec.format_set_rule ex.
Proof.
  unfold format_set, Spec.format_set_rule, Spec.present, truthy, Spec.elapsed.
  rewrite <- !format_time_clock.
  destruct (negb (String.eqb (distance_m ex) "")).
  { destruct (float_of_str (distance_m ex)) as [meters|err]; [|reflexivity].
    cbn [rbind]. rewrite km_display_code. reflexivity. }
  destruct (negb (String.eqb (seconds ex) "") &&
            negb (negb (String.eqb (weight_kg ex) ""))); [reflexivity|].
  unfold weight_of, Spec.weight_display, Spec.present, truthy.
  assert (Hr : (if negb (String.eqb (reps ex) "") then reps ex else "")
               = reps ex).
  { destruct (String.eqb_spec (reps ex) "") as [E|E]; simpl; congruence. }
  rewrite Hr.
  destruct (negb (String.eqb (weight_kg ex) "")); [|reflexivity].
  destruct (float_of_str (weight_kg ex)) as [f|e]; [|reflexivity].
  cbn [rbind]. rewrite num_is_zero_float. cbn [fmt_num_g].
  rewrite fmt_g_general. reflexivity.
Qed.

(** C7.  The set formatter follows the branch order of the specification.
    With a distance: the kilometres to two decimals with the unit suffix,
    and the elapsed time or nothing.  Else, with seconds and no weight: an
    empty weight and the elapsed time.  Else: "BW" for a weight that is zero
    or absent and otherwise the weight in the general format, with the raw
    repetitions.  The kilometres are the float quotient of the distance by
    1000, rounded to the nearest hundredth; the elapsed time follows the
    time rule; the general format keeps six significant digits and drops the
    zeros that end the fraction.  A field that is no number where one is
    read makes the formatter raise.  100.0 renders "100" and 62.5 renders
    "62.5". *)
Theorem format_set_rule_ok :
  (forall ex : Exercise, format_set ex = Spec.format_set_rule ex)
  /\ format_set (mkExercise "Run" "1" "" "" "2000" "480" "")
     = Ok ("2.00 km", "8:00")
  /\ format_set (mkExercise "Run" "2" "" "" "500" "" "") = Ok ("0.50 km", "")
  /\ format_set (mkExercise "Run" "3" "70" "12" "1015" "59.9" "")
     = Ok ("1.01 km", "0:59")
  /\ format_set (mkExercise "Plank" "1" "" "" "" "125" "") = Ok ("", "2:05")
  /\ format_set (mkExercise "Plank" "2" "" "7" "" "3725" "")
     = Ok ("", "1:02:05")
  /\ format_set (mkExercise "Squat" "1" "100.0" "5" "" "" "") = Ok ("100", "5")
  /\ format_set (mkExercise "Squat" "2" "62.5" "8" "" "" "") = Ok ("62.5", "8")
  /\ format_set (mkExercise "Carry" "1" "20" "" "" "60" "") = Ok ("20", "")
  /\ format_set (mkExercise "Row" "1" "0" "500" "" "" "") = Ok ("BW", "500")
  /\ format_set (mkExercise "Dip" "1" "" "" "" "" "") = Ok ("BW", "")
  /\ (exists e, format_set (mkExercise "Squat" "1" "62,5" "5" "" "" "")
                = Raise e).
Proof.
  split; [exact format_set_is_rule|].
  repeat (split; [vm_compute; reflexivity|]).
  eexists. vm_compute. reflexivity.
Qed.

(** The weight is shown to six significant digits, which need not be the
    weight of the row: 102.058283 renders "102.058" and 1234567 renders
    "1.23457e+06". *)
Lemma weight_display_six_digits :
  format_set (mkExercise "Press" "1" "102.058283" "5" "" "" "")
  = Ok ("102.058", "5")
  /\ format_set (mkExercise "Sled" "1" "1234567" "1" "" "" "")
     = Ok ("1.23457e+06", "1").
Proof. split; vm_compute; reflexivity. Qed.

(** ** The aggregation row against the provisioned schema *)

(** C10.  The claim is that every property key of an aggregation row is
    declared by the schema of the auto-created table.  The code writes the
    keys below for every exercise; three of them, "Max Weight",
    "Total Volumn" and "Workouts", are not in the schema, which declares
    "Max Weight (kg)", "Total Volume (kg)" and "Workout". *)
Theorem entry_keys_not_in_schema (workout : Workout)
        (date_iso exercise_name : string) (sets : list Exercise) (props : Props) :
  entry_properties workout date_iso exercise_name sets = Ok props ->
  map fst props = ["Exercise"; "Date"; "Max Weight"; "Total Volumn"; "Sets";
                   "Total Reps"; "Workouts"]
  /\ map fst exercise_db_schema
     = ["Exercise"; "Date"; "Max Weight (kg)"; "Total Volume (kg)"; "Sets";
        "Total Reps"; "Workout"]
  /\ Spec.undeclared exercise_db_schema props
     = ["Max Weight"; "Total Volumn"; "Workouts"].
Proof.
  unfold entry_properties. intros H.
  apply rbind_ok in H. destruct H as ([[mw tv] tr] & _ & H).
  injection H as <-. repeat split; reflexivity.
Qed.

Lemma entry_keys_not_in_schema_witness :
  exists props,
    entry_properties (mkWorkout "2024-01-05 07:00:00" "Morning" 3600 [])
      "2024-01-05T07:00:00+01:00" "Squat"
      [mkExercise "Squat" "1" "100.0" "5" "" "" ""] = Ok props
    /\ Spec.undeclared exercise_db_schema props
       = ["Max Weight"; "Total Volumn"; "Workouts"].
Proof.
  eexists. split; [vm_compute; reflexivity |].
  eapply (entry_keys_not_in_schema
            (mkWorkout "2024-01-05 07:00:00" "Morning" 3600 [])
            "2024-01-05T07:00:00+01:00" "Squat"
            [mkExercise "Squat" "1" "100.0" "5" "" "" ""]).
  vm_compute. reflexivity.
Defined.

(** ** Missing configuration *)

Section MissingConfiguration.

Variable utcoffset : datetime -> Z.
Variable fuel : nat.
Variable getenv : string -> option string.

(** The sync script prints one error line and returns: no remote call is
    made, and the process ends with status 0. *)
Lemma sync_missing_configuration (files : string -> option (list CsvRow))
      (args : Args) (w : Notion.World) :
  nonempty (if opt_truthy (csv args) then csv args
            else getenv "STRONG_CSV_PATH") = None
  \/ nonempty (getenv "NOTION_TOKEN") = None
  \/ nonempty (getenv "NOTION_DB_ID") = None ->
  exists msg,
    StrongSync.run utcoffset fuel getenv files args w
    = (0, Notion.mkWorld (store w) (Notion.faults w)
                         (Notion.console w ++ [msg]) (Notion.trace w)).
Proof.
  unfold StrongSync.run, StrongSync.main, Notion.print. intros H.
  destruct (nonempty (if opt_truthy (csv args) then csv args
                      else getenv "STRONG_CSV_PATH")) as [path|].
  - destruct (nonempty (getenv "NOTION_TOKEN")) as [tok|];
      destruct (nonempty (getenv "NOTION_DB_ID")) as [db|];
      try (eexists; reflexivity).
    destruct H as [H|[H|H]]; discriminate.
  - eexists; reflexivity.
Qed.

Variables Info Service : Type.
Variable json_loads : string -> result Info.
Variable from_service_account_info : Info -> result Service.

(** The fetcher prints one error line and leaves through [sys.exit(1)]
    before any remote call. *)
Lemma fetcher_missing_configuration (w : DownloadStrongCsv.World) :
  nonempty (getenv "GOOGLE_DRIVE_FOLDER_ID") = None
  \/ (nonempty (getenv "GOOGLE_SERVICE_ACCOUNT_FILE") = None
      /\ nonempty (getenv "GOOGLE_SERVICE_ACCOUNT_JSON") = None) ->
  exists msg,
    DownloadStrongCsv.run Info Service json_loads from_service_account_info
                          getenv w
    = (1, DownloadStrongCsv.mkWorld
            (DownloadStrongCsv.drive w) (DownloadStrongCsv.disk w)
            (DownloadStrongCsv.faults w)
            (DownloadStrongCsv.console w ++ [msg])
            (DownloadStrongCsv.trace w)).
Proof.
  unfold DownloadStrongCsv.run, DownloadStrongCsv.main. intros H.
  destruct (nonempty (getenv "GOOGLE_DRIVE_FOLDER_ID")) as [folder|].
  - destruct H as [H|[Hf Hj]]; [discriminate|].
    unfold DownloadStrongCsv.download_latest_csv,
      DownloadStrongCsv.get_drive_service.
    rewrite Hf, Hj. eexists; reflexivity.
  - eexists; reflexivity.
Qed.

(** C2.  The claim is that an entry point started without a required
    configuration value prints an error and exits with a non-zero status
    before any remote call.  The fetcher does (status 1); the sync script
    prints its error and makes no remote call, but it returns normally, so
    its exit status is 0. *)
Theorem missing_configuration_exit
        (files : string -> option (list CsvRow)) (args : Args)
        (w : Notion.World) (d : DownloadStrongCsv.World) :
  (nonempty (if opt_truthy (csv args) then csv args
             else getenv "STRONG_CSV_PATH") = None
   \/ nonempty (getenv "NOTION_TOKEN") = None
   \/ nonempty (getenv "NOTION_DB_ID") = None ->
   exists msg,
     StrongSync.run utcoffset fuel getenv files args w
     = (0, Notion.mkWorld (store w) (Notion.faults w)
                          (Notion.console w ++ [msg]) (Notion.trace w)))
  /\ (nonempty (getenv "GOOGLE_DRIVE_FOLDER_ID") = None
      \/ (nonempty (getenv "GOOGLE_SERVICE_ACCOUNT_FILE") = None
          /\ nonempty (getenv "GOOGLE_SERVICE_ACCOUNT_JSON") = None) ->
      exists msg,
        DownloadStrongCsv.run Info Service json_loads from_service_account_info
                              getenv d
        = (1, DownloadStrongCsv.mkWorld
                (DownloadStrongCsv.drive d) (DownloadStrongCsv.disk d)
                (DownloadStrongCsv.faults d)
                (DownloadStrongCsv.console d ++ [msg])
                (DownloadStrongCsv.trace d))).
Proof.
  split.
  - apply sync_missing_configuration.
  - apply fetcher_missing_configuration.
Qed.

End MissingConfiguration.

Lemma missing_configuration_exit_witness :
  StrongSync.run Demo.cet 0 Demo.env_without_token Demo.files Demo.args
                 (Demo.world Demo.empty_store [])
  = (0, Notion.mkWorld Demo.empty_store []

          ["Error: NOTION_TOKEN and NOTION_DB_ID environment variables required"]
          [])
  /\ DownloadStrongCsv.run unit unit (fun _ => Ok tt) (fun _ => Ok tt)
                           Demo.env_without_token
                           (DownloadStrongCsv.mkWorld [] [] [] [] [])
     = (1, DownloadStrongCsv.mkWorld [] [] []
             ["Error: GOOGLE_DRIVE_FOLDER_ID environment variable not set"] []).
Proof.
  pose proof (missing_configuration_exit Demo.cet 0 Demo.env_without_token
                unit unit (fun _ => Ok tt) (fun _ => Ok tt)
                Demo.files Demo.args (Demo.world Demo.empty_store [])
                (DownloadStrongCsv.mkWorld [] [] [] [] [])) as [Hs Hf].
  split.
  - destruct Hs as [msg Hs]; [right; left; reflexivity|].
    vm_compute. reflexivity.
  - destruct Hf as [msg Hf]; [left; reflexivity|].
    vm_compute. reflexivity.
Defined.

(** ** Remote failures during an existence check *)

Local Open Scope monad_scope.

(** C3, as the code has it.  A remote failure during the per-workout
    existence check is caught and logged, the check answers [None], and the
    loop goes on to the create path.  A remote failure during the
    aggregation-row check is not caught: the check raises, nothing is logged,
    and the aggregation sync of that workout raises with it. *)
Theorem existence_check_failure
        (utcoffset : datetime -> Z) (fuel : nat)
        (database_id : string) (exercise_db_id : option string) (rebuild : bool)
        (workout_date : string) (workout : Workout) (n : Counts)
        (db_id date_only date_iso exercise_name : string)
        (s : Exercise) (ss : list Exercise) (ns : list string)
        (rest : OrderedDict Group)
        (st : Store) (plan : list bool) (out : list string) (tr : list Call) :
  let logged :=
    mkWorld st plan
      (out ++ ["Error checking for existing workout: remote call failed"])
      (tr ++ [Spec.workout_query database_id workout_date]) in
  workout_exists database_id workout_date (mkWorld st (true :: plan) out tr)
  = (Ok None, logged)
  /\ sync_workout utcoffset fuel database_id exercise_db_id rebuild
       workout_date workout n (mkWorld st (true :: plan) out tr)
     = (n' <- (create_workout_page utcoffset database_id workout ;;
               print ("  Created: " +++ name workout +++ " - " +++ workout_date) ;;
               ret (mkCounts (created n + 1) (updated n) (skipped n))) ;;
        match nonempty exercise_db_id with
        | Some db => sync_exercise_entries utcoffset db workout
        | None => ret tt
        end ;;
        ret n') logged
  /\ exercise_entry_exists db_id date_only exercise_name
       (mkWorld st (true :: plan) out tr)
     = (Raise call_failed,
        mkWorld st plan out (tr ++ [Spec.entry_query db_id date_only exercise_name]))
  /\ sync_groups db_id workout date_only date_iso
       ((exercise_name, mkGroup (s :: ss) ns) :: rest)
       (mkWorld st (true :: plan) out tr)
     = match entry_properties workout date_iso exercise_name (s :: ss) with
       | Ok _ =>
           (Raise call_failed,
            mkWorld st plan out
                    (tr ++ [Spec.entry_query db_id date_only exercise_name]))
       | Raise e => (Raise e, mkWorld st (true :: plan) out tr)
       end.
Proof.
  repeat split; reflexivity.
Qed.

(** A remote failure at the aggregation-row check: the check does not answer
    [None], and the run ends there with status 1, after the workout's page
    was created and before the final report. *)
Lemma entry_check_failure_aborts :
  fst (exercise_entry_exists "exercises" "2024-01-05" "Squat"
         (Demo.world Demo.empty_store [true]))
  = Raise call_failed
  /\ (let (status, w) :=
        StrongSync.run Demo.cet 0 Demo.env_full Demo.files Demo.args
          (Demo.world Demo.empty_store [false; false; false; true]) in
      (status, console w))
     = (1, ["Found 2 workouts in CSV";
            "  Created: Morning - 2024-01-05 07:00:00"]).
Proof.
  split; vm_compute; reflexivity.
Qed.
(** ** Grouping in first-seen order *)

Lemma mem_In (a : string) (l : list string) : Spec.mem a l = true <-> In a l.
Proof.
  unfold Spec.mem. rewrite existsb_exists. split.
  - intros (x & Hx & E). apply String.eqb_eq in E. subst. exact Hx.
  - intros H. exists a. split; [exact H | apply String.eqb_refl].
Qed.

Lemma mem_false_In (a : string) (l : list string) :
  Spec.mem a l = false <-> ~ In a l.
Proof.
  rewrite <- mem_In. destruct (Spec.mem a l); split; congruence.
Qed.

Lemma distinct_In (x : string) (l : list string) :
  In x (Spec.distinct l) <-> In x l.
Proof.
  induction l as [|a t IH]; simpl; [tauto|].
  rewrite filter_In, IH. destruct (String.eqb_spec a x) as [E|E]; simpl.
  - subst. tauto.
  - split; [tauto|]. intros [H|H]; [tauto|]. right. split; [exact H|reflexivity].
Qed.

Lemma distinct_NoDup (l : list string) : NoDup (Spec.distinct l).
Proof.
  induction l as [|a t IH]; simpl; constructor.
  - rewrite filter_In. intros [_ H]. rewrite String.eqb_refl in H. discriminate.
  - apply NoDup_filter, IH.
Qed.

Lemma filter_id_forall {A} (f : A -> bool) (l : list A) :
  (forall x, In x l -> f x = true) -> filter f l = l.
Proof.
  induction l as [|a t IH]; simpl; intros H; [reflexivity|].
  rewrite (H a) by auto. f_equal. apply IH. auto.
Qed.

Lemma distinct_snoc (l : list string) (a : string) :
  Spec.distinct (l ++ [a])
  = if Spec.mem a l then Spec.distinct l else Spec.distinct l ++ [a].
Proof.
  induction l as [|b t IH]; simpl; [reflexivity|].
  rewrite IH. rewrite (String.eqb_sym a b).
  destruct (String.eqb_spec b a) as [E|E]; simpl.
  - subst b. destruct (Spec.mem a t); [reflexivity|].
    rewrite filter_app. simpl. rewrite String.eqb_refl. simpl.
    rewrite app_nil_r. reflexivity.
  - destruct (Spec.mem a t); [reflexivity|].
    rewrite filter_app. simpl.
    destruct (String.eqb_spec b a); [contradiction|]. reflexivity.
Qed.

Section MembersFacts.

Variable X : Type.
Variable key : X -> string.

Lemma members_snoc (k : string) (xs : list X) (x : X) :
  Spec.members X key k (xs ++ [x])
  = Spec.members X key k xs ++ (if String.eqb (key x) k then [x] else []).
Proof.
  unfold Spec.members. rewrite filter_app. simpl.
  destruct (String.eqb (key x) k); reflexivity.
Qed.

Lemma members_nil (k : string) (xs : list X) :
  ~ In k (map key xs) -> Spec.members X key k xs = [].
Proof.
  unfold Spec.members. induction xs as [|a t IH]; simpl; intros H; [reflexivity|].
  destruct (String.eqb_spec (key a) k) as [E|E]; [tauto|]. apply IH. tauto.
Qed.

Lemma members_cons (k : string) (xs : list X) :
  In k (map key xs) -> exists x0 r, Spec.members X key k xs = x0 :: r.
Proof.
  unfold Spec.members. induction xs as [|a t IH]; simpl; intros H; [tauto|].
  destruct (String.eqb_spec (key a) k) as [E|E]; [eauto|].
  apply IH. tauto.
Qed.

End MembersFacts.

Section GroupingFacts.

Variables X V : Type.
Variable key : X -> string.
Variable init : X -> V.
Variable add : X -> V -> V.
Variable dflt : V.

Lemma od_mem_map (k : string) (g : string -> V) (keys : list string) :
  od_mem k (map (fun k' => (k', g k')) keys) = Spec.mem k keys.
Proof.
  unfold od_mem. induction keys as [|a t IH]; simpl; [reflexivity|].
  destruct (String.eqb k a); [reflexivity | exact IH].
Qed.

Lemma od_adjust_map (k : string) (f : V -> V) (g : string -> V)
      (keys : list string) :
  NoDup keys ->
  od_adjust k f (map (fun k' => (k', g k')) keys)
  = map (fun k' => (k', if String.eqb k k' then f (g k') else g k')) keys.
Proof.
  induction 1 as [|a t Ha Hnd IH]; simpl; [reflexivity|].
  destruct (String.eqb_spec k a) as [E|E].
  - subst a. f_equal. apply map_ext_in. intros k' Hk'.
    destruct (String.eqb_spec k k'); [subst; contradiction | reflexivity].
  - f_equal. exact IH.
Qed.

Lemma od_adjust_last (k : string) (f : V -> V) (v : V) (d : OrderedDict V) :
  od_mem k d = false -> od_adjust k f (d ++ [(k, v)]) = d ++ [(k, f v)].
Proof.
  unfold od_mem. induction d as [|[a w] t IH]; simpl.
  - rewrite String.eqb_refl. reflexivity.
  - destruct (String.eqb k a); [discriminate|]. intros H. f_equal. apply IH, H.
Qed.

Lemma collected_snoc (k : string) (xs : list X) (x : X) :
  In k (map key xs) ->
  Spec.collected X V key init add dflt k (xs ++ [x])
  = if String.eqb (key x) k
    then add x (Spec.collected X V key init add dflt k xs)
    else Spec.collected X V key init add dflt k xs.
Proof.
  intros Hk. unfold Spec.collected. rewrite members_snoc.
  destruct (members_cons X key k xs Hk) as (x0 & r & E). rewrite E.
  destruct (String.eqb (key x) k).
  - simpl. rewrite fold_left_app. reflexivity.
  - rewrite app_nil_r. reflexivity.
Qed.

Lemma collected_new (xs : list X) (x : X) :
  ~ In (key x) (map key xs) ->
  Spec.collected X V key init add dflt (key x) (xs ++ [x]) = add x (init x).
Proof.
  intros Hk. unfold Spec.collected. rewrite members_snoc, members_nil by exact Hk.
  rewrite String.eqb_refl. reflexivity.
Qed.

(** The loop that opens a key's entry at its first element and adds each
    element to its key's entry computes the grouping in first-seen order. *)
Lemma fold_group_into (xs : list X) :
  fold_left (Spec.group_into X V key init add) xs []
  = Spec.grouped X V key init add dflt xs.
Proof.
  induction xs as [|x xs IH] using rev_ind; [reflexivity|].
  rewrite fold_left_app. simpl. rewrite IH. clear IH.
  unfold Spec.group_into, Spec.grouped.
  rewrite od_mem_map, map_app. simpl. rewrite distinct_snoc.
  destruct (Spec.mem (key x) (Spec.distinct (map key xs))) eqn:Hm.
  - assert (Hm' : Spec.mem (key x) (map key xs) = true).
    { apply mem_In. apply mem_In in Hm. apply (proj1 (distinct_In _ _)), Hm. }
    rewrite Hm'. rewrite od_adjust_map by apply distinct_NoDup.
    apply map_ext_in. intros k Hk. apply (proj1 (distinct_In _ _)) in Hk.
    rewrite collected_snoc by exact Hk. reflexivity.
  - assert (Hn : ~ In (key x) (map key xs)).
    { apply mem_false_In in Hm. intros H. apply Hm, distinct_In, H. }
    assert (Hm' : Spec.mem (key x) (map key xs) = false)
      by (apply mem_false_In, Hn).
    rewrite Hm'. rewrite od_adjust_last by (rewrite od_mem_map; exact Hm).
    rewrite map_app. simpl. rewrite collected_new by exact Hn. f_equal.
    apply map_ext_in. intros k Hk. apply (proj1 (distinct_In _ _)) in Hk.
    rewrite collected_snoc by exact Hk.
    destruct (String.eqb_spec (key x) k); [subst; contradiction | reflexivity].
Qed.

Lemma grouped_keys (xs : list X) :
  map fst (Spec.grouped X V key init add dflt xs) = Spec.distinct (map key xs).
Proof.
  unfold Spec.grouped. rewrite map_map. simpl. apply map_id.
Qed.

End GroupingFacts.

(** ** The record parser *)

Lemma od_mem_keys {V} (k : string) (d : OrderedDict V) :
  od_mem k d = Spec.mem k (map fst d).
Proof.
  unfold od_mem. induction d as [|[a v] t IH]; simpl; [reflexivity|].
  destruct (String.eqb k a); [reflexivity | exact IH].
Qed.

Lemma od_adjust_keys {V} (k : string) (f : V -> V) (d : OrderedDict V) :
  map fst (od_adjust k f d) = map fst d.
Proof.
  induction d as [|[a v] t IH]; simpl; [reflexivity|].
  destruct (String.eqb k a); simpl; [reflexivity | f_equal; exact IH].
Qed.

Lemma group_into_keys {X V} (key : X -> string) (init : X -> V)
      (add : X -> V -> V) (d : OrderedDict V) (x : X) :
  map fst (Spec.group_into X V key init add d x)
  = if Spec.mem (key x) (map fst d) then map fst d else map fst d ++ [key x].
Proof.
  unfold Spec.group_into. rewrite od_adjust_keys, od_mem_keys.
  destruct (Spec.mem (key x) (map fst d)); [reflexivity|].
  rewrite map_app. reflexivity.
Qed.

Lemma parse_row_rest (ws : OrderedDict Workout) (row : CsvRow) :
  Spec.is_rest_timer row = true -> parse_row ws row = Ok ws.
Proof.
  unfold parse_row, Spec.is_rest_timer. intros ->. reflexivity.
Qed.

Lemma parse_row_kept (ws : OrderedDict Workout) (row : CsvRow) :
  Spec.is_rest_timer row = false ->
  parse_row ws row
  = if od_mem (Date row) ws || Spec.is_ok (int_of_str (Duration_sec row))
    then Ok (Spec.group_into CsvRow Workout Date Spec.open_record Spec.add_row ws row)
    else Raise (ValueError ("invalid literal for int() with base 10: "
                            +++ Duration_sec row)).
Proof.
  unfold parse_row, Spec.is_rest_timer, Spec.group_into. intros ->.
  destruct (od_mem (Date row) ws); simpl; [reflexivity|].
  unfold Spec.open_record, Spec.duration_of.
  destruct (int_of_str (Duration_sec row)) as [d|e] eqn:E; simpl; [reflexivity|].
  unfold int_of_str in E.
  destruct (take_sign (strip (list_ascii_of_string (Duration_sec row))))
    as [neg body].
  destruct (digit_part body) as [[ds [|c r]]|];
    first [discriminate | injection E as <-; reflexivity].
Qed.

Lemma parse_rows_fold (rows : list CsvRow) :
  forall acc,
    Spec.durations_ok (map fst acc) rows = true ->
    parse_rows acc rows
    = Ok (fold_left (Spec.group_into CsvRow Workout Date Spec.open_record Spec.add_row)
                    (Spec.kept rows) acc).
Proof.
  induction rows as [|row rest IH]; intros acc H; [reflexivity|].
  simpl in H. unfold Spec.kept in *. simpl.
  destruct (Spec.is_rest_timer row) eqn:Hr; simpl.
  - rewrite parse_row_rest by exact Hr. simpl. apply IH, H.
  - rewrite parse_row_kept by exact Hr. rewrite od_mem_keys.
    destruct (Spec.mem (Date row) (map fst acc)) eqn:Hm; simpl.
    + apply IH. rewrite group_into_keys, Hm. exact H.
    + apply andb_prop in H. destruct H as [Hok H]. rewrite Hok. simpl.
      apply IH. rewrite group_into_keys, Hm. exact H.
Qed.

Lemma parse_rows_raise (rows : list CsvRow) :
  forall acc,
    Spec.durations_ok (map fst acc) rows = false ->
    exists e, parse_rows acc rows = Raise e.
Proof.
  induction rows as [|row rest IH]; intros acc H; [discriminate|].
  simpl in H. simpl.
  destruct (Spec.is_rest_timer row) eqn:Hr.
  - rewrite parse_row_rest by exact Hr. simpl. apply IH, H.
  - rewrite parse_row_kept by exact Hr. rewrite od_mem_keys.
    destruct (Spec.mem (Date row) (map fst acc)) eqn:Hm; simpl.
    + apply IH. rewrite group_into_keys, Hm. exact H.
    + destruct (Spec.is_ok (int_of_str (Duration_sec row))); simpl in *.
      * apply IH. rewrite group_into_keys, Hm. exact H.
      * eauto.
Qed.

Lemma fold_add_row (l : list CsvRow) :
  forall d n dur es,
    fold_left (fun v x => Spec.add_row x v) l (mkWorkout d n dur es)
    = mkWorkout d n dur (es ++ map Spec.listed l).
Proof.
  induction l as [|x t IH]; intros d n dur es; simpl.
  - rewrite app_nil_r. reflexivity.
  - unfold Spec.add_row at 2. simpl. rewrite IH, <- app_assoc.
    reflexivity.
Qed.

Lemma collected_record (rows : list CsvRow) (d : string) :
  In d (map Date (Spec.kept rows)) ->
  Spec.collected CsvRow Workout Date Spec.open_record Spec.add_row (mkWorkout "" "" 0 [])
                 d (Spec.kept rows)
  = Spec.record_of d rows.
Proof.
  intros Hd. unfold Spec.collected, Spec.record_of, Spec.rows_of.
  change (Spec.members CsvRow Date d (Spec.kept rows))
    with (filter (fun row => String.eqb (Date row) d) (Spec.kept rows)).
  destruct (filter (fun row => String.eqb (Date row) d) (Spec.kept rows))
    as [|x0 r] eqn:E.
  - destruct (members_cons CsvRow Date d (Spec.kept rows) Hd) as (a & b & E').
    unfold Spec.members in E'. congruence.
  - assert (Hx : String.eqb (Date x0) d = true).
    { assert (Hin : In x0 (filter (fun row => String.eqb (Date row) d)
                                  (Spec.kept rows)))
        by (rewrite E; left; reflexivity).
      apply filter_In in Hin. apply Hin. }
    apply String.eqb_eq in Hx. unfold Spec.open_record. rewrite Hx.
    rewrite fold_add_row. reflexivity.
Qed.

Lemma fold_parsed (rows : list CsvRow) :
  fold_left (Spec.group_into CsvRow Workout Date Spec.open_record Spec.add_row)
            (Spec.kept rows) []
  = Spec.parsed rows.
Proof.
  rewrite (fold_group_into CsvRow Workout Date Spec.open_record Spec.add_row
                           (mkWorkout "" "" 0 [])).
  unfold Spec.grouped, Spec.parsed. apply map_ext_in. intros d Hd.
  apply (proj1 (distinct_In _ _)) in Hd.
  rewrite collected_record by exact Hd. reflexivity.
Qed.

(** C4.  For an input file, the parser returns one workout record per
    distinct date among the rows whose set-order is not "Rest Timer", keyed
    in first-seen order; each record takes its name and duration from the
    first such row of its date and lists exactly the such rows of its date,
    in file order.  The duration is read with [int]: the parser returns when
    the first kept row of every date holds an integer there, and raises
    otherwise.  On a file of four rows (an evening set, a rest-timer row
    whose duration is no number, a morning set two days earlier, and a note
    of the evening under another workout name and duration) the parser
    returns the evening record first, with the name and the duration of its
    first row and its two rows in file order, then the morning record. *)
Theorem parse_csv_records (files : string -> option (list CsvRow))
        (csv_path : string) (rows : list CsvRow) :
  files csv_path = Some rows ->
  (if Spec.durations_ok [] rows
   then parse_csv files csv_path = Ok (Spec.parsed rows)
   else exists e, parse_csv files csv_path = Raise e)
  /\ map fst (Spec.parsed rows) = Spec.distinct (map Date (Spec.kept rows))
  /\ NoDup (map fst (Spec.parsed rows))
  /\ List.length (Spec.parsed rows)
     = List.length (Spec.distinct (map Date (Spec.kept rows)))
  /\ parse_csv
       (fun _ =>
          Some [mkCsvRow "2024-01-07 18:30:00" "Evening" "1800" "Curl" "1"
                         "1.25" "1" "" "" "";
                mkCsvRow "2024-01-07 18:30:00" "Evening" "soon" "Curl"
                         "Rest Timer" "" "" "" "90" "";
                mkCsvRow "2024-01-05 07:00:00" "Morning" "3600" "Squat" "1"
                         "100.0" "5" "" "" "";
                mkCsvRow "2024-01-07 18:30:00" "Other" "60" "Curl" "Note"
                         "" "" "" "" "slow"])
       csv_path
     = Ok [("2024-01-07 18:30:00",
            mkWorkout "2024-01-07 18:30:00" "Evening" 1800
                      [mkExercise "Curl" "1" "1.25" "1" "" "" "";
                       mkExercise "Curl" "Note" "" "" "" "" "slow"]);
           ("2024-01-05 07:00:00",
            mkWorkout "2024-01-05 07:00:00" "Morning" 3600
                      [mkExercise "Squat" "1" "100.0" "5" "" "" ""])].
Proof.
  intros Hf.
  assert (Hk : map fst (Spec.parsed rows)
               = Spec.distinct (map Date (Spec.kept rows))).
  { unfold Spec.parsed. rewrite map_map. apply map_id. }
  split; [|split; [exact Hk | split; [|split]]].
  - unfold parse_csv. rewrite Hf.
    destruct (Spec.durations_ok [] rows) eqn:H.
    + rewrite (parse_rows_fold rows []) by exact H. rewrite fold_parsed.
      reflexivity.
    + apply (parse_rows_raise rows []), H.
  - rewrite Hk. apply distinct_NoDup.
  - unfold Spec.parsed. apply length_map.
  - vm_compute. reflexivity.
Qed.

(** The export of two workouts: nine rows, one of them a rest-timer row. *)
Lemma parse_csv_records_witness :
  Demo.files "strong.csv" = Some Demo.rows
  /\ List.length Demo.rows = 9%nat
  /\ parse_csv Demo.files "strong.csv"
     = Ok [("2024-01-05 07:00:00",
            mkWorkout "2024-01-05 07:00:00" "Morning" 3600
                      [mkExercise "Squat" "1" "100.0" "5" "" "" "";
                       mkExercise "Squat" "Note" "" "" "" "" "felt good";
                       mkExercise "Squat" "2" "62.5" "8" "" "" "";
                       mkExercise "Row" "1" "0" "500" "" "" "";
                       mkExercise "Row" "2" "0" "480" "" "" "";
                       mkExercise "Run" "1" "" "" "2000" "480" "";
                       mkExercise "Plank" "1" "" "" "" "125" ""]);
           ("2024-01-07 18:30:00",
            mkWorkout "2024-01-07 18:30:00" "Evening" 1800
                      [mkExercise "Curl" "1" "1.25" "1" "" "" ""])].
Proof.
  split; [reflexivity|]. split; [reflexivity|].
  destruct (parse_csv_records Demo.files "strong.csv" Demo.rows eq_refl)
    as (H & _).
  vm_compute in H. exact H.
Defined.

(** ** The content builder *)

Lemma fold_left_pointwise {A B} (f g : A -> B -> A) :
  (forall a b, f a b = g a b) ->
  forall l a, fold_left f l a = fold_left g l a.
Proof.
  intros H l. induction l as [|b t IH]; intros a; simpl; [reflexivity|].
  rewrite H. apply IH.
Qed.

Lemma group_step_into (groups : OrderedDict Group) (ex : Exercise) :
  group_step groups ex
  = Spec.group_into Exercise Group exercise Spec.open_group Spec.add_to_group
                    groups ex.
Proof.
  unfold group_step, Spec.group_into, Spec.add_to_group, Spec.is_note,
    Spec.open_group.
  destruct (String.eqb (set_order ex) "Note"); reflexivity.
Qed.

Lemma fold_add_to_group (l : list Exercise) :
  forall ss ns,
    fold_left (fun g ex => Spec.add_to_group ex g) l (mkGroup ss ns)
    = mkGroup (ss ++ filter (fun ex => negb (Spec.is_note ex)) l)
              (ns ++ map notes (filter Spec.is_note l)).
Proof.
  induction l as [|ex t IH]; intros ss ns; simpl.
  - rewrite !app_nil_r. reflexivity.
  - unfold Spec.add_to_group at 2.
    destruct (Spec.is_note ex); simpl; rewrite IH, <- app_assoc; reflexivity.
Qed.

Lemma group_exercises_grouped (exs : list Exercise) :
  group_exercises exs
  = map (fun name => (name, mkGroup (Spec.sets_of name exs)
                                    (Spec.notes_of name exs)))
        (Spec.distinct (map exercise exs)).
Proof.
  unfold group_exercises.
  rewrite (fold_left_pointwise _ _ group_step_into).
  rewrite (fold_group_into Exercise Group exercise Spec.open_group
                           Spec.add_to_group (mkGroup [] [])).
  unfold Spec.grouped. apply map_ext_in. intros name Hn.
  apply (proj1 (distinct_In _ _)) in Hn. f_equal.
  unfold Spec.collected.
  destruct (members_cons Exercise exercise name exs Hn) as (x0 & r & E).
  rewrite E, <- E. unfold Spec.open_group. rewrite fold_add_to_group.
  reflexivity.
Qed.

Lemma map_result_length {A B} (f : A -> result B) (l : list A) :
  forall bs, map_result f l = Ok bs -> List.length bs = List.length l.
Proof.
  induction l as [|a t IH]; simpl; intros bs H.
  - injection H as <-. reflexivity.
  - destruct (f a) as [b|e]; simpl in H; [|discriminate].
    destruct (map_result f t) as [bs'|e]; simpl in H; [|discriminate].
    injection H as <-. simpl. f_equal. apply IH. reflexivity.
Qed.

Lemma map_result_map {A B C} (g : A -> B) (f : B -> result C) (l : list A) :
  map_result f (map g l) = map_result (fun a => f (g a)) l.
Proof.
  induction l as [|a t IH]; simpl; [reflexivity|]. rewrite IH. reflexivity.
Qed.

Lemma map_result_collect {A B} (f : A -> result B) (l : list A) :
  map_result f l = Spec.collect (map f l).
Proof.
  induction l as [|a t IH]; [reflexivity|]. cbn [map_result map Spec.collect].
  rewrite IH. destruct (f a) as [b|e]; [|reflexivity]. cbn [rbind].
  destruct (Spec.collect (map f t)); reflexivity.
Qed.

Lemma set_row_is_cells (s : Exercise) : set_row s = Spec.set_cells s.
Proof.
  unfold set_row, Spec.set_cells. rewrite format_set_is_rule.
  destruct (Spec.format_set_rule s) as [[weight reps]|e]; reflexivity.
Qed.

Lemma group_blocks_core (n i : nat) (name : string) (data : Group) :
  group_blocks n i name data
  = rbind (Spec.group_core (name, data)) (fun bs =>
    Ok (bs ++ if Z.of_nat i <? Z.of_nat n - 1 then [Divider] else [])).
Proof.
  unfold group_blocks, Spec.group_core, Spec.sets_table. cbn [fst snd].
  destruct (sets data) as [|s ss].
  - simpl. rewrite <- app_assoc. reflexivity.
  - rewrite map_result_collect, (map_ext _ _ set_row_is_cells).
    destruct (Spec.collect (map Spec.set_cells (s :: ss))) as [rows|e];
      [|reflexivity].
    simpl. rewrite <- app_assoc. reflexivity.
Qed.

Lemma build_from_join (n : nat) (groups : OrderedDict Group) :
  forall i,
    (i + List.length groups = n)%nat ->
    build_from n i groups
    = rbind (map_result Spec.group_core groups) (fun gs => Ok (Spec.join_groups gs)).
Proof.
  induction groups as [|[name data] rest IH]; intros i Hn; [reflexivity|].
  simpl in Hn. cbn [build_from map_result].
  rewrite group_blocks_core, (IH (S i)) by lia.
  destruct (Spec.group_core (name, data)) as [g|e]; [|reflexivity]. simpl.
  destruct (map_result Spec.group_core rest) as [gs|e] eqn:E; [|reflexivity]. simpl.
  apply map_result_length in E.
  destruct rest as [|r rest'].
  - destruct gs; [|discriminate]. simpl in Hn. simpl.
    destruct (Z.ltb_spec (Z.of_nat i) (Z.of_nat n - 1)); [lia|].
    rewrite !app_nil_r. reflexivity.
  - destruct gs as [|g' gs']; [discriminate|].
    simpl in Hn.
    destruct (Z.ltb_spec (Z.of_nat i) (Z.of_nat n - 1)); [|lia].
    cbn [Spec.join_groups]. rewrite <- app_assoc. reflexivity.
Qed.

Lemma map_result_each {A B} (f : A -> result B) (P : B -> Prop) (l : list A) :
  (forall a b, f a = Ok b -> P b) ->
  forall bs, map_result f l = Ok bs -> Forall P bs.
Proof.
  intros HP. induction l as [|a t IH]; simpl; intros bs H.
  - injection H as <-. constructor.
  - destruct (f a) as [b|e] eqn:E; simpl in H; [|discriminate].
    destruct (map_result f t) as [bs'|e]; simpl in H; [|discriminate].
    injection H as <-. constructor; eauto.
Qed.

Lemma sets_table_no_divider (rows : list Exercise) (t : list Block) :
  Spec.sets_table rows = Ok t -> Spec.dividers t = 0%nat.
Proof.
  unfold Spec.sets_table. destruct rows as [|s ss].
  - intros H. injection H as <-. reflexivity.
  - destruct (Spec.collect (map Spec.set_cells (s :: ss))); simpl; intros H;
      [injection H as <-; reflexivity | discriminate].
Qed.

Lemma group_content_plain (exs : list Exercise) (name : string)
      (g : list Block) :
  Spec.group_content exs name = Ok g -> Spec.plain_group g.
Proof.
  unfold Spec.group_content.
  destruct (Spec.sets_table (Spec.sets_of name exs)) as [t|e] eqn:Ht;
    [|discriminate].
  intros H. injection H as <-.
  apply sets_table_no_divider in Ht. split; [|discriminate].
  unfold Spec.dividers in *. simpl. rewrite filter_app, length_app, Ht.
  rewrite Nat.add_0_r.
  induction (Spec.notes_of name exs); simpl; auto.
Qed.

Lemma join_groups_dividers (gs : list (list Block)) :
  Forall Spec.plain_group gs ->
  Spec.dividers (Spec.join_groups gs) = Nat.pred (List.length gs)
  /\ (gs <> [] ->
      Spec.is_divider (last (Spec.join_groups gs) Divider) = false).
Proof.
  induction 1 as [|g rest [Hd Hg] Hrest [IHd IHl]].
  - split; [reflexivity | congruence].
  - cbn [Spec.join_groups]. destruct rest as [|g' rest'].
    + split; [exact Hd|]. intros _.
      destruct (exists_last Hg) as (pre & b & ->).
      rewrite last_last. unfold Spec.dividers in Hd.
      rewrite filter_app, length_app in Hd. simpl in Hd.
      destruct (Spec.is_divider b); [simpl in Hd; lia | reflexivity].
    + split.
      * unfold Spec.dividers in *. rewrite filter_app, length_app, Hd.
        remember (Spec.join_groups (g' :: rest')) as joined.
        simpl. rewrite IHd. reflexivity.
      * intros _. specialize (IHl ltac:(discriminate)).
        assert (Hne : Spec.join_groups (g' :: rest') <> []).
        { inversion Hrest as [|? ? [_ Hg'] _]; subst.
          cbn [Spec.join_groups]. destruct rest'.
          - exact Hg'.
          - destruct g'; [congruence | discriminate]. }
        destruct (exists_last Hne) as (pre & b & E). rewrite E in *.
        rewrite last_last in IHl.
        change (g ++ Divider :: pre ++ [b]) with (g ++ (Divider :: pre) ++ [b]).
        rewrite app_assoc, last_last. exact IHl.
Qed.

(** C5.  The content builder emits, per exercise group in first-seen name
    order, one heading with the exercise name, then one italic paragraph per
    "Note" row in row order, then, exactly when the group has a row that is
    not a "Note" row, one table of three columns with the header row
    "Set", "Weight (kg)", "Reps" and one row per set in order, which holds
    the set order and the two displays of the set; a divider stands between
    two groups and never after the last; a "Note" row is never a table row.
    The builder raises when the set formatter does.  For two sets and a note
    of squats around a run, and a note on stretching, it gives the squats
    with their note and both sets, a divider, the run, a divider, and the
    stretching with its note and no table. *)
Theorem build_page_content_rule (exs : list Exercise) :
  build_page_content exs = Spec.content_rule exs
  /\ (forall name : string,
        forallb (fun s => negb (String.eqb (set_order s) "Note"))
                (Spec.sets_of name exs) = true)
  /\ (forall blocks : list Block,
        build_page_content exs = Ok blocks ->
        Spec.dividers blocks
        = Nat.pred (List.length (Spec.distinct (map exercise exs)))
        /\ Spec.is_divider (last blocks (Heading3 [])) = false)
  /\ build_page_content
       [mkExercise "Squat" "1" "100.0" "5" "" "" "";
        mkExercise "Squat" "Note" "" "" "" "" "felt good";
        mkExercise "Run" "1" "" "" "2000" "480" "";
        mkExercise "Squat" "2" "62.5" "8" "" "" "";
        mkExercise "Stretch" "Note" "" "" "" "" "easy"]
     = Ok [Heading3 [mkText "Squat" false];
           Paragraph [mkText "felt good" true];
           Table 3 true false
             [mkRow [[mkText "Set" false]; [mkText "Weight (kg)" false];
                     [mkText "Reps" false]];
              mkRow [[mkText "1" false]; [mkText "100" false];
                     [mkText "5" false]];
              mkRow [[mkText "2" false]; [mkText "62.5" false];
                     [mkText "8" false]]];
           Divider;
           Heading3 [mkText "Run" false];
           Table 3 true false
             [mkRow [[mkText "Set" false]; [mkText "Weight (kg)" false];
                     [mkText "Reps" false]];
              mkRow [[mkText "1" false]; [mkText "2.00 km" false];
                     [mkText "8:00" false]]];
           Divider;
           Heading3 [mkText "Stretch" false];
           Paragraph [mkText "easy" true]].
Proof.
  assert (Hr : build_page_content exs = Spec.content_rule exs).
  { unfold build_page_content, Spec.content_rule.
    rewrite build_from_join by reflexivity.
    rewrite group_exercises_grouped, map_result_map, map_result_collect.
    destruct (Spec.collect _); reflexivity. }
  split; [exact Hr | split; [|split]].
  - intros name. apply forallb_forall. intros s Hs.
    unfold Spec.sets_of in Hs. apply filter_In in Hs. apply Hs.
  - intros blocks H. rewrite Hr in H. unfold Spec.content_rule in H.
    rewrite <- map_result_collect in H.
    destruct (map_result (Spec.group_content exs) _) as [gs|e] eqn:Hgs;
      [|discriminate].
    injection H as <-.
    pose proof (map_result_length _ _ _ Hgs) as Hlen.
    pose proof (map_result_each _ Spec.plain_group _
                  (group_content_plain exs) _ Hgs) as Hall.
    destruct (join_groups_dividers gs Hall) as [Hd Hl].
    rewrite Hd, Hlen. split; [reflexivity|].
    destruct gs as [|g gs']; [reflexivity|].
    specialize (Hl ltac:(discriminate)).
    assert (Hne : Spec.join_groups (g :: gs') <> []).
    { inversion Hall as [|? ? [_ Hg] _]; subst. cbn [Spec.join_groups].
      destruct gs'; [exact Hg|]. destruct g; [congruence | discriminate]. }
    destruct (exists_last Hne) as (pre & b & E). rewrite E in *.
    rewrite last_last in *. exact Hl.
  - vm_compute. reflexivity.
Qed.

(** The morning workout of the export: four exercises, hence three
    dividers, and the bodyweight rows, the run and the plank as the set
    formatter shows them. *)
Lemma build_page_content_rule_witness :
  exists blocks,
    build_page_content
      [mkExercise "Squat" "1" "100.0" "5" "" "" "";
       mkExercise "Squat" "Note" "" "" "" "" "felt good";
       mkExercise "Squat" "2" "62.5" "8" "" "" "";
       mkExercise "Row" "1" "0" "500" "" "" "";
       mkExercise "Row" "2" "0" "480" "" "" "";
       mkExercise "Run" "1" "" "" "2000" "480" "";
       mkExercise "Plank" "1" "" "" "" "125" ""] = Ok blocks
    /\ Spec.dividers blocks = 3%nat
    /\ Spec.is_divider (last blocks (Heading3 [])) = false
    /\ skipn 4 blocks
       = [Heading3 [mkText "Row" false];
          Table 3 true false
            [mkRow [[mkText "Set" false]; [mkText "Weight (kg)" false];
                    [mkText "Reps" false]];
             mkRow [[mkText "1" false]; [mkText "BW" false];
                    [mkText "500" false]];
             mkRow [[mkText "2" false]; [mkText "BW" false];
                    [mkText "480" false]]];
          Divider;
          Heading3 [mkText "Run" false];
          Table 3 true false
            [mkRow [[mkText "Set" false]; [mkText "Weight (kg)" false];
                    [mkText "Reps" false]];
             mkRow [[mkText "1" false]; [mkText "2.00 km" false];
                    [mkText "8:00" false]]];
          Divider;
          Heading3 [mkText "Plank" false];
          Table 3 true false
            [mkRow [[mkText "Set" false]; [mkText "Weight (kg)" false];
                    [mkText "Reps" false]];
             mkRow [[mkText "1" false]; [mkText "" false];
                    [mkText "2:05" false]]]].
Proof.
  eexists. split; [vm_compute; reflexivity|].
  match goal with
  | |- Spec.dividers ?b = _ /\ _ =>
      destruct (build_page_content_rule
                  [mkExercise "Squat" "1" "100.0" "5" "" "" "";
                   mkExercise "Squat" "Note" "" "" "" "" "felt good";
                   mkExercise "Squat" "2" "62.5" "8" "" "" "";
                   mkExercise "Row" "1" "0" "500" "" "" "";
                   mkExercise "Row" "2" "0" "480" "" "" "";
                   mkExercise "Run" "1" "" "" "2000" "480" "";
                   mkExercise "Plank" "1" "" "" "" "125" ""])
        as (_ & _ & H & _);
      destruct (H b ltac:(vm_compute; reflexivity)) as [Hd Hl]
  end.
  split; [rewrite Hd; vm_compute; reflexivity|].
  split; [exact Hl | vm_compute; reflexivity].
Defined.

(** The header of a table of sets reads "Set", "Weight (kg)", "Reps": its
    second cell is not "Weight". *)
Lemma header_reads_weight_kg :
  exists rows,
    build_page_content [mkExercise "Squat" "1" "100.0" "5" "" "" ""]
    = Ok [Heading3 [mkText "Squat" false]; Table 3 true false rows]
    /\ hd_error rows
       = Some (mkRow [[mkText "Set" false]; [mkText "Weight (kg)" false];
                      [mkText "Reps" false]])
    /\ hd_error rows
       <> Some (mkRow [[mkText "Set" false]; [mkText "Weight" false];
                       [mkText "Reps" false]]).
Proof.
  eexists. split; [vm_compute; reflexivity|].
  split; [reflexivity | discriminate].
Qed.

(** ** Remote calls on a world without faults *)

Lemma remote_calm {A} (c : Call) (op : Store -> result (A * Store)) (w : World) :
  faults w = [] ->
  remote c op w
  = match op (store w) with
    | Ok (a, st) => (Ok a, Spec.after_call w st c)
    | Raise e => (Raise e, Spec.after_call w (store w) c)
    end.
Proof.
  unfold remote, Spec.after_call. intros ->. simpl.
  destruct (op (store w)) as [[a st]|e]; reflexivity.
Qed.

Lemma bind_ok {A B} (c : M A) (k : A -> M B) (w w' : World) (a : A) :
  c w = (Ok a, w') -> bind c k w = k a w'.
Proof. unfold bind. intros ->. reflexivity. Qed.

Lemma bind_raise {A B} (c : M A) (k : A -> M B) (w w' : World) (e : exn) :
  c w = (Raise e, w') -> bind c k w = (Raise e, w').
Proof. unfold bind. intros ->. reflexivity. Qed.

Lemma find_page_id (id : nat) (st : Store) (p : Page) :
  find_page id st = Some p -> page_id p = id.
Proof.
  unfold find_page. intros H. apply find_some in H.
  apply Nat.eqb_eq, H.
Qed.

Lemma find_modify_page (id : nat) (f : Page -> Page) (ps : list Page) (p : Page) :
  (forall q, page_id (f q) = page_id q) ->
  find (fun q => Nat.eqb (page_id q) id) ps = Some p ->
  find (fun q => Nat.eqb (page_id q) id) (modify_page id f ps) = Some (f p).
Proof.
  intros Hf. induction ps as [|q t IH]; simpl; [discriminate|].
  destruct (Nat.eqb (page_id q) id) eqn:E; simpl.
  - intros H. injection H as <-. rewrite Hf, E. reflexivity.
  - rewrite E. exact IH.
Qed.

Lemma find_map_page (id : nat) (f : Page -> Page) (ps : list Page) :
  (forall q, page_id (f q) = page_id q) ->
  find (fun q => Nat.eqb (page_id q) id) (map f ps)
  = option_map f (find (fun q => Nat.eqb (page_id q) id) ps).
Proof.
  intros Hf. induction ps as [|q t IH]; simpl; [reflexivity|].
  rewrite Hf. destruct (Nat.eqb (page_id q) id); [reflexivity | exact IH].
Qed.

Lemma pages_update_calm (id : nat) (props : Props) (w : World) (p : Page) :
  faults w = [] -> find_page id (store w) = Some p ->
  pages_update id props w
  = (Ok tt,
     Spec.after_call w (with_pages (store w)
                (modify_page id
                   (fun q => with_properties q (merge_props props (properties q)))
                   (pages (store w))))
           (PagesUpdate id props)).
Proof.
  intros Hf Hp. unfold pages_update. rewrite remote_calm by exact Hf.
  rewrite Hp. reflexivity.
Qed.

Lemma blocks_children_list_calm (id : nat) (cursor : option nat) (w : World)
      (p : Page) :
  faults w = [] -> find_page id (store w) = Some p ->
  blocks_children_list id cursor w
  = (Ok (list_children (store w) p cursor),
     Spec.after_call w (store w) (BlocksChildrenList id cursor)).
Proof.
  intros Hf Hp. unfold blocks_children_list. rewrite remote_calm by exact Hf.
  rewrite Hp. reflexivity.
Qed.

Lemma blocks_delete_calm (b : nat) (w : World) :
  faults w = [] -> existsb (has_child b) (pages (store w)) = true ->
  blocks_delete b w
  = (Ok tt,
     Spec.after_call w (with_pages (store w) (map (remove_child b) (pages (store w))))
           (BlocksDelete b)).
Proof.
  intros Hf Hc. unfold blocks_delete. rewrite remote_calm by exact Hf.
  rewrite Hc. reflexivity.
Qed.

Lemma blocks_children_append_calm (id : nat) (bs : list Block) (w : World)
      (p : Page) :
  faults w = [] -> find_page id (store w) = Some p ->
  blocks_children_append id bs w
  = (Ok tt,
     Spec.after_call w (mkStore
                (modify_page id
                   (fun q => with_children q
                               (children q ++ number_from (next_id (store w)) bs))
                   (pages (store w)))
                (databases (store w)) (next_id (store w) + List.length bs)
                (page_size (store w)))
           (BlocksChildrenAppend id bs)).
Proof.
  intros Hf Hp. unfold blocks_children_append. rewrite remote_calm by exact Hf.
  rewrite Hp. reflexivity.
Qed.

(** ** Seconds and calendar dates *)

Lemma div_between (k lo hi x : Z) :
  0 < k -> lo <= x <= hi -> lo / k = hi / k -> x / k = lo / k.
Proof.
  intros Hk Hx E.
  pose proof (Z.div_le_mono lo x k Hk ltac:(lia)).
  pose proof (Z.div_le_mono x hi k Hk ltac:(lia)). lia.
Qed.

Lemma stretch_ok_each (lo hi x : Z) :
  Spec.stretch_ok lo hi = true -> lo <= x <= hi ->
  0 <= Spec.year_of_era x <= 399
  /\ 0 <= x - Spec.year_start (Spec.year_of_era x) <= 365.
Proof.
  unfold Spec.stretch_ok. intros H Hx.
  repeat (apply andb_prop in H; destruct H as [H ?]).
  repeat match goal with
         | E : (_ =? _) = true |- _ => apply Z.eqb_eq in E
         | E : (_ <=? _) = true |- _ => apply Z.leb_le in E
         end.
  assert (Ey : Spec.year_of_era x = Spec.year_of_era lo).
  { unfold Spec.year_of_era in *.
    rewrite (div_between 1460 lo hi x), (div_between 36524 lo hi x),
      (div_between 146096 lo hi x) by (assumption || lia).
    set (a := lo / 1460) in *. set (b := lo / 36524) in *.
    set (c := lo / 146096) in *.
    pose proof (Z.div_le_mono (lo - a + b - c) (x - a + b - c) 365
                  ltac:(lia) ltac:(lia)).
    assert (Hhi : (hi - hi / 1460 + hi / 36524 - hi / 146096)
                  = hi - a + b - c) by lia.
    rewrite Hhi in *.
    pose proof (Z.div_le_mono (x - a + b - c) (hi - a + b - c) 365
                  ltac:(lia) ltac:(lia)).
    lia. }
  rewrite Ey. lia.
Qed.

Lemma stretches_ok_each (fuel : nat) :
  forall lo x, Spec.stretches_ok fuel lo = true -> lo <= x < 146097 ->
    0 <= Spec.year_of_era x <= 399
    /\ 0 <= x - Spec.year_start (Spec.year_of_era x) <= 365.
Proof.
  induction fuel as [|fuel IH]; intros lo x H Hx; cbn [Spec.stretches_ok] in H;
    destruct (Z.leb_spec 146097 lo); try lia; try discriminate.
  apply andb_prop in H. destruct H as [H1 H2].
  destruct (Z_le_gt_dec x (Spec.next_stretch lo - 1)).
  - apply (stretch_ok_each lo (Spec.next_stretch lo - 1)); [exact H1 | lia].
  - apply (IH (Spec.next_stretch lo)); [exact H2 | lia].
Qed.

Lemma era_checked : Spec.stretches_ok 600 0 = true.
Proof. vm_compute. reflexivity. Qed.

Lemma year_days_checked :
  forallb Spec.year_day_ok (map Z.of_nat (seq 0 366)) = true.
Proof. vm_compute. reflexivity. Qed.

Lemma year_day_each (doy : Z) : 0 <= doy <= 365 -> Spec.year_day_ok doy = true.
Proof.
  intros H. pose proof year_days_checked as C.
  rewrite forallb_forall in C. apply C.
  apply in_map_iff. exists (Z.to_nat doy). split; [lia|].
  apply in_seq. lia.
Qed.

(** The civil date of a day number has that day number. *)
Lemma days_from_civil_from_days (z : Z) :
  let '(y, m, d) := civil_from_days z in days_from_civil y m d = z.
Proof.
  unfold civil_from_days.
  set (z' := z + 719468). set (era := z' / 146097).
  set (doe := z' - era * 146097).
  assert (Hdoe : 0 <= doe < 146097).
  { unfold doe, era. pose proof (Z.mod_pos_bound z' 146097 ltac:(lia)).
    rewrite Z.mod_eq in H by lia. lia. }
  fold (Spec.year_of_era doe). set (yoe := Spec.year_of_era doe).
  destruct (stretches_ok_each 600 0 doe era_checked ltac:(lia)) as [Hy Hd].
  fold yoe in Hy, Hd. unfold Spec.year_start in Hd.
  set (doy := doe - (365 * yoe + yoe / 4 - yoe / 100)) in *.
  pose proof (year_day_each doy Hd) as Hc. unfold Spec.year_day_ok in Hc.
  apply Z.eqb_eq in Hc.
  set (mp := (5 * doy + 2) / 153) in *.
  set (d := doy - (153 * mp + 2) / 5 + 1) in *.
  set (m := if mp <? 10 then mp + 3 else mp - 9) in *.
  unfold days_from_civil.
  assert (Ey : (if m <=? 2
                then (if m <=? 2 then yoe + era * 400 + 1 else yoe + era * 400) - 1
                else (if m <=? 2 then yoe + era * 400 + 1 else yoe + era * 400))
               = yoe + era * 400) by (destruct (m <=? 2); lia).
  rewrite Ey.
  assert (Eera : (yoe + era * 400) / 400 = era).
  { rewrite Z.div_add by lia. rewrite Z.div_small by lia. lia. }
  rewrite Eera.
  replace (yoe + era * 400 - era * 400) with yoe by lia.
  replace (yoe * 365) with (365 * yoe) by lia.
  rewrite Hc. unfold doy, doe, z'. lia.
Qed.

Lemma to_seconds_of_seconds (t : Z) : to_seconds (of_seconds t) = t.
Proof.
  unfold of_seconds. pose proof (days_from_civil_from_days (t / 86400)) as H.
  destruct (civil_from_days (t / 86400)) as [[y m] d].
  unfold to_seconds. cbn [year month day hour minute second]. rewrite H.
  pose proof (Z.mod_pos_bound t 86400 ltac:(lia)) as Hs.
  set (s := t mod 86400) in *.
  assert (Es : s / 3600 * 3600 + s mod 3600 / 60 * 60 + s mod 60 = s).
  { Z.div_mod_to_equations. lia. }
  assert (Et : t = 86400 * (t / 86400) + s) by (apply Z.div_mod; lia).
  lia.
Qed.

Lemma add_seconds_seconds (a e : aware) (n : Z) :
  add_seconds a n = Ok e ->
  to_seconds (local e) = to_seconds (local a) + n /\ offset e = offset a
  /\ 1 <= year (local e) <= 9999.
Proof.
  unfold add_seconds.
  destruct ((1 <=? year (of_seconds (to_seconds (local a) + n)))
            && (year (of_seconds (to_seconds (local a) + n)) <=? 9999)) eqn:E;
    [|discriminate].
  intros [= <-]. cbn [local offset]. split; [apply to_seconds_of_seconds|].
  split; [reflexivity|]. apply andb_prop in E. lia.
Qed.

(** ** Replacing the content of a page *)

Lemma with_children_same (p : Page) : with_children p (children p) = p.
Proof. destruct p; reflexivity. Qed.

Lemma filter_other_ids (b : nat) (cs : list (nat * Block)) :
  ~ In b (map fst cs) ->
  filter (fun c => negb (Nat.eqb (fst c) b)) cs = cs.
Proof.
  intros H. apply filter_id_forall. intros c Hc.
  destruct (Nat.eqb_spec (fst c) b) as [E|E]; [|reflexivity].
  exfalso. apply H. rewrite <- E. apply in_map, Hc.
Qed.

Lemma deleted_app (a b : list Call) :
  Spec.deleted_ids (a ++ b) = Spec.deleted_ids a ++ Spec.deleted_ids b.
Proof. unfold Spec.deleted_ids. apply flat_map_app. Qed.

Lemma deleted_deletes (cs : list (nat * Block)) :
  Spec.deleted_ids (map (fun c => BlocksDelete (fst c)) cs) = map fst cs.
Proof. induction cs as [|c t IH]; simpl; [reflexivity | f_equal; exact IH]. Qed.

Lemma delete_each_calm (id : nat) (cs : list (nat * Block)) :
  forall (rest : list (nat * Block)) (p : Page) (w : World),
    faults w = [] ->
    find_page id (store w) = Some p ->
    children p = cs ++ rest ->
    NoDup (map fst (cs ++ rest)) ->
    exists w',
      delete_each cs w = (Ok tt, w')
      /\ faults w' = []
      /\ find_page id (store w') = Some (with_children p rest)
      /\ page_size (store w') = page_size (store w)
      /\ console w' = console w
      /\ trace w' = trace w ++ map (fun c => BlocksDelete (fst c)) cs.
Proof.
  induction cs as [|c cs' IH]; intros rest p w Hf Hp Hc Hnd.
  - exists w. simpl in *. rewrite <- Hc, with_children_same, app_nil_r.
    repeat split; auto.
  - simpl in Hc, Hnd. inversion Hnd as [|? ? Hnotin Hnd']; subst.
    assert (Hhas : existsb (has_child (fst c)) (pages (store w)) = true).
    { apply existsb_exists. exists p. split.
      - unfold find_page in Hp. apply find_some in Hp. apply Hp.
      - unfold has_child. rewrite Hc. simpl. rewrite Nat.eqb_refl. reflexivity. }
    cbn [delete_each].
    erewrite bind_ok by (apply blocks_delete_calm; assumption).
    set (w1 := Spec.after_call w _ _).
    assert (Hp1 : find_page id (store w1) = Some (remove_child (fst c) p)).
    { unfold w1, Spec.after_call, find_page. simpl. rewrite find_map_page by reflexivity.
      unfold find_page in Hp. rewrite Hp. reflexivity. }
    assert (Hc1 : children (remove_child (fst c) p) = cs' ++ rest).
    { unfold remove_child. simpl. rewrite Hc. simpl. rewrite Nat.eqb_refl. simpl.
      apply filter_other_ids, Hnotin. }
    destruct (IH rest (remove_child (fst c) p) w1 eq_refl Hp1 Hc1 Hnd')
      as (w' & Hrun & Hf' & Hp' & Hps & Hcon & Htr).
    exists w'. repeat split; auto.
    rewrite Htr. unfold w1, Spec.after_call. simpl. rewrite <- app_assoc. reflexivity.
Qed.

Lemma list_children_from (st : Store) (p : Page) (cursor : option nat) :
  cursor = None \/ cursor = option_map fst (hd_error (children p)) ->
  let r := list_children st p cursor in
  results r = firstn (page_size st) (children p)
  /\ has_more r = negb (Spec.is_nil (skipn (page_size st) (children p)))
  /\ next_cursor r = option_map fst (hd_error (skipn (page_size st) (children p))).
Proof.
  intros H. unfold list_children.
  assert (E : match cursor with
              | Some c => from_cursor c (children p)
              | None => children p
              end = children p).
  { destruct H as [->| ->]; [reflexivity|].
    destruct (children p) as [|c t]; simpl; [reflexivity|].
    rewrite Nat.eqb_refl. reflexivity. }
  rewrite E. simpl. repeat split.
  destruct (skipn (page_size st) (children p)); reflexivity.
Qed.

Lemma NoDup_skipn {A} (n : nat) (l : list A) : NoDup l -> NoDup (skipn n l).
Proof.
  intros H. rewrite <- (firstn_skipn n l) in H.
  apply NoDup_app_remove_l in H. exact H.
Qed.

Lemma delete_more_calm (id : nat) (fuel : nat) :
  forall (existing : ListResponse) (p : Page) (w : World),
    faults w = [] ->
    find_page id (store w) = Some p ->
    NoDup (map fst (children p)) ->
    (0 < page_size (store w))%nat ->
    (List.length (children p) <= fuel)%nat ->
    has_more existing = negb (Spec.is_nil (children p)) ->
    next_cursor existing = option_map fst (hd_error (children p)) ->
    exists w' calls,
      delete_more fuel id existing w = (Ok tt, w')
      /\ faults w' = []
      /\ find_page id (store w') = Some (with_children p [])
      /\ page_size (store w') = page_size (store w)
      /\ console w' = console w
      /\ trace w' = trace w ++ calls
      /\ Spec.deleted_ids calls = map fst (children p).
Proof.
  induction fuel as [|fuel IH]; intros existing p w Hf Hp Hnd Hps Hlen Hmore Hcur.
  - destruct (children p) as [|c t] eqn:Hc; [|simpl in Hlen; lia].
    exists w, []. simpl in *. rewrite Hmore. rewrite <- Hc, with_children_same.
    rewrite app_nil_r. repeat split; auto.
  - destruct (children p) as [|c t] eqn:Hc.
    + exists w, []. simpl in *. rewrite Hmore. rewrite <- Hc, with_children_same.
      rewrite app_nil_r. repeat split; auto.
    + cbn [delete_more]. rewrite Hmore. cbn [Spec.is_nil negb].
      erewrite bind_ok by (eapply blocks_children_list_calm; eassumption).
      set (w1 := Spec.after_call w _ _).
      destruct (list_children_from (store w) p (next_cursor existing))
        as (Hres & Hmore' & Hcur'); [right; rewrite Hc; exact Hcur|].
      rewrite Hc in Hres, Hmore', Hcur'.
      destruct (delete_each_calm id (firstn (page_size (store w)) (c :: t))
                  (skipn (page_size (store w)) (c :: t)) p w1 eq_refl Hp)
        as (w2 & Hrun2 & Hf2 & Hp2 & Hps2 & Hcon2 & Htr2).
      { rewrite firstn_skipn. exact Hc. }
      { rewrite firstn_skipn. exact Hnd. }
      rewrite Hres.
      erewrite bind_ok by exact Hrun2.
      assert (Hshort : (List.length (skipn (page_size (store w)) (c :: t))
                        <= fuel)%nat).
      { rewrite length_skipn. cbn [List.length] in *. lia. }
      destruct (IH (list_children (store w) p (next_cursor existing))
                   (with_children p (skipn (page_size (store w)) (c :: t)))
                   w2 Hf2 Hp2)
        as (w3 & calls & Hrun3 & Hf3 & Hp3 & Hps3 & Hcon3 & Htr3 & Hdel3).
      { simpl. rewrite <- skipn_map. apply NoDup_skipn. exact Hnd. }
      { rewrite Hps2. exact Hps. }
      { exact Hshort. }
      { exact Hmore'. }
      { exact Hcur'. }
      exists w3, (BlocksChildrenList id (next_cursor existing)
                  :: map (fun c => BlocksDelete (fst c))
                         (firstn (page_size (store w)) (c :: t)) ++ calls).
      rewrite Hrun3. repeat split; auto.
      * rewrite Hps3, Hps2. reflexivity.
      * rewrite Hcon3, Hcon2. reflexivity.
      * rewrite Htr3, Htr2. unfold w1, Spec.after_call. simpl.
        rewrite <- !app_assoc. reflexivity.
      * change (Spec.deleted_ids (?a :: ?l)) with (Spec.deleted_ids [a] ++ Spec.deleted_ids l).
        cbn [Spec.deleted_ids flat_map app].
        fold (Spec.deleted_ids (map (fun c0 => BlocksDelete (fst c0))
                 (firstn (page_size (store w)) (c :: t)) ++ calls)).
        rewrite deleted_app, deleted_deletes, Hdel3. simpl children.
        rewrite <- map_app, firstn_skipn. reflexivity.
Qed.

Lemma number_from_blocks (bs : list Block) :
  forall n, map snd (number_from n bs) = bs.
Proof.
  unfold number_from. induction bs as [|b t IH]; intros n; simpl;
    [reflexivity | f_equal; apply IH].
Qed.

Lemma replace_page_content_calm (fuel id : nat) (blocks : list Block)
      (p : Page) (w : World) :
  faults w = [] ->
  find_page id (store w) = Some p ->
  NoDup (map fst (children p)) ->
  (0 < page_size (store w))%nat ->
  (List.length (children p) <= fuel)%nat ->
  exists w' calls fresh,
    replace_page_content fuel id blocks w = (Ok tt, w')
    /\ faults w' = []
    /\ find_page id (store w') = Some (with_children p fresh)
    /\ map snd fresh = blocks
    /\ console w' = console w
    /\ trace w' = trace w ++ calls ++ [BlocksChildrenAppend id blocks]
    /\ Spec.deleted_ids calls = map fst (children p).
Proof.
  intros Hf Hp Hnd Hps Hlen. unfold replace_page_content.
  erewrite bind_ok by (eapply blocks_children_list_calm; eassumption).
  set (w1 := Spec.after_call w _ _).
  destruct (list_children_from (store w) p None) as (Hres & Hmore & Hcur);
    [left; reflexivity|].
  destruct (delete_each_calm id (firstn (page_size (store w)) (children p))
              (skipn (page_size (store w)) (children p)) p w1 eq_refl Hp)
    as (w2 & Hrun2 & Hf2 & Hp2 & Hps2 & Hcon2 & Htr2).
  { rewrite firstn_skipn. reflexivity. }
  { rewrite firstn_skipn. exact Hnd. }
  rewrite Hres. erewrite bind_ok by exact Hrun2.
  destruct (delete_more_calm id fuel (list_children (store w) p None)
              (with_children p (skipn (page_size (store w)) (children p)))
              w2 Hf2 Hp2)
    as (w3 & calls & Hrun3 & Hf3 & Hp3 & Hps3 & Hcon3 & Htr3 & Hdel3).
  { simpl. rewrite <- skipn_map. apply NoDup_skipn, Hnd. }
  { rewrite Hps2. exact Hps. }
  { simpl. rewrite length_skipn. lia. }
  { exact Hmore. }
  { exact Hcur. }
  erewrite bind_ok by exact Hrun3.
  rewrite (blocks_children_append_calm id blocks w3 _ Hf3 Hp3).
  eexists. exists (BlocksChildrenList id None
           :: map (fun c => BlocksDelete (fst c))
                  (firstn (page_size (store w)) (children p)) ++ calls).
  exists (number_from (next_id (store w3)) blocks).
  repeat split.
  - unfold Spec.after_call, find_page. simpl. unfold find_page in Hp3.
    rewrite (find_modify_page id
               (fun q => with_children q
                           (children q ++ number_from (next_id (store w3)) blocks))
               _ _ (fun _ => eq_refl) Hp3).
    reflexivity.
  - apply number_from_blocks.
  - simpl. rewrite Hcon3, Hcon2. reflexivity.
  - simpl. rewrite Htr3, Htr2. unfold w1, Spec.after_call. simpl.
    rewrite <- !app_assoc. reflexivity.
  - change (Spec.deleted_ids (?a :: ?l)) with (Spec.deleted_ids [a] ++ Spec.deleted_ids l).
    cbn [Spec.deleted_ids flat_map app].
    fold (Spec.deleted_ids (map (fun c0 => BlocksDelete (fst c0))
                       (firstn (page_size (store w)) (children p)) ++ calls)).
    rewrite deleted_app, deleted_deletes, Hdel3. simpl children.
    rewrite <- map_app, firstn_skipn. reflexivity.
Qed.

Lemma lookup_set_prop (k k' : string) (v : PropValue) (ps : Props) :
  lookup k' (set_prop k v ps)
  = if String.eqb k' k then Some v else lookup k' ps.
Proof.
  induction ps as [|[a x] t IH]; simpl.
  - destruct (String.eqb k' k); reflexivity.
  - destruct (String.eqb_spec k a) as [E|E]; simpl.
    + subst a. destruct (String.eqb k' k); reflexivity.
    + rewrite IH. destruct (String.eqb_spec k' a) as [E'|E'];
        [|reflexivity].
      subst a. destruct (String.eqb_spec k' k); [congruence | reflexivity].
Qed.

(** C9.  On a rebuild of a workout whose page exists, the update writes the
    date range alone and leaves every other property of the page as it was.
    The start of the range is the parsed timestamp with the zone's offset;
    the end lies [duration_sec] seconds after the start on the local clock
    and keeps the start's offset.  Each child the page had is deleted, page
    of results after page of results, and the freshly built blocks are
    appended, so the page's blocks are exactly those a build of the
    workout's exercises yields.  A workout of 3600 seconds that starts at
    07:00:00 on 2024-01-05 at one hour east of Greenwich gets the range from
    2024-01-05T07:00:00+01:00 to 2024-01-05T08:00:00+01:00; one of 90
    seconds that starts at 23:59:30 on 2023-12-31 ends at 00:01:00 on
    2024-01-01. *)
Theorem update_workout_replaces
        (utcoffset : datetime -> Z) (fuel : nat) (existing_page p : Page)
        (workout : Workout) (w : World)
        (start_dt end_dt : aware) (blocks : list Block) :
  faults w = [] ->
  find_page (page_id existing_page) (store w) = Some p ->
  NoDup (map fst (children p)) ->
  (0 < page_size (store w))%nat ->
  (List.length (children p) <= fuel)%nat ->
  make_workout_dates utcoffset workout = Ok (start_dt, end_dt) ->
  build_page_content (exercises workout) = Ok blocks ->
  exists w' p' calls,
    update_workout utcoffset fuel existing_page workout w = (Ok tt, w')
    /\ find_page (page_id existing_page) (store w') = Some p'
    /\ lookup "Date" (properties p')
       = Some (PDate (isoformat start_dt) (Some (isoformat end_dt)))
    /\ (forall key, key <> "Date" ->
          lookup key (properties p') = lookup key (properties p))
    /\ map snd (children p') = blocks
    /\ trace w'
       = trace w
         ++ [PagesUpdate (page_id existing_page)
               [("Date", PDate (isoformat start_dt) (Some (isoformat end_dt)))]]
         ++ calls
         ++ [BlocksChildrenAppend (page_id existing_page) blocks]
    /\ Spec.deleted_ids calls = map fst (children p)
    /\ (exists naive,
          strptime (date workout) = Ok naive
          /\ start_dt = mkAware naive (utcoffset naive)
          /\ add_seconds start_dt (duration_sec workout) = Ok end_dt)
    /\ to_seconds (local end_dt)
       = to_seconds (local start_dt) + duration_sec workout
    /\ offset end_dt = offset start_dt
    /\ make_workout_dates (fun _ => 3600)
         (mkWorkout "2024-01-05 07:00:00" "Morning" 3600 [])
       = Ok (mkAware (mkDatetime 2024 1 5 7 0 0) 3600,
             mkAware (mkDatetime 2024 1 5 8 0 0) 3600)
    /\ make_workout_dates (fun _ => 3600)
         (mkWorkout "2023-12-31 23:59:30" "Late" 90 [])
       = Ok (mkAware (mkDatetime 2023 12 31 23 59 30) 3600,
             mkAware (mkDatetime 2024 1 1 0 1 0) 3600)
    /\ date_range (mkAware (mkDatetime 2024 1 5 7 0 0) 3600)
                  (mkAware (mkDatetime 2024 1 5 8 0 0) 3600)
       = PDate "2024-01-05T07:00:00+01:00" (Some "2024-01-05T08:00:00+01:00").
Proof.
  intros Hf Hp Hnd Hps Hlen Hdates Hbuild.
  assert (Hend : to_seconds (local end_dt)
                 = to_seconds (local start_dt) + duration_sec workout
                 /\ offset end_dt = offset start_dt).
  { unfold make_workout_dates in Hdates.
    apply rbind_ok in Hdates. destruct Hdates as (naive & Hn & Hd).
    apply rbind_ok in Hd. destruct Hd as (e & He & Hd).
    injection Hd as <- <-.
    destruct (add_seconds_seconds _ _ _ He) as (Hs & Ho & _). auto. }
  destruct Hend as [Hsec Hoff].
  unfold update_workout.
  rewrite Hdates. unfold lift at 1. unfold bind at 1. cbv beta iota.
  erewrite bind_ok by (eapply pages_update_calm; eassumption).
  set (w1 := Spec.after_call w _ _).
  rewrite Hbuild. unfold lift. unfold bind at 1. cbv beta iota.
  set (p1 := with_properties p
               (merge_props [("Date", date_range start_dt end_dt)]
                            (properties p))).
  assert (Hp1 : find_page (page_id existing_page) (store w1) = Some p1).
  { unfold w1, Spec.after_call, find_page, with_pages. cbn [store pages].
    unfold find_page in Hp.
    rewrite (find_modify_page (page_id existing_page)
               (fun q => with_properties q
                           (merge_props [("Date", date_range start_dt end_dt)]
                                        (properties q)))
               _ _ (fun _ => eq_refl) Hp).
    reflexivity. }
  destruct (replace_page_content_calm fuel (page_id existing_page) blocks
              p1 w1 eq_refl Hp1 Hnd Hps Hlen)
    as (w' & calls & fresh & Hrun & Hf' & Hp' & Hfresh & Hcon & Htr & Hdel).
  exists w', (with_children p1 fresh), calls. rewrite Hrun.
  repeat split; auto.
  - simpl. rewrite lookup_set_prop. reflexivity.
  - intros key Hk. simpl. rewrite lookup_set_prop.
    destruct (String.eqb_spec key "Date"); [contradiction | reflexivity].
  - rewrite Htr. unfold w1, Spec.after_call. simpl. rewrite <- !app_assoc. reflexivity.
  - unfold make_workout_dates in Hdates.
    apply rbind_ok in Hdates. destruct Hdates as (naive & Hn & Hd).
    apply rbind_ok in Hd. destruct Hd as (e & He & Hd).
    injection Hd as <- <-. exists naive. repeat split; auto.
Qed.

(** The morning workout of the export, rebuilt on the page the first run
    made for it: the page keeps its title, gets the range from 07:00 to
    08:00, and its twelve blocks are replaced by the twelve built anew. *)
Lemma update_workout_replaces_witness :
  exists w' p',
    update_workout Demo.cet 20 Demo.morning_page Demo.morning_workout Demo.synced = (Ok tt, w')
    /\ find_page 0 (store w') = Some p'
    /\ lookup "Date" (properties p')
       = Some (PDate "2024-01-05T07:00:00+01:00"
                     (Some "2024-01-05T08:00:00+01:00"))
    /\ lookup "Activity Name" (properties p') = Some (PTitle "Morning")
    /\ Ok (map snd (children p')) = build_page_content (exercises Demo.morning_workout)
    /\ List.length (children p') = 12%nat
    /\ map fst (children Demo.morning_page)
       = [1; 2; 3; 4; 5; 6; 7; 8; 9; 10; 11; 12]%nat
    /\ Spec.deleted_ids (trace Demo.synced) = []
    /\ Spec.deleted_ids (trace w')
       = [1; 2; 3; 4; 5; 6; 7; 8; 9; 10; 11; 12]%nat.
Proof.
  edestruct (update_workout_replaces Demo.cet 20 Demo.morning_page Demo.morning_page
               Demo.morning_workout Demo.synced)
    as (w' & p' & calls & Hrun & Hp & Hdate & Hkeep & Hblocks & Htr & Hdel & _).
  - vm_compute. reflexivity.
  - vm_compute. reflexivity.
  - vm_compute.
    repeat (constructor;
            [intros H; repeat (destruct H as [H|H]; [discriminate H|]); exact H|]).
    constructor.
  - vm_compute. lia.
  - vm_compute. lia.
  - vm_compute. reflexivity.
  - vm_compute. reflexivity.
  - exists w', p'.
    split; [exact Hrun | split; [exact Hp|]].
    split; [rewrite Hdate; vm_compute; reflexivity|].
    split; [rewrite Hkeep by discriminate; vm_compute; reflexivity|].
    split; [rewrite Hblocks; vm_compute; reflexivity|].
    split; [rewrite <- (length_map snd), Hblocks; vm_compute; reflexivity|].
    split; [vm_compute; reflexivity|].
    split; [vm_compute; reflexivity|].
    rewrite Htr, !deleted_app, Hdel. vm_compute. reflexivity.
Defined.

(** ** The aggregation sync *)

Lemma reps_of_code (s : Exercise) :
  (if truthy (reps s) then int_of_str (reps s) else Ok 0) = Spec.reps_of s.
Proof. reflexivity. Qed.

(** The loop over the sets, from any accumulator. *)
Lemma stats_loop_rule_from (sets : list Exercise) :
  forall (m v : num) (r : Z) (st : Stats),
    stats_loop (m, v, r) sets = Ok st <->
    exists weights counts volumes total,
      map_result weight_of sets = Ok weights
      /\ map_result Spec.reps_of sets = Ok counts
      /\ map_result Spec.volume (combine weights counts) = Ok volumes
      /\ Spec.sum_nums v volumes = Ok total
      /\ st = (fold_left num_max weights m, total, fold_left Z.add counts r).
Proof.
  induction sets as [|s rest IH]; intros m v r st.
  - simpl. split.
    + intros H. injection H as <-. exists [], [], [], v. repeat split; reflexivity.
    + intros (ws & cs & vs & t & Hw & Hc & Hv & Ht & ->).
      injection Hw as <-. injection Hc as <-. simpl in Hv. injection Hv as <-.
      simpl in Ht. injection Ht as <-. reflexivity.
  - cbn [stats_loop map_result]. unfold stats_step. rewrite reps_of_code.
    destruct (weight_of s) as [w|e]; simpl.
    2:{ split; [discriminate|]. intros (ws & cs & vs & t & Hw & _). discriminate. }
    destruct (Spec.reps_of s) as [c|e]; simpl.
    2:{ split; [discriminate|].
        intros (ws & cs & vs & t & Hw & Hc & _).
        destruct (map_result weight_of rest); discriminate. }
    destruct (num_mul w (Int c)) as [x|e] eqn:Hx; simpl.
    2:{ split; [discriminate|].
        intros (ws & cs & vs & t & Hw & Hc & Hv & _).
        destruct (map_result weight_of rest) as [ws'|]; [|discriminate].
        destruct (map_result Spec.reps_of rest) as [cs'|]; [|discriminate].
        simpl in Hw, Hc. injection Hw as <-. injection Hc as <-.
        simpl in Hv. unfold Spec.volume at 1 in Hv. simpl in Hv.
        rewrite Hx in Hv. discriminate. }
    destruct (num_add v x) as [v'|e] eqn:Hv'; simpl.
    2:{ split; [discriminate|].
        intros (ws & cs & vs & t & Hw & Hc & Hv & Ht & _).
        destruct (map_result weight_of rest) as [ws'|]; [|discriminate].
        destruct (map_result Spec.reps_of rest) as [cs'|]; [|discriminate].
        simpl in Hw, Hc. injection Hw as <-. injection Hc as <-.
        simpl in Hv. unfold Spec.volume at 1 in Hv. simpl in Hv.
        rewrite Hx in Hv. simpl in Hv.
        destruct (map_result Spec.volume (combine ws' cs')); [|discriminate].
        simpl in Hv. injection Hv as <-. simpl in Ht. rewrite Hv' in Ht.
        discriminate. }
    rewrite IH. split.
    + intros (ws & cs & vs & t & Hw & Hc & Hv & Ht & ->).
      exists (w :: ws), (c :: cs), (x :: vs), t.
      rewrite Hw, Hc. simpl. unfold Spec.volume at 1. simpl. rewrite Hx. simpl.
      rewrite Hv. simpl. rewrite Hv'. simpl. repeat split; auto.
    + intros (ws & cs & vs & t & Hw & Hc & Hv & Ht & ->).
      destruct (map_result weight_of rest) as [ws'|]; [|discriminate].
      destruct (map_result Spec.reps_of rest) as [cs'|]; [|discriminate].
      simpl in Hw, Hc. injection Hw as <-. injection Hc as <-.
      simpl in Hv. unfold Spec.volume at 1 in Hv. simpl in Hv.
      rewrite Hx in Hv. simpl in Hv.
      destruct (map_result Spec.volume (combine ws' cs')) as [vs'|] eqn:Hvs;
        [|discriminate].
      simpl in Hv. injection Hv as <-. simpl in Ht. rewrite Hv' in Ht.
      simpl in Ht.
      exists ws', cs', vs', t. repeat split; auto.
Qed.

Lemma stats_loop_rule (sets : list Exercise) (st : Stats) :
  stats_loop (Int 0, Int 0, 0) sets = Ok st <-> Spec.stats_rule sets = Ok st.
Proof.
  rewrite stats_loop_rule_from. unfold Spec.stats_rule. split.
  - intros (ws & cs & vs & t & Hw & Hc & Hv & Ht & ->).
    rewrite Hw, Hc. simpl. rewrite Hv. simpl. rewrite Ht. reflexivity.
  - intros H.
    destruct (map_result weight_of sets) as [ws|]; [|discriminate].
    destruct (map_result Spec.reps_of sets) as [cs|]; [|discriminate].
    simpl in H.
    destruct (map_result Spec.volume (combine ws cs)) as [vs|] eqn:Hv;
      [|discriminate].
    simpl in H.
    destruct (Spec.sum_nums (Int 0) vs) as [t|] eqn:Ht; [|discriminate].
    simpl in H. injection H as <-.
    exists ws, cs, vs, t.
    split; [reflexivity|]. split; [reflexivity|]. split; [exact Hv|].
    split; [exact Ht | reflexivity].
Qed.

Lemma entry_properties_rule (workout : Workout) (date_iso exercise_name : string)
      (sets : list Exercise) (props : Props) :
  entry_properties workout date_iso exercise_name sets = Ok props <->
  exists st,
    Spec.stats_rule sets = Ok st
    /\ props = Spec.entry_of_stats workout date_iso exercise_name
                 (List.length sets) st.
Proof.
  unfold entry_properties. split.
  - intros H. apply rbind_ok in H. destruct H as ([[mw tv] tr] & Hs & H).
    injection H as <-. exists (mw, tv, tr). split; [|reflexivity].
    apply stats_loop_rule, Hs.
  - intros ([[mw tv] tr] & Hs & ->). apply stats_loop_rule in Hs.
    rewrite Hs. reflexivity.
Qed.

Lemma hd_error_filter {A} (f : A -> bool) (l : list A) :
  hd_error (filter f l) = find f l.
Proof.
  induction l as [|a t IH]; simpl; [reflexivity|].
  destruct (f a); [reflexivity | exact IH].
Qed.

Lemma leb_both_eqb (a b : string) :
  String.leb a b && String.leb b a = String.eqb a b.
Proof.
  destruct (String.eqb_spec a b) as [E|E].
  - subst b. destruct (String.leb_total a a) as [H|H]; rewrite H; reflexivity.
  - destruct (String.leb a b) eqn:H1; [|reflexivity].
    destruct (String.leb b a) eqn:H2; [|reflexivity].
    exfalso. apply E. apply String.leb_antisym; assumption.
Qed.

Lemma entry_filter_matches (db name date_only : string) (p : Page) :
  in_database db p
  && filter_holds (And [TitleEquals "Exercise" name;
                        DateOnOrAfter "Date" date_only;
                        DateOnOrBefore "Date" date_only]) p
  = Spec.entry_matches db name date_only p.
Proof.
  unfold Spec.entry_matches, filter_holds. cbn [forallb cond_holds].
  rewrite andb_true_r, <- !andb_assoc. f_equal. f_equal.
  destruct (lookup "Date" (properties p)) as [[| |s f| | | |]|];
    try reflexivity.
  rewrite leb_both_eqb. apply String.eqb_sym.
Qed.

Lemma query_entries (db name date_only : string) (st : Store) :
  query db (And [TitleEquals "Exercise" name;
                 DateOnOrAfter "Date" date_only;
                 DateOnOrBefore "Date" date_only]) st
  = filter (Spec.entry_matches db name date_only) (pages st).
Proof.
  unfold query. apply filter_ext. intros p. apply entry_filter_matches.
Qed.

Lemma databases_query_calm (db : string) (f : Filter) (w : World) :
  faults w = [] ->
  databases_query db f w
  = (Ok (query db f (store w)),
     Spec.after_call w (store w) (DatabasesQuery db f)).
Proof.
  intros Hf. unfold databases_query. rewrite remote_calm by exact Hf.
  reflexivity.
Qed.

Lemma exercise_entry_exists_calm (db date_only name : string) (w : World) :
  faults w = [] ->
  exercise_entry_exists db date_only name w
  = (Ok (find (Spec.entry_matches db name date_only) (pages (store w))),
     Spec.after_call w (store w) (Spec.entry_query db date_only name)).
Proof.
  intros Hf. unfold exercise_entry_exists.
  erewrite bind_ok by (apply databases_query_calm; exact Hf).
  rewrite query_entries, hd_error_filter. reflexivity.
Qed.

Lemma pages_create_calm (db : string) (props : Props) (w : World) :
  faults w = [] ->
  pages_create db props STRENGTH_ICON w
  = (Ok (mkPage (next_id (store w)) db props (Some STRENGTH_ICON) []),
     Spec.after_call w (Spec.add_page db props (store w))
                     (PagesCreate db props STRENGTH_ICON)).
Proof.
  intros Hf. unfold pages_create. rewrite remote_calm by exact Hf.
  reflexivity.
Qed.

Lemma find_page_member (p : Page) (st : Store) :
  In p (pages st) -> exists q, find_page (page_id p) st = Some q.
Proof.
  unfold find_page. intros H.
  destruct (find (fun q => Nat.eqb (page_id q) (page_id p)) (pages st))
    as [q|] eqn:E; [eauto|].
  exfalso. apply (find_none _ _ E) in H. rewrite Nat.eqb_refl in H.
  discriminate.
Qed.

(** One turn of the loop of [sync_exercise_entries], once the properties
    are computed, followed by the rest of the loop. *)
Lemma upsert_calm {B} (db date_only name : string) (props : Props)
      (k : M B) (w : World) :
  faults w = [] ->
  (existing <- exercise_entry_exists db date_only name ;;
   match existing with
   | Some page => pages_update (page_id page) props
   | None => pages_create db props STRENGTH_ICON ;; ret tt
   end ;;
   k) w
  = k (Spec.upsert db date_only w (name, props)).
Proof.
  intros Hf.
  erewrite bind_ok by (apply exercise_entry_exists_calm; exact Hf).
  unfold Spec.upsert. cbn [fst snd].
  destruct (find (Spec.entry_matches db name date_only) (pages (store w)))
    as [page|] eqn:E.
  - apply find_some in E. destruct E as [Hin _].
    destruct (find_page_member page (store w) Hin) as [q Hq].
    erewrite bind_ok; [reflexivity|].
    erewrite pages_update_calm; [reflexivity | reflexivity | exact Hq].
  - erewrite bind_ok; [reflexivity|].
    erewrite bind_ok by (apply pages_create_calm; reflexivity).
    reflexivity.
Qed.

Lemma upsert_faults (db date_only : string) (w : World) (e : string * Props) :
  faults (Spec.upsert db date_only w e) = [].
Proof.
  unfold Spec.upsert.
  destruct (find _ _); reflexivity.
Qed.

Lemma sync_groups_calm (db : string) (workout : Workout)
      (date_only date_iso : string) (groups : OrderedDict Group) :
  forall (entries : list (string * Props)) (w : World),
    faults w = [] ->
    map_result (Spec.entry_of workout date_iso)
      (filter (fun g => negb (Spec.is_nil (snd g)))
              (map (fun e => (fst e, sets (snd e))) groups))
    = Ok entries ->
    sync_groups db workout date_only date_iso groups w
    = (Ok tt, fold_left (Spec.upsert db date_only) entries w).
Proof.
  induction groups as [|[name data] rest IH]; intros entries w Hf He.
  - simpl in He. injection He as <-. reflexivity.
  - cbn [sync_groups]. cbn [map filter fst snd] in He.
    destruct (sets data) as [|s ss] eqn:Hs.
    + cbn [Spec.is_nil negb] in He. apply IH; assumption.
    + cbn [Spec.is_nil negb map_result] in He.
      unfold Spec.entry_of at 1 in He. cbn [fst snd] in He.
      destruct (entry_properties workout date_iso name (s :: ss))
        as [props|e] eqn:Hp; [|discriminate].
      cbn [rbind] in He.
      destruct (map_result (Spec.entry_of workout date_iso) _) as [more|e] eqn:Hm;
        [|discriminate].
      cbn [rbind] in He. injection He as <-.
      unfold lift at 1. unfold bind at 1. cbv beta iota.
      rewrite (upsert_calm db date_only name props _ w Hf).
      cbn [fold_left]. apply IH; [apply upsert_faults | reflexivity].
Qed.

Section AggregationSync.

Variable utcoffset : datetime -> Z.

Lemma sync_exercise_entries_calm (db : string) (workout : Workout) (w : World)
      (start_dt end_dt : aware) (entries : list (string * Props)) :
  faults w = [] ->
  make_workout_dates utcoffset workout = Ok (start_dt, end_dt) ->
  Spec.entries_of workout (isoformat start_dt) = Ok entries ->
  sync_exercise_entries utcoffset db workout w
  = (Ok tt,
     fold_left (Spec.upsert db (strftime_date (local start_dt))) entries w).
Proof.
  intros Hf Hd He. unfold sync_exercise_entries. rewrite Hd.
  unfold lift, bind. cbv beta iota.
  apply sync_groups_calm; [exact Hf|].
  rewrite group_exercises_grouped, map_map. exact He.
Qed.

(** C8, as the code has it.  The aggregation sync writes one row per
    exercise group that has a real set, and none for a group of notes only.
    The row holds the greatest of 0 and the set weights, the sum over the
    sets of weight times repetitions rounded to one decimal, the sum of the
    repetitions and the number of sets, an absent weight or repetition count
    being 0.  The row is looked up by exercise name and date: the first match
    is updated in place, and a row is created when there is none.  Two sets
    of weight 0 with 500 and 480 repetitions give max weight 0, total volume
    0, total repetitions 980 and 2 sets. *)
Theorem sync_exercise_entries_rows
        (db : string) (workout : Workout) (w : World)
        (start_dt end_dt : aware) (entries : list (string * Props)) :
  faults w = [] ->
  make_workout_dates utcoffset workout = Ok (start_dt, end_dt) ->
  Spec.entries_of workout (isoformat start_dt) = Ok entries ->
  sync_exercise_entries utcoffset db workout w
  = (Ok tt,
     fold_left (Spec.upsert db (strftime_date (local start_dt))) entries w)
  /\ map fst entries = map fst (Spec.real_groups (exercises workout))
  /\ (forall (name : string) (sets : list Exercise) (props : Props),
        entry_properties workout (isoformat start_dt) name sets = Ok props <->
        exists st,
          Spec.stats_rule sets = Ok st
          /\ props = Spec.entry_of_stats workout (isoformat start_dt) name
                       (List.length sets) st)
  /\ (forall (name : string) (st : Store),
        query db (And [TitleEquals "Exercise" name;
                       DateOnOrAfter "Date" (strftime_date (local start_dt));
                       DateOnOrBefore "Date" (strftime_date (local start_dt))])
              st
        = filter (Spec.entry_matches db name (strftime_date (local start_dt)))
                 (pages st))
  /\ Spec.stats_rule [mkExercise "Row" "1" "0" "500" "" "" "";
                      mkExercise "Row" "2" "0" "480" "" "" ""]
     = Ok (Int 0, Float (S754_zero false), 980).
Proof.
  intros Hf Hd He. split; [|split; [|split; [|split]]].
  - apply sync_exercise_entries_calm with (end_dt := end_dt); assumption.
  - unfold Spec.entries_of in He. revert entries He.
    induction (Spec.real_groups (exercises workout)) as [|g gs IH];
      intros entries He; simpl in He.
    + injection He as <-. reflexivity.
    + unfold Spec.entry_of at 1 in He.
      destruct (entry_properties workout (isoformat start_dt) (fst g) (snd g));
        [|discriminate].
      simpl in He.
      destruct (map_result (Spec.entry_of workout (isoformat start_dt)) gs);
        [|discriminate].
      simpl in He. injection He as <-. simpl. f_equal. apply IH. reflexivity.
  - intros name sets props. apply entry_properties_rule.
  - intros name st. apply query_entries.
  - vm_compute. reflexivity.
Qed.

End AggregationSync.

(** One set of 1.25 kg, once: the sum of weight times repetitions is 1.25,
    and the total volume written is 1.2. *)
Lemma total_volume_is_rounded :
  exists (props : Props) (max_weight : num) (total written : spec_float),
    entry_properties Demo.evening_workout "2024-01-07T18:30:00+01:00" "Curl" [Demo.curl]
    = Ok props
    /\ Spec.stats_rule [Demo.curl] = Ok (max_weight, Float total, 1)
    /\ float_of_str "1.25" = Ok total
    /\ lookup "Total Volumn" props = Some (PNumber (Float written))
    /\ float_of_str "1.2" = Ok written
    /\ num_gt (Float total) (Float written) = true.
Proof.
  do 4 eexists. repeat split; vm_compute; reflexivity.
Qed.

Lemma sync_exercise_entries_rows_witness :
  exists w',
    sync_exercise_entries Demo.cet "exercises" Demo.morning_workout
                          (Demo.world Demo.empty_store [])
    = (Ok tt, w')
    /\ map (fun p => lookup "Exercise" (properties p)) (pages (store w'))
       = [Some (PTitle "Squat"); Some (PTitle "Row"); Some (PTitle "Run");
          Some (PTitle "Plank")].
Proof.
  edestruct (sync_exercise_entries_rows Demo.cet "exercises"
               Demo.morning_workout (Demo.world Demo.empty_store []))
    as (Hrun & _).
  - reflexivity.
  - vm_compute. reflexivity.
  - vm_compute. reflexivity.
  - eexists. split; [exact Hrun|]. vm_compute. reflexivity.
Defined.

(** ** The calendar date of a timestamp *)

Lemma digit_val_bounds (c : ascii) : is_digit c = true -> 0 <= digit_val c <= 9.
Proof.
  unfold is_digit, digit_val. intros H. apply andb_prop in H.
  destruct H as [H1 H2]. apply N.leb_le in H1, H2. lia.
Qed.

Lemma digits_value_from (ds : list ascii) :
  forall a, 0 <= a -> Forall (fun c => is_digit c = true) ds ->
    a * 10 ^ Z.of_nat (List.length ds)
    <= fold_left (fun a d => 10 * a + digit_val d) ds a
    < (a + 1) * 10 ^ Z.of_nat (List.length ds).
Proof.
  induction ds as [|c t IH]; intros a Ha Hd.
  - simpl. lia.
  - inversion Hd as [|? ? Hc Ht]; subst.
    pose proof (digit_val_bounds c Hc) as Hb.
    cbn [fold_left List.length].
    specialize (IH (10 * a + digit_val c) ltac:(lia) Ht).
    rewrite Nat2Z.inj_succ, Z.pow_succ_r by lia.
    pose proof (Z.pow_pos_nonneg 10 (Z.of_nat (List.length t)) ltac:(lia)
                  ltac:(lia)) as Hp.
    remember (10 ^ Z.of_nat (List.length t)) as x. nia.
Qed.

Lemma digits_value_bounds (ds : list ascii) :
  Forall (fun c => is_digit c = true) ds ->
  0 <= digits_value ds < 10 ^ Z.of_nat (List.length ds).
Proof.
  intros H. unfold digits_value.
  pose proof (digits_value_from ds 0 ltac:(lia) H). lia.
Qed.

Lemma take_digits_digits (n : nat) :
  forall s ds r, take_digits n s = (ds, r) ->
    Forall (fun c => is_digit c = true) ds.
Proof.
  induction n as [|n IH]; intros s ds r H.
  - simpl in H. injection H as <- <-. constructor.
  - destruct s as [|c t]; simpl in H.
    + injection H as <- <-. constructor.
    + destruct (is_digit c) eqn:Hc.
      * destruct (take_digits n t) as [ds' r'] eqn:E. injection H as <- <-.
        constructor; [exact Hc | eapply IH; exact E].
      * injection H as <- <-. constructor.
Qed.

Lemma field_bounds (lo hi : Z) (s r : list ascii) (v : Z) :
  field lo hi s = Some (v, r) -> lo <= v <= hi.
Proof.
  unfold field. destruct (take_digits 2 s) as [[|c ds] r']; [discriminate|].
  destruct ((lo <=? digits_value (c :: ds)) && (digits_value (c :: ds) <=? hi))
    eqn:E; [|discriminate].
  intros H. injection H as <- <-. apply andb_prop in E. destruct E as [E1 E2].
  apply Z.leb_le in E1, E2. lia.
Qed.

Lemma day_field_bounds (s r : list ascii) (v : Z) :
  day_field s = Some (v, r) -> 1 <= v <= 31.
Proof.
  unfold day_field. destruct s as [|c [|d t]]; try apply field_bounds.
  destruct (Ascii.eqb c " " && is_digit d && negb (Ascii.eqb d "0")) eqn:E;
    [|apply field_bounds].
  intros H. injection H as <- <-.
  apply andb_prop in E. destruct E as [E E0]. apply andb_prop in E.
  destruct E as [_ Ed]. pose proof (digit_val_bounds d Ed) as Hb.
  assert (digit_val d <> 0).
  { unfold digit_val. intros Hz. apply negb_true_iff in E0.
    apply Ascii.eqb_neq in E0. apply E0.
    rewrite <- (ascii_N_embedding d), <- (ascii_N_embedding "0").
    f_equal. simpl. lia. }
  lia.
Qed.

Lemma scan_datetime_bounds (s : list ascii) (dt : datetime) :
  scan_datetime s = Some dt ->
  0 <= year dt <= 9999 /\ 1 <= month dt <= 12 /\ 1 <= day dt <= 31.
Proof.
  unfold scan_datetime. destruct (take_digits 4 s) as [ys r0] eqn:Ey.
  destruct (Nat.eqb_spec (List.length ys) 4) as [El|]; [|discriminate].
  unfold obind.
  destruct (literal "-" r0) as [r1|]; [|discriminate].
  destruct (field 1 12 r1) as [[mo r2]|] eqn:Em; [|discriminate].
  destruct (literal "-" r2) as [r3|]; [|discriminate].
  destruct (day_field r3) as [[d r4]|] eqn:Ed; [|discriminate].
  destruct (blanks r4) as [r5|]; [|discriminate].
  destruct (field 0 23 r5) as [[h r6]|]; [|discriminate].
  destruct (literal ":" r6) as [r7|]; [|discriminate].
  destruct (field 0 59 r7) as [[mi r8]|]; [|discriminate].
  destruct (literal ":" r8) as [r9|]; [|discriminate].
  destruct (field 0 61 r9) as [[se r10]|]; [|discriminate].
  destruct r10; [|discriminate].
  intros H. injection H as <-. simpl.
  apply take_digits_digits in Ey. apply digits_value_bounds in Ey.
  rewrite El in Ey. apply field_bounds in Em. apply day_field_bounds in Ed.
  change (10 ^ Z.of_nat 4) with 10000 in Ey. lia.
Qed.

Lemma zfill4_length (y : Z) :
  0 <= y <= 9999 -> String.length (zfill 4 y) = 4%nat.
Proof.
  intros Hy.
  assert (Hall : forallb (fun k => Nat.eqb (String.length (zfill 4 (Z.of_nat k))) 4)
                         (seq 0 (Z.to_nat 10000)) = true)
    by (vm_compute; reflexivity).
  rewrite forallb_forall in Hall. specialize (Hall (Z.to_nat y)).
  rewrite Z2Nat.id in Hall by lia. apply Nat.eqb_eq, Hall, in_seq. lia.
Qed.

Lemma fmt_02d_length (m : Z) :
  0 <= m <= 99 -> String.length (fmt_02d m) = 2%nat.
Proof.
  intros Hm.
  assert (Hall : forallb (fun k => Nat.eqb (String.length (fmt_02d (Z.of_nat k))) 2)
                         (seq 0 100) = true) by (vm_compute; reflexivity).
  rewrite forallb_forall in Hall. specialize (Hall (Z.to_nat m)).
  rewrite Z2Nat.id in Hall by lia. apply Nat.eqb_eq, Hall, in_seq. lia.
Qed.

(** The calendar date of the ISO form of a parsed timestamp is its
    [%Y-%m-%d] form. *)
Lemma date_part_isoformat (s : string) (dt : datetime) (off : Z) :
  strptime s = Ok dt ->
  date_part (isoformat (mkAware dt off)) = strftime_date dt.
Proof.
  unfold strptime. intros H.
  destruct (scan_datetime (chars s)) as [dt'|] eqn:E; [|discriminate].
  destruct ((1 <=? year dt') && (day dt' <=? days_in_month (year dt') (month dt'))
            && (second dt' <=? 59)); [|discriminate].
  injection H as ->. apply scan_datetime_bounds in E.
  destruct E as (Hy & Hm & Hd).
  unfold date_part, isoformat. cbn [local].
  assert (Hlen : String.length (strftime_date dt) = 10%nat).
  { unfold strftime_date. rewrite !length_append.
    rewrite zfill4_length, !fmt_02d_length by lia. reflexivity. }
  rewrite <- Hlen. apply substring_prefix.
Qed.

(** ** What a finished run leaves in the store *)

Lemma grows_refl (st : Store) : Spec.unique_ids st -> Spec.grows st st.
Proof. intros H. repeat split; auto; apply H. Qed.

Lemma grows_trans (a b c : Store) :
  Spec.grows a b -> Spec.grows b c -> Spec.grows a c.
Proof.
  intros (_ & Hw1 & He1) (Hu & Hw2 & He2). repeat split; auto; apply Hu.
Qed.

Lemma grows_unique (st st' : Store) : Spec.grows st st' -> Spec.unique_ids st'.
Proof. intros H. apply H. Qed.

(** *** Creating a page *)

Lemma add_page_grows (db : string) (props : Props) (ic : option string)
      (st : Store) :
  Spec.unique_ids st ->
  Spec.grows st (mkStore (pages st ++ [mkPage (next_id st) db props ic []])
                    (databases st) (S (next_id st)) (page_size st)).
Proof.
  intros [Hnd Hlt]. split; [split|split].
  - simpl. rewrite map_app. simpl. apply NoDup_app.
    + exact Hnd.
    + constructor; [intros [] | constructor].
    + intros a Ha [E|[]]. subst a. apply in_map_iff in Ha.
      destruct Ha as (p & Hp & Hin). rewrite Forall_forall in Hlt.
      apply Hlt in Hin. lia.
  - simpl. apply Forall_app. split.
    + eapply Forall_impl; [|exact Hlt]. simpl. intros p Hp. lia.
    + constructor; [simpl; lia | constructor].
  - intros d0 d H. unfold Spec.has_workout in *. simpl. rewrite existsb_app, H.
    reflexivity.
  - intros d0 n d H. unfold Spec.has_entry in *. simpl. rewrite existsb_app, H.
    reflexivity.
Qed.

(** *** Changing the children of a page *)

Lemma modify_page_ids (id : nat) (f : Page -> Page) (ps : list Page) :
  (forall q, page_id (f q) = page_id q) ->
  map page_id (modify_page id f ps) = map page_id ps.
Proof.
  intros Hf. induction ps as [|q t IH]; simpl; [reflexivity|].
  destruct (Nat.eqb (page_id q) id); simpl; [rewrite Hf | rewrite IH];
    reflexivity.
Qed.

Lemma existsb_modify_page (pred : Page -> bool) (id : nat) (f : Page -> Page)
      (ps : list Page) :
  (forall q, pred (f q) = pred q) ->
  existsb pred (modify_page id f ps) = existsb pred ps.
Proof.
  intros Hf. induction ps as [|q t IH]; simpl; [reflexivity|].
  destruct (Nat.eqb (page_id q) id); simpl; [rewrite Hf | rewrite IH];
    reflexivity.
Qed.

Lemma Forall_modify_page (P : Page -> Prop) (id : nat) (f : Page -> Page)
      (ps : list Page) :
  (forall q, P q -> P (f q)) -> Forall P ps -> Forall P (modify_page id f ps).
Proof.
  intros Hf. induction 1 as [|q t Hq Ht IH]; simpl; [constructor|].
  destruct (Nat.eqb (page_id q) id); constructor; auto.
Qed.

Lemma append_children_grows (id : nat) (bs : list Block) (st : Store) :
  Spec.unique_ids st ->
  Spec.grows st (mkStore
              (modify_page id
                 (fun q => with_children q
                             (children q ++ number_from (next_id st) bs))
                 (pages st))
              (databases st) (next_id st + List.length bs) (page_size st)).
Proof.
  intros [Hnd Hlt]. split; [split|split].
  - simpl. rewrite modify_page_ids by reflexivity. exact Hnd.
  - simpl. apply Forall_modify_page.
    + intros q Hq. simpl in *. lia.
    + eapply Forall_impl; [|exact Hlt]. simpl. intros p Hp. lia.
  - intros db d H. unfold Spec.has_workout in *. simpl.
    rewrite existsb_modify_page; [exact H | reflexivity].
  - intros db n d H. unfold Spec.has_entry in *. simpl.
    rewrite existsb_modify_page; [exact H | reflexivity].
Qed.

(** *** Updating an aggregation row *)

Lemma same_id_same_page (ps : list Page) (p q : Page) :
  NoDup (map page_id ps) -> In p ps -> In q ps ->
  page_id p = page_id q -> p = q.
Proof.
  induction ps as [|a t IH]; simpl; intros Hnd Hp Hq E; [contradiction|].
  inversion Hnd as [|? ? Hnotin Hnd']; subst.
  destruct Hp as [->|Hp], Hq as [->|Hq]; auto.
  - exfalso. apply Hnotin. rewrite E. apply in_map, Hq.
  - exfalso. apply Hnotin. rewrite <- E. apply in_map, Hp.
Qed.

Lemma modify_page_other (id : nat) (f : Page -> Page) (ps : list Page)
      (q : Page) :
  In q ps -> page_id q <> id -> In q (modify_page id f ps).
Proof.
  induction ps as [|a t IH]; simpl; intros Hq Hne; [contradiction|].
  destruct (Nat.eqb_spec (page_id a) id) as [E|E].
  - destruct Hq as [->|Hq]; [contradiction | right; exact Hq].
  - destruct Hq as [->|Hq]; [left; reflexivity | right; auto].
Qed.

Lemma modify_page_self (f : Page -> Page) (ps : list Page) (p : Page) :
  NoDup (map page_id ps) -> In p ps ->
  In (f p) (modify_page (page_id p) f ps).
Proof.
  induction ps as [|a t IH]; simpl; intros Hnd Hp; [contradiction|].
  inversion Hnd as [|? ? Hnotin Hnd']; subst.
  destruct (Nat.eqb_spec (page_id a) (page_id p)) as [E|E].
  - left. f_equal. destruct Hp as [->|Hp]; [reflexivity|].
    exfalso. apply Hnotin. rewrite E. apply in_map, Hp.
  - right. destruct Hp as [->|Hp]; [contradiction | auto].
Qed.

Lemma entry_matches_same (db db' n n' d d' : string) (p : Page) :
  Spec.entry_matches db n d p = true ->
  Spec.entry_matches db' n' d' p = true ->
  db' = db /\ n' = n /\ d' = d.
Proof.
  unfold Spec.entry_matches, in_database. intros H H'.
  apply andb_prop in H. destruct H as [H Hd]. apply andb_prop in H.
  destruct H as [Hdb Hn].
  apply andb_prop in H'. destruct H' as [H' Hd']. apply andb_prop in H'.
  destruct H' as [Hdb' Hn'].
  apply String.eqb_eq in Hdb, Hdb'.
  destruct (lookup "Exercise" (properties p)) as [[t| | | | | |]|];
    try discriminate.
  destruct (lookup "Date" (properties p)) as [[| |s f| | | |]|];
    try discriminate.
  apply String.eqb_eq in Hn, Hn', Hd, Hd'. repeat split; congruence.
Qed.

Lemma lookup_entry_of_stats (workout : Workout) (iso n : string) (len : nat)
      (stats : Stats) (old : Props) :
  lookup "Exercise"
         (merge_props (Spec.entry_of_stats workout iso n len stats) old)
  = Some (PTitle n)
  /\ lookup "Date"
            (merge_props (Spec.entry_of_stats workout iso n len stats) old)
     = Some (PDate iso None)
  /\ lookup "Garmin ID"
            (merge_props (Spec.entry_of_stats workout iso n len stats) old)
     = lookup "Garmin ID" old.
Proof.
  destruct stats as [[mw tv] tr]. unfold Spec.entry_of_stats, merge_props.
  cbn [fold_left fst snd]. rewrite !lookup_set_prop. repeat split.
Qed.

Lemma update_entry_grows (db n d iso : string) (workout : Workout) (len : nat)
      (stats : Stats) (page : Page) (st : Store) :
  Spec.unique_ids st ->
  In page (pages st) ->
  Spec.entry_matches db n d page = true ->
  date_part iso = d ->
  Spec.grows st (Spec.set_properties (page_id page)
              (Spec.entry_of_stats workout iso n len stats) st).
Proof.
  intros [Hnd Hlt] Hin Hm Hd.
  set (props := Spec.entry_of_stats workout iso n len stats).
  set (f := fun q => with_properties q (merge_props props (properties q))).
  destruct (lookup_entry_of_stats workout iso n len stats (properties page))
    as (Hex & Hda & _).
  split; [split|split].
  - simpl. rewrite modify_page_ids by reflexivity. exact Hnd.
  - simpl. apply Forall_modify_page; [intros q Hq; exact Hq | exact Hlt].
  - intros db' d' H. unfold Spec.has_workout in *. simpl.
    rewrite existsb_modify_page; [exact H|].
    intros q. unfold Spec.workout_matches, cond_holds, in_database. simpl.
    destruct (lookup_entry_of_stats workout iso n len stats (properties q))
      as (_ & _ & Hg).
    fold props in Hg. rewrite Hg. reflexivity.
  - intros db' n' d' H. unfold Spec.has_entry in *. simpl.
    apply existsb_exists in H. destruct H as (q & Hq & Hmq).
    apply existsb_exists.
    destruct (Nat.eq_dec (page_id q) (page_id page)) as [E|E].
    + assert (q = page) by (eapply same_id_same_page; eauto). subst q.
      destruct (entry_matches_same _ _ _ _ _ _ _ Hm Hmq) as (-> & -> & ->).
      exists (f page). split.
      * apply modify_page_self; assumption.
      * unfold Spec.entry_matches in *. unfold f. simpl.
        fold props in Hex, Hda. rewrite Hex, Hda.
        apply andb_prop in Hm. destruct Hm as [Hm _].
        apply andb_prop in Hm. destruct Hm as [Hdb _].
        unfold in_database in *. simpl. rewrite Hdb, Hd, !String.eqb_refl.
        reflexivity.
    + exists q. split; [|exact Hmq]. apply modify_page_other; assumption.
Qed.

(** *** What a call that returned has done *)

Lemma bind_ok_inv {A B} (c : M A) (k : A -> M B) (w w' : World) (b : B) :
  bind c k w = (Ok b, w') ->
  exists a w1, c w = (Ok a, w1) /\ k a w1 = (Ok b, w').
Proof.
  unfold bind. destruct (c w) as [[a|e] w1]; intros H; [eauto | discriminate].
Qed.

Lemma lift_ok_inv {A} (r : result A) (w w' : World) (a : A) :
  lift r w = (Ok a, w') -> r = Ok a /\ w' = w.
Proof. unfold lift. intros H. injection H as -> ->. auto. Qed.

Lemma remote_ok_inv {A} (c : Call) (op : Store -> result (A * Store))
      (w w' : World) (a : A) :
  remote c op w = (Ok a, w') ->
  op (store w) = Ok (a, store w') /\ trace w' = trace w ++ [c]
  /\ console w' = console w.
Proof.
  unfold remote. destruct (faults w) as [|[|] fs].
  - destruct (op (store w)) as [[a' st]|e]; intros H; [|discriminate].
    injection H as <- <-. auto.
  - discriminate.
  - destruct (op (store w)) as [[a' st]|e]; intros H; [|discriminate].
    injection H as <- <-. auto.
Qed.

Lemma databases_query_ok (db : string) (f : Filter) (w w' : World)
      (r : list Page) :
  databases_query db f w = (Ok r, w') ->
  r = query db f (store w) /\ store w' = store w.
Proof.
  unfold databases_query. intros H. apply remote_ok_inv in H.
  destruct H as (H & _). injection H as <- <-. auto.
Qed.

Lemma pages_create_ok (db : string) (props : Props) (ic : string)
      (w w' : World) (p : Page) :
  pages_create db props ic w = (Ok p, w') ->
  p = mkPage (next_id (store w)) db props (Some ic) []
  /\ store w' = mkStore (pages (store w) ++ [p]) (databases (store w))
                        (S (next_id (store w))) (page_size (store w)).
Proof.
  unfold pages_create. intros H. apply remote_ok_inv in H.
  destruct H as (H & _). injection H as <- <-. auto.
Qed.

Lemma pages_update_ok (id : nat) (props : Props) (w w' : World) :
  pages_update id props w = (Ok tt, w') ->
  store w' = Spec.set_properties id props (store w).
Proof.
  unfold pages_update. intros H. apply remote_ok_inv in H.
  destruct H as (H & _).
  destruct (find_page id (store w)); [|discriminate].
  injection H as <-. reflexivity.
Qed.

Lemma blocks_children_append_ok (id : nat) (bs : list Block) (w w' : World) :
  blocks_children_append id bs w = (Ok tt, w') ->
  store w'
  = mkStore (modify_page id
               (fun q => with_children q
                           (children q ++ number_from (next_id (store w)) bs))
               (pages (store w)))
            (databases (store w)) (next_id (store w) + List.length bs)
            (page_size (store w)).
Proof.
  unfold blocks_children_append. intros H. apply remote_ok_inv in H.
  destruct H as (H & _).
  destruct (find_page id (store w)); [|discriminate].
  injection H as <-. reflexivity.
Qed.

Lemma print_store (line : string) (w : World) :
  print line w
  = (Ok tt, mkWorld (store w) (faults w) (console w ++ [line]) (trace w)).
Proof. reflexivity. Qed.

Lemma query_workouts (db d : string) (st : Store) :
  query db (Single (MultiSelectContains "Garmin ID" ("strong-" +++ d))) st
  = filter (Spec.workout_matches db d) (pages st).
Proof. reflexivity. Qed.

Lemma find_existsb {A} (f : A -> bool) (l : list A) (a : A) :
  find f l = Some a -> existsb f l = true.
Proof.
  intros H. apply find_some in H. apply existsb_exists. exists a. exact H.
Qed.

Lemma existsb_find {A} (f : A -> bool) (l : list A) :
  existsb f l = true -> exists a, find f l = Some a.
Proof.
  intros H. destruct (find f l) as [a|] eqn:E; [eauto|].
  apply existsb_exists in H. destruct H as (x & Hx & Hf).
  apply (find_none _ _ E) in Hx. congruence.
Qed.

(** The per-workout check changes nothing in the store; a page it answers
    carries the workout's stable id. *)
Lemma workout_exists_ok (db d : string) (w w' : World) (r : option Page) :
  workout_exists db d w = (Ok r, w') ->
  store w' = store w
  /\ (forall p, r = Some p -> Spec.has_workout db d (store w) = true).
Proof.
  unfold workout_exists, try_except.
  destruct (bind (databases_query db _) _ w) as [[a|e] w1] eqn:E.
  - intros H. injection H as <- <-.
    apply bind_ok_inv in E. destruct E as (q & w2 & Hq & Hr).
    apply databases_query_ok in Hq. destruct Hq as [-> Hst].
    unfold ret in Hr. injection Hr as <- <-. split; [exact Hst|].
    intros p Hp.
    change (query db _ (store w))
      with (filter (Spec.workout_matches db d) (pages (store w))) in Hp.
    rewrite hd_error_filter in Hp.
    unfold Spec.has_workout. eapply find_existsb. exact Hp.
  - unfold bind in E.
    destruct (databases_query db _ w) as [[q|e'] w2] eqn:Hq.
    + unfold ret in E. discriminate.
    + injection E as <- <-.
      destruct (is_exception e'); [|discriminate].
      unfold bind, print, ret. intros H. injection H as <- <-.
      simpl. split; [|discriminate].
      unfold databases_query, remote in Hq.
      destruct (faults w) as [|[|] fs]; simpl in Hq; try discriminate.
      injection Hq as <- <-. reflexivity.
Qed.

Lemma entry_shape (workout : Workout) (iso n : string) (sets : list Exercise)
      (props : Props) :
  entry_properties workout iso n sets = Ok props ->
  exists stats,
    props = Spec.entry_of_stats workout iso n (List.length sets) stats.
Proof.
  unfold entry_properties. intros H. apply rbind_ok in H.
  destruct H as ([[mw tv] tr] & _ & H). injection H as <-.
  exists (mw, tv, tr). reflexivity.
Qed.

Lemma entries_shaped (workout : Workout) (iso : string)
      (gs : list (string * list Exercise)) :
  forall entries,
    map_result (Spec.entry_of workout iso) gs = Ok entries ->
    Forall (Spec.shaped workout iso) entries.
Proof.
  induction gs as [|g gs IH]; simpl; intros entries H.
  - injection H as <-. constructor.
  - unfold Spec.entry_of at 1 in H.
    destruct (entry_properties workout iso (fst g) (snd g)) as [props|] eqn:E;
      [|discriminate].
    simpl in H.
    destruct (map_result (Spec.entry_of workout iso) gs) as [more|];
      [|discriminate].
    simpl in H. injection H as <-. constructor; [|apply IH; reflexivity].
    apply entry_shape in E. destruct E as [stats ->].
    exists (List.length (snd g)), stats. reflexivity.
Qed.

Lemma new_entry_matches (db n iso : string) (workout : Workout) (len : nat)
      (stats : Stats) (id : nat) (ic : option string) :
  Spec.entry_matches db n (date_part iso)
    (mkPage id db (Spec.entry_of_stats workout iso n len stats) ic [])
  = true.
Proof.
  destruct stats as [[mw tv] tr]. unfold Spec.entry_matches, in_database.
  simpl. rewrite !String.eqb_refl. reflexivity.
Qed.

Section FirstRun.

Variable utcoffset : datetime -> Z.

Lemma create_workout_page_ok (db : string) (workout : Workout)
      (w w' : World) (id : nat) :
  create_workout_page utcoffset db workout w = (Ok id, w') ->
  Spec.unique_ids (store w) ->
  Spec.grows (store w) (store w')
  /\ Spec.has_workout db (date workout) (store w') = true.
Proof.
  unfold create_workout_page. intros H Hu.
  apply bind_ok_inv in H. destruct H as ([s e] & w1 & H1 & H).
  apply lift_ok_inv in H1. destruct H1 as [_ ->].
  apply bind_ok_inv in H. destruct H as (mins & w1 & H1 & H).
  apply lift_ok_inv in H1. destruct H1 as [_ ->].
  apply bind_ok_inv in H. destruct H as (page & w1 & H1 & H).
  apply pages_create_ok in H1. destruct H1 as [Hpage Hst1].
  apply bind_ok_inv in H. destruct H as (blocks & w2 & H2 & H).
  apply lift_ok_inv in H2. destruct H2 as [_ ->].
  apply bind_ok_inv in H. destruct H as ([] & w3 & H3 & H).
  apply blocks_children_append_ok in H3.
  unfold ret in H. injection H as _ <-.
  assert (G1 : Spec.grows (store w) (store w1)).
  { rewrite Hst1, Hpage. apply add_page_grows, Hu. }
  assert (G2 : Spec.grows (store w1) (store w3)).
  { rewrite H3. apply append_children_grows. apply G1. }
  split; [eapply grows_trans; eassumption|].
  apply G2. unfold Spec.has_workout. rewrite Hst1. cbn [pages].
  rewrite existsb_app. apply orb_true_iff. right. rewrite Hpage.
  unfold Spec.workout_matches, in_database, cond_holds. simpl.
  rewrite !String.eqb_refl. reflexivity.
Qed.

Lemma sync_groups_ok (db : string) (workout : Workout) (d iso : string)
      (groups : OrderedDict Group) :
  forall w w',
    sync_groups db workout d iso groups w = (Ok tt, w') ->
    Spec.unique_ids (store w) ->
    date_part iso = d ->
    Spec.grows (store w) (store w')
    /\ exists entries,
         map_result (Spec.entry_of workout iso)
           (filter (fun g => negb (Spec.is_nil (snd g)))
                   (map (fun e => (fst e, sets (snd e))) groups))
         = Ok entries
         /\ Forall (fun e => Spec.has_entry db (fst e) d (store w') = true) entries.
Proof.
  induction groups as [|[name data] rest IH]; intros w w' H Hu Hd.
  - simpl in H. unfold ret in H. injection H as <-.
    split; [apply grows_refl, Hu|]. exists []. split; [reflexivity | constructor].
  - cbn [sync_groups] in H. cbn [map filter fst snd].
    destruct (sets data) as [|s ss] eqn:Hs.
    + cbn [Spec.is_nil negb]. eapply IH; eassumption.
    + cbn [Spec.is_nil negb map_result].
      apply bind_ok_inv in H. destruct H as (props & w1 & H1 & H).
      apply lift_ok_inv in H1. destruct H1 as [Hprops ->].
      apply bind_ok_inv in H. destruct H as (existing & w1 & H1 & H).
      unfold exercise_entry_exists in H1.
      apply bind_ok_inv in H1. destruct H1 as (q & w2 & Hq & H1).
      apply databases_query_ok in Hq. destruct Hq as [-> Hst2].
      unfold ret in H1. injection H1 as <- <-.
      rewrite query_entries, hd_error_filter in H.
      apply bind_ok_inv in H. destruct H as ([] & w3 & H3 & H).
      destruct (entry_shape _ _ _ _ _ Hprops) as [stats Hshape].
      assert (G : Spec.grows (store w) (store w3)
                  /\ Spec.has_entry db name d (store w3) = true).
      { destruct (find (Spec.entry_matches db name d) (pages (store w)))
          as [page|] eqn:Ef.
        - apply pages_update_ok in H3. rewrite Hst2 in H3.
          apply find_some in Ef. destruct Ef as [Hin Hm].
          assert (G : Spec.grows (store w) (store w3)).
          { rewrite H3, Hshape.
            apply update_entry_grows with (db := db) (d := d); assumption. }
          split; [exact G|]. apply G. unfold Spec.has_entry.
          apply existsb_exists. exists page. auto.
        - apply bind_ok_inv in H3. destruct H3 as (p & w4 & H4 & H3).
          unfold ret in H3. injection H3 as <-.
          apply pages_create_ok in H4. destruct H4 as [Hp Hst4].
          rewrite Hst2 in Hst4, Hp.
          split.
          + rewrite Hst4, Hp. apply add_page_grows, Hu.
          + unfold Spec.has_entry. rewrite Hst4. cbn [pages].
            rewrite existsb_app. apply orb_true_iff. right.
            rewrite Hp, Hshape, <- Hd. simpl existsb.
            rewrite new_entry_matches. reflexivity. }
      destruct G as [G Hhas].
      destruct (IH w3 w' H (grows_unique _ _ G) Hd)
        as (G' & more & Hmore & Hall).
      split; [eapply grows_trans; eassumption|].
      exists ((name, props) :: more). split.
      * unfold Spec.entry_of at 1. cbn [fst snd]. rewrite Hprops. simpl.
        rewrite Hmore. reflexivity.
      * constructor; [|exact Hall]. simpl. apply G', Hhas.
Qed.

Lemma make_workout_dates_start (workout : Workout) (s e : aware) :
  make_workout_dates utcoffset workout = Ok (s, e) ->
  date_part (isoformat s) = strftime_date (local s).
Proof.
  unfold make_workout_dates. intros H. apply rbind_ok in H.
  destruct H as (naive & Hn & H). apply rbind_ok in H.
  destruct H as (e' & _ & H). injection H as <- <-.
  unfold localize. apply (date_part_isoformat _ _ _ Hn).
Qed.

Lemma settled_grows (db edb : string) (dw : string * Workout) (st st' : Store) :
  Spec.grows st st' ->
  Spec.settled utcoffset db edb dw st ->
  Spec.settled utcoffset db edb dw st'.
Proof.
  intros G [Hw (s & e & entries & Hd & He & Hall)]. split; [apply G, Hw|].
  exists s, e, entries. repeat split; auto.
  eapply Forall_impl; [|exact Hall]. intros en. apply G.
Qed.

Lemma sync_exercise_entries_ok (edb : string) (workout : Workout)
      (w w' : World) :
  sync_exercise_entries utcoffset edb workout w = (Ok tt, w') ->
  Spec.unique_ids (store w) ->
  Spec.grows (store w) (store w')
  /\ exists s e entries,
       make_workout_dates utcoffset workout = Ok (s, e)
       /\ Spec.entries_of workout (isoformat s) = Ok entries
       /\ Forall (fun en => Spec.has_entry edb (fst en) (strftime_date (local s))
                                      (store w') = true) entries.
Proof.
  unfold sync_exercise_entries. intros H Hu.
  apply bind_ok_inv in H. destruct H as ([s e] & w1 & H1 & H).
  apply lift_ok_inv in H1. destruct H1 as [Hd ->].
  destruct (sync_groups_ok _ _ _ _ _ _ _ H Hu (make_workout_dates_start _ _ _ Hd))
    as (G & entries & He & Hall).
  split; [exact G|]. exists s, e, entries. repeat split; auto.
  unfold Spec.entries_of, Spec.real_groups.
  rewrite group_exercises_grouped, map_map in He. exact He.
Qed.


Lemma sync_workout_ok (fuel : nat) (db edb d : string)
      (exercise_db_id : option string) (workout : Workout) (n n' : Counts)
      (w w' : World) :
  nonempty exercise_db_id = Some edb ->
  date workout = d ->
  sync_workout utcoffset fuel db exercise_db_id false d workout n w
  = (Ok n', w') ->
  Spec.unique_ids (store w) ->
  Spec.grows (store w) (store w')
  /\ Spec.settled utcoffset db edb (d, workout) (store w').
Proof.
  unfold sync_workout. intros Hedb Hdate H Hu. rewrite Hedb in H.
  apply bind_ok_inv in H. destruct H as (existing & w1 & H1 & H).
  apply workout_exists_ok in H1. destruct H1 as [Hst1 Hfound].
  apply bind_ok_inv in H. destruct H as (n1 & w2 & H2 & H).
  apply bind_ok_inv in H. destruct H as ([] & w3 & H3 & H).
  unfold ret in H. injection H as _ <-.
  assert (G : Spec.grows (store w) (store w2) /\ Spec.has_workout db d (store w2) = true).
  { destruct existing as [page|].
    - apply bind_ok_inv in H2. destruct H2 as ([] & w4 & H4 & H2).
      unfold print in H4. injection H4 as <-.
      unfold ret in H2. injection H2 as _ <-. cbn [store]. rewrite Hst1.
      split; [apply grows_refl, Hu | eapply Hfound; reflexivity].
    - apply bind_ok_inv in H2. destruct H2 as (id & w4 & H4 & H2).
      apply bind_ok_inv in H2. destruct H2 as ([] & w5 & H5 & H2).
      unfold print in H5. injection H5 as <-.
      unfold ret in H2. injection H2 as _ <-. cbn [store].
      rewrite <- Hst1 in Hu |- *. rewrite <- Hdate.
      eapply create_workout_page_ok; eassumption. }
  destruct G as [G Hw].
  destruct (sync_exercise_entries_ok _ _ _ _ H3 (grows_unique _ _ G))
    as (G' & s & e & entries & Hd & He & Hall).
  split; [eapply grows_trans; eassumption|].
  split; [apply G', Hw|]. exists s, e, entries. auto.
Qed.

Lemma sync_all_ok (fuel : nat) (db edb : string)
      (exercise_db_id : option string) (workouts : OrderedDict Workout) :
  forall (n n' : Counts) (w w' : World),
    nonempty exercise_db_id = Some edb ->
    Forall (fun dw => date (snd dw) = fst dw) workouts ->
    sync_all utcoffset fuel db exercise_db_id false workouts n w = (Ok n', w') ->
    Spec.unique_ids (store w) ->
    Spec.grows (store w) (store w')
    /\ Forall (fun dw => Spec.settled utcoffset db edb dw (store w')) workouts.
Proof.
  induction workouts as [|[d workout] rest IH]; intros n n' w w' Hedb Hdates H Hu.
  - simpl in H. unfold ret in H. injection H as _ <-.
    split; [apply grows_refl, Hu | constructor].
  - inversion Hdates as [|? ? Hd Hrest]; subst. simpl in Hd.
    cbn [sync_all] in H.
    apply bind_ok_inv in H. destruct H as (n1 & w1 & H1 & H).
    destruct (sync_workout_ok _ _ _ _ _ _ _ _ _ _ Hedb Hd H1 Hu) as [G Hs].
    destruct (IH _ _ _ _ Hedb Hrest H (grows_unique _ _ G)) as [G' Hall].
    split; [eapply grows_trans; eassumption|].
    constructor; [eapply settled_grows; eassumption | exact Hall].
Qed.

End FirstRun.

(** ** A second run *)

Lemma creates_app (a b : list Call) :
  Spec.creates (a ++ b) = Spec.creates a ++ Spec.creates b.
Proof. apply filter_app. Qed.

Lemma updates_of_app (a b : list Call) :
  Spec.updates_of (a ++ b) = Spec.updates_of a ++ Spec.updates_of b.
Proof. apply flat_map_app. Qed.

Lemma upserts_again (edb d iso : string) (workout : Workout)
      (entries : list (string * Props)) :
  forall w,
    faults w = [] ->
    Spec.unique_ids (store w) ->
    date_part iso = d ->
    Forall (Spec.shaped workout iso) entries ->
    Forall (fun e => Spec.has_entry edb (fst e) d (store w) = true) entries ->
    let w' := fold_left (Spec.upsert edb d) entries w in
    Spec.grows (store w) (store w') /\ faults w' = [] /\ console w' = console w
    /\ exists calls,
         trace w' = trace w ++ calls
         /\ Spec.creates calls = []
         /\ Spec.updates_of calls = map snd entries.
Proof.
  induction entries as [|[n props] rest IH]; intros w Hf Hu Hd Hsh Hhas.
  - simpl. repeat split; auto; try apply Hu.
    exists []. rewrite app_nil_r. auto.
  - inversion Hsh as [|? ? (len & stats & Hp) Hsh']; subst.
    inversion Hhas as [|? ? Hn Hhas']; subst. simpl in Hp, Hn. subst props.
    cbn [fold_left].
    destruct (existsb_find _ _ Hn) as [page Hfind].
    assert (Eup : Spec.upsert edb (date_part iso) w
                    (n, Spec.entry_of_stats workout iso n len stats)
                  = Spec.after_call
                      (Spec.after_call w (store w)
                         (Spec.entry_query edb (date_part iso) n))
                      (Spec.set_properties (page_id page)
                         (Spec.entry_of_stats workout iso n len stats) (store w))
                      (PagesUpdate (page_id page)
                         (Spec.entry_of_stats workout iso n len stats))).
    { unfold Spec.upsert. cbn [fst snd]. rewrite Hfind. reflexivity. }
    rewrite Eup. clear Eup. set (w1 := Spec.after_call _ _ _).
    apply find_some in Hfind. destruct Hfind as [Hin Hm].
    assert (G : Spec.grows (store w) (store w1)).
    { unfold w1. cbn [store Spec.after_call].
      apply update_entry_grows with (db := edb) (d := date_part iso); auto. }
    destruct (IH w1 eq_refl (grows_unique _ _ G) eq_refl Hsh')
      as (G' & Hf' & Hc' & calls & Htr & Hcr & Hup).
    { eapply Forall_impl; [|exact Hhas']. intros e. apply G. }
    split; [eapply grows_trans; eassumption|].
    split; [exact Hf'|]. split; [rewrite Hc'; reflexivity|].
    exists (Spec.entry_query edb (date_part iso) n
            :: PagesUpdate (page_id page)
                 (Spec.entry_of_stats workout iso n len stats) :: calls).
    split; [|split].
    + rewrite Htr. unfold w1, Spec.after_call. cbn [trace].
      rewrite <- !app_assoc. reflexivity.
    + unfold Spec.creates in *. simpl. exact Hcr.
    + unfold Spec.updates_of in *. simpl. f_equal. exact Hup.
Qed.

Lemma workout_exists_calm (db d : string) (w : World) :
  faults w = [] ->
  workout_exists db d w
  = (Ok (find (Spec.workout_matches db d) (pages (store w))),
     Spec.after_call w (store w) (Spec.workout_query db d)).
Proof.
  intros Hf. unfold workout_exists, try_except.
  erewrite bind_ok by (apply databases_query_calm; exact Hf).
  unfold ret.
  change (query db _ (store w))
    with (filter (Spec.workout_matches db d) (pages (store w))).
  rewrite hd_error_filter. reflexivity.
Qed.

Section SecondRun.

Variable utcoffset : datetime -> Z.

Lemma payloads_of (workout : Workout) (s e : aware)
      (entries : list (string * Props)) :
  make_workout_dates utcoffset workout = Ok (s, e) ->
  Spec.entries_of workout (isoformat s) = Ok entries ->
  Spec.payloads utcoffset workout = map snd entries.
Proof. unfold Spec.payloads. intros -> ->. reflexivity. Qed.

Lemma sync_workout_again (fuel : nat) (db edb d : string)
      (exercise_db_id : option string) (workout : Workout) (n : Counts)
      (w : World) :
  nonempty exercise_db_id = Some edb ->
  faults w = [] ->
  Spec.unique_ids (store w) ->
  Spec.settled utcoffset db edb (d, workout) (store w) ->
  exists w' calls,
    sync_workout utcoffset fuel db exercise_db_id false d workout n w
    = (Ok (mkCounts (created n) (updated n) (skipped n + 1)), w')
    /\ faults w' = []
    /\ Spec.grows (store w) (store w')
    /\ console w'
       = console w ++ ["  Skipped: " +++ name workout +++ " - " +++ d]
    /\ trace w' = trace w ++ calls
    /\ Spec.creates calls = []
    /\ Spec.updates_of calls = Spec.payloads utcoffset workout.
Proof.
  intros Hedb Hf Hu [Hw (s & e & entries & Hd & He & Hall)].
  cbn [fst snd] in *. unfold sync_workout. rewrite Hedb.
  erewrite bind_ok by (apply workout_exists_calm; exact Hf).
  destruct (existsb_find _ _ Hw) as [page Hfind]. rewrite Hfind.
  set (w1 := Spec.after_call w (store w) (Spec.workout_query db d)).
  set (line := "  Skipped: " +++ name workout +++ " - " +++ d).
  set (w2 := mkWorld (store w1) (faults w1) (console w1 ++ [line]) (trace w1)).
  set (n' := mkCounts (created n) (updated n) (skipped n + 1)).
  assert (E2 : (print line ;; ret n') w1 = (Ok n', w2)) by reflexivity.
  erewrite bind_ok by exact E2.
  assert (E3 : sync_exercise_entries utcoffset edb workout w2
               = (Ok tt, fold_left (Spec.upsert edb (strftime_date (local s)))
                                   entries w2)).
  { apply sync_exercise_entries_calm with (end_dt := e); auto. }
  erewrite bind_ok by exact E3.
  pose proof (make_workout_dates_start utcoffset _ _ _ Hd) as Hdp.
  destruct (upserts_again edb (strftime_date (local s)) (isoformat s) workout
              entries w2 eq_refl Hu Hdp)
    as (G & Hf' & Hc' & calls & Htr & Hcr & Hup).
  { unfold Spec.entries_of in He. eapply entries_shaped. exact He. }
  { exact Hall. }
  eexists. exists (Spec.workout_query db d :: calls).
  split; [reflexivity|]. repeat split.
  - exact Hf'.
  - apply G.
  - apply G.
  - apply G.
  - apply G.
  - rewrite Hc'. reflexivity.
  - rewrite Htr. unfold w2, w1, Spec.after_call. cbn [trace].
    rewrite <- app_assoc. reflexivity.
  - exact Hcr.
  - rewrite (payloads_of _ _ _ _ Hd He). exact Hup.
Qed.

Lemma sync_all_again (fuel : nat) (db edb : string)
      (exercise_db_id : option string) (workouts : OrderedDict Workout) :
  forall (n : Counts) (w : World),
    nonempty exercise_db_id = Some edb ->
    faults w = [] ->
    Spec.unique_ids (store w) ->
    Forall (fun dw => Spec.settled utcoffset db edb dw (store w)) workouts ->
    exists w' calls,
      sync_all utcoffset fuel db exercise_db_id false workouts n w
      = (Ok (mkCounts (created n) (updated n)
                      (skipped n + Z.of_nat (List.length workouts))), w')
      /\ faults w' = []
      /\ console w' = console w ++ map Spec.skipped_line workouts
      /\ trace w' = trace w ++ calls
      /\ Spec.creates calls = []
      /\ Spec.updates_of calls
         = flat_map (fun dw => Spec.payloads utcoffset (snd dw)) workouts.
Proof.
  induction workouts as [|[d workout] rest IH]; intros n w Hedb Hf Hu Hall.
  - exists w, []. cbn [sync_all List.length map flat_map]. unfold ret.
    rewrite Z.add_0_r, !app_nil_r. destruct n. repeat split; auto.
  - inversion Hall as [|? ? Hs Hrest]; subst.
    destruct (sync_workout_again fuel db edb d exercise_db_id workout n w
                Hedb Hf Hu Hs)
      as (w1 & calls1 & E1 & Hf1 & G1 & Hc1 & Ht1 & Hcr1 & Hup1).
    destruct (IH (mkCounts (created n) (updated n) (skipped n + 1)) w1 Hedb Hf1
                 (grows_unique _ _ G1)) as (w2 & calls2 & E2 & Hf2 & Hc2 & Ht2 & Hcr2 & Hup2).
    { eapply Forall_impl; [|exact Hrest]. intros dw Hdw.
      eapply settled_grows; eassumption. }
    exists w2, (calls1 ++ calls2). cbn [sync_all].
    erewrite bind_ok by exact E1. rewrite E2. cbn [created updated skipped].
    repeat split.
    + do 3 f_equal. cbn [List.length]. lia.
    + exact Hf2.
    + rewrite Hc2, Hc1. cbn [map]. rewrite <- app_assoc. reflexivity.
    + rewrite Ht2, Ht1, <- app_assoc. reflexivity.
    + rewrite creates_app, Hcr1, Hcr2. reflexivity.
    + rewrite updates_of_app, Hup1, Hup2. reflexivity.
Qed.

End SecondRun.

Lemma od_adjust_dates (k : string) (f : Workout -> Workout)
      (ws : OrderedDict Workout) :
  (forall v, date (f v) = date v) ->
  Forall (fun dw => date (snd dw) = fst dw) ws ->
  Forall (fun dw => date (snd dw) = fst dw) (od_adjust k f ws).
Proof.
  intros Hf. induction 1 as [|[k' v] t Hv Ht IH]; simpl; [constructor|].
  destruct (String.eqb k k'); constructor; auto.
  simpl in *. rewrite Hf. exact Hv.
Qed.

Lemma parse_rows_dates (rows : list CsvRow) :
  forall ws ws' : OrderedDict Workout,
    Forall (fun dw => date (snd dw) = fst dw) ws ->
    parse_rows ws rows = Ok ws' ->
    Forall (fun dw => date (snd dw) = fst dw) ws'.
Proof.
  induction rows as [|row rest IH]; intros ws ws' Hws H; simpl in H.
  - injection H as <-. exact Hws.
  - destruct (parse_row ws row) as [ws1|e] eqn:E; simpl in H; [|discriminate].
    apply (IH ws1); [|exact H]. clear H IH.
    unfold parse_row in E.
    destruct (String.eqb (Set_Order row) "Rest Timer").
    { injection E as <-. exact Hws. }
    destruct (od_mem (Date row) ws).
    + simpl in E. injection E as <-. apply od_adjust_dates; auto.
    + destruct (int_of_str (Duration_sec row)) as [d|e]; simpl in E;
        [|discriminate].
      injection E as <-. apply od_adjust_dates; auto.
      apply Forall_app. split; [exact Hws|]. constructor; [reflexivity|constructor].
Qed.

Lemma parse_csv_dates (files : string -> option (list CsvRow)) (path : string)
      (workouts : OrderedDict Workout) :
  parse_csv files path = Ok workouts ->
  Forall (fun dw => date (snd dw) = fst dw) workouts.
Proof.
  unfold parse_csv. destruct (files path) as [rows|]; [|discriminate].
  apply parse_rows_dates. constructor.
Qed.

Lemma nonempty_truthy (o : option string) (s : string) :
  nonempty o = Some s -> opt_truthy o = true /\ o = Some s.
Proof.
  unfold nonempty. destruct (opt_truthy o); [auto | discriminate].
Qed.

Section Idempotence.

Variable utcoffset : datetime -> Z.

(** C1.  When the aggregation table is configured and the first run of
    [main] without [--rebuild] completes, a second run on the same file
    that meets no remote failure completes as well; it issues no
    [pages.create], reports every workout as skipped, and its
    [pages.update] calls carry, workout by workout, the recomputed
    aggregation rows. *)
Theorem second_run_creates_nothing
        (fuel : nat) (getenv : string -> option string)
        (files : string -> option (list CsvRow)) (args : Args)
        (path token db edb : string) (w0 w1 : World)
        (out : list string) (tr : list Call) :
  rebuild args = false ->
  nonempty (if opt_truthy (csv args) then csv args
            else getenv "STRONG_CSV_PATH") = Some path ->
  nonempty (getenv "NOTION_TOKEN") = Some token ->
  nonempty (getenv "NOTION_DB_ID") = Some db ->
  nonempty (getenv "NOTION_EXERCISE_DB_ID") = Some edb ->
  Spec.unique_ids (store w0) ->
  main utcoffset fuel getenv files args w0 = (Ok tt, w1) ->
  exists (workouts : OrderedDict Workout) (w2 : World) (calls : list Call),
    parse_csv files path = Ok workouts
    /\ main utcoffset fuel getenv files args (mkWorld (store w1) [] out tr)
       = (Ok tt, w2)
    /\ trace w2 = tr ++ calls
    /\ Spec.creates calls = []
    /\ Spec.updates_of calls
       = flat_map (fun dw => Spec.payloads utcoffset (snd dw)) workouts
    /\ console w2
       = out
         ++ ["Found " +++ str_of_int (Z.of_nat (List.length workouts))
             +++ " workouts in CSV"]
         ++ map Spec.skipped_line workouts
         ++ [nl +++ "Done: 0 created, 0 rebuilt, "
             +++ str_of_int (Z.of_nat (List.length workouts)) +++ " skipped"].
Proof.
  intros Hreb Hpath Htok Hdb Hedb Hu H1.
  destruct (nonempty_truthy _ _ Hedb) as [Htr Henv].
  unfold main in *. rewrite Hpath, Htok, Hdb, Hreb in *.
  unfold get_or_create_exercise_db in *. rewrite Htr in *.
  apply bind_ok_inv in H1. destruct H1 as (x & wa & Ha & H1).
  unfold ret in Ha. injection Ha as <- <-.
  apply bind_ok_inv in H1. destruct H1 as (workouts & wa & Ha & H1).
  apply lift_ok_inv in Ha. destruct Ha as [Hparse ->].
  apply bind_ok_inv in H1. destruct H1 as ([] & wa & Ha & H1).
  unfold print in Ha. injection Ha as <-.
  apply bind_ok_inv in H1. destruct H1 as (n & wb & Hb & H1).
  unfold print in H1. injection H1 as <-.
  destruct (sync_all_ok utcoffset fuel db edb _ workouts _ _ _ _ Hedb
              (parse_csv_dates _ _ _ Hparse) Hb Hu) as [G Hall].
  cbn [store] in G, Hall.
  set (line := "Found " +++ str_of_int (Z.of_nat (List.length workouts))
               +++ " workouts in CSV").
  destruct (sync_all_again utcoffset fuel db edb (getenv "NOTION_EXERCISE_DB_ID")
              workouts (mkCounts 0 0 0)
              (mkWorld (store wb) [] (out ++ [line]) tr) Hedb eq_refl
              (grows_unique _ _ G) Hall)
    as (w2 & calls & E & Hf & Hc & Ht & Hcr & Hup).
  cbn [console trace created updated skipped] in *.
  eexists workouts, _, calls. split; [exact Hparse|].
  split.
  { unfold bind at 1, ret at 1. rewrite Hparse.
    unfold bind at 1, lift at 1. unfold bind at 1, print at 1.
    cbn [store faults console trace]. fold line.
    erewrite bind_ok by exact E. unfold print. reflexivity. }
  cbn [store faults console trace created updated skipped].
  repeat split.
  - exact Ht.
  - exact Hcr.
  - exact Hup.
  - rewrite Hc, <- !app_assoc. reflexivity.
Qed.

End Idempotence.

(** The export, synced twice into a workspace whose two tables declare
    every property that is written: the second run creates nothing and
    writes the five aggregation rows again, with total volumes 1000.0, 0.0,
    0, 0 and 1.2. *)
Lemma second_run_creates_nothing_witness :
  Spec.creates_fit Demo.full_store
    (trace (snd (Demo.first_run Demo.env_full Demo.full_store))) = true
  /\ exists w2,
    Demo.second_run Demo.env_full Demo.full_store = (Ok tt, w2)
    /\ Spec.creates (trace w2) = []
    /\ map (fun props => (lookup "Exercise" props, lookup "Date" props,
                          lookup "Total Volumn" props))
           (Spec.updates_of (trace w2))
       = [(Some (PTitle "Squat"), Some (PDate "2024-01-05T07:00:00+01:00" None),
           Some (PNumber (Float (S754_finite false 8796093022208000 (-43)))));
          (Some (PTitle "Row"), Some (PDate "2024-01-05T07:00:00+01:00" None),
           Some (PNumber (Float (S754_zero false))));
          (Some (PTitle "Run"), Some (PDate "2024-01-05T07:00:00+01:00" None),
           Some (PNumber (Int 0)));
          (Some (PTitle "Plank"), Some (PDate "2024-01-05T07:00:00+01:00" None),
           Some (PNumber (Int 0)));
          (Some (PTitle "Curl"), Some (PDate "2024-01-07T18:30:00+01:00" None),
           Some (PNumber (Float (S754_finite false 5404319552844595 (-52)))))]
    /\ console w2
       = ["Found 2 workouts in CSV";
          "  Skipped: Morning - 2024-01-05 07:00:00";
          "  Skipped: Evening - 2024-01-07 18:30:00";
          nl +++ "Done: 0 created, 0 rebuilt, 2 skipped"].
Proof.
  split; [vm_compute; reflexivity|].
  destruct (second_run_creates_nothing Demo.cet 0 Demo.env_full Demo.files
              Demo.args "strong.csv" "secret" "activities" "exercises"
              (Demo.world Demo.full_store [])
              (snd (Demo.first_run Demo.env_full Demo.full_store)) [] [])
    as (workouts & w2 & calls & Hparse & Hrun & Ht & Hcr & Hup & Hc).
  - reflexivity.
  - reflexivity.
  - reflexivity.
  - reflexivity.
  - reflexivity.
  - split; constructor.
  - vm_compute. reflexivity.
  - exists w2. split; [exact Hrun|].
    assert (Hw : workouts = [(Demo.morning, Demo.morning_workout);
                             (Demo.evening, Demo.evening_workout)]).
    { vm_compute in Hparse. injection Hparse as <-. vm_compute. reflexivity. }
    cbn [app] in Ht. rewrite Ht, Hcr, Hup, Hc, Hw.
    repeat split; vm_compute; reflexivity.
Defined.

(** Without [NOTION_EXERCISE_DB_ID], and with the activities table inside
    another table, no run reaches the aggregation.  The first run creates
    the two workout pages, each in the activities table and with properties
    the table declares; the second run only reads the table and looks the
    two workouts up: it writes no aggregation row. *)
Lemma second_run_without_exercise_table :
  fst (Demo.first_run Demo.env_basic Demo.nested_store) = Ok tt
  /\ List.length
       (Spec.creates (trace (snd (Demo.first_run Demo.env_basic Demo.nested_store))))
     = 2%nat
  /\ Spec.creates_fit Demo.nested_store
       (trace (snd (Demo.first_run Demo.env_basic Demo.nested_store))) = true
  /\ Spec.updates_of
       (trace (snd (Demo.first_run Demo.env_basic Demo.nested_store))) = []
  /\ Demo.second_run Demo.env_basic Demo.nested_store
     = (Ok tt,
        mkWorld (store (snd (Demo.first_run Demo.env_basic Demo.nested_store))) []
          ["Cannot auto-create exercise database (activities DB parent is not a page).";
           "Create the database manually and set NOTION_EXERCISE_DB_ID in .env";
           "Found 2 workouts in CSV";
           "  Skipped: Morning - 2024-01-05 07:00:00";
           "  Skipped: Evening - 2024-01-07 18:30:00";
           nl +++ "Done: 0 created, 0 rebuilt, 2 skipped"]
          [DatabasesRetrieve "activities";
           DatabasesQuery "activities"
             (Single (MultiSelectContains "Garmin ID"
                        "strong-2024-01-05 07:00:00"));
           DatabasesQuery "activities"
             (Single (MultiSelectContains "Garmin ID"
                        "strong-2024-01-07 18:30:00"))]).
Proof. vm_compute. repeat split; reflexivity. Qed.

(** ** Further properties of the parser and of the grouping *)

Lemma od_adjust_Forall {V} (P : string * V -> Prop) (k : string) (f : V -> V)
      (d : OrderedDict V) :
  (forall k' v, P (k', v) -> P (k', f v)) ->
  Forall P d -> Forall P (od_adjust k f d).
Proof.
  intros Hf. induction 1 as [|[k' v] t Hv Ht IH]; simpl; [constructor|].
  destruct (String.eqb k k'); constructor; auto.
Qed.

Lemma parse_row_well_keyed (ws ws' : OrderedDict Workout) (row : CsvRow) :
  Forall Spec.well_keyed ws -> parse_row ws row = Ok ws' -> Forall Spec.well_keyed ws'.
Proof.
  intros Hws E. unfold parse_row in E.
  destruct (String.eqb_spec (Set_Order row) "Rest Timer") as [|Hrest].
  { injection E as <-. exact Hws. }
  assert (Hadd : forall k v, Spec.well_keyed (k, v) ->
                   Spec.well_keyed (k, add_exercise (exercise_of_row row) v)).
  { intros k v (Hd & _ & Hall). unfold Spec.well_keyed. cbn [fst snd] in *.
    unfold add_exercise. cbn [date exercises]. repeat split.
    - exact Hd.
    - intros Habs. apply app_eq_nil in Habs. destruct Habs; discriminate.
    - apply Forall_app. split; [exact Hall|]. constructor; [|constructor].
      exact Hrest. }
  destruct (od_mem (Date row) ws) eqn:Hm.
  - simpl in E. injection E as <-. apply od_adjust_Forall; assumption.
  - destruct (int_of_str (Duration_sec row)) as [d|e]; simpl in E;
      [|discriminate].
    injection E as <-. rewrite od_adjust_last by exact Hm.
    apply Forall_app. split; [exact Hws|]. constructor; [|constructor].
    unfold Spec.well_keyed, add_exercise. cbn [fst snd date exercises app].
    repeat split; [discriminate|]. constructor; [exact Hrest | constructor].
Qed.

Lemma parse_rows_well_keyed (rows : list CsvRow) :
  forall ws ws' : OrderedDict Workout,
    Forall Spec.well_keyed ws -> parse_rows ws rows = Ok ws' ->
    Forall Spec.well_keyed ws'.
Proof.
  induction rows as [|row rest IH]; intros ws ws' Hws H; simpl in H.
  - injection H as <-. exact Hws.
  - destruct (parse_row ws row) as [ws1|e] eqn:E; simpl in H; [|discriminate].
    apply (IH ws1); [|exact H]. eapply parse_row_well_keyed; eassumption.
Qed.

(** Every record the parser returns carries its own key in its date field,
    lists at least one row, and lists no rest-timer row.  The loop of [main]
    looks a workout up under the key and creates it under the date field:
    the two agree. *)
Theorem parse_csv_well_keyed (files : string -> option (list CsvRow))
        (csv_path : string) (workouts : OrderedDict Workout) :
  parse_csv files csv_path = Ok workouts ->
  Forall (fun dw => date (snd dw) = fst dw
                    /\ exercises (snd dw) <> []
                    /\ Forall (fun ex => set_order ex <> "Rest Timer")
                              (exercises (snd dw)))
         workouts.
Proof.
  unfold parse_csv. destruct (files csv_path) as [rows|]; [|discriminate].
  intros H. apply (parse_rows_well_keyed rows [] workouts); [constructor|exact H].
Qed.

Lemma parse_csv_well_keyed_witness :
  Forall (fun dw => date (snd dw) = fst dw
                    /\ exercises (snd dw) <> []
                    /\ Forall (fun ex => set_order ex <> "Rest Timer")
                              (exercises (snd dw)))
         [(Demo.morning, Demo.morning_workout);
          (Demo.evening, Demo.evening_workout)].
Proof.
  apply (parse_csv_well_keyed Demo.files "strong.csv").
  vm_compute. reflexivity.
Defined.

(** ** The existence check under any fault plan *)

Lemma hd_error_In {A} (l : list A) (a : A) : hd_error l = Some a -> In a l.
Proof. destruct l; simpl; [discriminate|]. intros [= ->]. left. reflexivity. Qed.

(** The per-workout existence check never raises: whatever the remote side
    does, it issues its one query, leaves the store as it is and answers.  A
    page it answers with is a page of the table whose "Garmin ID" holds the
    stable id; it answers [None] only when the query failed or no page of the
    table holds that id. *)
Theorem workout_exists_answers (database_id workout_date : string) (w : World) :
  exists (r : option Page) (w' : World),
    workout_exists database_id workout_date w = (Ok r, w')
    /\ store w' = store w
    /\ faults w' = tl (faults w)
    /\ trace w'
       = trace w
         ++ [DatabasesQuery database_id
               (Single (MultiSelectContains "Garmin ID"
                          ("strong-" +++ workout_date)))]
    /\ match r with
       | Some p =>
           In p (pages (store w))
           /\ page_parent p = database_id
           /\ exists names,
                lookup "Garmin ID" (properties p) = Some (PMultiSelect names)
                /\ In ("strong-" +++ workout_date) names
       | None =>
           hd_error (faults w) = Some true
           \/ query database_id
                (Single (MultiSelectContains "Garmin ID"
                           ("strong-" +++ workout_date))) (store w) = []
       end.
Proof.
  unfold workout_exists, try_except, databases_query, remote, bind, ret.
  destruct w as [st fs out tr]. cbn [faults store console trace].
  destruct fs as [|[|] fs]; cbn [is_exception call_failed tl hd_error].
  - set (q := query _ _ st). do 2 eexists. split; [reflexivity|].
    cbn [store faults trace tl]. repeat split.
    destruct (hd_error q) as [p|] eqn:E.
    + apply hd_error_In in E. unfold q, query in E.
      apply filter_In in E. destruct E as [Hin Hp].
      apply andb_prop in Hp. destruct Hp as [Hdb Hc].
      split; [exact Hin|]. split; [apply String.eqb_eq, Hdb|].
      cbn [filter_holds cond_holds] in Hc.
      destruct (lookup "Garmin ID" (properties p)) as [[]|]; try discriminate.
      eexists. split; [reflexivity|].
      apply existsb_exists in Hc. destruct Hc as (x & Hx & Hxe).
      apply String.eqb_eq in Hxe. subst x. exact Hx.
    + right. destruct q; [reflexivity | discriminate].
  - do 2 eexists. split; [reflexivity|]. cbn [store faults trace tl].
    repeat split. left. reflexivity.
  - set (q := query _ _ st). do 2 eexists. split; [reflexivity|].
    cbn [store faults trace tl]. repeat split.
    destruct (hd_error q) as [p|] eqn:E.
    + apply hd_error_In in E. unfold q, query in E.
      apply filter_In in E. destruct E as [Hin Hp].
      apply andb_prop in Hp. destruct Hp as [Hdb Hc].
      split; [exact Hin|]. split; [apply String.eqb_eq, Hdb|].
      cbn [filter_holds cond_holds] in Hc.
      destruct (lookup "Garmin ID" (properties p)) as [[]|]; try discriminate.
      eexists. split; [reflexivity|].
      apply existsb_exists in Hc. destruct Hc as (x & Hx & Hxe).
      apply String.eqb_eq in Hxe. subst x. exact Hx.
    + right. destruct q; [reflexivity | discriminate].
Qed.

(** ** Negative durations *)

(** A negative number of seconds is never rendered with a sign or as hours:
    the floor division puts it in the last hour before zero, so that the
    formatter answers the minutes and seconds of [n mod 3600]; [-1] reads
    ["59:59"]. *)
Theorem format_time_negative (o : obj) (n : Z) :
  Spec.total_seconds_of o = Ok n -> n < 0 ->
  format_time o
  = Ok (str_of_int (n mod 3600 / 60) +++ ":" +++ fmt_02d (n mod 3600 mod 60))
  /\ 0 <= n mod 3600 / 60 < 60
  /\ 0 <= n mod 3600 mod 60 < 60.
Proof.
  intros Ho Hn. rewrite (format_time_of_total o n Ho).
  assert (H : n / 3600 < 0) by (apply Z.div_lt_upper_bound; lia).
  destruct (Z.ltb_spec 0 (n / 3600)); [lia|].
  assert (E : n mod 60 = n mod 3600 mod 60).
  { Z.div_mod_to_equations. lia. }
  rewrite E. split; [reflexivity|].
  pose proof (Z.mod_pos_bound n 3600 ltac:(lia)).
  pose proof (Z.mod_pos_bound (n mod 3600) 60 ltac:(lia)).
  split; [|lia]. split.
  - apply Z.div_pos; lia.
  - apply Z.div_lt_upper_bound; lia.
Qed.

Lemma format_time_negative_witness :
  format_time (OStr "-1") = Ok "59:59".
Proof.
  destruct (format_time_negative (OStr "-1") (-1)) as [H _].
  - vm_compute. reflexivity.
  - lia.
  - rewrite H. vm_compute. reflexivity.
Defined.

(** ** The shape of the tables *)

Lemma set_row_cells (s : Exercise) (r : TableRow) :
  set_row s = Ok r -> List.length (cells r) = 3%nat.
Proof.
  unfold set_row. destruct (format_set s) as [[a b]|]; simpl; [|discriminate].
  intros [= <-]. reflexivity.
Qed.

Lemma group_blocks_tables (n i : nat) (name : string) (data : Group)
      (bs : list Block) :
  group_blocks n i name data = Ok bs -> Forall Spec.table_ok bs.
Proof.
  unfold group_blocks. intros H. apply rbind_ok in H.
  destruct H as (table & Ht & H). injection H as <-.
  constructor; [exact I|]. apply Forall_app. split.
  { apply Forall_forall. intros b Hb. apply in_map_iff in Hb.
    destruct Hb as (x & <- & _). exact I. }
  apply Forall_app. split.
  - destruct (sets data) as [|s ss] eqn:Es.
    + injection Ht as <-. constructor.
    + apply rbind_ok in Ht. destruct Ht as (rows & Hr & Ht). injection Ht as <-.
      constructor; [|constructor]. cbn [Spec.table_ok hd_error].
      repeat split.
      * pose proof (map_result_length _ _ _ Hr) as Hl. cbn [List.length] in *. lia.
      * constructor; [reflexivity|].
        eapply map_result_each; [|exact Hr]. apply set_row_cells.
  - destruct (Z.of_nat i <? Z.of_nat n - 1); repeat constructor.
Qed.

Lemma build_from_tables (n : nat) (groups : OrderedDict Group) :
  forall (i : nat) (bs : list Block),
    build_from n i groups = Ok bs -> Forall Spec.table_ok bs.
Proof.
  induction groups as [|[name data] rest IH]; intros i bs H; simpl in H.
  - injection H as <-. constructor.
  - apply rbind_ok in H. destruct H as (b1 & H1 & H).
    apply rbind_ok in H. destruct H as (b2 & H2 & H). injection H as <-.
    apply Forall_app. split; [eapply group_blocks_tables; exact H1 | eapply IH; exact H2].
Qed.

(** Every table the content builder emits declares three columns and a
    column header, opens with the row "Set", "Weight (kg)", "Reps", holds at
    least one row after it, and has exactly three cells in each of its rows. *)
Theorem tables_have_three_cells (exs : list Exercise) (blocks : list Block) :
  build_page_content exs = Ok blocks ->
  Forall (fun b =>
            match b with
            | Table width column_header row_header rows =>
                width = 3 /\ column_header = true /\ row_header = false
                /\ hd_error rows
                   = Some (mkRow [[mkText "Set" false];
                                  [mkText "Weight (kg)" false];
                                  [mkText "Reps" false]])
                /\ (2 <= List.length rows)%nat
                /\ Forall (fun r => List.length (cells r) = 3%nat) rows
            | _ => True
            end) blocks.
Proof.
  unfold build_page_content. intros H.
  apply build_from_tables in H. exact H.
Qed.

Lemma tables_have_three_cells_witness :
  exists blocks,
    build_page_content (exercises Demo.morning_workout) = Ok blocks
    /\ Forall (fun b =>
                 match b with
                 | Table width column_header row_header rows =>
                     width = 3 /\ column_header = true /\ row_header = false
                     /\ hd_error rows
                        = Some (mkRow [[mkText "Set" false];
                                       [mkText "Weight (kg)" false];
                                       [mkText "Reps" false]])
                     /\ (2 <= List.length rows)%nat
                     /\ Forall (fun r => List.length (cells r) = 3%nat) rows
                 | _ => True
                 end) blocks.
Proof.
  destruct (build_page_content (exercises Demo.morning_workout)) as [blocks|e]
    eqn:E; [|vm_compute in E; discriminate].
  exists blocks. split; [reflexivity|].
  exact (tables_have_three_cells _ _ E).
Defined.

(** ** Creating a workout page *)

Lemma find_fresh (id : nat) (ps : list Page) :
  Forall (fun p => (page_id p < id)%nat) ps ->
  find (fun q => Nat.eqb (page_id q) id) ps = None.
Proof.
  induction 1 as [|p t Hp Ht IH]; simpl; [reflexivity|].
  destruct (Nat.eqb_spec (page_id p) id); [lia | exact IH].
Qed.

Lemma modify_fresh (id : nat) (f : Page -> Page) (ps : list Page) (p : Page) :
  Forall (fun q => (page_id q < id)%nat) ps -> page_id p = id ->
  modify_page id f (ps ++ [p]) = ps ++ [f p].
Proof.
  intros H Hp. induction H as [|q t Hq Ht IH]; simpl.
  - rewrite Hp, Nat.eqb_refl. reflexivity.
  - destruct (Nat.eqb_spec (page_id q) id); [lia|]. rewrite IH. reflexivity.
Qed.

Lemma find_app_none {A} (f : A -> bool) (l : list A) (a : A) :
  find f l = None -> f a = true -> find f (l ++ [a]) = Some a.
Proof.
  induction l as [|x t IH]; simpl; intros H Ha.
  - rewrite Ha. reflexivity.
  - destruct (f x); [discriminate | auto].
Qed.

Lemma find_app_some {A} (f : A -> bool) (l l' : list A) (a : A) :
  find f l = Some a -> find f (l ++ l') = Some a.
Proof.
  induction l as [|x t IH]; simpl; [discriminate|].
  destruct (f x); auto.
Qed.

Lemma filter_nil_find {A} (f : A -> bool) (l : list A) :
  filter f l = [] -> find f l = None.
Proof.
  induction l as [|x t IH]; simpl; [reflexivity|].
  destruct (f x); [discriminate | exact IH].
Qed.

Section Creation.

Variable utcoffset : datetime -> Z.

Lemma create_workout_page_calm (db : string) (workout : Workout) (w : World)
      (s e : aware) (minutes : spec_float) :
  faults w = [] ->
  Forall (fun p => (page_id p < next_id (store w))%nat) (pages (store w)) ->
  make_workout_dates utcoffset workout = Ok (s, e) ->
  int_truediv (duration_sec workout) 60 = Ok minutes ->
  let id := next_id (store w) in
  let props := Spec.workout_properties workout s e minutes in
  create_workout_page utcoffset db workout w
  = match build_page_content (exercises workout) with
    | Ok blocks =>
        (Ok id,
         mkWorld (mkStore (pages (store w)
                           ++ [mkPage id db props (Some STRENGTH_ICON)
                                      (number_from (S id) blocks)])
                          (databases (store w))
                          (S id + List.length blocks) (page_size (store w)))
                 [] (console w)
                 (trace w ++ [PagesCreate db props STRENGTH_ICON;
                              BlocksChildrenAppend id blocks]))
    | Raise err =>
        (Raise err,
         mkWorld (mkStore (pages (store w)
                           ++ [mkPage id db props (Some STRENGTH_ICON) []])
                          (databases (store w)) (S id) (page_size (store w)))
                 [] (console w)
                 (trace w ++ [PagesCreate db props STRENGTH_ICON]))
    end.
Proof.
  intros Hf Hids Hd Hm id props. unfold create_workout_page.
  rewrite Hd, Hm. unfold bind at 1, lift at 1. unfold bind at 1, lift at 1.
  fold (Spec.workout_properties workout s e minutes). fold props.
  erewrite bind_ok by (apply pages_create_calm; exact Hf).
  destruct (build_page_content (exercises workout)) as [blocks|err].
  - unfold bind at 1, lift at 1.
    set (p := mkPage (next_id (store w)) db props (Some STRENGTH_ICON) []).
    set (w1 := Spec.after_call _ _ _).
    assert (Hfind : find_page (page_id p) (store w1) = Some p).
    { unfold find_page, w1, Spec.after_call, Spec.add_page. cbn [store pages].
      apply find_app_none; [apply find_fresh; exact Hids|].
      cbn [page_id p]. apply Nat.eqb_refl. }
    erewrite bind_ok
      by (apply (blocks_children_append_calm _ _ _ p); [reflexivity | exact Hfind]).
    unfold ret, Spec.after_call. cbn [page_id p]. f_equal.
    unfold w1, Spec.after_call, Spec.add_page.
    cbn [store pages databases next_id page_size console trace].
    rewrite (modify_fresh _ _ _ _ Hids) by reflexivity.
    rewrite <- app_assoc. reflexivity.
  - unfold bind at 1, lift at 1. reflexivity.
Qed.

Lemma new_page_matches (db : string) (workout : Workout) (s e : aware)
      (minutes : spec_float) (id : nat) (ic : option string)
      (cs : list (nat * Block)) :
  Spec.workout_matches db (date workout)
    (mkPage id db (Spec.workout_properties workout s e minutes) ic cs) = true.
Proof.
  unfold Spec.workout_matches, in_database, cond_holds, Spec.workout_properties.
  cbn [page_parent properties lookup]. rewrite String.eqb_refl.
  simpl. rewrite String.eqb_refl. reflexivity.
Qed.

(** A page that [create_workout_page] created without remote failure is the
    last page of the store, lies in the table, carries the stable id
    "strong-" followed by the date field, and holds the built blocks in
    order.  The existence check for that date then answers with a page, and
    with this very page when no page of the table carried the id before. *)
Theorem created_workout_is_found
        (database_id : string) (workout : Workout) (w : World)
        (start_dt end_dt : aware) (minutes : spec_float)
        (blocks : list Block) :
  faults w = [] ->
  Forall (fun p => (page_id p < next_id (store w))%nat) (pages (store w)) ->
  make_workout_dates utcoffset workout = Ok (start_dt, end_dt) ->
  int_truediv (duration_sec workout) 60 = Ok minutes ->
  build_page_content (exercises workout) = Ok blocks ->
  exists (w1 : World) (page : Page),
    create_workout_page utcoffset database_id workout w
    = (Ok (page_id page), w1)
    /\ pages (store w1) = pages (store w) ++ [page]
    /\ page_id page = next_id (store w)
    /\ page_parent page = database_id
    /\ lookup "Garmin ID" (properties page)
       = Some (PMultiSelect ["strong-" +++ date workout])
    /\ lookup "Activity Name" (properties page) = Some (PTitle (name workout))
    /\ lookup "Date" (properties page)
       = Some (PDate (isoformat start_dt) (Some (isoformat end_dt)))
    /\ lookup "Duration (min)" (properties page)
       = Some (PNumber (Float (round_float 2 minutes)))
    /\ map snd (children page) = blocks
    /\ trace w1
       = trace w ++ [PagesCreate database_id (properties page) STRENGTH_ICON;
                     BlocksChildrenAppend (page_id page) blocks]
    /\ exists (found : Page) (w2 : World),
         workout_exists database_id (date workout) w1 = (Ok (Some found), w2)
         /\ (query database_id
               (Single (MultiSelectContains "Garmin ID"
                          ("strong-" +++ date workout))) (store w) = []
             -> found = page).
Proof.
  intros Hf Hids Hd Hm Hb.
  pose proof (create_workout_page_calm database_id workout w start_dt end_dt
                minutes Hf Hids Hd Hm) as Hc.
  cbv zeta in Hc. rewrite Hb in Hc.
  set (page := mkPage (next_id (store w)) database_id
                 (Spec.workout_properties workout start_dt end_dt minutes)
                 (Some STRENGTH_ICON)
                 (number_from (S (next_id (store w))) blocks)) in *.
  eexists _, page. split; [exact Hc|].
  cbn [store pages trace page page_id page_parent properties children].
  repeat split.
  - apply number_from_blocks.
  - rewrite workout_exists_calm by reflexivity. cbn [store pages].
    destruct (find (Spec.workout_matches database_id (date workout))
                   (pages (store w))) as [old|] eqn:E.
    + exists old. eexists. rewrite (find_app_some _ _ _ _ E).
      split; [reflexivity|]. intros Hq. rewrite query_workouts in Hq.
      apply filter_nil_find in Hq. congruence.
    + exists page. eexists.
      rewrite (find_app_none _ _ page E) by apply new_page_matches.
      split; [reflexivity | reflexivity].
Qed.

(** When the blocks of a workout cannot be built (a field of a set is not a
    number), [create_workout_page] raises after [pages.create] went through:
    the page stays in the table with its properties and without any block,
    no block is sent, and the existence check for that date answers with a
    page from then on. *)
Theorem page_without_content
        (database_id : string) (workout : Workout) (w : World)
        (start_dt end_dt : aware) (minutes : spec_float) (err : exn) :
  faults w = [] ->
  Forall (fun p => (page_id p < next_id (store w))%nat) (pages (store w)) ->
  make_workout_dates utcoffset workout = Ok (start_dt, end_dt) ->
  int_truediv (duration_sec workout) 60 = Ok minutes ->
  build_page_content (exercises workout) = Raise err ->
  exists (w1 : World) (page : Page),
    create_workout_page utcoffset database_id workout w = (Raise err, w1)
    /\ pages (store w1) = pages (store w) ++ [page]
    /\ page_parent page = database_id
    /\ lookup "Garmin ID" (properties page)
       = Some (PMultiSelect ["strong-" +++ date workout])
    /\ children page = []
    /\ trace w1
       = trace w ++ [PagesCreate database_id (properties page) STRENGTH_ICON]
    /\ exists (found : Page) (w2 : World),
         workout_exists database_id (date workout) w1 = (Ok (Some found), w2).
Proof.
  intros Hf Hids Hd Hm Hb.
  pose proof (create_workout_page_calm database_id workout w start_dt end_dt
                minutes Hf Hids Hd Hm) as Hc.
  cbv zeta in Hc. rewrite Hb in Hc.
  set (page := mkPage (next_id (store w)) database_id
                 (Spec.workout_properties workout start_dt end_dt minutes)
                 (Some STRENGTH_ICON) []) in *.
  eexists _, page. split; [exact Hc|].
  cbn [store pages trace page page_id page_parent properties children].
  repeat split.
  rewrite workout_exists_calm by reflexivity. cbn [store pages].
  destruct (find (Spec.workout_matches database_id (date workout))
                 (pages (store w))) as [old|] eqn:E.
  - exists old. eexists. rewrite (find_app_some _ _ _ _ E). reflexivity.
  - exists page. eexists.
    rewrite (find_app_none _ _ page E) by apply new_page_matches. reflexivity.
Qed.

Lemma workout_exists_failed (db d : string) (st : Store) (plan : list bool)
      (out : list string) (tr : list Call) :
  workout_exists db d (mkWorld st (true :: plan) out tr)
  = (Ok None,
     mkWorld st plan
       (out ++ ["Error checking for existing workout: remote call failed"])
       (tr ++ [Spec.workout_query db d])).
Proof. reflexivity. Qed.

(** A remote failure of the existence check makes the loop of [main] create
    the workout, whatever the table holds: with no aggregation table and no
    further failure the turn ends normally, counts one more created workout,
    and the table holds one more page carrying the stable id than before, so
    a workout that was there is there twice. *)
Theorem failed_check_duplicates
        (fuel : nat) (database_id : string) (exercise_db_id : option string)
        (rebuild : bool) (workout : Workout) (n : Counts) (w : World)
        (start_dt end_dt : aware) (minutes : spec_float)
        (blocks : list Block) :
  faults w = [true] ->
  Forall (fun p => (page_id p < next_id (store w))%nat) (pages (store w)) ->
  nonempty exercise_db_id = None ->
  make_workout_dates utcoffset workout = Ok (start_dt, end_dt) ->
  int_truediv (duration_sec workout) 60 = Ok minutes ->
  build_page_content (exercises workout) = Ok blocks ->
  exists (w' : World) (page : Page),
    sync_workout utcoffset fuel database_id exercise_db_id rebuild
                 (date workout) workout n w
    = (Ok (mkCounts (created n + 1) (updated n) (skipped n)), w')
    /\ pages (store w') = pages (store w) ++ [page]
    /\ query database_id
         (Single (MultiSelectContains "Garmin ID" ("strong-" +++ date workout)))
         (store w')
       = query database_id
           (Single (MultiSelectContains "Garmin ID"
                      ("strong-" +++ date workout))) (store w)
         ++ [page]
    /\ console w'
       = console w
         ++ ["Error checking for existing workout: remote call failed";
             "  Created: " +++ name workout +++ " - " +++ date workout].
Proof.
  intros Hf Hids Hedb Hd Hm Hb. destruct w as [st fs out tr].
  cbn [faults store console] in *. subst fs.
  unfold sync_workout. rewrite Hedb.
  erewrite bind_ok by apply workout_exists_failed.
  set (w1 := mkWorld st [] _ _).
  pose proof (create_workout_page_calm database_id workout w1 start_dt end_dt
                minutes eq_refl Hids Hd Hm) as Hc.
  cbv zeta in Hc. rewrite Hb in Hc.
  set (page := mkPage (next_id st) database_id
                 (Spec.workout_properties workout start_dt end_dt minutes)
                 (Some STRENGTH_ICON) (number_from (S (next_id st)) blocks)).
  eexists _, page. split.
  { unfold bind at 1. unfold bind at 1. unfold bind at 1. rewrite Hc.
    unfold bind at 1, print at 1, ret. reflexivity. }
  cbn [store pages console w1]. repeat split.
  - rewrite !query_workouts. cbn [pages]. rewrite filter_app. cbn [filter].
    unfold page. rewrite new_page_matches. reflexivity.
  - rewrite <- app_assoc. reflexivity.
Qed.

End Creation.

Lemma created_workout_is_found_witness :
  exists (w1 : World) (page : Page),
    create_workout_page Demo.cet "activities" Demo.morning_workout
                        (Demo.world Demo.empty_store [])
    = (Ok (page_id page), w1)
    /\ pages (store w1) = [page]
    /\ lookup "Garmin ID" (properties page)
       = Some (PMultiSelect ["strong-2024-01-05 07:00:00"])
    /\ fst (workout_exists "activities" Demo.morning w1) = Ok (Some page).
Proof.
  destruct (make_workout_dates Demo.cet Demo.morning_workout) as [[s e]|err]
    eqn:Hd; [|vm_compute in Hd; discriminate].
  destruct (int_truediv (duration_sec Demo.morning_workout) 60) as [m|err]
    eqn:Hm; [|vm_compute in Hm; discriminate].
  destruct (build_page_content (exercises Demo.morning_workout)) as [bs|err]
    eqn:Hb; [|vm_compute in Hb; discriminate].
  destruct (created_workout_is_found Demo.cet "activities" Demo.morning_workout
              (Demo.world Demo.empty_store []) s e m bs eq_refl
              (Forall_nil _) Hd Hm Hb)
    as (w1 & page & Hc & Hp & _ & _ & Hg & _ & _ & _ & _ & _
        & found & w2 & Hw & Hfound).
  exists w1, page. split; [exact Hc|]. split; [exact Hp|]. split; [exact Hg|].
  change Demo.morning with (date Demo.morning_workout).
  rewrite Hw. cbn [fst]. rewrite Hfound; reflexivity.
Defined.

Lemma page_without_content_witness :
  exists (err : exn) (w1 : World) (page : Page),
    create_workout_page Demo.cet "activities" Demo.comma_workout
                        (Demo.world Demo.empty_store [])
    = (Raise err, w1)
    /\ pages (store w1) = [page]
    /\ children page = [].
Proof.
  destruct (make_workout_dates Demo.cet Demo.comma_workout) as [[s e]|err]
    eqn:Hd; [|vm_compute in Hd; discriminate].
  destruct (int_truediv (duration_sec Demo.comma_workout) 60) as [m|err]
    eqn:Hm; [|vm_compute in Hm; discriminate].
  destruct (build_page_content (exercises Demo.comma_workout)) as [bs|err]
    eqn:Hb; [vm_compute in Hb; discriminate|].
  destruct (page_without_content Demo.cet "activities" Demo.comma_workout
              (Demo.world Demo.empty_store []) s e m err eq_refl
              (Forall_nil _) Hd Hm Hb)
    as (w1 & page & Hc & Hp & _ & _ & Hch & _).
  exists err, w1, page. split; [exact Hc|]. split; [exact Hp | exact Hch].
Defined.

Lemma failed_check_duplicates_witness :
  exists (w' : World),
    sync_workout Demo.cet 0 "activities" None false Demo.morning
                 Demo.morning_workout (mkCounts 0 0 0)
                 (Demo.world
                    (store (snd (Demo.first_run Demo.env_basic Demo.nested_store)))
                    [true])
    = (Ok (mkCounts 1 0 0), w')
    /\ List.length
         (query "activities"
            (Single (MultiSelectContains "Garmin ID"
                       "strong-2024-01-05 07:00:00")) (store w')) = 2%nat.
Proof.
  destruct (make_workout_dates Demo.cet Demo.morning_workout) as [[s e]|err]
    eqn:Hd; [|vm_compute in Hd; discriminate].
  destruct (int_truediv (duration_sec Demo.morning_workout) 60) as [m|err]
    eqn:Hm; [|vm_compute in Hm; discriminate].
  destruct (build_page_content (exercises Demo.morning_workout)) as [bs|err]
    eqn:Hb; [|vm_compute in Hb; discriminate].
  destruct (failed_check_duplicates Demo.cet 0 "activities" None false
              Demo.morning_workout (mkCounts 0 0 0)
              (Demo.world
                 (store (snd (Demo.first_run Demo.env_basic Demo.nested_store)))
                 [true]) s e m bs eq_refl)
    as (w' & page & Hc & _ & Hq & _).
  - vm_compute. repeat constructor.
  - reflexivity.
  - exact Hd.
  - exact Hm.
  - exact Hb.
  - exists w'. split; [exact Hc|].
    change ("strong-" +++ date Demo.morning_workout)
      with "strong-2024-01-05 07:00:00" in Hq.
    rewrite Hq, length_app. cbn [List.length]. vm_compute. reflexivity.
Defined.

(** ** Provisioning the exercise table *)

Lemma get_or_create_pages (getenv : string -> option string) (db : string)
      (w : World) :
  pages (store (snd (get_or_create_exercise_db getenv db w)))
  = pages (store w).
Proof.
  unfold get_or_create_exercise_db.
  destruct (opt_truthy (getenv "NOTION_EXERCISE_DB_ID")); [reflexivity|].
  unfold bind, databases_retrieve, databases_create, remote, print, ret, not_found.
  destruct w as [st fs out tr]. cbn [faults store console trace].
  destruct fs as [|[|] fs]; cbn [tl]; try reflexivity;
    (destruct (find _ (databases st)) as [act|]; [|reflexivity];
     destruct (db_parent act); try reflexivity;
     cbn [faults store console trace tl];
     destruct fs as [|[|] fs]; reflexivity).
Qed.

(** How [get_or_create_exercise_db] behaves under any fault plan.  It never
    touches a page.  With [NOTION_EXERCISE_DB_ID] set it answers with that
    id and makes no call.  Otherwise it retrieves the activities table
    first; it answers with an id only after it created, under the page that
    holds the activities table, a table titled "Exercise Progress" with the
    declared schema, and that id is the new table's; it answers [None], with
    the store as it was, only for an activities table that is not on a page;
    and when it raises, no table was added. *)
Theorem exercise_db_provision (getenv : string -> option string)
        (activities_db_id : string) (w : World) :
  exists (r : result (option string)) (w' : World),
    get_or_create_exercise_db getenv activities_db_id w = (r, w')
    /\ pages (store w') = pages (store w)
    /\ (opt_truthy (getenv "NOTION_EXERCISE_DB_ID") = true ->
        r = Ok (getenv "NOTION_EXERCISE_DB_ID") /\ w' = w)
    /\ (opt_truthy (getenv "NOTION_EXERCISE_DB_ID") = false ->
        match r with
        | Ok (Some id) =>
            exists (activities : Database) (parent_page : string),
              In activities (databases (store w))
              /\ database_id activities = activities_db_id
              /\ db_parent activities = PageParent parent_page
              /\ databases (store w')
                 = databases (store w)
                   ++ [mkDatabase id (PageParent parent_page)
                                  "Exercise Progress" exercise_db_schema]
              /\ trace w'
                 = trace w
                   ++ [DatabasesRetrieve activities_db_id;
                       DatabasesCreate parent_page "Exercise Progress"
                                       exercise_db_schema]
        | Ok None =>
            store w' = store w
            /\ trace w' = trace w ++ [DatabasesRetrieve activities_db_id]
            /\ exists activities : Database,
                 In activities (databases (store w))
                 /\ database_id activities = activities_db_id
                 /\ forall pg, db_parent activities <> PageParent pg
        | Raise _ =>
            store w' = store w
            /\ exists calls,
                 trace w' = trace w ++ DatabasesRetrieve activities_db_id :: calls
        end).
Proof.
  destruct (get_or_create_exercise_db getenv activities_db_id w) as [r w'] eqn:E.
  exists r, w'. split; [reflexivity|].
  split.
  { pose proof (get_or_create_pages getenv activities_db_id w) as H.
    rewrite E in H. exact H. }
  unfold get_or_create_exercise_db in E.
  destruct (opt_truthy (getenv "NOTION_EXERCISE_DB_ID")).
  { split; [|discriminate]. intros _. unfold ret in E. injection E as <- <-.
    split; reflexivity. }
  split; [discriminate|]. intros _.
  unfold bind, databases_retrieve, databases_create, remote, print, ret,
    not_found in E.
  destruct w as [st fs out tr]. cbn [faults store console trace] in *.
  assert (Hcase :
    match fs with true :: _ => True | _ => False end
    \/ match fs with true :: _ => False | _ => True end).
  { destruct fs as [|[|] ?]; auto. }
  destruct Hcase as [Hfail|Hcalm].
  { destruct fs as [|[|] fs]; try contradiction.
    injection E as <- <-. cbn [store trace]. split; [reflexivity|].
    exists []. reflexivity. }
  assert (E' :
    match find (fun d => String.eqb (database_id d) activities_db_id)
               (databases st) with
    | Some act =>
        match db_parent act with
        | PageParent pg =>
            match tl fs with
            | true :: fs' =>
                (Raise call_failed,
                 mkWorld st fs' out
                   (tr ++ [DatabasesRetrieve activities_db_id]
                       ++ [DatabasesCreate pg "Exercise Progress"
                                           exercise_db_schema]))
            | fs' =>
                let d := mkDatabase ("db-" +++ str_of_int (Z.of_nat (next_id st)))
                                    (PageParent pg) "Exercise Progress"
                                    exercise_db_schema in
                (Ok (Some (database_id d)),
                 mkWorld (mkStore (pages st) (databases st ++ [d])
                                  (S (next_id st)) (page_size st))
                         (tl fs')
                         (out ++ [nl +++ "Created 'Exercise Progress' database: "
                                     +++ database_id d]
                              ++ ["Add to .env:  NOTION_EXERCISE_DB_ID="
                                  +++ database_id d +++ nl])
                         (tr ++ [DatabasesRetrieve activities_db_id]
                             ++ [DatabasesCreate pg "Exercise Progress"
                                                 exercise_db_schema]))
            end
        | _ =>
            (Ok None,
             mkWorld st (tl fs)
               (out ++ ["Cannot auto-create exercise database (activities DB parent is not a page)."]
                    ++ ["Create the database manually and set NOTION_EXERCISE_DB_ID in .env"])
               (tr ++ [DatabasesRetrieve activities_db_id]))
        end
    | None =>
        (Raise (RemoteError "object not found"),
         mkWorld st (tl fs) out (tr ++ [DatabasesRetrieve activities_db_id]))
    end = (r, w')).
  { rewrite <- E. clear E.
    destruct fs as [|[|] fs]; try contradiction; cbn [tl];
      (destruct (find _ (databases st)) as [act|]; [|reflexivity];
       destruct (db_parent act); cbn [faults store console trace];
       try (rewrite <- !app_assoc; reflexivity);
       destruct fs as [|[|] fs]; cbn [tl faults store console trace];
       rewrite <- ?app_assoc; reflexivity). }
  clear E Hcalm.
  destruct (find _ (databases st)) as [act|] eqn:Hfind.
  - apply find_some in Hfind. destruct Hfind as [Hin Hid].
    apply String.eqb_eq in Hid.
    destruct (db_parent act) as [pg| | |] eqn:Hp.
    + destruct (tl fs) as [|[|] fs'].
      * injection E' as <- <-. exists act, pg. cbn [store databases trace].
        repeat split; auto.
      * injection E' as <- <-. cbn [store trace]. split; [reflexivity|].
        eexists. reflexivity.
      * injection E' as <- <-. exists act, pg. cbn [store databases trace].
        repeat split; auto.
    + injection E' as <- <-. cbn [store trace]. repeat split.
      exists act. repeat split; auto. intros pg. rewrite Hp. discriminate.
    + injection E' as <- <-. cbn [store trace]. repeat split.
      exists act. repeat split; auto. intros pg. rewrite Hp. discriminate.
    + injection E' as <- <-. cbn [store trace]. repeat split.
      exists act. repeat split; auto. intros pg. rewrite Hp. discriminate.
  - injection E' as <- <-. cbn [store trace]. split; [reflexivity|].
    exists []. reflexivity.
Qed.

(** ** The counters of [main] *)

Section Counting.

Variable utcoffset : datetime -> Z.

Lemma sync_workout_counts (fuel : nat) (db : string) (edb : option string)
      (rebuild : bool) (d : string) (workout : Workout) (n n' : Counts)
      (w w' : World) :
  sync_workout utcoffset fuel db edb rebuild d workout n w = (Ok n', w') ->
  n' = mkCounts (created n + 1) (updated n) (skipped n)
  \/ (rebuild = true /\ n' = mkCounts (created n) (updated n + 1) (skipped n))
  \/ (rebuild = false /\ n' = mkCounts (created n) (updated n) (skipped n + 1)).
Proof.
  unfold sync_workout. intros H.
  apply bind_ok_inv in H. destruct H as (existing & w1 & _ & H).
  apply bind_ok_inv in H. destruct H as (n1 & w2 & H2 & H).
  apply bind_ok_inv in H. destruct H as ([] & w3 & _ & H).
  unfold ret in H. injection H as <- _.
  destruct existing as [page|].
  - destruct rebuild.
    + apply bind_ok_inv in H2. destruct H2 as ([] & w4 & _ & H2).
      apply bind_ok_inv in H2. destruct H2 as ([] & w5 & _ & H2).
      unfold ret in H2. injection H2 as <- _. right. left. auto.
    + apply bind_ok_inv in H2. destruct H2 as ([] & w4 & _ & H2).
      unfold ret in H2. injection H2 as <- _. right. right. auto.
  - apply bind_ok_inv in H2. destruct H2 as (id & w4 & _ & H2).
    apply bind_ok_inv in H2. destruct H2 as ([] & w5 & _ & H2).
    unfold ret in H2. injection H2 as <- _. left. reflexivity.
Qed.

Lemma sync_all_counts (fuel : nat) (db : string) (edb : option string)
      (rebuild : bool) (workouts : OrderedDict Workout) :
  forall (n n' : Counts) (w w' : World),
    sync_all utcoffset fuel db edb rebuild workouts n w = (Ok n', w') ->
    created n' + updated n' + skipped n'
    = created n + updated n + skipped n + Z.of_nat (List.length workouts)
    /\ created n <= created n' /\ updated n <= updated n'
    /\ skipped n <= skipped n'
    /\ (rebuild = false -> updated n' = updated n)
    /\ (rebuild = true -> skipped n' = skipped n).
Proof.
  induction workouts as [|[d workout] rest IH]; intros n n' w w' H.
  - simpl in H. unfold ret in H. injection H as <- _. simpl. lia.
  - cbn [sync_all] in H. apply bind_ok_inv in H.
    destruct H as (n1 & w1 & H1 & H).
    apply sync_workout_counts in H1. apply IH in H.
    destruct H as (Hs & Hc & Hu & Hk & Hf & Ht).
    cbn [List.length]. rewrite Nat2Z.inj_succ.
    destruct H1 as [->|[[Hr ->]|[Hr ->]]]; cbn [created updated skipped] in *.
    + repeat split; try lia; intros; auto.
    + repeat split; try lia; intros Hx; [congruence | auto].
    + repeat split; try lia; intros Hx; [auto | congruence].
Qed.

(** When [main] runs to its end with its configuration in place, the file
    was parsed and the last line printed is the summary; its three counters
    are not negative and add up to the number of workouts of the file;
    without [--rebuild] nothing is counted as rebuilt, and with it nothing
    as skipped.  This holds whatever remote calls failed on the way. *)
Theorem summary_counts_add_up
        (fuel : nat) (getenv : string -> option string)
        (files : string -> option (list CsvRow)) (args : Args)
        (path token db : string) (w w' : World) :
  nonempty (if opt_truthy (csv args) then csv args
            else getenv "STRONG_CSV_PATH") = Some path ->
  nonempty (getenv "NOTION_TOKEN") = Some token ->
  nonempty (getenv "NOTION_DB_ID") = Some db ->
  main utcoffset fuel getenv files args w = (Ok tt, w') ->
  exists (workouts : OrderedDict Workout) (c u s : Z) (out : list string),
    parse_csv files path = Ok workouts
    /\ console w'
       = out ++ [nl +++ "Done: " +++ str_of_int c +++ " created, "
                 +++ str_of_int u +++ " rebuilt, "
                 +++ str_of_int s +++ " skipped"]
    /\ 0 <= c /\ 0 <= u /\ 0 <= s
    /\ c + u + s = Z.of_nat (List.length workouts)
    /\ (rebuild args = false -> u = 0)
    /\ (rebuild args = true -> s = 0).
Proof.
  intros Hpath Htok Hdb H. unfold main in H. rewrite Hpath, Htok, Hdb in H.
  apply bind_ok_inv in H. destruct H as (edb & w1 & _ & H).
  apply bind_ok_inv in H. destruct H as (workouts & w2 & Hp & H).
  apply lift_ok_inv in Hp. destruct Hp as [Hparse ->].
  apply bind_ok_inv in H. destruct H as ([] & w3 & H3 & H).
  unfold print in H3. injection H3 as <-.
  apply bind_ok_inv in H. destruct H as (n & w4 & H4 & H).
  unfold print in H. injection H as <-.
  pose proof (sync_all_counts _ _ _ _ _ _ _ _ _ H4) as (Hs & Hc & Hu & Hk & Hf & Ht).
  cbn [created updated skipped] in *.
  exists workouts, (created n), (updated n), (skipped n), (console w4).
  split; [exact Hparse|]. split; [reflexivity|].
  repeat split; try lia; auto.
Qed.

End Counting.

Lemma summary_counts_add_up_witness :
  exists (out : list string),
    console (snd (Demo.first_run Demo.env_full Demo.empty_store))
    = out ++ [nl +++ "Done: 2 created, 0 rebuilt, 0 skipped"].
Proof.
  destruct (summary_counts_add_up Demo.cet 0 Demo.env_full Demo.files Demo.args
              "strong.csv" "secret" "activities"
              (Demo.world Demo.empty_store [])
              (snd (Demo.first_run Demo.env_full Demo.empty_store)))
    as (workouts & c & u & s & out & Hp & Hc & H0 & H1 & H2 & Hsum & Hu & _).
  - reflexivity.
  - reflexivity.
  - reflexivity.
  - vm_compute. reflexivity.
  - exists out. rewrite Hc.
    assert (Hl : last (out ++ [nl +++ "Done: " +++ str_of_int c +++ " created, "
                               +++ str_of_int u +++ " rebuilt, "
                               +++ str_of_int s +++ " skipped"]) ""
                 = nl +++ "Done: 2 created, 0 rebuilt, 0 skipped").
    { rewrite <- Hc. vm_compute. reflexivity. }
    rewrite last_last in Hl. rewrite Hl. reflexivity.
Defined.

(** ** A missing input file *)

Lemma get_or_create_raises (getenv : string -> option string) (db : string)
      (w w' : World) (e : exn) :
  get_or_create_exercise_db getenv db w = (Raise e, w') ->
  exists m, e = RemoteError m.
Proof.
  unfold get_or_create_exercise_db.
  destruct (opt_truthy (getenv "NOTION_EXERCISE_DB_ID")); [discriminate|].
  unfold bind, databases_retrieve, databases_create, remote, print, ret,
    not_found, call_failed.
  destruct w as [st fs out tr]. cbn [faults store console trace].
  destruct fs as [|[|] fs]; cbn [tl];
    try (intros [= <- _]; eexists; reflexivity);
    (destruct (find _ (databases st)) as [act|];
     [|intros [= <- _]; eexists; reflexivity];
     destruct (db_parent act); try discriminate;
     cbn [faults store console trace tl];
     destruct fs as [|[|] fs]; try discriminate;
     intros [= <- _]; eexists; reflexivity).
Qed.

Section MissingFile.

Variable utcoffset : datetime -> Z.

(** With the configuration in place and no file at the input path, the
    script ends with status 1 on an uncaught exception, prints no summary
    and touches no page.  The exercise table is provisioned before the file
    is opened: with [NOTION_EXERCISE_DB_ID] set the exception is the
    [FileNotFoundError] and no remote call was made, and without it the
    calls of [get_or_create_exercise_db] have been made by then. *)
Theorem missing_file_exit
        (fuel : nat) (getenv : string -> option string)
        (files : string -> option (list CsvRow)) (args : Args)
        (path token db : string) (w : World) :
  nonempty (if opt_truthy (csv args) then csv args
            else getenv "STRONG_CSV_PATH") = Some path ->
  nonempty (getenv "NOTION_TOKEN") = Some token ->
  nonempty (getenv "NOTION_DB_ID") = Some db ->
  files path = None ->
  exists (e : exn) (w' : World),
    main utcoffset fuel getenv files args w = (Raise e, w')
    /\ run utcoffset fuel getenv files args w = (1, w')
    /\ w' = snd (get_or_create_exercise_db getenv db w)
    /\ pages (store w') = pages (store w)
    /\ (opt_truthy (getenv "NOTION_EXERCISE_DB_ID") = true ->
        e = FileNotFoundError path /\ w' = w).
Proof.
  intros Hpath Htok Hdb Hfile.
  pose proof (get_or_create_pages getenv db w) as Hpages.
  destruct (get_or_create_exercise_db getenv db w) as [r w1] eqn:E.
  cbn [snd] in Hpages.
  assert (Hset : opt_truthy (getenv "NOTION_EXERCISE_DB_ID") = true ->
                 r = Ok (getenv "NOTION_EXERCISE_DB_ID") /\ w1 = w).
  { intros Ht. unfold get_or_create_exercise_db in E. rewrite Ht in E.
    unfold ret in E. injection E as <- <-. split; reflexivity. }
  assert (Hmain : main utcoffset fuel getenv files args w
                  = (match r with
                     | Ok _ => Raise (FileNotFoundError path)
                     | Raise e => Raise e
                     end, w1)).
  { unfold main. rewrite Hpath, Htok, Hdb. unfold parse_csv. rewrite Hfile.
    unfold bind at 1. rewrite E. destruct r; reflexivity. }
  unfold run. rewrite Hmain. cbn [snd].
  destruct r as [edb|e].
  - exists (FileNotFoundError path), w1. cbn [exit_status].
    split; [reflexivity|]. split; [reflexivity|]. split; [reflexivity|].
    split; [exact Hpages|]. intros Ht. apply Hset in Ht.
    split; [reflexivity | apply Ht].
  - destruct (get_or_create_raises _ _ _ _ _ E) as [m ->].
    exists (RemoteError m), w1. cbn [exit_status].
    split; [reflexivity|]. split; [reflexivity|]. split; [reflexivity|].
    split; [exact Hpages|]. intros Ht. apply Hset in Ht.
    destruct Ht; discriminate.
Qed.

End MissingFile.

Lemma missing_file_exit_witness :
  run Demo.cet 0 Demo.env_full (fun _ => None) Demo.args
      (Demo.world Demo.empty_store [])
  = (1, Demo.world Demo.empty_store []).
Proof.
  destruct (missing_file_exit Demo.cet 0 Demo.env_full (fun _ => None)
              Demo.args "strong.csv" "secret" "activities"
              (Demo.world Demo.empty_store []))
    as (e & w' & _ & Hrun & _ & _ & Hset).
  - reflexivity.
  - reflexivity.
  - reflexivity.
  - reflexivity.
  - rewrite Hrun. destruct (Hset eq_refl) as [_ ->]. reflexivity.
Defined.

(** ** One row per exercise and day *)

Lemma filter_modify_page (g : Page -> bool) (f : Page -> Page)
      (ps : list Page) (p : Page) :
  NoDup (map page_id ps) -> In p ps -> g (f p) = g p ->
  List.length (filter g (modify_page (page_id p) f ps))
  = List.length (filter g ps).
Proof.
  induction ps as [|a t IH]; simpl; intros Hnd Hp Hg; [contradiction|].
  inversion Hnd as [|? ? Hnotin Hnd']; subst.
  destruct (Nat.eqb_spec (page_id a) (page_id p)) as [E|E].
  - assert (a = p).
    { destruct Hp as [->|Hp]; [reflexivity|].
      exfalso. apply Hnotin. rewrite E. apply in_map, Hp. }
    subst a. simpl. rewrite Hg. destruct (g p); reflexivity.
  - destruct Hp as [->|Hp]; [contradiction|].
    simpl. destruct (g a); simpl; rewrite IH; auto.
Qed.

Lemma find_filter_nil {A} (f : A -> bool) (l : list A) :
  find f l = None -> filter f l = [].
Proof.
  induction l as [|x t IH]; simpl; [reflexivity|].
  destruct (f x); [discriminate | exact IH].
Qed.

Lemma find_filter_pos {A} (f : A -> bool) (l : list A) (a : A) :
  find f l = Some a -> (1 <= List.length (filter f l))%nat.
Proof.
  induction l as [|x t IH]; simpl; [discriminate|].
  destruct (f x); simpl; [lia | exact IH].
Qed.

Lemma entry_title (db n d : string) (p : Page) :
  Spec.entry_matches db n d p = true ->
  lookup "Exercise" (properties p) = Some (PTitle n).
Proof.
  unfold Spec.entry_matches. intros H.
  apply andb_prop in H. destruct H as [H _].
  apply andb_prop in H. destruct H as [_ H].
  destruct (lookup "Exercise" (properties p)) as [[t| | | | | |]|];
    try discriminate.
  apply String.eqb_eq in H. subst t. reflexivity.
Qed.

Lemma entry_other_title (db n n' d : string) (p : Page) :
  lookup "Exercise" (properties p) = Some (PTitle n') -> n' <> n ->
  Spec.entry_matches db n d p = false.
Proof.
  unfold Spec.entry_matches. intros -> Hne.
  destruct (String.eqb_spec n' n); [contradiction|].
  rewrite andb_false_r. reflexivity.
Qed.

(** The rows of [db] for an exercise name and a day, after one upsert. *)
Lemma upsert_rows (db d iso n n' : string) (workout : Workout) (len : nat)
      (stats : Stats) (w : World) :
  Spec.unique_ids (store w) ->
  date_part iso = d ->
  let e := (n', Spec.entry_of_stats workout iso n' len stats) in
  Spec.unique_ids (store (Spec.upsert db d w e))
  /\ List.length (filter (Spec.entry_matches db n d)
                         (pages (store (Spec.upsert db d w e))))
     = if String.eqb n' n
       then Nat.max 1 (List.length (filter (Spec.entry_matches db n d)
                                           (pages (store w))))
       else List.length (filter (Spec.entry_matches db n d) (pages (store w))).
Proof.
  intros Hu Hd e. unfold Spec.upsert. cbn [fst snd e].
  destruct (find (Spec.entry_matches db n' d) (pages (store w))) as [page|]
    eqn:Hfind.
  - apply find_some in Hfind as Hf. destruct Hf as [Hin Hm].
    unfold Spec.after_call. cbn [store]. split.
    { eapply grows_unique, update_entry_grows; eassumption. }
    unfold Spec.set_properties, with_pages. cbn [pages].
    destruct (lookup_entry_of_stats workout iso n' len stats (properties page))
      as (Hex & Hda & _).
    rewrite filter_modify_page; [| apply Hu | exact Hin |].
    + destruct (String.eqb_spec n' n) as [->|Hne]; [|reflexivity].
      pose proof (find_filter_pos _ _ _ Hfind). lia.
    + destruct (String.eqb_spec n' n) as [->|Hne].
      * rewrite Hm. unfold Spec.entry_matches, in_database in *.
        cbn [properties page_parent with_properties]. rewrite Hex, Hda, Hd.
        apply andb_prop in Hm. destruct Hm as [Hm _].
        apply andb_prop in Hm. destruct Hm as [Hdb _].
        rewrite Hdb, !String.eqb_refl. reflexivity.
      * rewrite (entry_other_title db n n' d page (entry_title _ _ _ _ Hm) Hne).
        apply entry_other_title with (n' := n'); [|exact Hne].
        cbn [properties with_properties]. exact Hex.
  - unfold Spec.after_call. cbn [store]. split.
    { eapply grows_unique. unfold Spec.add_page. apply add_page_grows, Hu. }
    unfold Spec.add_page. cbn [pages]. rewrite filter_app, length_app.
    cbn [filter].
    destruct (String.eqb_spec n' n) as [->|Hne].
    + rewrite <- Hd, new_entry_matches, Hd.
      rewrite (find_filter_nil _ _ Hfind). reflexivity.
    + rewrite (entry_other_title db n n' d); [simpl; lia | | exact Hne].
      destruct stats as [[mw tv] tr]. reflexivity.
Qed.

Lemma upserts_rows (db d iso n : string) (workout : Workout)
      (entries : list (string * Props)) :
  forall w : World,
    Spec.unique_ids (store w) ->
    date_part iso = d ->
    Forall (Spec.shaped workout iso) entries ->
    NoDup (map fst entries) ->
    List.length (filter (Spec.entry_matches db n d)
                        (pages (store (fold_left (Spec.upsert db d) entries w))))
    = if Spec.mem n (map fst entries)
      then Nat.max 1 (List.length (filter (Spec.entry_matches db n d)
                                          (pages (store w))))
      else List.length (filter (Spec.entry_matches db n d) (pages (store w))).
Proof.
  induction entries as [|[n' props] rest IH]; intros w Hu Hd Hsh Hnd.
  - reflexivity.
  - inversion Hsh as [|? ? (len & stats & Hp) Hrest]; subst.
    inversion Hnd as [|? ? Hnotin Hnd']; subst.
    cbn [fst snd] in *. subst props. cbn [fold_left map].
    unfold Spec.mem at 1. cbn [existsb].
    destruct (upsert_rows db (date_part iso) iso n n' workout len stats w Hu
                eq_refl) as [Hu' Hlen].
    rewrite IH by auto. rewrite Hlen.
    cbn [fst]. rewrite (String.eqb_sym n n').
    fold (Spec.mem n (map fst rest)).
    destruct (String.eqb_spec n' n) as [->|Hne]; cbn [orb].
    + assert (Hm : Spec.mem n (map fst rest) = false).
      { destruct (Spec.mem n (map fst rest)) eqn:E; [|reflexivity].
        apply mem_In in E. contradiction. }
      rewrite Hm. reflexivity.
    + destruct (Spec.mem n (map fst rest)); reflexivity.
Qed.

Lemma entries_names (workout : Workout) (iso : string)
      (gs : list (string * list Exercise)) :
  forall entries,
    map_result (Spec.entry_of workout iso) gs = Ok entries ->
    map fst entries = map fst gs.
Proof.
  induction gs as [|g gs IH]; simpl; intros entries H.
  - injection H as <-. reflexivity.
  - unfold Spec.entry_of at 1 in H.
    destruct (entry_properties workout iso (fst g) (snd g)); [|discriminate].
    simpl in H.
    destruct (map_result (Spec.entry_of workout iso) gs); [|discriminate].
    simpl in H. injection H as <-. simpl. f_equal. apply IH. reflexivity.
Qed.

Lemma NoDup_map_filter {A} (f : A -> string) (g : A -> bool) (l : list A) :
  NoDup (map f l) -> NoDup (map f (filter g l)).
Proof.
  induction l as [|a t IH]; simpl; intros H; [constructor|].
  inversion H as [|? ? Hnotin Hnd]; subst.
  destruct (g a); simpl; [constructor|]; auto.
  intros Hin. apply Hnotin. apply in_map_iff in Hin.
  destruct Hin as (x & Hx & Hin). apply filter_In in Hin.
  apply in_map_iff. exists x. split; [exact Hx | apply Hin].
Qed.

Lemma real_groups_NoDup (exs : list Exercise) :
  NoDup (map fst (Spec.real_groups exs)).
Proof.
  unfold Spec.real_groups. apply NoDup_map_filter.
  rewrite map_map. cbn [fst]. rewrite map_id. apply distinct_NoDup.
Qed.

Lemma real_groups_mem (name : string) (exs : list Exercise) :
  Spec.mem name (map fst (Spec.real_groups exs)) = Spec.has_set name exs.
Proof.
  apply eq_true_iff_eq. unfold Spec.has_set. rewrite mem_In, existsb_exists.
  unfold Spec.real_groups. split.
  - intros H. apply in_map_iff in H. destruct H as ([n ss] & Hn & H).
    cbn [fst] in Hn. subst n. apply filter_In in H. destruct H as [H Hnn].
    apply in_map_iff in H. destruct H as (n & Hn & _).
    injection Hn as -> <-. cbn [snd] in Hnn.
    destruct (Spec.sets_of name exs) as [|s ss] eqn:E; [discriminate|].
    assert (Hs : In s (Spec.sets_of name exs)) by (rewrite E; left; reflexivity).
    unfold Spec.sets_of, Spec.of_exercise in Hs.
    apply filter_In in Hs. destruct Hs as [Hs Hnote].
    apply filter_In in Hs. destruct Hs as [Hs Hname].
    exists s. split; [exact Hs|]. rewrite Hname. exact Hnote.
  - intros (s & Hs & H). apply andb_prop in H. destruct H as [Hname Hnote].
    apply in_map_iff. exists (name, Spec.sets_of name exs).
    split; [reflexivity|]. apply filter_In. split.
    + apply in_map_iff. exists name. split; [reflexivity|].
      apply distinct_In. apply in_map_iff. exists s.
      split; [apply String.eqb_eq, Hname | exact Hs].
    + cbn [snd].
      assert (Hin : In s (Spec.sets_of name exs)).
      { unfold Spec.sets_of, Spec.of_exercise. apply filter_In.
        split; [apply filter_In; split; assumption | exact Hnote]. }
      destruct (Spec.sets_of name exs); [contradiction | reflexivity].
Qed.

Section Rows.

Variable utcoffset : datetime -> Z.

(** The aggregation table holds one row per exercise and day.  After an
    aggregation sync that met no remote failure, an exercise of the workout
    with a real set has the rows it had for the workout's day, or one row
    if it had none; any other name has the rows it had.  So a second sync of
    the workout, or the sync of another workout of the same day, adds no
    row for an exercise that has one. *)
Theorem one_row_per_exercise_and_day
        (db_id : string) (workout : Workout) (w w' : World)
        (start_dt end_dt : aware) :
  faults w = [] ->
  NoDup (map page_id (pages (store w))) ->
  Forall (fun p => (page_id p < next_id (store w))%nat) (pages (store w)) ->
  make_workout_dates utcoffset workout = Ok (start_dt, end_dt) ->
  sync_exercise_entries utcoffset db_id workout w = (Ok tt, w') ->
  forall name : string,
    let rows := fun st =>
      query db_id (And [TitleEquals "Exercise" name;
                        DateOnOrAfter "Date" (strftime_date (local start_dt));
                        DateOnOrBefore "Date" (strftime_date (local start_dt))])
            st in
    List.length (rows (store w'))
    = if existsb (fun ex => String.eqb (exercise ex) name
                            && negb (String.eqb (set_order ex) "Note"))
                 (exercises workout)
      then Nat.max 1 (List.length (rows (store w)))
      else List.length (rows (store w)).
Proof.
  intros Hf Hnd Hlt Hd Hrun name rows. unfold rows. rewrite !query_entries.
  assert (Hu : Spec.unique_ids (store w)) by (split; assumption).
  destruct (sync_exercise_entries_ok utcoffset db_id workout w w' Hrun Hu)
    as (_ & s & e & entries & Hd' & He & _).
  rewrite Hd in Hd'. injection Hd' as <- <-.
  rewrite (sync_exercise_entries_calm utcoffset db_id workout w start_dt end_dt
             entries Hf Hd He) in Hrun.
  injection Hrun as <-.
  pose proof (make_workout_dates_start utcoffset _ _ _ Hd) as Hdp.
  unfold Spec.entries_of in He.
  rewrite (upserts_rows db_id _ (isoformat start_dt) name workout entries w Hu
             Hdp (entries_shaped _ _ _ _ He)).
  - rewrite (entries_names _ _ _ _ He), real_groups_mem. reflexivity.
  - rewrite (entries_names _ _ _ _ He). apply real_groups_NoDup.
Qed.

End Rows.

Lemma one_row_per_exercise_and_day_witness :
  List.length
    (query "exercises"
       (And [TitleEquals "Exercise" "Squat";
             DateOnOrAfter "Date" "2024-01-05";
             DateOnOrBefore "Date" "2024-01-05"])
       (store (snd (sync_exercise_entries Demo.cet "exercises"
                      Demo.morning_workout
                      (Demo.world
                         (store (snd (Demo.first_run Demo.env_full
                                        Demo.empty_store))) [])))))
  = 1%nat.
Proof.
  destruct (make_workout_dates Demo.cet Demo.morning_workout) as [[s e]|err]
    eqn:Hd; [|vm_compute in Hd; discriminate].
  assert (Hs : strftime_date (local s) = "2024-01-05").
  { vm_compute in Hd. injection Hd as <- _. vm_compute. reflexivity. }
  set (w := Demo.world (store (snd (Demo.first_run Demo.env_full
                                      Demo.empty_store))) []).
  pose proof (one_row_per_exercise_and_day Demo.cet "exercises"
                Demo.morning_workout w
                (snd (sync_exercise_entries Demo.cet "exercises"
                        Demo.morning_workout w)) s e eq_refl) as H.
  rewrite Hs in H. cbv zeta in H. rewrite H.
  - vm_compute. reflexivity.
  - vm_compute. repeat constructor; simpl; intuition discriminate.
  - vm_compute. repeat constructor.
  - exact Hd.
  - vm_compute. reflexivity.
Defined.

(** ** A workout without a real set *)

Lemma sync_groups_no_sets (db : string) (workout : Workout) (d iso : string)
      (groups : OrderedDict Group) (w : World) :
  Forall (fun g => sets (snd g) = []) groups ->
  sync_groups db workout d iso groups w = (Ok tt, w).
Proof.
  induction 1 as [|[name data] rest Hg Hrest IH]; [reflexivity|].
  cbn [sync_groups]. cbn [snd] in Hg. rewrite Hg. exact IH.
Qed.

Section NoSets.

Variable utcoffset : datetime -> Z.

(** A workout whose rows are all "Note" rows (or that has no row) gives the
    aggregation sync nothing to write: provided its date parses, the sync
    returns without a remote call and without a line printed, whatever the
    fault plan; with a date that does not parse it raises before any call. *)
Theorem sync_without_sets_is_silent (db_id : string) (workout : Workout)
        (w : World) :
  (forall ex, In ex (exercises workout) -> set_order ex = "Note") ->
  sync_exercise_entries utcoffset db_id workout w
  = (match make_workout_dates utcoffset workout with
     | Ok _ => Ok tt
     | Raise e => Raise e
     end, w).
Proof.
  intros Hnotes. unfold sync_exercise_entries.
  destruct (make_workout_dates utcoffset workout) as [[s e]|err];
    [|reflexivity].
  unfold bind at 1, lift at 1. apply sync_groups_no_sets.
  rewrite group_exercises_grouped. apply Forall_forall.
  intros g Hg. apply in_map_iff in Hg. destruct Hg as (name & <- & _).
  cbn [snd sets]. unfold Spec.sets_of.
  destruct (filter _ _) as [|s0 ss] eqn:E; [reflexivity|].
  assert (Hin : In s0 (s0 :: ss)) by (left; reflexivity).
  rewrite <- E in Hin. apply filter_In in Hin. destruct Hin as [Hin Hn].
  unfold Spec.of_exercise in Hin. apply filter_In in Hin.
  destruct Hin as [Hin _]. apply Hnotes in Hin.
  unfold Spec.is_note in Hn. rewrite Hin in Hn. discriminate.
Qed.

End NoSets.

Lemma sync_without_sets_is_silent_witness :
  sync_exercise_entries Demo.cet "exercises" Demo.note_workout
                        (Demo.world Demo.empty_store [true])
  = (Ok tt, Demo.world Demo.empty_store [true]).
Proof.
  rewrite (sync_without_sets_is_silent Demo.cet "exercises" Demo.note_workout).
  - vm_compute. reflexivity.
  - intros ex [<-|[]]. reflexivity.
Defined.

(** ** The fetcher *)

Lemma st_bind_ok_inv {W A B} (c : St W A) (k : A -> St W B) (w w' : W) (b : B) :
  bind c k w = (Ok b, w') ->
  exists a w1, c w = (Ok a, w1) /\ k a w1 = (Ok b, w').
Proof.
  unfold bind. destruct (c w) as [[a|e] w1]; [|discriminate].
  intros H. exists a, w1. split; [reflexivity | exact H].
Qed.

Lemma od_get_adjust {V} (k : string) (f : V -> V) (d : OrderedDict V) :
  od_get k (od_adjust k f d) = option_map f (od_get k d).
Proof.
  induction d as [|[k' v] t IH]; simpl; [reflexivity|].
  destruct (String.eqb k k') eqn:E; simpl; rewrite E; [reflexivity | exact IH].
Qed.

Lemma od_get_adjust_other {V} (k p : string) (f : V -> V) (d : OrderedDict V) :
  p <> k -> od_get p (od_adjust k f d) = od_get p d.
Proof.
  intros Hne. induction d as [|[k' v] t IH]; simpl; [reflexivity|].
  destruct (String.eqb_spec k k') as [<-|E]; simpl.
  - destruct (String.eqb_spec p k); [contradiction | reflexivity].
  - rewrite IH. reflexivity.
Qed.

Lemma od_get_app {V} (k : string) (d d' : OrderedDict V) :
  od_get k (d ++ d') = match od_get k d with
                       | Some v => Some v
                       | None => od_get k d'
                       end.
Proof.
  induction d as [|[k' v] t IH]; simpl; [reflexivity|].
  destruct (String.eqb k k'); [reflexivity | exact IH].
Qed.

Lemma od_get_set_file (path text : string) (d : list (string * string)) :
  od_get path (DownloadStrongCsv.set_file path text d) = Some text.
Proof.
  unfold DownloadStrongCsv.set_file, od_mem.
  destruct (od_get path d) as [old|] eqn:E.
  - rewrite od_get_adjust, E. reflexivity.
  - rewrite od_get_app, E. simpl. rewrite String.eqb_refl. reflexivity.
Qed.

Lemma od_get_set_file_other (path p text : string)
      (d : list (string * string)) :
  p <> path -> od_get p (DownloadStrongCsv.set_file path text d) = od_get p d.
Proof.
  intros Hne. unfold DownloadStrongCsv.set_file.
  destruct (od_mem path d).
  - apply od_get_adjust_other, Hne.
  - rewrite od_get_app. destruct (od_get p d); [reflexivity|].
    simpl. destruct (String.eqb_spec p path); [contradiction | reflexivity].
Qed.

Lemma next_chunks_calm (path file : string) (cs : list string) :
  forall w : DownloadStrongCsv.World,
    DownloadStrongCsv.faults w = [] ->
    exists w',
      DownloadStrongCsv.next_chunks path file cs w = (Ok tt, w')
      /\ DownloadStrongCsv.drive w' = DownloadStrongCsv.drive w
      /\ DownloadStrongCsv.faults w' = []
      /\ DownloadStrongCsv.console w' = DownloadStrongCsv.console w
      /\ DownloadStrongCsv.trace w'
         = DownloadStrongCsv.trace w ++ repeat (DownloadStrongCsv.NextChunk file)
                (Nat.max 1 (List.length cs))
      /\ od_get path (DownloadStrongCsv.disk w')
         = option_map (fun old => old +++ String.concat "" cs)
                      (od_get path (DownloadStrongCsv.disk w))
      /\ (forall p, p <> path ->
            od_get p (DownloadStrongCsv.disk w')
            = od_get p (DownloadStrongCsv.disk w)).
Proof.
  induction cs as [|c rest IH]; intros w Hf.
  - destruct w as [dr dk fs out tr]. cbn [DownloadStrongCsv.faults] in Hf.
    subst fs. eexists. split; [reflexivity|].
    cbn. repeat split.
    destruct (od_get path dk); simpl; [rewrite append_empty|]; reflexivity.
  - destruct w as [dr dk fs out tr]. cbn [DownloadStrongCsv.faults] in Hf.
    subst fs. destruct rest as [|c' rest'].
    + eexists. split; [reflexivity|]. cbn.
      repeat split.
      * rewrite od_get_adjust. destruct (od_get path dk); reflexivity.
      * intros p Hp. apply od_get_adjust_other, Hp.
    + set (w1 := DownloadStrongCsv.mkWorld dr
                   (od_adjust path (fun old => old +++ c) dk) [] out
                   (tr ++ [DownloadStrongCsv.NextChunk file])).
      destruct (IH w1 eq_refl) as (w' & E & Hd & Hf' & Hc & Ht & Hg & Ho).
      exists w'. split.
      { rewrite <- E. reflexivity. }
      split; [exact Hd|]. split; [exact Hf'|]. split; [exact Hc|].
      split.
      { rewrite Ht. unfold w1. cbn [DownloadStrongCsv.trace].
        rewrite <- app_assoc. reflexivity. }
      split.
      { rewrite Hg. unfold w1. cbn [DownloadStrongCsv.disk].
        rewrite od_get_adjust. destruct (od_get path dk); simpl; [|reflexivity].
        rewrite append_assoc3. reflexivity. }
      intros p Hp. rewrite (Ho p Hp). unfold w1. cbn [DownloadStrongCsv.disk].
      apply od_get_adjust_other, Hp.
Qed.

Lemma concat_cons (c : string) (l : list string) :
  String.concat "" (c :: l) = c +++ String.concat "" l.
Proof. destruct l; simpl; [rewrite append_empty|]; reflexivity. Qed.

Lemma next_chunks_ok (path file : string) (cs : list string) :
  forall w w' : DownloadStrongCsv.World,
    DownloadStrongCsv.next_chunks path file cs w = (Ok tt, w') ->
    DownloadStrongCsv.drive w' = DownloadStrongCsv.drive w
    /\ DownloadStrongCsv.console w' = DownloadStrongCsv.console w
    /\ od_get path (DownloadStrongCsv.disk w')
       = option_map (fun old => old +++ String.concat "" cs)
                    (od_get path (DownloadStrongCsv.disk w))
    /\ (forall p, p <> path ->
          od_get p (DownloadStrongCsv.disk w')
          = od_get p (DownloadStrongCsv.disk w)).
Proof.
  induction cs as [|c rest IH]; intros w w' H.
  - destruct w as [dr dk fs out tr]. cbn in H.
    destruct fs as [|[|] fs]; try discriminate; injection H as <-; cbn;
      (repeat split;
       destruct (od_get path dk); simpl; [rewrite append_empty|]; reflexivity).
  - cbn [DownloadStrongCsv.next_chunks] in H.
    apply st_bind_ok_inv in H. destruct H as ([] & w1 & H1 & H).
    apply st_bind_ok_inv in H. destruct H as ([] & w2 & H2 & H).
    assert (E1 : DownloadStrongCsv.drive w1 = DownloadStrongCsv.drive w
                 /\ DownloadStrongCsv.console w1 = DownloadStrongCsv.console w
                 /\ DownloadStrongCsv.disk w1 = DownloadStrongCsv.disk w).
    { destruct w as [dr dk fs out tr].
      unfold DownloadStrongCsv.remote in H1. cbn in H1.
      destruct fs as [|[|] fs]; try discriminate; injection H1 as <-;
        repeat split. }
    destruct E1 as (Ed & Ec & Ek).
    unfold DownloadStrongCsv.append_file in H2. injection H2 as <-.
    assert (G : forall w3,
              DownloadStrongCsv.drive w3 = DownloadStrongCsv.drive w ->
              DownloadStrongCsv.console w3 = DownloadStrongCsv.console w ->
              od_get path (DownloadStrongCsv.disk w3)
              = option_map (fun old => (old +++ c) +++ String.concat "" rest)
                           (od_get path (DownloadStrongCsv.disk w)) ->
              (forall p, p <> path ->
                 od_get p (DownloadStrongCsv.disk w3)
                 = od_get p (DownloadStrongCsv.disk w)) ->
              DownloadStrongCsv.drive w3 = DownloadStrongCsv.drive w
              /\ DownloadStrongCsv.console w3 = DownloadStrongCsv.console w
              /\ od_get path (DownloadStrongCsv.disk w3)
                 = option_map (fun old => old +++ String.concat "" (c :: rest))
                              (od_get path (DownloadStrongCsv.disk w))
              /\ (forall p, p <> path ->
                    od_get p (DownloadStrongCsv.disk w3)
                    = od_get p (DownloadStrongCsv.disk w))).
    { intros w3 Hd Hc Hg Ho. repeat split; auto. rewrite Hg, concat_cons.
      destruct (od_get path (DownloadStrongCsv.disk w)); simpl; [|reflexivity].
      rewrite append_assoc3. reflexivity. }
    destruct rest as [|c' rest'].
    + unfold ret in H. injection H as <-. apply G; cbn; auto.
      * rewrite od_get_adjust, Ek.
        destruct (od_get path (DownloadStrongCsv.disk w)); simpl;
          [rewrite append_empty|]; reflexivity.
      * intros p Hp. rewrite od_get_adjust_other by exact Hp.
        rewrite Ek. reflexivity.
    + apply IH in H. destruct H as (Hd & Hc & Hg & Ho). cbn in Hd, Hc, Hg, Ho.
      apply G.
      * rewrite Hd. exact Ed.
      * rewrite Hc. exact Ec.
      * rewrite Hg, od_get_adjust, Ek.
        destruct (od_get path (DownloadStrongCsv.disk w)); reflexivity.
      * intros p Hp. rewrite (Ho p Hp), od_get_adjust_other by exact Hp.
        rewrite Ek. reflexivity.
Qed.

Lemma next_chunks_fails (path file : string) (plan : list bool)
      (cs : list string) :
  forall (j : nat) (w : DownloadStrongCsv.World),
    DownloadStrongCsv.faults w = repeat false j ++ true :: plan ->
    (j < Nat.max 1 (List.length cs))%nat ->
    exists w',
      DownloadStrongCsv.next_chunks path file cs w = (Raise call_failed, w')
      /\ DownloadStrongCsv.drive w' = DownloadStrongCsv.drive w
      /\ DownloadStrongCsv.faults w' = plan
      /\ DownloadStrongCsv.console w' = DownloadStrongCsv.console w
      /\ od_get path (DownloadStrongCsv.disk w')
         = option_map (fun old => old +++ String.concat "" (firstn j cs))
                      (od_get path (DownloadStrongCsv.disk w))
      /\ (forall p, p <> path ->
            od_get p (DownloadStrongCsv.disk w')
            = od_get p (DownloadStrongCsv.disk w)).
Proof.
  induction cs as [|c rest IH]; intros j w Hf Hj.
  - cbn in Hj. assert (j = 0)%nat by lia. subst j.
    destruct w as [dr dk fs out tr]. cbn in Hf. subst fs.
    eexists. split; [reflexivity|]. cbn. repeat split.
    destruct (od_get path dk); simpl; [rewrite append_empty|]; reflexivity.
  - destruct w as [dr dk fs out tr]. cbn [DownloadStrongCsv.faults] in Hf.
    subst fs. destruct j as [|j].
    + eexists. split; [reflexivity|]. cbn. repeat split.
      destruct (od_get path dk); simpl; [rewrite append_empty|]; reflexivity.
    + destruct rest as [|c' rest'].
      { cbn in Hj. lia. }
      set (w1 := DownloadStrongCsv.mkWorld dr
                   (od_adjust path (fun old => old +++ c) dk)
                   (repeat false j ++ true :: plan) out
                   (tr ++ [DownloadStrongCsv.NextChunk file])).
      destruct (IH j w1 eq_refl) as (w' & E & Hd & Hf' & Hc & Hg & Ho).
      { cbn [List.length] in *. lia. }
      exists w'. split.
      { rewrite <- E. reflexivity. }
      split; [exact Hd|]. split; [exact Hf'|]. split; [exact Hc|].
      split.
      * rewrite Hg. unfold w1. cbn [DownloadStrongCsv.disk].
        rewrite od_get_adjust. cbn [firstn]. rewrite concat_cons.
        destruct (od_get path dk); simpl; [|reflexivity].
        rewrite append_assoc3. reflexivity.
      * intros p Hp. rewrite (Ho p Hp). unfold w1.
        cbn [DownloadStrongCsv.disk]. apply od_get_adjust_other, Hp.
Qed.

Section Fetching.

Variables Info Service : Type.
Variable json_loads : string -> result Info.
Variable from_service_account_info : Info -> result Service.

Lemma get_drive_service_ok (getenv : string -> option string)
      (w w' : DownloadStrongCsv.World) (service : Service) :
  DownloadStrongCsv.get_drive_service Info Service json_loads
    from_service_account_info getenv w = (Ok service, w') -> w' = w.
Proof.
  unfold DownloadStrongCsv.get_drive_service. intros H.
  apply st_bind_ok_inv in H. destruct H as (info & w1 & H1 & H).
  unfold lift in H. injection H as _ <-.
  destruct (nonempty (getenv "GOOGLE_SERVICE_ACCOUNT_FILE")) as [file|].
  - apply st_bind_ok_inv in H1. destruct H1 as (text & w2 & H2 & H1).
    unfold lift in H1. injection H1 as _ <-.
    unfold DownloadStrongCsv.read_file in H2.
    destruct (od_get file (DownloadStrongCsv.disk w)); [|discriminate].
    injection H2 as _ <-. reflexivity.
  - destruct (nonempty (getenv "GOOGLE_SERVICE_ACCOUNT_JSON")) as [js|].
    + unfold lift in H1. injection H1 as _ <-. reflexivity.
    + apply st_bind_ok_inv in H1. destruct H1 as ([] & w2 & _ & H1).
      discriminate.
Qed.

(** A download that meets no remote failure: with credentials that load, an
    output path that can be opened for writing and a matching file in the
    folder, the fetcher ends with status 0; the output file holds the chunks
    of the listed file, joined in order, whatever it held before; no other
    file of the disk changes; one request is made per chunk, and one for a
    file without chunks. *)
Theorem download_saves_chunks
        (getenv : string -> option string) (folder_id : string)
        (service : Service) (latest : DownloadStrongCsv.DriveFile)
        (w : DownloadStrongCsv.World) :
  nonempty (getenv "GOOGLE_DRIVE_FOLDER_ID") = Some folder_id ->
  DownloadStrongCsv.can_open (Spec.output_path_of getenv)
                             (DownloadStrongCsv.disk w) = true ->
  DownloadStrongCsv.faults w = [] ->
  DownloadStrongCsv.get_drive_service Info Service json_loads
    from_service_account_info getenv w = (Ok service, w) ->
  DownloadStrongCsv.newest None
    (filter (DownloadStrongCsv.matches folder_id) (DownloadStrongCsv.drive w))
  = Some latest ->
  exists w' : DownloadStrongCsv.World,
    DownloadStrongCsv.run Info Service json_loads from_service_account_info
                          getenv w = (0, w')
    /\ od_get (Spec.output_path_of getenv) (DownloadStrongCsv.disk w')
       = Some (String.concat "" (DownloadStrongCsv.chunks latest))
    /\ (forall p, p <> Spec.output_path_of getenv ->
          od_get p (DownloadStrongCsv.disk w')
          = od_get p (DownloadStrongCsv.disk w))
    /\ DownloadStrongCsv.drive w' = DownloadStrongCsv.drive w
    /\ DownloadStrongCsv.console w'
       = DownloadStrongCsv.console w
         ++ ["Downloading: " +++ DownloadStrongCsv.file_name latest
             +++ " (modified: " +++ DownloadStrongCsv.modified_time latest
             +++ ")";
             "Saved to: " +++ Spec.output_path_of getenv]
    /\ DownloadStrongCsv.trace w'
       = DownloadStrongCsv.trace w
         ++ DownloadStrongCsv.FilesList folder_id
            :: repeat (DownloadStrongCsv.NextChunk
                         (DownloadStrongCsv.file_id latest))
                      (Nat.max 1 (List.length (DownloadStrongCsv.chunks latest))).
Proof.
  intros Hfolder Hopen Hf Hs Hnew.
  assert (Hout : truthy (Spec.output_path_of getenv) = true).
  { unfold DownloadStrongCsv.can_open in Hopen.
    repeat (apply andb_prop in Hopen; destruct Hopen as [Hopen _]).
    exact Hopen. }
  unfold DownloadStrongCsv.run, DownloadStrongCsv.main. rewrite Hfolder.
  fold (Spec.output_path_of getenv). set (path := Spec.output_path_of getenv) in *.
  unfold DownloadStrongCsv.download_latest_csv.
  unfold bind at 1. unfold bind at 1. rewrite Hs.
  unfold bind at 1, DownloadStrongCsv.list_files, DownloadStrongCsv.remote.
  rewrite Hf, Hnew. cbn [tl].
  unfold bind at 1, DownloadStrongCsv.print at 1.
  unfold bind at 1, DownloadStrongCsv.create_file at 1.
  cbn [DownloadStrongCsv.drive DownloadStrongCsv.disk DownloadStrongCsv.faults
       DownloadStrongCsv.console DownloadStrongCsv.trace].
  rewrite Hopen.
  set (w1 := DownloadStrongCsv.mkWorld _ _ _ _ _).
  destruct (next_chunks_calm path (DownloadStrongCsv.file_id latest)
              (DownloadStrongCsv.chunks latest) w1 eq_refl)
    as (w2 & E & Hd & Hf2 & Hc & Ht & Hg & Ho).
  unfold bind at 1. rewrite E.
  unfold bind at 1, DownloadStrongCsv.print at 1, ret.
  unfold nonempty, opt_truthy. rewrite Hout. unfold ret. cbn [exit_status].
  eexists. split; [reflexivity|].
  cbn [DownloadStrongCsv.drive DownloadStrongCsv.disk DownloadStrongCsv.faults
       DownloadStrongCsv.console DownloadStrongCsv.trace].
  split.
  { rewrite Hg. unfold w1. cbn [DownloadStrongCsv.disk].
    rewrite od_get_set_file. reflexivity. }
  split.
  { intros p Hp. rewrite (Ho p Hp). unfold w1. cbn [DownloadStrongCsv.disk].
    apply od_get_set_file_other, Hp. }
  split; [rewrite Hd; reflexivity|].
  split.
  { rewrite Hc. unfold w1. cbn [DownloadStrongCsv.console].
    rewrite <- app_assoc. reflexivity. }
  rewrite Ht. unfold w1. cbn [DownloadStrongCsv.trace].
  rewrite <- app_assoc. reflexivity.
Qed.

(** With credentials that load and a listing that goes through, a folder
    without a matching file makes the fetcher print that no file was found
    and end with status 1; it makes the one listing request and leaves the
    disk as it was. *)
Theorem no_csv_exit
        (getenv : string -> option string) (folder_id : string)
        (service : Service) (w : DownloadStrongCsv.World) :
  nonempty (getenv "GOOGLE_DRIVE_FOLDER_ID") = Some folder_id ->
  DownloadStrongCsv.get_drive_service Info Service json_loads
    from_service_account_info getenv w = (Ok service, w) ->
  hd_error (DownloadStrongCsv.faults w) <> Some true ->
  filter (DownloadStrongCsv.matches folder_id) (DownloadStrongCsv.drive w) = [] ->
  DownloadStrongCsv.run Info Service json_loads from_service_account_info
                        getenv w
  = (1, DownloadStrongCsv.mkWorld
          (DownloadStrongCsv.drive w) (DownloadStrongCsv.disk w)
          (tl (DownloadStrongCsv.faults w))
          (DownloadStrongCsv.console w
           ++ ["No CSV files found in the Google Drive folder"])
          (DownloadStrongCsv.trace w
           ++ [DownloadStrongCsv.FilesList folder_id])).
Proof.
  intros Hfolder Hs Hf Hnone.
  unfold DownloadStrongCsv.run, DownloadStrongCsv.main. rewrite Hfolder.
  unfold DownloadStrongCsv.download_latest_csv.
  unfold bind at 1. unfold bind at 1. rewrite Hs.
  unfold bind at 1, DownloadStrongCsv.list_files, DownloadStrongCsv.remote.
  rewrite Hnone. cbn [DownloadStrongCsv.newest].
  destruct (DownloadStrongCsv.faults w) as [|[|] fs] eqn:E.
  - reflexivity.
  - exfalso. apply Hf. reflexivity.
  - reflexivity.
Qed.

Lemma newest_In (fs : list DownloadStrongCsv.DriveFile) :
  forall (best : option DownloadStrongCsv.DriveFile)
         (f : DownloadStrongCsv.DriveFile),
    DownloadStrongCsv.newest best fs = Some f -> best = Some f \/ In f fs.
Proof.
  induction fs as [|a t IH]; intros best f H; simpl in H; [left; exact H|].
  apply IH in H. destruct H as [H|H]; [|right; right; exact H].
  destruct best as [b|].
  - destruct (String.ltb _ _); injection H as <-; [right; left|left]; reflexivity.
  - injection H as <-. right. left. reflexivity.
Qed.

(** When the fetcher returns normally, it has saved a file: the folder id
    is set, and the output file holds, joined in order, the chunks of a file
    of the drive that matches the query; the last line printed names the
    output path.  This holds under any fault plan. *)
Theorem saved_when_fetch_returns
        (getenv : string -> option string)
        (w w' : DownloadStrongCsv.World) :
  DownloadStrongCsv.main Info Service json_loads from_service_account_info
                         getenv w = (Ok tt, w') ->
  exists (folder_id : string) (latest : DownloadStrongCsv.DriveFile)
         (out : list string),
    nonempty (getenv "GOOGLE_DRIVE_FOLDER_ID") = Some folder_id
    /\ In latest (DownloadStrongCsv.drive w)
    /\ DownloadStrongCsv.matches folder_id latest = true
    /\ od_get (Spec.output_path_of getenv) (DownloadStrongCsv.disk w')
       = Some (String.concat "" (DownloadStrongCsv.chunks latest))
    /\ (forall p, p <> Spec.output_path_of getenv ->
          od_get p (DownloadStrongCsv.disk w')
          = od_get p (DownloadStrongCsv.disk w))
    /\ DownloadStrongCsv.console w'
       = out ++ ["Saved to: " +++ Spec.output_path_of getenv].
Proof.
  unfold DownloadStrongCsv.main. intros H.
  destruct (nonempty (getenv "GOOGLE_DRIVE_FOLDER_ID")) as [folder|];
    [|apply st_bind_ok_inv in H; destruct H as ([] & w1 & _ & H); discriminate].
  fold (Spec.output_path_of getenv) in H. set (path := Spec.output_path_of getenv) in *.
  apply st_bind_ok_inv in H. destruct H as (result & w1 & Hd & H).
  destruct (nonempty result) as [r|] eqn:Hr; [|discriminate].
  unfold ret in H. injection H as <-.
  unfold DownloadStrongCsv.download_latest_csv in Hd.
  apply st_bind_ok_inv in Hd. destruct Hd as (service & w2 & Hs & Hd).
  apply get_drive_service_ok in Hs. subst w2.
  apply st_bind_ok_inv in Hd. destruct Hd as (files & w2 & Hl & Hd).
  assert (El : DownloadStrongCsv.drive w2 = DownloadStrongCsv.drive w
               /\ DownloadStrongCsv.disk w2 = DownloadStrongCsv.disk w
               /\ files = match DownloadStrongCsv.newest None
                                  (filter (DownloadStrongCsv.matches folder)
                                          (DownloadStrongCsv.drive w)) with
                          | Some f => [f]
                          | None => []
                          end).
  { unfold DownloadStrongCsv.list_files, DownloadStrongCsv.remote in Hl.
    destruct (DownloadStrongCsv.faults w) as [|[|] fs]; try discriminate;
      injection Hl as <- <-; repeat split. }
  destruct El as (Edr & Edk & Efiles).
  destruct files as [|latest rest].
  { apply st_bind_ok_inv in Hd. destruct Hd as ([] & w3 & _ & Hd).
    unfold ret in Hd. injection Hd as <- _. discriminate. }
  destruct (DownloadStrongCsv.newest None _) as [f|] eqn:Hnew; [|discriminate].
  injection Efiles as -> ->.
  apply newest_In in Hnew. destruct Hnew as [Hnew|Hnew]; [discriminate|].
  apply filter_In in Hnew. destruct Hnew as [Hin Hm].
  apply st_bind_ok_inv in Hd. destruct Hd as ([] & w3 & H3 & Hd).
  unfold DownloadStrongCsv.print in H3. injection H3 as <-.
  apply st_bind_ok_inv in Hd. destruct Hd as ([] & w4 & H4 & Hd).
  unfold DownloadStrongCsv.create_file in H4.
  destruct (DownloadStrongCsv.can_open path _);
    [|repeat match type of H4 with
             | context [if ?b then _ else _] => destruct b
             end; discriminate].
  injection H4 as <-.
  apply st_bind_ok_inv in Hd. destruct Hd as ([] & w5 & H5 & Hd).
  apply next_chunks_ok in H5. destruct H5 as (_ & Hc & Hg & Ho).
  apply st_bind_ok_inv in Hd. destruct Hd as ([] & w6 & H6 & Hd).
  unfold DownloadStrongCsv.print in H6. injection H6 as <-.
  unfold ret in Hd. injection Hd as _ <-.
  cbn [DownloadStrongCsv.drive DownloadStrongCsv.disk DownloadStrongCsv.console]
    in *.
  exists folder, f, (DownloadStrongCsv.console w5).
  split; [reflexivity|]. split; [exact Hin|]. split; [exact Hm|].
  split.
  { rewrite Hg, od_get_set_file. reflexivity. }
  split; [|reflexivity].
  intros p Hp. rewrite (Ho p Hp), od_get_set_file_other by exact Hp.
  rewrite Edk. reflexivity.
Qed.

(** A download that is interrupted leaves a truncated file.  When the
    output path can be opened for writing, the listing and the first [j]
    chunk requests go through and the next request fails, the fetcher ends
    with status 1 on the uncaught error; the output file, emptied when it
    was opened, holds the first [j] chunks and nothing of what it held
    before; the line "Saved to" is not printed. *)
Theorem interrupted_download_truncates
        (getenv : string -> option string) (folder_id : string)
        (service : Service) (latest : DownloadStrongCsv.DriveFile)
        (j : nat) (plan : list bool) (w : DownloadStrongCsv.World) :
  nonempty (getenv "GOOGLE_DRIVE_FOLDER_ID") = Some folder_id ->
  DownloadStrongCsv.can_open (Spec.output_path_of getenv)
                             (DownloadStrongCsv.disk w) = true ->
  DownloadStrongCsv.faults w = false :: repeat false j ++ true :: plan ->
  (j < Nat.max 1 (List.length (DownloadStrongCsv.chunks latest)))%nat ->
  DownloadStrongCsv.get_drive_service Info Service json_loads
    from_service_account_info getenv w = (Ok service, w) ->
  DownloadStrongCsv.newest None
    (filter (DownloadStrongCsv.matches folder_id) (DownloadStrongCsv.drive w))
  = Some latest ->
  exists w' : DownloadStrongCsv.World,
    DownloadStrongCsv.run Info Service json_loads from_service_account_info
                          getenv w = (1, w')
    /\ od_get (Spec.output_path_of getenv) (DownloadStrongCsv.disk w')
       = Some (String.concat "" (firstn j (DownloadStrongCsv.chunks latest)))
    /\ (forall p, p <> Spec.output_path_of getenv ->
          od_get p (DownloadStrongCsv.disk w')
          = od_get p (DownloadStrongCsv.disk w))
    /\ DownloadStrongCsv.faults w' = plan
    /\ DownloadStrongCsv.console w'
       = DownloadStrongCsv.console w
         ++ ["Downloading: " +++ DownloadStrongCsv.file_name latest
             +++ " (modified: " +++ DownloadStrongCsv.modified_time latest
             +++ ")"].
Proof.
  intros Hfolder Hopen Hf Hj Hs Hnew.
  unfold DownloadStrongCsv.run, DownloadStrongCsv.main. rewrite Hfolder.
  fold (Spec.output_path_of getenv). set (path := Spec.output_path_of getenv) in *.
  unfold DownloadStrongCsv.download_latest_csv.
  unfold bind at 1. unfold bind at 1. rewrite Hs.
  unfold bind at 1, DownloadStrongCsv.list_files, DownloadStrongCsv.remote.
  rewrite Hf, Hnew. cbn [tl].
  unfold bind at 1, DownloadStrongCsv.print at 1.
  unfold bind at 1, DownloadStrongCsv.create_file at 1.
  cbn [DownloadStrongCsv.drive DownloadStrongCsv.disk DownloadStrongCsv.faults
       DownloadStrongCsv.console DownloadStrongCsv.trace].
  rewrite Hopen.
  set (w1 := DownloadStrongCsv.mkWorld _ _ _ _ _).
  destruct (next_chunks_fails path (DownloadStrongCsv.file_id latest) plan
              (DownloadStrongCsv.chunks latest) j w1 eq_refl Hj)
    as (w2 & E & Hd & Hf2 & Hc & Hg & Ho).
  unfold bind at 1. rewrite E. cbn [exit_status call_failed].
  exists w2. split; [reflexivity|].
  split.
  { rewrite Hg. unfold w1. cbn [DownloadStrongCsv.disk].
    rewrite od_get_set_file. reflexivity. }
  split.
  { intros p Hp. rewrite (Ho p Hp). unfold w1. cbn [DownloadStrongCsv.disk].
    apply od_get_set_file_other, Hp. }
  split; [exact Hf2|].
  rewrite Hc. reflexivity.
Qed.


End Fetching.

(** ** The file the listing answers with *)

Lemma leb_compare (a b : string) :
  String.leb a b = true <-> String.compare a b <> Gt.
Proof.
  unfold String.leb. destruct (String.compare a b); split; congruence.
Qed.

Lemma leb_refl (a : string) : String.leb a a = true.
Proof.
  apply leb_compare. intros H.
  pose proof (String.compare_antisym a a) as E. rewrite H in E. discriminate.
Qed.

Lemma leb_trans (a b c : string) :
  String.leb a b = true -> String.leb b c = true -> String.leb a c = true.
Proof.
  rewrite !leb_compare. intros Hab Hbc.
  destruct (String.compare a b) eqn:E1; [| |congruence].
  - apply String.compare_eq_iff in E1. subst b. exact Hbc.
  - destruct (String.compare b c) eqn:E2; [| |congruence].
    + apply String.compare_eq_iff in E2. subst c. rewrite E1. discriminate.
    + apply OrderedTypeEx.String_as_OT.cmp_lt in E1, E2.
      pose proof (OrderedTypeEx.String_as_OT.lt_trans _ _ _ E1 E2) as H.
      apply OrderedTypeEx.String_as_OT.cmp_lt in H.
      change (OrderedTypeEx.String_as_OT.cmp a c) with (String.compare a c) in H.
      rewrite H. discriminate.
Qed.

Lemma ltb_leb (a b : string) : String.ltb a b = true -> String.leb a b = true.
Proof.
  unfold String.ltb. rewrite leb_compare.
  destruct (String.compare a b); congruence.
Qed.

Lemma not_ltb_leb (a b : string) :
  String.ltb a b = false -> String.leb b a = true.
Proof.
  unfold String.ltb. rewrite leb_compare, (String.compare_antisym a b).
  destruct (String.compare b a); simpl; congruence.
Qed.

Lemma newest_latest (fs : list DownloadStrongCsv.DriveFile) :
  forall (b f : DownloadStrongCsv.DriveFile),
    DownloadStrongCsv.newest (Some b) fs = Some f ->
    String.leb (DownloadStrongCsv.modified_time b)
               (DownloadStrongCsv.modified_time f) = true
    /\ forall g, In g fs ->
         String.leb (DownloadStrongCsv.modified_time g)
                    (DownloadStrongCsv.modified_time f) = true.
Proof.
  induction fs as [|a t IH]; intros b f H; simpl in H.
  - injection H as <-. split; [apply leb_refl | intros g []].
  - destruct (String.ltb (DownloadStrongCsv.modified_time b)
                         (DownloadStrongCsv.modified_time a)) eqn:E;
      apply IH in H; destruct H as [Hb Hall].
    + split; [eapply leb_trans; [apply ltb_leb, E | exact Hb]|].
      intros g [<-|Hg]; [exact Hb | apply Hall, Hg].
    + split; [exact Hb|].
      intros g [<-|Hg]; [|apply Hall, Hg].
      eapply leb_trans; [apply not_ltb_leb, E | exact Hb].
Qed.

(** The listing asks for one file, newest first.  When it goes through it
    answers with no file exactly when no file of the drive matches the
    query, and otherwise with one matching file whose modification time no
    matching file exceeds. *)
Theorem list_files_latest (folder_id : string)
        (files : list DownloadStrongCsv.DriveFile)
        (w w' : DownloadStrongCsv.World) :
  DownloadStrongCsv.list_files folder_id w = (Ok files, w') ->
  (files = []
   /\ filter (DownloadStrongCsv.matches folder_id) (DownloadStrongCsv.drive w)
      = [])
  \/ exists f,
       files = [f]
       /\ In f (DownloadStrongCsv.drive w)
       /\ DownloadStrongCsv.matches folder_id f = true
       /\ forall g,
            In g (DownloadStrongCsv.drive w) ->
            DownloadStrongCsv.matches folder_id g = true ->
            String.leb (DownloadStrongCsv.modified_time g)
                       (DownloadStrongCsv.modified_time f) = true.
Proof.
  unfold DownloadStrongCsv.list_files, DownloadStrongCsv.remote. intros H.
  assert (E : files = match DownloadStrongCsv.newest None
                              (filter (DownloadStrongCsv.matches folder_id)
                                      (DownloadStrongCsv.drive w)) with
                      | Some f => [f]
                      | None => []
                      end).
  { destruct (DownloadStrongCsv.faults w) as [|[|] fs]; try discriminate;
      injection H as <- _; reflexivity. }
  clear H. subst files.
  destruct (filter (DownloadStrongCsv.matches folder_id)
                   (DownloadStrongCsv.drive w)) as [|a t] eqn:Ef.
  - left. split; reflexivity.
  - right. cbn [DownloadStrongCsv.newest].
    destruct (DownloadStrongCsv.newest (Some a) t) as [f|] eqn:En.
    + exists f. split; [reflexivity|].
      pose proof (newest_latest t a f En) as [Ha Hall].
      assert (Hin : In f (a :: t)).
      { apply newest_In in En. destruct En as [[= ->]|Hin];
          [left; reflexivity | right; exact Hin]. }
      rewrite <- Ef in Hin. apply filter_In in Hin. destruct Hin as [Hin Hm].
      split; [exact Hin|]. split; [exact Hm|].
      intros g Hg Hmg.
      assert (Hg' : In g (a :: t)) by (rewrite <- Ef; apply filter_In; auto).
      destruct Hg' as [<-|Hg']; [exact Ha | apply Hall, Hg'].
    + exfalso. clear - En. revert a En.
      induction t as [|x t IH]; intros a En; simpl in En; [discriminate|].
      destruct (String.ltb _ _); eapply IH; exact En.
Qed.

Lemma download_saves_chunks_witness :
  exists w' : DownloadStrongCsv.World,
    DownloadStrongCsv.run string unit (fun s => Ok s) (fun _ => Ok tt)
                          Demo.fetch_env (Demo.drive_world [])
    = (0, w')
    /\ od_get "strong_export.csv" (DownloadStrongCsv.disk w')
       = Some "Date;Workout Name;Duration (sec)".
Proof.
  destruct (download_saves_chunks string unit (fun s => Ok s) (fun _ => Ok tt)
              Demo.fetch_env "folder" tt
              (DownloadStrongCsv.mkDriveFile "f2" "strong.csv"
                 "2024-02-01T10:00:00.000Z" ["folder"] false
                 ["Date;Workout Name"; ";Duration"; " (sec)"])
              (Demo.drive_world []))
    as (w' & Hrun & Hget & _).
  - reflexivity.
  - reflexivity.
  - reflexivity.
  - reflexivity.
  - vm_compute. reflexivity.
  - exists w'. split; [exact Hrun | exact Hget].
Defined.

Lemma no_csv_exit_witness :
  fst (DownloadStrongCsv.run string unit (fun s => Ok s) (fun _ => Ok tt)
                             Demo.fetch_env_empty (Demo.drive_world []))
  = 1.
Proof.
  rewrite (no_csv_exit string unit (fun s => Ok s) (fun _ => Ok tt)
             Demo.fetch_env_empty "attic" tt (Demo.drive_world [])).
  - reflexivity.
  - reflexivity.
  - reflexivity.
  - discriminate.
  - vm_compute. reflexivity.
Defined.

Lemma saved_when_fetch_returns_witness :
  exists (latest : DownloadStrongCsv.DriveFile),
    In latest Demo.drive_files
    /\ od_get "strong_export.csv"
         (DownloadStrongCsv.disk
            (snd (DownloadStrongCsv.main string unit (fun s => Ok s)
                    (fun _ => Ok tt) Demo.fetch_env (Demo.drive_world [false; false]))))
       = Some (String.concat "" (DownloadStrongCsv.chunks latest)).
Proof.
  destruct (saved_when_fetch_returns string unit (fun s => Ok s)
              (fun _ => Ok tt) Demo.fetch_env (Demo.drive_world [false; false])
              (snd (DownloadStrongCsv.main string unit (fun s => Ok s)
                      (fun _ => Ok tt) Demo.fetch_env (Demo.drive_world [false; false]))))
    as (folder & latest & out & _ & Hin & _ & Hget & _).
  - vm_compute. reflexivity.
  - exists latest. split; [exact Hin | exact Hget].
Defined.


(** What [open] answers on a disk with the file [a.csv] and the directory
    [exports/]. *)
Lemma open_examples :
  let d := [("a.csv", "x"); ("exports/", "")] in
  map (fun path => DownloadStrongCsv.can_open path d)
      ["a.csv"; "b.csv"; "exports/b.csv"; ""; "exports"; "exports/";
       "attic/b.csv"; "a.csv/b"; "."; "exports/.."]
  = [true; true; true; false; false; false; false; false; false; false].
Proof. vm_compute. reflexivity. Qed.

Lemma interrupted_download_truncates_witness :
  exists w' : DownloadStrongCsv.World,
    DownloadStrongCsv.run string unit (fun s => Ok s) (fun _ => Ok tt)
                          Demo.fetch_env (Demo.drive_world [false; false; true])
    = (1, w')
    /\ od_get "strong_export.csv" (DownloadStrongCsv.disk w')
       = Some "Date;Workout Name".
Proof.
  destruct (interrupted_download_truncates string unit (fun s => Ok s)
              (fun _ => Ok tt) Demo.fetch_env "folder" tt
              (DownloadStrongCsv.mkDriveFile "f2" "strong.csv"
                 "2024-02-01T10:00:00.000Z" ["folder"] false
                 ["Date;Workout Name"; ";Duration"; " (sec)"])
              1 [] (Demo.drive_world [false; false; true]))
    as (w' & Hrun & Hget & _).
  - reflexivity.
  - reflexivity.
  - reflexivity.
  - vm_compute. lia.
  - reflexivity.
  - vm_compute. reflexivity.
  - exists w'. split; [exact Hrun | exact Hget].
Defined.

Lemma list_files_latest_witness :
  map DownloadStrongCsv.file_name
      (match fst (DownloadStrongCsv.list_files "folder" (Demo.drive_world [])) with
       | Ok files => files
       | Raise _ => []
       end)
  = ["strong.csv"].
Proof.
  destruct (DownloadStrongCsv.list_files "folder" (Demo.drive_world []))
    as [[files|err] w'] eqn:E; [|vm_compute in E; discriminate].
  destruct (list_files_latest "folder" files (Demo.drive_world []) w' E)
    as [[_ Hnone]|(f & -> & Hin & Hm & Hall)].
  - vm_compute in Hnone. discriminate.
  - cbn [fst map]. f_equal.
    assert (Hf2 : String.leb "2024-02-01T10:00:00.000Z"
                             (DownloadStrongCsv.modified_time f) = true).
    { apply (Hall (DownloadStrongCsv.mkDriveFile "f2" "strong.csv"
                     "2024-02-01T10:00:00.000Z" ["folder"] false
                     ["Date;Workout Name"; ";Duration"; " (sec)"])).
      - right. left. reflexivity.
      - vm_compute. reflexivity. }
    destruct Hin as [<-|[<-|[<-|[]]]].
    + vm_compute in Hf2. discriminate.
    + reflexivity.
    + vm_compute in Hm. discriminate.
Defined.

(** ** The end of a workout *)

Section WorkoutEnd.

Variable utcoffset : datetime -> Z.

(** The date range of a workout.  Its start is the parsed date field with
    the zone's offset for that local time; its end lies exactly
    [duration_sec] seconds later on the local clock, in a year from 1 to
    9999, and keeps the start's offset, whatever the zone's offset at the
    end would be. *)
Theorem workout_end_is_start_plus_duration
        (workout : Workout) (start_dt end_dt : aware) :
  make_workout_dates utcoffset workout = Ok (start_dt, end_dt) ->
  strptime (date workout) = Ok (local start_dt)
  /\ offset start_dt = utcoffset (local start_dt)
  /\ to_seconds (local end_dt)
     = to_seconds (local start_dt) + duration_sec workout
  /\ offset end_dt = offset start_dt
  /\ 1 <= year (local end_dt) <= 9999.
Proof.
  unfold make_workout_dates. intros H. apply rbind_ok in H.
  destruct H as (naive & Hn & H). apply rbind_ok in H.
  destruct H as (e & He & H). injection H as <- <-.
  unfold localize in *. cbn [local offset].
  destruct (add_seconds_seconds _ _ _ He) as (Hs & Ho & Hy).
  cbn [local offset] in Hs, Ho.
  split; [exact Hn|]. split; [reflexivity|]. split; [exact Hs|].
  split; [exact Ho | exact Hy].
Qed.

End WorkoutEnd.

Lemma workout_end_is_start_plus_duration_witness :
  exists start_dt end_dt : aware,
    make_workout_dates Demo.cet Demo.morning_workout = Ok (start_dt, end_dt)
    /\ to_seconds (local end_dt) = to_seconds (local start_dt) + 3600
    /\ isoformat start_dt = "2024-01-05T07:00:00+01:00"
    /\ isoformat end_dt = "2024-01-05T08:00:00+01:00".
Proof.
  destruct (make_workout_dates Demo.cet Demo.morning_workout) as [[s e]|err]
    eqn:Hd; [|vm_compute in Hd; discriminate].
  exists s, e. split; [reflexivity|].
  destruct (workout_end_is_start_plus_duration Demo.cet Demo.morning_workout
              s e Hd) as (_ & _ & Hs & _).
  split.
  - rewrite Hs. reflexivity.
  - vm_compute in Hd. injection Hd as <- <-. split; vm_compute; reflexivity.
Defined.

(** ** Rest-timer rows and unparsable dates *)

Lemma parse_rows_without_rest (rows : list CsvRow) :
  forall workouts : OrderedDict Workout,
    parse_rows workouts rows
    = parse_rows workouts
        (filter (fun row => negb (String.eqb (Set_Order row) "Rest Timer"))
                rows).
Proof.
  induction rows as [|row rest IH]; intros ws; [reflexivity|].
  cbn [filter]. destruct (String.eqb (Set_Order row) "Rest Timer") eqn:E;
    cbn [negb].
  - cbn [parse_rows]. rewrite parse_row_rest by exact E. simpl. apply IH.
  - cbn [parse_rows]. destruct (parse_row ws row); simpl; [apply IH|reflexivity].
Qed.

(** Rest-timer rows do not take part in parsing: the parser answers for a
    file what it answers for the file without them, be it a result or an
    error, so that a rest-timer row with a malformed duration is harmless. *)
Theorem rest_timer_rows_are_ignored
        (files : string -> option (list CsvRow)) (csv_path : string) :
  parse_csv files csv_path
  = parse_csv
      (fun path =>
         option_map
           (filter (fun row => negb (String.eqb (Set_Order row) "Rest Timer")))
           (files path))
      csv_path.
Proof.
  unfold parse_csv. destruct (files csv_path) as [rows|]; [|reflexivity].
  cbn [option_map]. apply parse_rows_without_rest.
Qed.

Section BadDate.

Variable utcoffset : datetime -> Z.

(** A workout whose date field does not parse is never written: under any
    fault plan its turn of the loop of [main] makes the existence query and
    no other call, and leaves the store as it was.  The turn raises the
    date error, unless the workout was found, [--rebuild] is off and there
    is no aggregation table, in which case it is counted as skipped. *)
Theorem unparsable_date_writes_nothing
        (fuel : nat) (database_id : string) (exercise_db_id : option string)
        (rebuild : bool) (workout_date : string) (workout : Workout)
        (n : Counts) (w : World) (err : exn) :
  make_workout_dates utcoffset workout = Raise err ->
  exists (r : result Counts) (w' : World),
    sync_workout utcoffset fuel database_id exercise_db_id rebuild
                 workout_date workout n w = (r, w')
    /\ store w' = store w
    /\ trace w'
       = trace w
         ++ [DatabasesQuery database_id
               (Single (MultiSelectContains "Garmin ID"
                          ("strong-" +++ workout_date)))]
    /\ (r = Raise err
        \/ (r = Ok (mkCounts (created n) (updated n) (skipped n + 1))
            /\ rebuild = false /\ nonempty exercise_db_id = None)).
Proof.
  intros Hd. unfold sync_workout.
  destruct (workout_exists database_id workout_date w) as [r0 w1] eqn:E.
  assert (H0 : exists existing, r0 = Ok existing /\ store w1 = store w
               /\ trace w1 = trace w ++ [Spec.workout_query database_id
                                           workout_date]).
  { unfold workout_exists, try_except, databases_query, remote, bind, ret in E.
    destruct w as [st fs out tr]. cbn [faults store console trace] in E.
    destruct fs as [|[|] fs]; cbn [is_exception call_failed] in E;
      injection E as <- <-; eexists; repeat split. }
  destruct H0 as (existing & -> & Hst & Htr).
  unfold bind at 1. rewrite E.
  assert (Hc : forall w0, create_workout_page utcoffset database_id workout w0
                          = (Raise err, w0)).
  { intros w0. unfold create_workout_page. rewrite Hd. reflexivity. }
  assert (Hu : forall p w0, update_workout utcoffset fuel p workout w0
                            = (Raise err, w0)).
  { intros p w0. unfold update_workout. rewrite Hd. reflexivity. }
  assert (Hs : forall db w0, sync_exercise_entries utcoffset db workout w0
                             = (Raise err, w0)).
  { intros db w0. unfold sync_exercise_entries. rewrite Hd. reflexivity. }
  destruct existing as [page|].
  - destruct rebuild.
    + do 2 eexists. split.
      { unfold bind at 1. unfold bind at 1. rewrite Hu. reflexivity. }
      split; [exact Hst|]. split; [exact Htr|]. left. reflexivity.
    + destruct (nonempty exercise_db_id) as [edb|] eqn:Hedb.
      * do 2 eexists. split.
        { unfold bind at 1. unfold bind at 1, print at 1, ret at 1.
          unfold bind at 1. rewrite Hs. reflexivity. }
        cbn [store trace]. split; [exact Hst|]. split; [exact Htr|].
        left. reflexivity.
      * do 2 eexists. split; [reflexivity|].
        cbn [store trace]. split; [exact Hst|]. split; [exact Htr|].
        right. repeat split.
  - do 2 eexists. split.
    { unfold bind at 1. unfold bind at 1. rewrite Hc. reflexivity. }
    split; [exact Hst|]. split; [exact Htr|]. left. reflexivity.
Qed.

End BadDate.

Lemma unparsable_date_writes_nothing_witness :
  exists (r : result Counts),
    sync_workout Demo.cet 0 "activities" (Some "exercises") true
                 "2024-01-05" Demo.dateless_workout (mkCounts 0 0 0)
                 (Demo.world Demo.empty_store [])
    = (r,
       mkWorld Demo.empty_store [] []
         [DatabasesQuery "activities"
            (Single (MultiSelectContains "Garmin ID" "strong-2024-01-05"))]).
Proof.
  destruct (make_workout_dates Demo.cet Demo.dateless_workout) as [[s e]|err] eqn:Hd;
    [vm_compute in Hd; discriminate|].
  destruct (unparsable_date_writes_nothing Demo.cet 0 "activities"
              (Some "exercises") true "2024-01-05" Demo.dateless_workout
              (mkCounts 0 0 0) (Demo.world Demo.empty_store []) err Hd)
    as (r & w' & Hrun & _).
  exists r. rewrite Hrun. f_equal. vm_compute in Hrun.
  injection Hrun as _ <-. reflexivity.
Defined.

(** ** Credentials come first *)

Section CredentialsFirst.

Variables Info Service : Type.
Variable json_loads : string -> result Info.
Variable from_service_account_info : Info -> result Service.

(** The fetcher loads its credentials before it talks to the drive.  When
    they cannot be loaded, whatever the reason, the download raises that
    error with no remote call made and the disk untouched.  A credentials
    file that is named wins over inline credentials, with no fallback: if
    the named file is missing, the download raises [FileNotFoundError] even
    when [GOOGLE_SERVICE_ACCOUNT_JSON] is set. *)
Theorem credentials_come_first
        (getenv : string -> option string) (folder_id output_path : string)
        (w : DownloadStrongCsv.World) :
  (forall (e : exn) (w1 : DownloadStrongCsv.World),
     DownloadStrongCsv.get_drive_service Info Service json_loads
       from_service_account_info getenv w = (Raise e, w1) ->
     DownloadStrongCsv.download_latest_csv Info Service json_loads
       from_service_account_info getenv folder_id output_path w
     = (Raise e, w1)
     /\ DownloadStrongCsv.trace w1 = DownloadStrongCsv.trace w
     /\ DownloadStrongCsv.disk w1 = DownloadStrongCsv.disk w
     /\ DownloadStrongCsv.faults w1 = DownloadStrongCsv.faults w)
  /\ (forall creds_file : string,
        nonempty (getenv "GOOGLE_SERVICE_ACCOUNT_FILE") = Some creds_file ->
        od_get creds_file (DownloadStrongCsv.disk w) = None ->
        DownloadStrongCsv.download_latest_csv Info Service json_loads
          from_service_account_info getenv folder_id output_path w
        = (Raise (FileNotFoundError creds_file), w)).
Proof.
  split.
  - intros e w1 H. split.
    { unfold DownloadStrongCsv.download_latest_csv, bind at 1. rewrite H.
      reflexivity. }
    unfold DownloadStrongCsv.get_drive_service in H.
    unfold bind at 1 in H.
    destruct (nonempty (getenv "GOOGLE_SERVICE_ACCOUNT_FILE")) as [file|].
    + unfold bind at 1, DownloadStrongCsv.read_file in H.
      destruct (od_get file (DownloadStrongCsv.disk w)) as [text|].
      * unfold lift at 1 in H.
        destruct (json_loads text) as [info|e1].
        -- unfold lift in H. injection H as _ <-. repeat split.
        -- injection H as _ <-. repeat split.
      * injection H as _ <-. repeat split.
    + destruct (nonempty (getenv "GOOGLE_SERVICE_ACCOUNT_JSON")) as [js|].
      * unfold lift at 1 in H. destruct (json_loads js) as [info|e1].
        -- unfold lift in H. injection H as _ <-. repeat split.
        -- injection H as _ <-. repeat split.
      * unfold bind, DownloadStrongCsv.print, raise in H.
        injection H as _ <-. repeat split.
  - intros file Hfile Hmissing.
    unfold DownloadStrongCsv.download_latest_csv,
      DownloadStrongCsv.get_drive_service.
    rewrite Hfile. unfold bind, DownloadStrongCsv.read_file.
    rewrite Hmissing. reflexivity.
Qed.

End CredentialsFirst.
